(** * Booking and scheduling engine of the gym service

    A shallow embedding of the booking core of the gym micro-service:
    [WorkoutService] (booking, cancellation, composite search, listings of
    bookings, workout options and the mappings of coaches to them),
    [CoachService] (per-coach availability, bookings of a day, date helper)
    and [FeedbackService] (feedback submission, paginated view,
    statistics).

    Conventions of the embedding.
    - An instant is a number of milliseconds counted on the server's local
      time line (a fixed offset from UTC), so that [setHours(0,0,0,0)] is
      rounding down to a multiple of a day.  A JavaScript [Date] is an
      [option Z]; [None] is the Invalid Date, whose time value is NaN.
    - Every [new Date()] evaluated while one operation runs reads the same
      instant [now].
    - Documents live in lists in insertion order; an [ObjectId] is a number
      drawn from a counter that is never rewound.  Where a request names
      an identity by a string that the service reads or compares as a
      string, the string is kept and the [Bson] library converts it. *)

From Stdlib Require Import ZArith List String Ascii Bool Lia.
From Stdlib Require Import Permutation Sorted.
From Stdlib Require Hexadecimal HexadecimalNat HexadecimalString.
Import ListNotations.
Open Scope string_scope.
Open Scope Z_scope.

(** ** JavaScript dates *)

Module JsDate.

Definition Date : Type := option Z.

Definition msPerMinute : Z := 60000.
Definition msPerHour : Z := 3600000.
Definition msPerDay : Z := 86400000.

(** The largest magnitude of a time value. *)
Definition maxTime : Z := 8640000000000000.

Definition TimeClip (t : Z) : Date :=
  if Z.abs t <=? maxTime then Some t else None.

Definition Day (t : Z) : Z := t / msPerDay.

(** Days since 1970-01-01 of a civil date (month 1..12), and back. *)
Definition days_from_civil (y m d : Z) : Z :=
  let y' := if m <=? 2 then y - 1 else y in
  let era := y' / 400 in
  let yoe := y' - era * 400 in
  let mp := (m + 9) mod 12 in
  let doy := (153 * mp + 2) / 5 + d - 1 in
  let doe := yoe * 365 + yoe / 4 - yoe / 100 + doy in
  era * 146097 + doe - 719468.

Definition civil_from_days (z : Z) : Z * Z * Z :=
  let z' := z + 719468 in
  let era := z' / 146097 in
  let doe := z' - era * 146097 in
  let yoe := (doe - doe / 1460 + doe / 36524 - doe / 146096) / 365 in
  let y := yoe + era * 400 in
  let doy := doe - (365 * yoe + yoe / 4 - yoe / 100) in
  let mp := (5 * doy + 2) / 153 in
  let d := doy - (153 * mp + 2) / 5 + 1 in
  let m := if mp <? 10 then mp + 3 else mp - 9 in
  ((if m <=? 2 then y + 1 else y), m, d).

Definition getFullYear (t : Z) : Z := fst (fst (civil_from_days (Day t))).
(** Months are counted from 0, as in JavaScript. *)
Definition getMonth (t : Z) : Z := snd (fst (civil_from_days (Day t))) - 1.
Definition getDate (t : Z) : Z := snd (civil_from_days (Day t)).

(** [MakeDay]: the month may lie outside 0..11 and the day outside the
    month; both carry over. *)
Definition MakeDay (year month date : Z) : Z :=
  days_from_civil (year + month / 12) (month mod 12 + 1) 1 + date - 1.

(** [new Date(year, month, date, hours, minutes)]; a year in 0..99 means
    1900 + year. *)
Definition newDate (year month date hours minutes : Z) : Date :=
  let yr := if (0 <=? year) && (year <=? 99) then 1900 + year else year in
  TimeClip (MakeDay yr month date * msPerDay
            + hours * msPerHour + minutes * msPerMinute).

(** [d.setHours(h, m, s, ms)] on a valid date. *)
Definition setHours (t : Z) (h m s ms : Z) : Date :=
  TimeClip (Day t * msPerDay + h * msPerHour + m * msPerMinute + s * 1000 + ms).

(** [d.setHours(0, 0, 0, 0)], which never leaves the range of a valid date. *)
Definition startOfDay (t : Z) : Z := Day t * msPerDay.

(** [d.setHours(23, 59, 59, 999)]. *)
Definition endOfDay (t : Z) : Z := startOfDay t + (msPerDay - 1).

(** Relational comparison of two dates; NaN compares false. *)
Definition ltb (a b : Date) : bool :=
  match a, b with
  | Some x, Some y => x <? y
  | _, _ => false
  end.

Definition gtb (a b : Date) : bool := ltb b a.

End JsDate.

(** ** JavaScript strings *)

Module JsString.

Definition isDigit (c : ascii) : bool :=
  let n := nat_of_ascii c in (48 <=? n)%nat && (n <=? 57)%nat.

Fixpoint allDigits (s : string) : bool :=
  match s with
  | EmptyString => true
  | String c s' => isDigit c && allDigits s'
  end.

(** The test of [/^\d+$/]. *)
Definition isDigitString (s : string) : bool :=
  match s with
  | EmptyString => false
  | _ => allDigits s
  end.

Fixpoint digitsValue (acc : Z) (s : string) : Z :=
  match s with
  | EmptyString => acc
  | String c s' =>
      digitsValue (10 * acc + (Z.of_nat (nat_of_ascii c) - 48)) s'
  end.

(** [parseInt] on a string of digits. *)
Definition parseInt (s : string) : Z := digitsValue 0 s.

(** The JavaScript runtime the service runs on.  [NumberOf s] is what the
    built-in [Number(s)] gives on a string, as the date functions read a
    number: [Some z] for a finite value whose integral part is [z] (they
    apply [ToIntegerOrInfinity], which drops the fraction), [None] for NaN
    and for the infinities.  The grammar of numeric strings (blanks around
    the number, signs, fractions, exponents, [0x], [0o] and [0b] prefixes,
    [Infinity]) and the rounding of long literals belong to the runtime. *)
Class Runtime := {
  NumberOf : string -> option Z
}.

(** [Number(s)]: the empty string is 0 and a string of at most fifteen
    decimal digits is its decimal value, which a double holds exactly;
    any other string is read by the runtime. *)
Definition Number `{Runtime} (s : string) : option Z :=
  if allDigits s && (String.length s <=? 15)%nat
  then Some (digitsValue 0 s)
  else NumberOf s.

(** [s.split(sep)] for a one-character separator. *)
Fixpoint splitAux (sep : ascii) (cur : string) (s : string) : list string :=
  match s with
  | EmptyString => [cur]
  | String c s' =>
      if Ascii.eqb c sep then cur :: splitAux sep EmptyString s'
      else splitAux sep (cur ++ String c EmptyString) s'
  end.

Definition split (sep : ascii) (s : string) : list string :=
  splitAux sep EmptyString s.

(** The test of [/^\d{4}-\d{2}-\d{2}$/]. *)
Definition isIsoDay (s : string) : bool :=
  match split "-"%char s with
  | [y; m; d] =>
      (Nat.eqb (String.length y) 4 && allDigits y)
      && (Nat.eqb (String.length m) 2 && allDigits m)
      && (Nat.eqb (String.length d) 2 && allDigits d)
  | _ => false
  end.

(** [const [hours, minutes] = s.split(":").map(Number)]: the first two
    fields; a field that is missing is [undefined], which the date
    functions read as NaN. *)
Definition hoursMinutes `{Runtime} (s : string) : option Z * option Z :=
  match map Number (split ":"%char s) with
  | h :: m :: _ => (h, m)
  | [h] => (h, None)
  | [] => (None, None)
  end.

End JsString.

(** ** Errors *)

Module Errors.

(** An error object that is not an [HttpError]: what the driver, mongoose
    or the runtime throws.  The services look at [name], [code] and
    [message]. *)
Record JsError := mkJsError {
  name : string;
  code : option Z;
  message : string
}.

Inductive Exn :=
| HttpError (statusCode : Z) (msg : string)
| Thrown (e : JsError).

Inductive Result (A : Type) :=
| Ok (a : A)
| Throw (e : Exn).

Arguments Ok {A} a.
Arguments Throw {A} e.

Definition isOk {A} (r : Result A) : bool :=
  match r with Ok _ => true | Throw _ => false end.

(** The status code an [HttpError] carries; other errors have none. *)
Definition statusOf {A} (r : Result A) : option Z :=
  match r with
  | Throw (HttpError c _) => Some c
  | _ => None
  end.

(** Reading a property of [null]. *)
Definition TypeError (m : string) : JsError :=
  {| name := "TypeError"; code := None; message := m |}.

End Errors.

(** ** Documents and collections *)

Module Model.

Import JsDate.

Definition ObjectId : Type := nat.

(** The BSON library that gives the documents their identities.
    [newObjectId s] is [new Types.ObjectId(s)] on a string, [None] where
    the constructor throws; [toString id] is [id.toString()], the identity
    written as 24 hexadecimal digits in lower case.  An identity is read
    back from its digits.  Which other strings the constructor takes
    (digits in upper case, in some versions any string of twelve
    characters) is the library's. *)
Class Bson := {
  newObjectId : string -> option ObjectId;
  toString : ObjectId -> string;
  newObjectId_toString : forall id, newObjectId (toString id) = Some id
}.

Inductive BookingStateEnum :=
| SCHEDULED
| CANCELLED
| WAITING_FOR_FEEDBACK
| COMPLETED.

Definition state_eqb (a b : BookingStateEnum) : bool :=
  match a, b with
  | SCHEDULED, SCHEDULED
  | CANCELLED, CANCELLED
  | WAITING_FOR_FEEDBACK, WAITING_FOR_FEEDBACK
  | COMPLETED, COMPLETED => true
  | _, _ => false
  end.

Record TimeSlot := mkTimeSlot {
  slot_id : ObjectId;
  startTime : string;
  endTime : string
}.

Record WorkoutOption := mkWorkoutOption {
  option_id : ObjectId;
  option_name : string;
  coachesId : list ObjectId
}.

Record Workout := mkWorkout {
  workout_id : ObjectId;
  workoutType : ObjectId;
  workout_coachId : ObjectId
}.

Record Booking := mkBooking {
  booking_id : ObjectId;
  timeSlotId : ObjectId;
  coachId : ObjectId;
  clientId : ObjectId;
  workoutId : ObjectId;
  date : Z;
  state : BookingStateEnum;
  clientFeedback : option ObjectId;
  coachFeedback : option ObjectId;
  createdAt : Z;
  updatedAt : Z
}.

Record FeedbackEntry := mkFeedbackEntry {
  message : string;
  rating : option Z;
  timestamp : Z
}.

Record Feedback := mkFeedback {
  feedback_id : ObjectId;
  from : ObjectId;
  to : ObjectId;
  history : list FeedbackEntry
}.

(** The collections of the gym database. *)
Record Database := mkDatabase {
  TimeSlotModel : list TimeSlot;
  WorkoutOptionModel : list WorkoutOption;
  WorkoutModel : list Workout;
  BookingModel : list Booking;
  FeedbackModel : list Feedback
}.

(** The database together with the source of fresh identities. *)
Record World := mkWorld {
  database : Database;
  nextObjectId : ObjectId
}.

(** A profile as the user directory returns it. *)
Record Profile := mkProfile {
  user_id : ObjectId;
  firstName : string;
  lastName : string;
  email : string;
  role : string;
  image : string;
  title : string;
  about : string;
  coachRating : Z
}.

(** The user directory of the auth service; a failed call yields [None]. *)
Record UserService := mkUserService {
  getCoachData : ObjectId -> option Profile;
  getUserData : ObjectId -> option Profile
}.

(** *** Queries *)

Definition findById {A} (key : A -> ObjectId) (id : ObjectId) (l : list A)
  : option A :=
  find (fun x => Nat.eqb (key x) id) l.

(** [doc.save()] of a document already in the collection. *)
Definition replaceById {A} (key : A -> ObjectId) (doc : A) (l : list A)
  : list A :=
  map (fun x => if Nat.eqb (key x) (key doc) then doc else x) l.

Definition setBookings (d : Database) (bs : list Booking) : Database :=
  {| TimeSlotModel := TimeSlotModel d;
     WorkoutOptionModel := WorkoutOptionModel d;
     WorkoutModel := WorkoutModel d;
     BookingModel := bs;
     FeedbackModel := FeedbackModel d |}.

Definition setFeedbacks (d : Database) (fs : list Feedback) : Database :=
  {| TimeSlotModel := TimeSlotModel d;
     WorkoutOptionModel := WorkoutOptionModel d;
     WorkoutModel := WorkoutModel d;
     BookingModel := BookingModel d;
     FeedbackModel := fs |}.

End Model.

(** ** Multi-document transactions *)

Module Transaction.

Import Errors Model.

(** Which of the writes of an operation the store refuses, and with what
    error: [faults k] is the fate of the write numbered [k]. *)
Definition Faults : Type := nat -> option JsError.

Definition noFaults : Faults := fun _ => None.

(** A session with an open transaction: the data as committed, the data as
    the transaction sees it, and how many writes were attempted. *)
Record Session := mkSession {
  committed : Database;
  staged : Database;
  writes : nat
}.

Definition startTransaction (d : Database) : Session :=
  {| committed := d; staged := d; writes := 0 |}.

Definition commitTransaction (s : Session) : Database := staged s.
Definition abortTransaction (s : Session) : Database := committed s.

(** A write of one document.  With [{ session }] it is staged; without, it
    reaches the committed data at once. *)
Definition write (faults : Faults) (withSession : bool)
    (f : Database -> Database) (s : Session) : Result unit * Session :=
  match faults (writes s) with
  | Some e =>
      (Throw (Thrown e),
       {| committed := committed s; staged := staged s;
          writes := S (writes s) |})
  | None =>
      (Ok tt,
       {| committed := if withSession then committed s else f (committed s);
          staged := f (staged s);
          writes := S (writes s) |})
  end.

(** A transaction around a body: commit when the body returns, abort and
    rethrow when it throws.  This is [session.withTransaction(callback)]
    and also the [startTransaction] / [commitTransaction] /
    [abortTransaction] sequence written out by hand.  The body also draws
    fresh identities, which an abort does not give back. *)
Definition withTransaction {A} (w : World)
    (callback : ObjectId -> Session -> Result A * Session * ObjectId)
  : Result A * World :=
  match callback (nextObjectId w) (startTransaction (database w)) with
  | (Ok a, s, n) =>
      (Ok a, {| database := commitTransaction s; nextObjectId := n |})
  | (Throw e, s, n) =>
      (Throw e, {| database := abortTransaction s; nextObjectId := n |})
  end.

End Transaction.

(** ** The workout service: booking, cancellation, composite search *)

Module WorkoutService.

Import JsDate JsString Errors Model Transaction.

(** A date argument of type [Date | string]. *)
Inductive DateInput :=
| DateObject (d : Date)
| DateString (s : string).

Record BookWorkoutParams := mkBookWorkoutParams {
  p_clientId : ObjectId;
  p_workoutId : ObjectId;
  p_coachId : ObjectId;
  p_timeSlotId : ObjectId;
  p_date : DateInput
}.

Record BookingResponse := mkBookingResponse {
  r_bookingId : ObjectId;
  r_clientId : ObjectId;
  r_coachId : ObjectId;
  r_workoutId : ObjectId;
  r_timeSlotId : ObjectId;
  r_date : Z;
  r_state : BookingStateEnum;
  r_createdAt : Z
}.

Definition response (b : Booking) : BookingResponse :=
  {| r_bookingId := booking_id b; r_clientId := clientId b;
     r_coachId := coachId b; r_workoutId := workoutId b;
     r_timeSlotId := timeSlotId b; r_date := date b; r_state := state b;
     r_createdAt := createdAt b |}.

(** [setHours] and [new Date(y, m, d, h, min)] applied to the numbers read
    from a time of day, either of which may be NaN. *)
Definition setHoursOf (t : Z) (hm : option Z * option Z) : Date :=
  match hm with
  | (Some h, Some m) => setHours t h m 0 0
  | _ => None
  end.

Definition newDateOf (year month day : Z) (hm : option Z * option Z) : Date :=
  match hm with
  | (Some h, Some m) => newDate year month day h m
  | _ => None
  end.

(** The day window of the double-booking checks:
    [{ $gte: startOfDay, $lt: endOfDay }]. *)
Definition inDayWindow (bookingDate : Z) (d : Z) : bool :=
  (startOfDay bookingDate <=? d) && (d <? endOfDay bookingDate).

Definition notCancelled (b : Booking) : bool :=
  negb (state_eqb (state b) CANCELLED).

Record FilterOptions := mkFilterOptions {
  f_workoutId : option ObjectId;
  f_coachId : option ObjectId;
  f_timeSlotId : option ObjectId;
  f_date : option DateInput
}.

Record CoachWorkoutAvailability := mkCoachWorkoutAvailability {
  a_coachId : ObjectId;
  a_firstName : string;
  a_lastName : string;
  a_role : string;
  a_image : string;
  a_title : string;
  a_about : string;
  a_rating : Z;
  a_workoutId : ObjectId;
  a_activityId : ObjectId;
  a_workoutName : string;
  a_timeSlotId : option ObjectId;
  a_timeSlot : option string;
  a_date : Z;
  a_alternativeTimeSlots : list TimeSlot
}.

(** A stable sort by ascending start time. *)
Fixpoint insertSlot (x : TimeSlot) (l : list TimeSlot) : list TimeSlot :=
  match l with
  | [] => [x]
  | y :: l' =>
      if String.ltb (startTime y) (startTime x)
      then y :: insertSlot x l'
      else x :: l
  end.

Definition sortByStartTime (l : list TimeSlot) : list TimeSlot :=
  fold_right insertSlot [] l.

(** A loop whose body may throw: the first throw ends it. *)
Fixpoint mapResult {A B} (f : A -> Result B) (l : list A) : Result (list B) :=
  match l with
  | [] => Ok []
  | x :: l' =>
      match f x with
      | Throw e => Throw e
      | Ok y =>
          match mapResult f l' with
          | Throw e => Throw e
          | Ok ys => Ok (y :: ys)
          end
      end
  end.

Section Service.

Context {js : Runtime}.

(** [new Date(s)] on a string: the built-in parser. *)
Variable Date_parse : string -> Date.
Variable userService : UserService.

Definition parseAndValidateDate (now : Z) (date : DateInput) : Result Z :=
  let bookingDate : Date :=
    match date with
    | DateString s =>
        if isDigitString s
        then newDate (getFullYear now) (getMonth now) (parseInt s) 0 0
        else Date_parse s
    | DateObject d => d
    end in
  match bookingDate with
  | None => Throw (HttpError 400 "Invalid date format")
  | Some t =>
      let normalizedDate := startOfDay t in
      let today := startOfDay now in
      if normalizedDate <? today
      then Throw (HttpError 400 "Cannot book a workout for a past date")
      else Ok t
  end.

Definition isTimeSlotPassed (now : Z) (date : Z) (startTime : string) : bool :=
  let today := startOfDay now in
  let bookingDate := startOfDay date in
  if bookingDate =? today then
    let slotTime := setHoursOf now (hoursMinutes startTime) in
    gtb (Some now) slotTime
  else false.

(** The two [BookingModel.find] of the double-booking checks. *)
Definition existingBooking (d : Database) (coach slot : ObjectId)
    (bookingDate : Z) : list Booking :=
  filter (fun b => Nat.eqb (coachId b) coach
                   && Nat.eqb (timeSlotId b) slot
                   && inDayWindow bookingDate (date b)
                   && notCancelled b)
         (BookingModel d).

Definition existingClientBooking (d : Database) (client slot : ObjectId)
    (bookingDate : Z) : list Booking :=
  filter (fun b => Nat.eqb (clientId b) client
                   && Nat.eqb (timeSlotId b) slot
                   && inDayWindow bookingDate (date b)
                   && notCancelled b)
         (BookingModel d).

(** The validation steps of [bookWorkout]: the date, the coach, the workout
    of that coach, the time slot and whether it has passed.  They yield the
    date to store. *)
Definition bookWorkoutValidate (now : Z) (d : Database) (p : BookWorkoutParams)
  : Result Z :=
  match parseAndValidateDate now (p_date p) with
  | Throw e => Throw e
  | Ok bookingDate =>
  match getCoachData userService (p_coachId p) with
  | None => Throw (HttpError 404 "Coach not found")
  | Some _ =>
  match find (fun w => Nat.eqb (workout_id w) (p_workoutId p)
                       && Nat.eqb (workout_coachId w) (p_coachId p))
             (WorkoutModel d) with
  | None =>
      Throw (HttpError 404
        "Workout not found or does not belong to the specified coach")
  | Some _ =>
  match findById slot_id (p_timeSlotId p) (TimeSlotModel d) with
  | None => Throw (HttpError 404 "Time slot not found")
  | Some timeSlot =>
      if isTimeSlotPassed now bookingDate (startTime timeSlot)
      then Throw (HttpError 400
             "Cannot book a time slot that has already passed")
      else Ok bookingDate
  end end end end.

(** All the checks that come before the transaction: the validation, then
    the two double-booking checks. *)
Definition bookWorkoutChecks (now : Z) (d : Database) (p : BookWorkoutParams)
  : Result Z :=
  match bookWorkoutValidate now d p with
  | Throw e => Throw e
  | Ok bookingDate =>
      if negb (Nat.eqb (List.length
                (existingBooking d (p_coachId p) (p_timeSlotId p) bookingDate)) 0)
      then Throw (HttpError 409
             "Coach already has a booking at this time slot")
      else if negb (Nat.eqb (List.length
                (existingClientBooking d (p_clientId p) (p_timeSlotId p)
                   bookingDate)) 0)
      then Throw (HttpError 409
             "You already have a booking at this time slot")
      else Ok bookingDate
  end.

(** The two ledgers and the booking that the transaction writes; the
    identities are those the three constructors draw. *)
Definition newClientFeedback (n : ObjectId) (p : BookWorkoutParams) : Feedback :=
  {| feedback_id := n; from := p_clientId p; to := p_coachId p; history := [] |}.

Definition newCoachFeedback (n : ObjectId) (p : BookWorkoutParams) : Feedback :=
  {| feedback_id := n; from := p_coachId p; to := p_clientId p; history := [] |}.

Definition newBooking (n : ObjectId) (now bookingDate : Z)
    (p : BookWorkoutParams) (cf kf : Feedback) : Booking :=
  {| booking_id := n;
     timeSlotId := p_timeSlotId p; coachId := p_coachId p;
     clientId := p_clientId p; workoutId := p_workoutId p;
     date := bookingDate; state := SCHEDULED;
     clientFeedback := Some (feedback_id cf);
     coachFeedback := Some (feedback_id kf);
     createdAt := now; updatedAt := now |}.

Definition insertFeedback (f : Feedback) (d : Database) : Database :=
  setFeedbacks d (FeedbackModel d ++ [f]).

Definition insertBooking (b : Booking) (d : Database) : Database :=
  setBookings d (BookingModel d ++ [b]).

(** The callback of [session.withTransaction]: three saves, each with
    [{ session }].  It returns the saved booking, the session as the
    callback left it, and the identity counter. *)
Definition bookWorkoutTransaction (faults : Faults) (now bookingDate : Z)
    (p : BookWorkoutParams) (n : ObjectId) (s : Session)
  : Result Booking * Session * ObjectId :=
  let clientFeedback := newClientFeedback n p in
  let coachFeedback := newCoachFeedback (S n) p in
  match write faults true (insertFeedback clientFeedback) s with
  | (Throw e, s1) => (Throw e, s1, S (S n))
  | (Ok _, s1) =>
  match write faults true (insertFeedback coachFeedback) s1 with
  | (Throw e, s2) => (Throw e, s2, S (S n))
  | (Ok _, s2) =>
      let booking :=
        newBooking (S (S n)) now bookingDate p clientFeedback coachFeedback in
      match write faults true (insertBooking booking) s2 with
      | (Throw e, s3) => (Throw e, s3, S (S (S n)))
      | (Ok _, s3) => (Ok booking, s3, S (S (S n)))
      end
  end end.

(** The [catch] of [bookWorkout]. *)
Definition bookWorkoutCatch (e : Exn) : Exn :=
  match e with
  | HttpError c m => HttpError c m
  | Thrown err =>
      if String.eqb (name err) "ValidationError"
      then HttpError 400 "Invalid booking data"
      else match code err with
           | Some 11000 => HttpError 409 "This booking already exists"
           | _ => HttpError 500 "Failed to book workout"
           end
  end.

Definition bookWorkout (faults : Faults) (now : Z) (w : World)
    (p : BookWorkoutParams) : Result BookingResponse * World :=
  match bookWorkoutChecks now (database w) p with
  | Throw e => (Throw (bookWorkoutCatch e), w)
  | Ok bookingDate =>
      match withTransaction w (bookWorkoutTransaction faults now bookingDate p) with
      | (Ok savedBooking, w') => (Ok (response savedBooking), w')
      | (Throw e, w') => (Throw (bookWorkoutCatch e), w')
      end
  end.

(** Whole hours from [now] to the booking date:
    [Math.floor(timeDiff / (1000 * 60 * 60))]. *)
Definition hoursDiff (now : Z) (bookingDate : Z) : Z :=
  (bookingDate - now) / (1000 * 60 * 60).

(** The checks of [cancelBooking], up to the save. *)
Definition cancelBookingChecks (now : Z) (d : Database)
    (bookingId userId : ObjectId) : Result Booking :=
  match findById booking_id bookingId (BookingModel d) with
  | None => Throw (HttpError 404 "Booking not found")
  | Some booking =>
  match getUserData userService userId with
  | None => Throw (HttpError 404 "User not found")
  | Some _ =>
      let isAuthorized :=
        Nat.eqb (clientId booking) userId || Nat.eqb (coachId booking) userId in
      if negb isAuthorized
      then Throw (HttpError 403 "Not authorized to cancel this booking")
      else if state_eqb (state booking) CANCELLED
      then Throw (HttpError 400 "Booking is already cancelled")
      else if state_eqb (state booking) COMPLETED
      then Throw (HttpError 400 "Cannot cancel a completed booking")
      else if state_eqb (state booking) WAITING_FOR_FEEDBACK
      then Throw (HttpError 400
             "Cannot cancel a booking that is waiting for feedback")
      else if hoursDiff now (date booking) <? 12
      then Throw (HttpError 400
             "Cannot cancel a booking less than 12 hours before the date")
      else Ok booking
  end end.

(** [booking.state = CANCELLED; booking.save()], which also refreshes
    [updatedAt]. *)
Definition cancelled (now : Z) (b : Booking) : Booking :=
  {| booking_id := booking_id b; timeSlotId := timeSlotId b;
     coachId := coachId b; clientId := clientId b; workoutId := workoutId b;
     date := date b; state := CANCELLED;
     clientFeedback := clientFeedback b; coachFeedback := coachFeedback b;
     createdAt := createdAt b; updatedAt := now |}.

Definition cancelBooking (faults : Faults) (now : Z) (w : World)
    (bookingId userId : ObjectId) : Result BookingResponse * World :=
  match cancelBookingChecks now (database w) bookingId userId with
  | Throw e => (Throw e, w)
  | Ok booking =>
      match faults 0%nat with
      | Some _ => (Throw (HttpError 500 "Failed to cancel booking"), w)
      | None =>
          let updatedBooking := cancelled now booking in
          (Ok (response updatedBooking),
           {| database :=
                setBookings (database w)
                  (replaceById booking_id updatedBooking
                     (BookingModel (database w)));
              nextObjectId := nextObjectId w |})
      end
  end.

(** *** Composite search *)

(** [searchDate] of [searchWorkoutUsingFilters]; an absent date, like the
    empty string, means now. *)
Definition searchDateOf (now : Z) (date : option DateInput) : Result Z :=
  match date with
  | None | Some (DateString EmptyString) => Ok now
  | Some given =>
      let searchDate : Date :=
        match given with
        | DateObject d => d
        | DateString s =>
            if isDigitString s
            then newDate (getFullYear now) (getMonth now) (parseInt s) 0 0
            else Date_parse s
        end in
      match searchDate with
      | None => Throw (HttpError 400 "Invalid date format")
      | Some t =>
          if startOfDay t <? startOfDay now
          then Throw (HttpError 400 "Date cannot be in the past")
          else Ok t
      end
  end.

Definition isToday (now formattedDate : Z) : bool :=
  (getDate formattedDate =? getDate now)
  && (getMonth formattedDate =? getMonth now)
  && (getFullYear formattedDate =? getFullYear now).

(** [slotTime > currentTime] in the filter of today's slots. *)
Definition startsLater (now : Z) (slot : TimeSlot) : bool :=
  gtb (newDateOf (getFullYear now) (getMonth now) (getDate now)
         (hoursMinutes (startTime slot)))
      (Some now).

(** [TimeSlotModel.find({}).sort({ startTime: 1 })]. *)
Definition availableTimeSlots (d : Database) : list TimeSlot :=
  sortByStartTime (TimeSlotModel d).

Definition validTimeSlots (now formattedDate : Z) (d : Database)
  : list TimeSlot :=
  if isToday now formattedDate
  then filter (startsLater now) (availableTimeSlots d)
  else availableTimeSlots d.

(** The bookings of the day that are not cancelled, of any coach. *)
Definition dayBookings (formattedDate : Z) (d : Database) : list Booking :=
  filter (fun b => (formattedDate <=? date b)
                   && (date b <? formattedDate + 24 * 60 * 60 * 1000)
                   && notCancelled b)
         (BookingModel d).

Definition availableAlternativeTimeSlots (now formattedDate : Z) (d : Database)
  : list TimeSlot :=
  filter (fun slot =>
            negb (existsb (fun b => Nat.eqb (timeSlotId b) (slot_id slot))
                    (dayBookings formattedDate d)))
         (validTimeSlots now formattedDate d).

(** One workout mapping after [populate("workoutType")] and the lookup of
    its coach. *)
Definition enrich (d : Database) (w : Workout)
  : Workout * option WorkoutOption * option Profile :=
  (w, findById option_id (workoutType w) (WorkoutOptionModel d),
   getCoachData userService (workout_coachId w)).

Definition availabilityInfo (f : FilterOptions) (formattedDate : Z)
    (available : list TimeSlot)
    (ew : Workout * option WorkoutOption * option Profile)
  : Result CoachWorkoutAvailability :=
  let '(workout, workoutTypeDoc, coach) := ew in
  match coach with
  | None =>
      Throw (Thrown (TypeError "Cannot read properties of null (reading '_id')"))
  | Some coach =>
      let requested :=
        match f_timeSlotId f with
        | Some id => find (fun slot => Nat.eqb (slot_id slot) id) available
        | None => None
        end in
      let selectedTimeSlot :=
        match requested with
        | Some slot => Some slot
        | None => hd_error available
        end in
      let alternativeTimeSlots :=
        filter (fun slot =>
                  match selectedTimeSlot with
                  | Some sel => negb (Nat.eqb (slot_id slot) (slot_id sel))
                  | None => true
                  end) available in
      match workoutTypeDoc with
      | None =>
          Throw (Thrown
            (TypeError "Cannot read properties of null (reading 'name')"))
      | Some wt =>
          Ok {| a_coachId := user_id coach;
                a_firstName := firstName coach;
                a_lastName := lastName coach;
                a_title := title coach;
                a_about := about coach;
                a_rating := coachRating coach;
                a_role := role coach;
                a_image := image coach;
                a_workoutId := workout_id workout;
                a_workoutName := option_name wt;
                a_activityId :=
                  match f_workoutId f with
                  | Some id => id
                  | None => option_id wt
                  end;
                a_timeSlotId := option_map slot_id selectedTimeSlot;
                a_timeSlot :=
                  option_map (fun s => startTime s ++ "-" ++ endTime s)
                    selectedTimeSlot;
                a_date := formattedDate;
                a_alternativeTimeSlots := alternativeTimeSlots |}
      end
  end.

Definition searchWorkoutUsingFilters (now : Z) (d : Database)
    (f : FilterOptions) : Result (list CoachWorkoutAvailability) :=
  match searchDateOf now (f_date f) with
  | Throw e => Throw e
  | Ok searchDate =>
      let formattedDate := startOfDay searchDate in
      if Nat.eqb (List.length (availableTimeSlots d)) 0
      then Throw (HttpError 404 "No time slots available")
      else
      let valid := validTimeSlots now formattedDate d in
      if Nat.eqb (List.length valid) 0
      then Throw (HttpError 404 "No available time slots for today")
      else
      if match f_timeSlotId f with
         | Some id =>
             match find (fun slot => Nat.eqb (slot_id slot) id) valid with
             | Some _ => false
             | None => true
             end
         | None => false
         end
      then Throw (HttpError 404 "Selected time slot is not available")
      else
      let workouts :=
        filter (fun w =>
                  match f_workoutId f with
                  | Some id => Nat.eqb (workoutType w) id
                  | None => true
                  end
                  && match f_coachId f with
                     | Some id => Nat.eqb (workout_coachId w) id
                     | None => true
                     end)
               (WorkoutModel d) in
      let enrichedWorkouts := map (enrich d) workouts in
      if Nat.eqb (List.length enrichedWorkouts) 0
      then Throw (HttpError 404 "No workouts found for the given filter")
      else
      let available := availableAlternativeTimeSlots now formattedDate d in
      if Nat.eqb (List.length available) 0
      then Throw (HttpError 404
             "No available time slots for the selected date")
      else mapResult (availabilityInfo f formattedDate available)
             enrichedWorkouts
  end.

End Service.

End WorkoutService.

(** ** The coach service: availability of one coach *)

Module CoachService.

Import JsDate JsString Errors Model.

Record SlotStatus := mkSlotStatus {
  id : ObjectId;
  s_startTime : string;
  s_endTime : string;
  isBooked : bool
}.

(** The states that keep a slot taken. *)
Definition occupying (s : BookingStateEnum) : bool :=
  state_eqb s SCHEDULED || state_eqb s COMPLETED
  || state_eqb s WAITING_FOR_FEEDBACK.

Section Service.

Context {js : Runtime}.

Variable Date_parse : string -> Date.
Variable userService : UserService.

(** [BookingModel.find({ coachId, date, state: { $in: [...] } })]: the
    stored date must equal the queried one. *)
Definition bookingsOn (d : Database) (coach : ObjectId) (t : Z) : list Booking :=
  filter (fun b => Nat.eqb (coachId b) coach
                   && (date b =? t)
                   && occupying (state b))
         (BookingModel d).

Definition getCoachAvailableTimeSlots (d : Database) (coach : ObjectId)
    (date : Date) : Result (list SlotStatus) :=
  match date with
  | None => Throw (HttpError 400 "Invalid date format")
  | Some t =>
  match getCoachData userService coach with
  | None => Throw (HttpError 404 "Coach not found")
  | Some _ =>
      let timeSlots := TimeSlotModel d in
      if Nat.eqb (List.length timeSlots) 0
      then Throw (HttpError 404 "No time slots available")
      else
        let bookings := bookingsOn d coach t in
        Ok (map (fun slot =>
                   {| id := slot_id slot;
                      s_startTime := startTime slot;
                      s_endTime := endTime slot;
                      isBooked :=
                        existsb (fun b =>
                                   Nat.eqb (timeSlotId b) (slot_id slot)
                                   && occupying (state b))
                                bookings |})
                timeSlots)
  end end.

(** The fields of a [YYYY-MM-DD] string, read by [split("-").map(Number)]. *)
Definition yearMonthDay (s : string) : option (Z * Z * Z) :=
  match map Number (split "-"%char s) with
  | [Some y; Some m; Some d] => Some (y, m, d)
  | _ => None
  end.

Definition parseAndValidateDate (now : Z)
    (date : WorkoutService.DateInput) : Result Z :=
  let parsedDate : Date :=
    match date with
    | WorkoutService.DateString s =>
        if isDigitString s
        then newDate (getFullYear now) (getMonth now) (parseInt s) 0 0
        else if isIsoDay s
        then match yearMonthDay s with
             | Some (year, month, day) => newDate year (month - 1) day 0 0
             | None => None
             end
        else Date_parse s
    | WorkoutService.DateObject d => d
    end in
  match parsedDate with
  | None => Throw (HttpError 400 "Invalid date format")
  | Some t => Ok t
  end.

End Service.

End CoachService.

(** ** The feedback service *)

Module FeedbackService.

Import JsDate JsString Errors Model Transaction.

(** The schema of a history entry, checked by mongoose when the ledger is
    saved: a message is required, a rating lies in 1..5.  The text of the
    validation error is abridged. *)
Definition entryValid (e : FeedbackEntry) : bool :=
  negb (String.eqb (Model.message e) "")
  && match rating e with
     | Some r => (1 <=? r) && (r <=? 5)
     | None => true
     end.

Definition ValidationError : JsError :=
  {| name := "ValidationError"; code := None;
     Errors.message := "Feedback validation failed" |}.

Definition pushEntry (f : Feedback) (e : FeedbackEntry) : Feedback :=
  {| feedback_id := feedback_id f; from := from f; to := to f;
     history := history f ++ [e] |}.

Definition saveFeedback (faults : Faults) (entry : FeedbackEntry)
    (f : Database -> Database) (s : Session) : Result unit * Session :=
  if entryValid entry then write faults true f s
  else (Throw (Thrown ValidationError), s).

(** What [addFeedback] leaves on the booking before saving it. *)
Definition completedBooking (now : Z) (b : Booking)
    (clientFb coachFb : option ObjectId) : Booking :=
  {| booking_id := booking_id b; timeSlotId := timeSlotId b;
     coachId := coachId b; clientId := clientId b; workoutId := workoutId b;
     date := date b; state := COMPLETED;
     clientFeedback := clientFb; coachFeedback := coachFb;
     createdAt := createdAt b; updatedAt := now |}.

Definition saveBooking (faults : Faults) (b : Booking) (s : Session)
  : Result unit * Session :=
  write faults true
    (fun d => setBookings d (replaceById booking_id b (BookingModel d))) s.

(** The [catch] that closes [addFeedback]. *)
Definition addFeedbackCatch (e : Exn) : Exn :=
  match e with
  | HttpError c m => HttpError c m
  | Thrown err =>
      HttpError 400
        (if String.eqb (Errors.message err) ""
         then "Failed to add feedback. Please try again later."
         else Errors.message err)
  end.

Record UserSummary := mkUserSummary {
  u_id : ObjectId;
  u_name : string;
  u_email : string;
  u_image : string
}.

Record FormattedFeedback := mkFormattedFeedback {
  feedbackId : ObjectId;
  fromUser : UserSummary;
  toUser : UserSummary;
  latestFeedback : option FeedbackEntry;
  historyCount : nat;
  fullHistory : list FeedbackEntry
}.

(** Averages are kept in tenths: 45 stands for 4.5. *)
Record PagedFeedback := mkPagedFeedback {
  feedback : list FormattedFeedback;
  total : Z;
  totalPages : option Z;
  currentPage : Z;
  p_perPage : Z;
  averageRating : Z
}.

Record RatingDistribution := mkRatingDistribution {
  star5 : Z;
  star4 : Z;
  star3 : Z;
  star2 : Z;
  star1 : Z
}.

Definition emptyDistribution : RatingDistribution :=
  {| star5 := 0; star4 := 0; star3 := 0; star2 := 0; star1 := 0 |}.

(** [s_averageRating] is [None] when the mean is NaN. *)
Record FeedbackStats := mkFeedbackStats {
  s_averageRating : option Z;
  totalReviews : Z;
  ratingDistribution : RatingDistribution
}.

(** Rounding of [num / den] to an integer, a tie going to the even one:
    the rounding of the arithmetic of doubles. *)
Definition roundHalfEven (num den : Z) : Z :=
  let q := num / den in
  let r := num mod den in
  if (den <? 2 * r) || ((2 * r =? den) && Z.odd q) then q + 1 else q.

(** [p / q] in double precision, for positive integers that a double holds
    exactly: the pair [(m, e)] stands for the double [m * 2 ^ e], where
    [m] is the exact quotient rounded to 53 significant bits. *)
Definition divide (p q : Z) : Z * Z :=
  let d := Z.log2 p - Z.log2 q in
  (* the binade of the quotient: 2 ^ b <= p / q < 2 ^ (b + 1) *)
  let b :=
    if (if 0 <=? d then q * 2 ^ d <=? p else q <=? p * 2 ^ (- d))
    then d else d - 1 in
  let e := b - 52 in
  let m :=
    if 0 <=? e
    then roundHalfEven p (q * 2 ^ e)
    else roundHalfEven (p * 2 ^ (- e)) q in
  (m, e).

(** [x.toFixed(1)] for a double [x = m * 2 ^ e] that is not negative, in
    tenths: the integer [n] for which [n / 10 - x] is closest to zero, the
    larger one when there are two. *)
Definition tenths (x : Z * Z) : Z :=
  let '(m, e) := x in
  if 0 <=? e
  then 10 * m * 2 ^ e
  else (2 * (10 * m) + 2 ^ (- e)) / (2 * 2 ^ (- e)).

(** [parseFloat((total / count).toFixed(1))] in tenths, for a positive
    [count]: the division is that of doubles, and [toFixed] rounds the
    double it is given, not the exact quotient; a negative value is
    rounded as its magnitude. *)
Definition toFixed1 (total count : Z) : Z :=
  if total =? 0 then 0
  else if 0 <? total then tenths (divide total count)
  else - tenths (divide (- total) count).

(** [rows.sort((a, b) => key(b) - key(a))]: a stable sort, largest key
    first. *)
Fixpoint insertDescending {A} (key : A -> Z) (x : A) (l : list A) : list A :=
  match l with
  | [] => [x]
  | y :: l' =>
      if key x <? key y
      then y :: insertDescending key x l'
      else x :: l
  end.

Definition sortDescending {A} (key : A -> Z) (l : list A) : list A :=
  fold_right (insertDescending key) [] l.

Section Service.

Context {js : Runtime}.

Variable userService : UserService.

(** The checks of [addFeedback] that come before the transaction. *)
Definition addFeedbackChecks (now : Z) (d : Database)
    (userId bookingId : ObjectId) : Result Booking :=
  match findById booking_id bookingId (BookingModel d) with
  | None => Throw (HttpError 404 "Booking not found")
  | Some bookingDetails =>
      if negb (Nat.eqb userId (clientId bookingDetails))
         && negb (Nat.eqb userId (coachId bookingDetails))
      then Throw (HttpError 403
             "User is not allowed to give feedback for this booking")
      else if state_eqb (state bookingDetails) COMPLETED
      then Throw (HttpError 400
             "Feedback can only be given for completed bookings")
      else
        (* populate("timeSlotId") *)
        match findById slot_id (timeSlotId bookingDetails) (TimeSlotModel d) with
        | None =>
            Throw (Thrown (TypeError
              "Cannot read properties of null (reading 'endTime')"))
        | Some slot =>
            let bookingDate :=
              WorkoutService.setHoursOf (date bookingDetails)
                (hoursMinutes (endTime slot)) in
            if gtb bookingDate (Some now)
            then Throw (HttpError 400
                   "Feedback can only be given after the booking has ended")
            else Ok bookingDetails
        end
  end.

(** One direction of the body of the transaction: create the ledger when
    the booking has none, else load it and push.  It yields the identity of
    the ledger now on the booking. *)
Definition upsertLedger (faults : Faults) (entry : FeedbackEntry)
    (existing : option ObjectId) (fromId toId : ObjectId) (notFound : string)
    (n : ObjectId) (s : Session) : Result ObjectId * Session * ObjectId :=
  match existing with
  | None =>
      let feedbackDoc :=
        {| feedback_id := n; from := fromId; to := toId; history := [entry] |} in
      match saveFeedback faults entry
              (WorkoutService.insertFeedback feedbackDoc) s with
      | (Throw e, s') => (Throw e, s', S n)
      | (Ok _, s') => (Ok n, s', S n)
      end
  | Some fid =>
      (* [FeedbackModel.findById] is called without the session *)
      match findById feedback_id fid (FeedbackModel (committed s)) with
      | None => (Throw (HttpError 404 notFound), s, n)
      | Some feedbackDoc =>
          let updated := pushEntry feedbackDoc entry in
          match saveFeedback faults entry
                  (fun d => setFeedbacks d
                     (replaceById feedback_id updated (FeedbackModel d))) s with
          | (Throw e, s') => (Throw e, s', n)
          | (Ok _, s') => (Ok fid, s', n)
          end
      end
  end.

Definition addFeedbackTransaction (faults : Faults) (now : Z)
    (entry : FeedbackEntry) (userId : ObjectId) (b : Booking)
    (n : ObjectId) (s : Session) : Result FeedbackEntry * Session * ObjectId :=
  let isClient := Nat.eqb userId (clientId b) in
  let ledger :=
    if isClient
    then upsertLedger faults entry (clientFeedback b) (clientId b) (coachId b)
           "Client feedback document not found" n s
    else upsertLedger faults entry (coachFeedback b) (coachId b) (clientId b)
           "Coach feedback document not found" n s in
  match ledger with
  | (Throw e, s', n') => (Throw e, s', n')
  | (Ok fid, s', n') =>
      let b' :=
        if isClient
        then completedBooking now b (Some fid) (coachFeedback b)
        else completedBooking now b (clientFeedback b) (Some fid) in
      match saveBooking faults b' s' with
      | (Throw e, s'') => (Throw e, s'', n')
      | (Ok _, s'') => (Ok entry, s'', n')
      end
  end.

Definition addFeedback (faults : Faults) (now : Z) (w : World)
    (userId bookingId : ObjectId) (message : string) (rating : Z)
  : Result FeedbackEntry * World :=
  match addFeedbackChecks now (database w) userId bookingId with
  | Throw e => (Throw (addFeedbackCatch e), w)
  | Ok bookingDetails =>
      let feedbackEntry :=
        {| Model.message := message; Model.rating := Some rating;
           timestamp := now |} in
      match withTransaction w
              (addFeedbackTransaction faults now feedbackEntry userId
                 bookingDetails) with
      | (Ok e, w') => (Ok e, w')
      | (Throw e, w') => (Throw (addFeedbackCatch e), w')
      end
  end.

(** *** Reading feedback *)

(** [FeedbackModel.find({ to, history: { $elemMatch: ... } })]: the ledgers
    addressed to the user whose history has an element. *)
Definition matching (d : Database) (userId : ObjectId) : list Feedback :=
  filter (fun fb => Nat.eqb (to fb) userId
                    && negb (Nat.eqb (List.length (history fb)) 0))
         (FeedbackModel d).

(** [.limit(perPage).skip((page - 1) * perPage)]: the store skips first and
    limits after; it refuses a negative skip, and reads a limit of 0 as no
    limit and a negative limit as its magnitude. *)
Definition paginate {A} (perPage page : Z) (l : list A) : Result (list A) :=
  let toSkip := (page - 1) * perPage in
  if toSkip <? 0
  then Throw (Thrown {| name := "MongoServerError"; code := Some 2;
                        Errors.message := "skip value must be non-negative" |})
  else
    let rest := skipn (Z.to_nat toSkip) l in
    Ok (if perPage =? 0 then rest else firstn (Z.to_nat (Z.abs perPage)) rest).

Definition summary (u : Profile) : UserSummary :=
  {| u_id := user_id u;
     u_name := firstName u ++ " " ++ lastName u;
     u_email := email u;
     u_image := image u |}.

(** One row of the view; a user the directory does not return makes the
    formatting throw. *)
Definition format (fb : Feedback) : Result FormattedFeedback :=
  match getUserData userService (from fb), getUserData userService (to fb) with
  | Some fromUser, Some toUser =>
      Ok {| feedbackId := feedback_id fb;
            fromUser := summary fromUser;
            toUser := summary toUser;
            (* the most recent feedback entry (first in the array) *)
            latestFeedback := nth_error (history fb) 0;
            historyCount := List.length (history fb);
            fullHistory := history fb |}
  | _, _ =>
      Throw (Thrown (TypeError
        "Cannot read properties of null (reading '_id')"))
  end.

(** [a.latestFeedback?.rating || 0]. *)
Definition ratingOrZero (row : FormattedFeedback) : Z :=
  match latestFeedback row with
  | Some e => match rating e with Some r => r | None => 0 end
  | None => 0
  end.

Definition timestampOrZero (row : FormattedFeedback) : Z :=
  match latestFeedback row with
  | Some e => timestamp e
  | None => 0
  end.

Definition totalRatings (rows : list FormattedFeedback) : Z :=
  fold_left (fun sum fb => sum + ratingOrZero fb) rows 0.

Definition getFeedbackForUserCoach (d : Database) (userId : ObjectId)
    (perPage page : Z) (sortBy : string) : Result PagedFeedback :=
  let result :=
    match paginate perPage page (matching d userId) with
    | Throw e => Throw e
    | Ok feedback =>
        match WorkoutService.mapResult format feedback with
        | Throw e => Throw e
        | Ok rows =>
            let totalCount := Z.of_nat (List.length (matching d userId)) in
            let formattedFeedback :=
              if String.eqb sortBy "rating"
              then sortDescending ratingOrZero rows
              else sortDescending timestampOrZero rows in
            Ok {| feedback := formattedFeedback;
                  total := totalCount;
                  totalPages :=
                    if perPage =? 0 then None
                    else Some (- ((- totalCount) / perPage));
                  currentPage := page;
                  p_perPage := perPage;
                  averageRating :=
                    if Nat.eqb (List.length formattedFeedback) 0 then 0
                    else toFixed1 (totalRatings formattedFeedback)
                           (Z.of_nat (List.length formattedFeedback)) |}
        end
    end in
  match result with
  | Ok r => Ok r
  | Throw (HttpError _ m) => Throw (HttpError 400 m)
  | Throw (Thrown err) =>
      Throw (HttpError 400
        (if String.eqb (Errors.message err) ""
         then "Failed to get feedback. Please try again later."
         else Errors.message err))
  end.

(** [ratingDistribution[latestRating]++] when the key exists. *)
Definition bump (latestRating : option Z) (r : RatingDistribution)
  : RatingDistribution :=
  match latestRating with
  | Some 5 => {| star5 := star5 r + 1; star4 := star4 r; star3 := star3 r;
                 star2 := star2 r; star1 := star1 r |}
  | Some 4 => {| star5 := star5 r; star4 := star4 r + 1; star3 := star3 r;
                 star2 := star2 r; star1 := star1 r |}
  | Some 3 => {| star5 := star5 r; star4 := star4 r; star3 := star3 r + 1;
                 star2 := star2 r; star1 := star1 r |}
  | Some 2 => {| star5 := star5 r; star4 := star4 r; star3 := star3 r;
                 star2 := star2 r + 1; star1 := star1 r |}
  | Some 1 => {| star5 := star5 r; star4 := star4 r; star3 := star3 r;
                 star2 := star2 r; star1 := star1 r + 1 |}
  | _ => r
  end.

(** The running values of the [forEach] of [getCoachFeedbackStats]:
    [totalRating] (NaN once a rating is undefined), [ratingCount] and the
    distribution. *)
Definition statsStep (acc : option Z * Z * RatingDistribution) (fb : Feedback)
  : option Z * Z * RatingDistribution :=
  let '(totalRating, ratingCount, dist) := acc in
  match history fb with
  | [] => acc
  | first :: _ =>
      let latestRating := rating first in
      (match totalRating, latestRating with
       | Some t, Some r => Some (t + r)
       | _, _ => None
       end,
       ratingCount + 1,
       bump latestRating dist)
  end.

Definition getCoachFeedbackStats (d : Database) (coach : ObjectId)
  : Result FeedbackStats :=
  let feedback := filter (fun fb => Nat.eqb (to fb) coach) (FeedbackModel d) in
  let totalFeedback := Z.of_nat (List.length feedback) in
  if totalFeedback =? 0
  then Ok {| s_averageRating := Some 0; totalReviews := 0;
             ratingDistribution := emptyDistribution |}
  else
    let '(totalRating, ratingCount, dist) :=
      fold_left statsStep feedback (Some 0, 0, emptyDistribution) in
    Ok {| s_averageRating :=
            if 0 <? ratingCount
            then match totalRating with
                 | Some t => Some (toFixed1 t ratingCount)
                 | None => None
                 end
            else Some 0;
          totalReviews := totalFeedback;
          ratingDistribution := dist |}.

End Service.

End FeedbackService.

(** ** The workout service: listings *)

Module WorkoutListings.

Import JsDate JsString Errors Model WorkoutService.

Record ActivityInfo := mkActivityInfo {
  activity_id : ObjectId;
  activity_name : string
}.

(** One row of the listing of a day; a reference that does not resolve
    leaves its field out. *)
Record BookingData := mkBookingData {
  bd_bookingId : ObjectId;
  bd_date : Z;
  bd_state : BookingStateEnum;
  bd_createdAt : Z;
  bd_clientId : ObjectId;
  bd_coachId : ObjectId;
  bd_workoutId : option ObjectId;
  bd_activity : option ActivityInfo;
  bd_timeSlot : option TimeSlot;
  bd_clientFeedback : option ObjectId;
  bd_coachFeedback : option ObjectId
}.

(** One row of the listing of all bookings, every field present. *)
Record BookingRow := mkBookingRow {
  br_bookingId : ObjectId;
  br_clientId : ObjectId;
  br_coachId : ObjectId;
  br_workoutId : ObjectId;
  br_activity : ActivityInfo;
  br_timeSlot : TimeSlot;
  br_date : Z;
  br_state : BookingStateEnum;
  br_clientFeedback : option ObjectId;
  br_coachFeedback : option ObjectId;
  br_createdAt : Z
}.

(** [.populate("timeSlotId")] and the nested populate of the workout and
    its type. *)
Definition populatedSlot (d : Database) (b : Booking) : option TimeSlot :=
  findById slot_id (timeSlotId b) (TimeSlotModel d).

Definition populatedWorkout (d : Database) (b : Booking) : option Workout :=
  findById workout_id (workoutId b) (WorkoutModel d).

Definition populatedType (d : Database) (w : Workout) : option WorkoutOption :=
  findById option_id (workoutType w) (WorkoutOptionModel d).

Definition activityOf (wt : WorkoutOption) : ActivityInfo :=
  {| activity_id := option_id wt; activity_name := option_name wt |}.

Definition ofUser (userId : ObjectId) (b : Booking) : bool :=
  Nat.eqb (clientId b) userId || Nat.eqb (coachId b) userId.

(** [.sort({ date: -1 })]. *)
Definition latestFirst (l : list Booking) : list Booking :=
  FeedbackService.sortDescending date l.

Definition bookingData (d : Database) (b : Booking) : BookingData :=
  {| bd_bookingId := booking_id b;
     bd_date := date b;
     bd_state := state b;
     bd_createdAt := createdAt b;
     bd_clientId := clientId b;
     bd_coachId := coachId b;
     bd_workoutId := option_map workout_id (populatedWorkout d b);
     bd_activity :=
       match populatedWorkout d b with
       | Some w => option_map activityOf (populatedType d w)
       | None => None
       end;
     bd_timeSlot := populatedSlot d b;
     bd_clientFeedback := clientFeedback b;
     bd_coachFeedback := coachFeedback b |}.

(** The bookings of a user on the day of [date], cancelled ones included:
    [{ $gte: startOfDay, $lte: endOfDay }]. *)
Definition getBookingsForUser (d : Database) (userId : ObjectId) (date : Z)
  : list BookingData :=
  map (bookingData d)
    (latestFirst
       (filter (fun b => ofUser userId b
                         && (startOfDay date <=? Model.date b)
                         && (Model.date b <=? endOfDay date))
          (BookingModel d))).

Definition bookingRow (d : Database) (b : Booking) : Result BookingRow :=
  match populatedWorkout d b with
  | None =>
      Throw (Thrown (TypeError
        "Cannot read properties of null (reading '_id')"))
  | Some w =>
  match populatedType d w with
  | None =>
      Throw (Thrown (TypeError
        "Cannot read properties of null (reading '_id')"))
  | Some wt =>
  match populatedSlot d b with
  | None =>
      Throw (Thrown (TypeError
        "Cannot read properties of null (reading '_id')"))
  | Some slot =>
      Ok {| br_bookingId := booking_id b;
            br_clientId := clientId b;
            br_coachId := coachId b;
            br_workoutId := workout_id w;
            br_activity := activityOf wt;
            br_timeSlot := slot;
            br_date := date b;
            br_state := state b;
            br_clientFeedback := clientFeedback b;
            br_coachFeedback := coachFeedback b;
            br_createdAt := createdAt b |}
  end end end.

(** Every booking of a user; any error becomes status 500. *)
Definition getAllBookingsForUser (d : Database) (userId : ObjectId)
  : Result (list BookingRow) :=
  match mapResult (bookingRow d)
          (latestFirst (filter (ofUser userId) (BookingModel d))) with
  | Ok rows => Ok rows
  | Throw _ => Throw (HttpError 500 "Failed to fetch bookings for user")
  end.

(** *** Mappings of a coach to workout types *)

Import Transaction.

Definition setWorkouts (d : Database) (ws : list Workout) : Database :=
  {| TimeSlotModel := TimeSlotModel d;
     WorkoutOptionModel := WorkoutOptionModel d;
     WorkoutModel := ws;
     BookingModel := BookingModel d;
     FeedbackModel := FeedbackModel d |}.

Definition setWorkoutOptions (d : Database) (os : list WorkoutOption)
  : Database :=
  {| TimeSlotModel := TimeSlotModel d;
     WorkoutOptionModel := os;
     WorkoutModel := WorkoutModel d;
     BookingModel := BookingModel d;
     FeedbackModel := FeedbackModel d |}.

(** What the constructor of an identity throws on a string that is none;
    the text is that of recent versions of the library. *)
Definition BSONError : JsError :=
  {| name := "BSONError"; code := None;
     Errors.message :=
       "input must be a 24 character hex string, 12 byte Uint8Array, or an integer" |}.

(** [newWorkoutIds.map(id => ({ coachId, workoutType: id }))], with the
    identities that [insertMany] gives the documents. *)
Fixpoint newMappings (coachId : ObjectId) (ids : list ObjectId) (n : ObjectId)
  : list Workout :=
  match ids with
  | [] => []
  | id :: ids' =>
      {| workout_id := n; workoutType := id; workout_coachId := coachId |}
      :: newMappings coachId ids' (S n)
  end.

(** [{ $addToSet: { coachesId: coachId } }]: the coach joins the array
    unless it is there. *)
Definition addToSet (x : ObjectId) (l : list ObjectId) : list ObjectId :=
  if existsb (Nat.eqb x) l then l else (l ++ [x])%list.

Definition withCoach (coachId : ObjectId) (o : WorkoutOption) : WorkoutOption :=
  {| option_id := option_id o; option_name := option_name o;
     coachesId := addToSet coachId (coachesId o) |}.

(** [WorkoutOption.findByIdAndUpdate(workoutId, { $addToSet: ... })] on
    the data: the option with that identity gains the coach, and nothing
    happens where there is no such option. *)
Definition addCoach (workoutId coachId : ObjectId) (d : Database) : Database :=
  setWorkoutOptions d
    (map (fun o => if Nat.eqb (option_id o) workoutId
                   then withCoach coachId o else o)
       (WorkoutOptionModel d)).

Section Mappings.

Context {bson : Bson}.

(** [ids.map(id => new Types.ObjectId(id))]; [None] where the constructor
    throws. *)
Fixpoint objectIds (ids : list string) : option (list ObjectId) :=
  match ids with
  | [] => Some []
  | id :: ids' =>
      match newObjectId id with
      | None => None
      | Some x => option_map (cons x) (objectIds ids')
      end
  end.

(** [newWorkoutIds.map(workoutId => WorkoutOption.findByIdAndUpdate(
    workoutId, { $addToSet: { coachesId: coachId } }, { session }))] and
    the wait for all of them: one staged write for each new workout type,
    any of which the store may refuse.  Mongoose casts the two strings to
    identities with the constructor. *)
Fixpoint updateOptions (faults : Faults) (coachId : string)
    (newWorkoutIds : list string) (s : Session) : Result unit * Session :=
  match newWorkoutIds with
  | [] => (Ok tt, s)
  | workoutId :: ids' =>
      match newObjectId workoutId, newObjectId coachId with
      | Some wid, Some cid =>
          match write faults true (addCoach wid cid) s with
          | (Throw e, s') => (Throw e, s')
          | (Ok _, s') => updateOptions faults coachId ids' s'
          end
      | _, _ => (Throw (Thrown BSONError), s)
      end
  end.

(** The callback of [session.withTransaction] in [createMappings].  The
    coach and the workout types arrive as strings; the mappings that exist
    are found by identity, and a workout type of the request is new when
    its string is none of theirs written out: [includes] compares
    strings. *)
Definition createMappingsTransaction (faults : Faults) (coachId : string)
    (workoutIds : list string) (n : ObjectId) (s : Session)
  : Result (list Workout) * Session * ObjectId :=
  match newObjectId coachId, objectIds workoutIds with
  | Some coach, Some ids =>
      let existingMappings :=
        filter (fun m => Nat.eqb (workout_coachId m) coach
                         && existsb (Nat.eqb (workoutType m)) ids)
               (WorkoutModel (staged s)) in
      let existingWorkoutIds :=
        map (fun m => toString (workoutType m)) existingMappings in
      let newWorkoutIds :=
        filter (fun id => negb (existsb (String.eqb id) existingWorkoutIds))
               workoutIds in
      if Nat.eqb (List.length newWorkoutIds) 0
      then (Ok [], s, n)
      else
        match objectIds newWorkoutIds with
        | None => (Throw (Thrown BSONError), s, n)
        | Some newIds =>
            let data := newMappings coach newIds n in
            let n' := (n + List.length newIds)%nat in
            match write faults true
                    (fun d => setWorkouts d (WorkoutModel d ++ data)) s with
            | (Throw e, s1) => (Throw e, s1, n')
            | (Ok _, s1) =>
                match updateOptions faults coachId newWorkoutIds s1 with
                | (Throw e, s2) => (Throw e, s2, n')
                | (Ok _, s2) => (Ok data, s2, n')
                end
            end
        end
  | _, _ => (Throw (Thrown BSONError), s, n)
  end.

Definition createMappings (faults : Faults) (w : World) (coachId : string)
    (workoutIds : list string) : Result (list Workout) * World :=
  withTransaction w (createMappingsTransaction faults coachId workoutIds).

End Mappings.

(** *** Workout options *)

Definition alreadyExists : JsError :=
  {| name := "Error"; code := None;
     Errors.message := "Workout option already exists" |}.

(** The schema of a workout option requires a name, and mongoose takes an
    empty string for a missing one.  The text of the validation error is
    abridged. *)
Definition nameRequired : JsError :=
  {| name := "ValidationError"; code := None;
     Errors.message := "WorkoutOption validation failed" |}.

(** [createWorkoutOption]: the look-up by name, then the save of a new
    document, outside any transaction.  The document has its identity from
    its construction, whether the save succeeds or not. *)
Definition createWorkoutOption (faults : Faults) (w : World) (name : string)
  : Result WorkoutOption * World :=
  let d := database w in
  match find (fun o => String.eqb (option_name o) name)
             (WorkoutOptionModel d) with
  | Some _ => (Throw (Thrown alreadyExists), w)
  | None =>
      let workout := {| option_id := nextObjectId w; option_name := name;
                        coachesId := [] |} in
      let w' := {| database := d; nextObjectId := S (nextObjectId w) |} in
      if String.eqb name ""
      then (Throw (Thrown nameRequired), w')
      else
        match faults 0%nat with
        | Some e => (Throw (Thrown e), w')
        | None =>
            (Ok workout,
             {| database :=
                  setWorkoutOptions d (WorkoutOptionModel d ++ [workout]);
                nextObjectId := S (nextObjectId w) |})
        end
  end.

Section Service.

Context {js : Runtime}.

Variable Date_parse : string -> Date.
Variable userService : UserService.

(** The coaches of the mappings of a workout type, without those the
    directory does not return: [coaches.filter(Boolean)]. *)
Definition getCoachesByWorkout (d : Database) (workoutId : ObjectId)
  : list Profile :=
  flat_map (fun entry =>
              match getCoachData userService (workout_coachId entry) with
              | Some coach => [coach]
              | None => []
              end)
    (filter (fun w => Nat.eqb (workoutType w) workoutId) (WorkoutModel d)).

(** The bookings of a user for a day, as the coach service serves them:
    the date, a [Date], goes through the date helper of the coach service,
    and the role must be that of a coach or of a client. *)
Definition getUserBookingsForDay (now : Z) (d : Database) (userId : ObjectId)
    (date : Date) (role : string) : Result (list BookingData) :=
  match CoachService.parseAndValidateDate Date_parse now (DateObject date) with
  | Throw e => Throw e
  | Ok selectedDate =>
      if String.eqb role "coach"
      then Ok (getBookingsForUser d userId selectedDate)
      else if String.eqb role "client"
      then Ok (getBookingsForUser d userId selectedDate)
      else Throw (HttpError 403 "Unauthorized access")
  end.

End Service.

End WorkoutListings.

(** ** A small gym, used to run the services on concrete requests *)

Module Gym.

Import JsDate Errors Model Transaction WorkoutService.

(** Tuesday 2026-11-03, 09:30 local time. *)
Definition now : Z := 1793698200000.

Definition midnight (y m d : Z) : Z := days_from_civil y m d * msPerDay.

Definition morning : TimeSlot :=
  {| slot_id := 1%nat; startTime := "09:00"; endTime := "10:00" |}.
Definition evening : TimeSlot :=
  {| slot_id := 2%nat; startTime := "18:00"; endTime := "19:00" |}.

Definition person (n : ObjectId) (first : string) (r : string) : Profile :=
  {| user_id := n; firstName := first; lastName := "Doe";
     email := first ++ "@gym.example"; role := r; image := "";
     title := ""; about := ""; coachRating := 0 |}.

(** Coaches 10 and 11, clients 20 and 21. *)
Definition users : UserService :=
  {| getCoachData := fun n =>
       match n with
       | 10%nat => Some (person 10%nat "Ann" "coach")
       | 11%nat => Some (person 11%nat "Bob" "coach")
       | _ => None
       end;
     getUserData := fun n =>
       match n with
       | 10%nat => Some (person 10%nat "Ann" "coach")
       | 11%nat => Some (person 11%nat "Bob" "coach")
       | 20%nat => Some (person 20%nat "Xia" "client")
       | 21%nat => Some (person 21%nat "Yan" "client")
       | _ => None
       end |}.

Definition emptyGym : Database :=
  {| TimeSlotModel := [morning; evening];
     WorkoutOptionModel :=
       [ {| option_id := 40%nat; option_name := "Yoga";
            coachesId := [10%nat; 11%nat] |} ];
     WorkoutModel :=
       [ {| workout_id := 30%nat; workoutType := 40%nat; workout_coachId := 10%nat |};
         {| workout_id := 31%nat; workoutType := 40%nat; workout_coachId := 11%nat |} ];
     BookingModel := [];
     FeedbackModel := [] |}.

Definition world0 : World := {| database := emptyGym; nextObjectId := 100%nat |}.

(** The built-in parser on the one date-time string used below; a date-time
    without an offset is local time. *)
Definition parse (s : string) : Date :=
  if String.eqb s "2026-11-03T09:30" then Some now else None.

(** A parser that is never consulted by the requests below. *)
Definition noParse : string -> Date := fun _ => None.

(** The runtime of the examples.  The times of day of the slots below are
    digits, which [Number] reads without the runtime; the one other field
    that occurs is a minute with a blank after it. *)
#[global] Instance runtime : JsString.Runtime :=
  {| JsString.NumberOf :=
       fun s => if String.eqb s "00 " then Some 0 else None |}.

(** The identities of the examples: a number is written with 24
    hexadecimal digits in lower case (with more where it needs them, the
    counter of the model having no bound), and is read from 24 or more
    hexadecimal digits in either case. *)
Definition lowerCase (c : ascii) : ascii :=
  let n := nat_of_ascii c in
  if (65 <=? n)%nat && (n <=? 70)%nat then ascii_of_nat (n + 32) else c.

Fixpoint toLowerCase (s : string) : string :=
  match s with
  | EmptyString => EmptyString
  | String c s' => String (lowerCase c) (toLowerCase s')
  end.

Fixpoint zeros (n : nat) : string :=
  match n with
  | O => EmptyString
  | S n' => String "0"%char (zeros n')
  end.

Definition hex (id : ObjectId) : string :=
  HexadecimalString.NilEmpty.string_of_uint (Nat.to_hex_uint id).

Definition toHexString (id : ObjectId) : string :=
  (zeros (24 - String.length (hex id)) ++ hex id)%string.

Definition fromHexString (s : string) : option ObjectId :=
  if (24 <=? String.length s)%nat
  then option_map Nat.of_hex_uint
         (HexadecimalString.NilEmpty.uint_of_string (toLowerCase s))
  else None.

Lemma toLowerCase_hex (d : Hexadecimal.uint) :
  toLowerCase (HexadecimalString.NilEmpty.string_of_uint d)
  = HexadecimalString.NilEmpty.string_of_uint d.
Proof. induction d; simpl; rewrite ?IHd; reflexivity. Qed.

Lemma toLowerCase_zeros (k : nat) (s : string) :
  toLowerCase (zeros k ++ s) = (zeros k ++ toLowerCase s)%string.
Proof. induction k as [|k IH]; simpl; [reflexivity | now rewrite IH]. Qed.

Lemma length_append (a b : string) :
  String.length (a ++ b) = (String.length a + String.length b)%nat.
Proof. induction a as [|c a IH]; simpl; [reflexivity | now rewrite IH]. Qed.

Lemma length_zeros (k : nat) : String.length (zeros k) = k.
Proof. induction k as [|k IH]; simpl; [reflexivity | now rewrite IH]. Qed.

Lemma of_zeros (k : nat) (s : string) (d : Hexadecimal.uint) :
  HexadecimalString.NilEmpty.uint_of_string s = Some d ->
  option_map Nat.of_hex_uint
    (HexadecimalString.NilEmpty.uint_of_string (zeros k ++ s))
  = Some (Nat.of_hex_uint d).
Proof.
  intro H. induction k as [|k IH]; simpl.
  - now rewrite H.
  - destruct (HexadecimalString.NilEmpty.uint_of_string (zeros k ++ s))
      as [d'|]; [|discriminate].
    simpl in *. injection IH as IH. f_equal. rewrite <- IH. reflexivity.
Qed.

Lemma fromHexString_toHexString (id : ObjectId) :
  fromHexString (toHexString id) = Some id.
Proof.
  unfold fromHexString, toHexString.
  replace (24 <=? String.length _)%nat with true
    by (symmetry; apply Nat.leb_le;
        rewrite length_append, length_zeros; lia).
  rewrite toLowerCase_zeros. unfold hex. rewrite toLowerCase_hex.
  rewrite (of_zeros _ _ _ (HexadecimalString.NilEmpty.usu _)).
  now rewrite HexadecimalNat.Unsigned.of_to.
Qed.

#[global] Instance bson : Bson :=
  {| newObjectId := fromHexString;
     toString := toHexString;
     newObjectId_toString := fromHexString_toHexString |}.

Definition request (client workout coach slot : ObjectId) (t : Z)
  : BookWorkoutParams :=
  {| p_clientId := client; p_workoutId := workout; p_coachId := coach;
     p_timeSlotId := slot; p_date := DateObject (Some t) |}.

(** Midnight of Wednesday 2026-11-04 and of today. *)
Definition tomorrow : Z := midnight 2026 11 4.
Definition today : Z := midnight 2026 11 3.

(** Client 20 books coach 10 for tomorrow morning. *)
Definition request1 : BookWorkoutParams :=
  request 20%nat 30%nat 10%nat 1%nat tomorrow.

Definition world1 : World :=
  snd (bookWorkout noParse users noFaults now world0 request1).

Definition booking1 : Booking :=
  {| booking_id := 102%nat; timeSlotId := 1%nat; coachId := 10%nat;
     clientId := 20%nat; workoutId := 30%nat; date := tomorrow;
     state := SCHEDULED;
     clientFeedback := Some 100%nat; coachFeedback := Some 101%nat;
     createdAt := now; updatedAt := now |}.

(** A ledger from client 20 to coach 10 that received two entries, a
    rating of 2 and, a day later, a rating of 5. *)
Definition firstEntry : FeedbackEntry :=
  {| message := "slow start"; rating := Some 2;
     timestamp := tomorrow + 10 * msPerHour |}.
Definition lastEntry : FeedbackEntry :=
  {| message := "great"; rating := Some 5;
     timestamp := tomorrow + 34 * msPerHour |}.

Definition ledgerTwice : Feedback :=
  FeedbackService.pushEntry
    (FeedbackService.pushEntry
       {| feedback_id := 100%nat; from := 20%nat; to := 10%nat;
          history := [] |}
       firstEntry)
    lastEntry.

Definition gymWithFeedback : Database := setFeedbacks emptyGym [ledgerTwice].

(** Client 20 cancels that booking at once. *)
Definition world2 : World :=
  snd (cancelBooking users noFaults now world1 102%nat 20%nat).

(** Tomorrow at 11:00, after the morning slot has ended. *)
Definition afterSession : Z := tomorrow + 11 * msPerHour.

(** Today at 20:00, after every slot has started. *)
Definition evening8 : Z := today + 20 * msPerHour.

(** The gym without any time slot. *)
Definition noSlots : Database :=
  {| TimeSlotModel := [];
     WorkoutOptionModel := WorkoutOptionModel emptyGym;
     WorkoutModel := WorkoutModel emptyGym;
     BookingModel := [];
     FeedbackModel := [] |}.

(** Queries without a date, the second asking for the morning slot. *)
Definition anySlot : FilterOptions :=
  {| f_workoutId := None; f_coachId := None; f_timeSlotId := None;
     f_date := None |}.
Definition morningSlot : FilterOptions :=
  {| f_workoutId := None; f_coachId := None; f_timeSlotId := Some 1%nat;
     f_date := None |}.

(** Queries for tomorrow, the second asking for the morning slot. *)
Definition anySlotTomorrow : FilterOptions :=
  {| f_workoutId := None; f_coachId := None; f_timeSlotId := None;
     f_date := Some (DateObject (Some tomorrow)) |}.
Definition morningSlotTomorrow : FilterOptions :=
  {| f_workoutId := None; f_coachId := None; f_timeSlotId := Some 1%nat;
     f_date := Some (DateObject (Some tomorrow)) |}.

(** The row of coach 11 that the search for tomorrow returns once the
    morning slot is booked. *)
Definition rowOfBob : CoachWorkoutAvailability :=
  {| a_coachId := 11%nat; a_firstName := "Bob"; a_lastName := "Doe";
     a_role := "coach"; a_image := ""; a_title := ""; a_about := "";
     a_rating := 0; a_workoutId := 31%nat; a_activityId := 40%nat;
     a_workoutName := "Yoga"; a_timeSlotId := Some 2%nat;
     a_timeSlot := Some "18:00-19:00"; a_date := tomorrow;
     a_alternativeTimeSlots := [] |}.

(** The gym after the first booking, once the workout mappings have been
    removed: the booking refers to a workout that is gone. *)
Definition orphaned : Database :=
  {| TimeSlotModel := TimeSlotModel (database world1);
     WorkoutOptionModel := WorkoutOptionModel (database world1);
     WorkoutModel := [];
     BookingModel := BookingModel (database world1);
     FeedbackModel := FeedbackModel (database world1) |}.

(** The gym with one more mapping, for a coach the directory does not
    know. *)
Definition withStranger : Database :=
  {| TimeSlotModel := TimeSlotModel emptyGym;
     WorkoutOptionModel := WorkoutOptionModel emptyGym;
     WorkoutModel :=
       WorkoutModel emptyGym
       ++ [ {| workout_id := 32%nat; workoutType := 40%nat;
               workout_coachId := 12%nat |} ];
     BookingModel := [];
     FeedbackModel := [] |}.

(** Client 20 asks for this morning's slot at 09:30. *)
Definition requestThisMorning : BookWorkoutParams :=
  request 20%nat 30%nat 10%nat 1%nat now.

(** The last millisecond of tomorrow, 23:59:59.999. *)
Definition lastInstant : Z := endOfDay tomorrow.

(** Clients 20 and 21 ask for the same coach and slot at that instant. *)
Definition requestLate : BookWorkoutParams :=
  request 20%nat 30%nat 10%nat 1%nat lastInstant.
Definition requestLateToo : BookWorkoutParams :=
  request 21%nat 30%nat 10%nat 1%nat lastInstant.
(** Client 20 asks for the same slot at that instant with coach 11. *)
Definition requestLateOtherCoach : BookWorkoutParams :=
  request 20%nat 31%nat 11%nat 1%nat lastInstant.

Definition worldLate : World :=
  snd (bookWorkout noParse users noFaults now world0 requestLate).

(** Client 21 books coach 11 for tomorrow morning. *)
Definition requestOtherCoach : BookWorkoutParams :=
  request 21%nat 31%nat 11%nat 1%nat tomorrow.

Definition worldOtherCoach : World :=
  snd (bookWorkout noParse users noFaults now world0 requestOtherCoach).

End Gym.

(** ** Notions used to state the properties *)

Module Spec.

Import JsDate JsString Errors Model Transaction WorkoutService.

Section Readings.

Context {js : Runtime}.
Context {bson : Bson}.

(** The instant at which a slot starts today and at which it ends on a
    given date. *)
Definition slotStartToday (now : Z) (slot : TimeSlot) : Date :=
  setHoursOf now (hoursMinutes (startTime slot)).

Definition slotEnd (date : Z) (slot : TimeSlot) : Date :=
  setHoursOf date (hoursMinutes (endTime slot)).

(** The reading of the slot check by the end of the slot: the check lets a
    request through exactly when the end of the slot on the booking date is
    still to come. *)
Definition passesWhileEndAhead (now date : Z) (slot : TimeSlot) : Prop :=
  isTimeSlotPassed now date (startTime slot) = false
  <-> gtb (slotEnd date slot) (Some now) = true.

(** The world a booking leaves when its transaction commits. *)
Definition bookedWorld (now bookingDate : Z) (w : World)
    (p : BookWorkoutParams) : World :=
  let n := nextObjectId w in
  let cf := newClientFeedback n p in
  let kf := newCoachFeedback (S n) p in
  {| database :=
       insertBooking (newBooking (S (S n)) now bookingDate p cf kf)
         (insertFeedback kf (insertFeedback cf (database w)));
     nextObjectId := S (S (S n)) |}.

(** Identities in use lie below the counter. *)
Definition freshIds (w : World) : Prop :=
  Forall (fun b => (booking_id b < nextObjectId w)%nat)
         (BookingModel (database w)).

(** What the per-coach availability reports for one slot: [Some true] when
    the slot is listed as booked, [Some false] when it is listed as free. *)
Definition slotBooked (r : Result (list CoachService.SlotStatus))
    (slot : ObjectId) : option bool :=
  match r with
  | Ok l =>
      option_map CoachService.isBooked
        (find (fun s => Nat.eqb (CoachService.id s) slot) l)
  | Throw _ => None
  end.

(** The free set of the composite search for one day. *)
Definition freeSlots (now day : Z) (d : Database) : list ObjectId :=
  map slot_id (availableAlternativeTimeSlots now (startOfDay day) d).

(** The ledger of a booking that takes the feedback of an actor: the
    client's ledger for the client, the coach's ledger otherwise. *)
Definition ledgerOf (userId : ObjectId) (b : Booking) : option ObjectId :=
  if Nat.eqb userId (clientId b) then clientFeedback b else coachFeedback b.

(** The party of a booking under whose name the feedback is filed, and
    the other party. *)
Definition author (userId : ObjectId) (b : Booking) : ObjectId :=
  if Nat.eqb userId (clientId b) then clientId b else coachId b.

Definition counterpart (userId : ObjectId) (b : Booking) : ObjectId :=
  if Nat.eqb userId (clientId b) then coachId b else clientId b.

(** The ledgers addressed to a user, and whether a ledger has entries. *)
Definition ledgersTo (d : Database) (userId : ObjectId) : list Feedback :=
  filter (fun fb => Nat.eqb (to fb) userId) (FeedbackModel d).

Definition hasEntries (fb : Feedback) : bool :=
  match history fb with
  | [] => false
  | _ :: _ => true
  end.

(** The sum of the five buckets of a histogram. *)
Definition histogramTotal (r : FeedbackService.RatingDistribution) : Z :=
  FeedbackService.star5 r + FeedbackService.star4 r + FeedbackService.star3 r
  + FeedbackService.star2 r + FeedbackService.star1 r.

(** The entry a ledger received last: [pushEntry] puts entries at the end. *)
Definition mostRecent (fb : Feedback) : option FeedbackEntry :=
  last (map Some (history fb)) None.

(** The reading of the date policy by normalisation: an accepted date is a
    local midnight not before today's, and a refusal carries status 400. *)
Definition normalizedOrRefused (now : Z) (r : Result Z) : Prop :=
  match r with
  | Ok t => t = startOfDay t /\ startOfDay now <= t
  | Throw e => exists m, e = HttpError 400 m
  end.

(** The workout mappings that a filter of the composite search selects. *)
Definition matchingWorkouts (f : FilterOptions) (d : Database) : list Workout :=
  filter (fun w =>
            match f_workoutId f with
            | Some id => Nat.eqb (workoutType w) id
            | None => true
            end
            && match f_coachId f with
               | Some id => Nat.eqb (workout_coachId w) id
               | None => true
               end)
         (WorkoutModel d).

(** The booking request a client makes from one row of the search, for a
    slot of that row. *)
Definition requestFor (client : ObjectId) (row : CoachWorkoutAvailability)
    (slot : ObjectId) : BookWorkoutParams :=
  {| p_clientId := client;
     p_workoutId := a_workoutId row;
     p_coachId := a_coachId row;
     p_timeSlotId := slot;
     p_date := DateObject (Some (a_date row)) |}.

(** The directory answers a lookup with the profile of the identity asked
    for. *)
Definition directoryFaithful (users : UserService) : Prop :=
  forall id p, getCoachData users id = Some p -> user_id p = id.

(** The slots a row of the search offers: the selected one and the
    alternatives. *)
Definition offered (row : CoachWorkoutAvailability) (slot : ObjectId) : Prop :=
  a_timeSlotId row = Some slot
  \/ In slot (map slot_id (a_alternativeTimeSlots row)).

(** The first entry of every ledger that has one, in the order of the
    ledgers. *)
Definition firstEntries (l : list Feedback) : list FeedbackEntry :=
  flat_map (fun fb => match history fb with
                      | e :: _ => [e]
                      | [] => []
                      end) l.

(** The sum of the ratings of the entries, undefined once an entry has no
    rating. *)
Fixpoint ratingSum (es : list FeedbackEntry) : option Z :=
  match es with
  | [] => Some 0
  | e :: es' =>
      match rating e, ratingSum es' with
      | Some r, Some t => Some (r + t)
      | _, _ => None
      end
  end.

(** The number of entries rated [k]. *)
Definition rated (k : Z) (es : list FeedbackEntry) : Z :=
  Z.of_nat (List.length
              (filter (fun e => match rating e with
                                | Some r => r =? k
                                | None => false
                                end) es)).

(** The ledgers a booking refers to. *)
Definition refs (b : Booking) : list ObjectId :=
  (match clientFeedback b with Some i => [i] | None => [] end
   ++ match coachFeedback b with Some i => [i] | None => [] end)%list.

(** The discipline that ties ledgers to bookings. *)
Definition disciplined (F : list Feedback) (B : list Booking) (n : ObjectId)
  : Prop :=
  (forall fb, In fb F -> (feedback_id fb < n)%nat)
  /\ (forall fb, In fb F -> (List.length (history fb) <= 1)%nat)
  /\ (forall b fb, In b B -> state b <> COMPLETED -> In fb F ->
        In (feedback_id fb) (refs b) -> history fb = [])
  /\ (forall b i, In b B -> In i (refs b) -> (i < n)%nat)
  /\ (forall b1 b2 i, In b1 B -> In b2 B -> In i (refs b1) -> In i (refs b2) ->
        booking_id b1 = booking_id b2).

Definition ledgerDiscipline (w : World) : Prop :=
  disciplined (FeedbackModel (database w)) (BookingModel (database w))
    (nextObjectId w).

(** A request to one of the three operations that write, with the clock
    and the behaviour of the store at the time it is served. *)
Inductive Request :=
| BookWorkout (faults : Faults) (now : Z) (p : BookWorkoutParams)
| CancelBooking (faults : Faults) (now : Z) (bookingId userId : ObjectId)
| AddFeedback (faults : Faults) (now : Z) (userId bookingId : ObjectId)
    (message : string) (rating : Z).

Definition serve (Date_parse : string -> Date) (users : UserService)
    (w : World) (rq : Request) : World :=
  match rq with
  | BookWorkout faults now p => snd (bookWorkout Date_parse users faults now w p)
  | CancelBooking faults now bookingId userId =>
      snd (cancelBooking users faults now w bookingId userId)
  | AddFeedback faults now userId bookingId message rating =>
      snd (FeedbackService.addFeedback faults now w userId bookingId
             message rating)
  end.




(** Whether the coach is mapped to the workout type. *)
Definition mapped (d : Database) (coach workoutId : ObjectId) : bool :=
  existsb (fun m => Nat.eqb (workout_coachId m) coach
                    && Nat.eqb (workoutType m) workoutId)
          (WorkoutModel d).

(** Whether the coach has a mapping whose workout type is written as the
    string. *)
Definition mappedAs (d : Database) (coach : ObjectId) (id : string) : bool :=
  existsb (fun m => Nat.eqb (workout_coachId m) coach
                    && String.eqb (toString (workoutType m)) id)
          (WorkoutModel d).

(** Whether a string is the way an identity is written. *)
Definition canonical (id : string) : bool :=
  match newObjectId id with
  | Some x => String.eqb (toString x) id
  | None => false
  end.

(** The requests served one after the other. *)
Definition run (Date_parse : string -> Date) (users : UserService)
    (w : World) (rqs : list Request) : World :=
  fold_left (serve Date_parse users) rqs w.

End Readings.

End Spec.

(** ** Properties *)

Import JsDate JsString Errors Model Transaction.

(** *** Documents and dates *)

Lemma state_eqb_eq (a b : BookingStateEnum) : state_eqb a b = true <-> a = b.
Proof.
  destruct a, b; simpl; split; intro H; try reflexivity; discriminate H.
Qed.

Lemma findById_key {A} (key : A -> ObjectId) (i : ObjectId) (l : list A) (x : A) :
  findById key i l = Some x -> key x = i.
Proof.
  unfold findById. intro H. apply find_some in H.
  destruct H as [_ H]. now apply Nat.eqb_eq.
Qed.

Lemma findById_replaceById {A} (key : A -> ObjectId) (doc old : A) (l : list A) :
  findById key (key doc) l = Some old ->
  findById key (key doc) (replaceById key doc l) = Some doc.
Proof.
  unfold findById, replaceById.
  induction l as [|x l IH]; simpl; [discriminate|].
  destruct (Nat.eqb (key x) (key doc)) eqn:E.
  - intros _. simpl. now rewrite Nat.eqb_refl.
  - intro H. simpl. rewrite E. now apply IH.
Qed.

Lemma startOfDay_le (t : Z) : startOfDay t <= t.
Proof.
  unfold startOfDay, Day, msPerDay.
  pose proof (Z.mul_div_le t 86400000). lia.
Qed.

Lemma startOfDay_lt_next (t : Z) : t < startOfDay t + msPerDay.
Proof.
  unfold startOfDay, Day, msPerDay.
  pose proof (Z.mod_pos_bound t 86400000).
  pose proof (Z.div_mod t 86400000). lia.
Qed.

Lemma startOfDay_multiple (k : Z) : startOfDay (k * msPerDay) = k * msPerDay.
Proof.
  unfold startOfDay, Day, msPerDay. now rewrite Z.div_mul.
Qed.

Lemma startOfDay_idem (t : Z) : startOfDay (startOfDay t) = startOfDay t.
Proof. unfold startOfDay at 2 3. apply startOfDay_multiple. Qed.

(** *** Cancellation *)

Section Cancellation.

Context {js : Runtime}.

Import WorkoutService.

Variable users : UserService.
Variable faults : Faults.
Variable now : Z.
Variable w : World.
Variables bookingId userId : ObjectId.
Variable b : Booking.

Hypothesis found :
  findById booking_id bookingId (BookingModel (database w)) = Some b.
Hypothesis known : getUserData users userId <> None.
Hypothesis party : userId = clientId b \/ userId = coachId b.

Lemma party_authorized :
  Nat.eqb (clientId b) userId || Nat.eqb (coachId b) userId = true.
Proof.
  apply orb_true_iff.
  destruct party as [H | H]; [left | right]; rewrite H; apply Nat.eqb_refl.
Qed.

Lemma cancel_needs_scheduled :
  state b <> SCHEDULED ->
  exists m, cancelBooking users faults now w bookingId userId
            = (Throw (HttpError 400 m), w).
Proof.
  intro Hs. unfold cancelBooking, cancelBookingChecks. rewrite found.
  destruct (getUserData users userId); [|contradiction].
  rewrite party_authorized. simpl.
  destruct (state b); simpl; try (eexists; reflexivity). contradiction.
Qed.

Lemma cancel_needs_lead_time :
  hoursDiff now (date b) < 12 ->
  exists m, cancelBooking users faults now w bookingId userId
            = (Throw (HttpError 400 m), w).
Proof.
  intro Hh. unfold cancelBooking, cancelBookingChecks. rewrite found.
  destruct (getUserData users userId); [|contradiction].
  rewrite party_authorized. simpl.
  destruct (state b); simpl; try (eexists; reflexivity).
  apply Z.ltb_lt in Hh. rewrite Hh. eexists; reflexivity.
Qed.

Lemma cancel_checks_pass :
  state b = SCHEDULED -> 12 <= hoursDiff now (date b) ->
  cancelBookingChecks users now (database w) bookingId userId = Ok b.
Proof.
  intros Hs Hh. unfold cancelBookingChecks. rewrite found.
  destruct (getUserData users userId); [|contradiction].
  rewrite party_authorized, Hs. simpl.
  apply Z.ltb_ge in Hh. now rewrite Hh.
Qed.

Lemma cancel_succeeds :
  state b = SCHEDULED -> 12 <= hoursDiff now (date b) ->
  faults 0%nat = None ->
  exists w',
    cancelBooking users faults now w bookingId userId
    = (Ok (response (cancelled now b)), w')
    /\ findById booking_id bookingId (BookingModel (database w'))
       = Some (cancelled now b)
    /\ BookingModel (database w')
       = replaceById booking_id (cancelled now b) (BookingModel (database w))
    /\ FeedbackModel (database w') = FeedbackModel (database w)
    /\ TimeSlotModel (database w') = TimeSlotModel (database w)
    /\ nextObjectId w' = nextObjectId w.
Proof.
  intros Hs Hh Hf. unfold cancelBooking.
  rewrite (cancel_checks_pass Hs Hh), Hf.
  eexists. split; [reflexivity|]. simpl.
  repeat split.
  pose proof (findById_key _ _ _ _ found) as Hk.
  replace bookingId with (booking_id (cancelled now b)) by exact Hk.
  apply findById_replaceById with (old := b).
  simpl. now rewrite Hk.
Qed.

End Cancellation.

(** C3.  For a booking that exists and an actor the directory knows who is
    its client or its coach: cancellation is refused with status 400 in
    every state other than scheduled, and whenever the whole hours from now
    to the booking date, rounded down, are fewer than 12 (11 h 59 min counts
    as 11); from the scheduled state with at least 12 whole hours, and the
    store accepting the save, it succeeds and the stored booking is
    cancelled. *)
Theorem cancel_policy
    (users : UserService) (faults : Faults) (now : Z) (w : World)
    (bookingId userId : ObjectId) (b : Booking) :
  findById booking_id bookingId (BookingModel (database w)) = Some b ->
  getUserData users userId <> None ->
  userId = clientId b \/ userId = coachId b ->
  let r := WorkoutService.cancelBooking users faults now w bookingId userId in
  (state b = CANCELLED \/ state b = COMPLETED \/ state b = WAITING_FOR_FEEDBACK ->
     exists m, r = (Throw (HttpError 400 m), w))
  /\ (WorkoutService.hoursDiff now (date b) < 12 ->
        exists m, r = (Throw (HttpError 400 m), w))
  /\ WorkoutService.hoursDiff now (now + 11 * msPerHour + 59 * msPerMinute) = 11
  /\ (state b = SCHEDULED -> 12 <= WorkoutService.hoursDiff now (date b) ->
      faults 0%nat = None ->
        exists resp w',
          r = (Ok resp, w')
          /\ WorkoutService.r_state resp = CANCELLED
          /\ exists b',
               findById booking_id bookingId (BookingModel (database w'))
               = Some b'
               /\ state b' = CANCELLED).
Proof.
  intros found known party r. subst r. repeat split.
  - intro Hs.
    apply (cancel_needs_scheduled users faults now w bookingId userId b
             found known party).
    destruct Hs as [H | [H | H]]; rewrite H; discriminate.
  - intro Hh.
    exact (cancel_needs_lead_time users faults now w bookingId userId b
             found known party Hh).
  - unfold WorkoutService.hoursDiff, msPerHour, msPerMinute.
    replace (now + 11 * 3600000 + 59 * 60000 - now) with 43140000 by lia.
    reflexivity.
  - intros Hs Hh Hf.
    destruct (cancel_succeeds users faults now w bookingId userId b
                found known party Hs Hh Hf) as (w' & Hr & Hb & _).
    exists (WorkoutService.response (WorkoutService.cancelled now b)), w'.
    split; [exact Hr|]. split; [reflexivity|].
    exists (WorkoutService.cancelled now b). split; [exact Hb | reflexivity].
Qed.

(** *** Booking: the outcome of the transaction *)

Section Booking.

Context {js : Runtime}.

Import WorkoutService Spec.

Variable Date_parse : string -> Date.
Variable users : UserService.

Lemma bookWorkoutCatch_thrown (e : JsError) :
  exists c m,
    bookWorkoutCatch (Thrown e) = HttpError c m
    /\ (m = "Invalid booking data" \/ m = "This booking already exists"
        \/ m = "Failed to book workout").
Proof.
  unfold bookWorkoutCatch.
  destruct (String.eqb (name e) "ValidationError").
  - exists 400, "Invalid booking data". auto.
  - destruct (code e) as [[|q|q]|].
    + exists 500, "Failed to book workout". auto.
    + destruct (Pos.eq_dec q 11000) as [-> | Hq].
      * exists 409, "This booking already exists". auto.
      * exists 500, "Failed to book workout". split; auto.
        do 14 (destruct q as [q|q|]; try reflexivity);
          exfalso; apply Hq; reflexivity.
    + exists 500, "Failed to book workout". auto.
    + exists 500, "Failed to book workout". auto.
Qed.

(** Once the checks have passed, a booking either commits its three
    documents or, when the store refuses one of the three writes, leaves the
    database as it was. *)
Lemma bookWorkout_outcome (faults : Faults) (now : Z) (w : World)
    (p : BookWorkoutParams) (bookingDate : Z) :
  bookWorkoutChecks Date_parse users now (database w) p = Ok bookingDate ->
  (faults 0%nat = None /\ faults 1%nat = None /\ faults 2%nat = None
   /\ bookWorkout Date_parse users faults now w p
      = (Ok (response
               (newBooking (S (S (nextObjectId w))) now bookingDate p
                  (newClientFeedback (nextObjectId w) p)
                  (newCoachFeedback (S (nextObjectId w)) p))),
         bookedWorld now bookingDate w p))
  \/ (exists e k,
        (faults 0%nat = Some e \/ faults 1%nat = Some e \/ faults 2%nat = Some e)
        /\ bookWorkout Date_parse users faults now w p
           = (Throw (bookWorkoutCatch (Thrown e)),
              {| database := database w; nextObjectId := k |})).
Proof.
  intro Hc. unfold bookWorkout. rewrite Hc.
  unfold withTransaction, bookWorkoutTransaction, write, startTransaction.
  simpl.
  destruct (faults 0%nat) as [e0|] eqn:F0.
  { right. exists e0. eexists. split; [now left | reflexivity]. }
  simpl. destruct (faults 1%nat) as [e1|] eqn:F1.
  { right. exists e1. eexists. split; [now (right; left) | reflexivity]. }
  simpl. destruct (faults 2%nat) as [e2|] eqn:F2.
  { right. exists e2. eexists. split; [now (right; right) | reflexivity]. }
  left. repeat split.
Qed.

Lemma bookWorkout_rejected (faults : Faults) (now : Z) (w : World)
    (p : BookWorkoutParams) (e : Exn) :
  bookWorkoutChecks Date_parse users now (database w) p = Throw e ->
  bookWorkout Date_parse users faults now w p = (Throw (bookWorkoutCatch e), w).
Proof. intro Hc. unfold bookWorkout. now rewrite Hc. Qed.

(** A booking that succeeded passed the checks and left [bookedWorld]. *)
Lemma bookWorkout_Ok_inv (faults : Faults) (now : Z) (w w' : World)
    (p : BookWorkoutParams) (r : BookingResponse) :
  bookWorkout Date_parse users faults now w p = (Ok r, w') ->
  exists bookingDate,
    bookWorkoutChecks Date_parse users now (database w) p = Ok bookingDate
    /\ r = response
             (newBooking (S (S (nextObjectId w))) now bookingDate p
                (newClientFeedback (nextObjectId w) p)
                (newCoachFeedback (S (nextObjectId w)) p))
    /\ w' = bookedWorld now bookingDate w p.
Proof.
  intro H.
  destruct (bookWorkoutChecks Date_parse users now (database w) p)
    as [bd|e] eqn:Hc.
  - exists bd. split; [reflexivity|].
    destruct (bookWorkout_outcome faults now w p bd Hc)
      as [(_ & _ & _ & Hr) | (e & k & _ & Hr)];
      rewrite Hr in H; inversion H; auto.
  - rewrite (bookWorkout_rejected faults now w p e Hc) in H. discriminate.
Qed.

End Booking.

(** What distinguishes a write made with [{ session }]: an abort undoes it,
    whereas a write made without the session would stay. *)
Lemma write_in_session_aborted (faults : Faults) (f : Database -> Database)
    (d : Database) :
  abortTransaction (snd (write faults true f (startTransaction d))) = d.
Proof. unfold write. simpl. now destruct (faults 0%nat). Qed.

Lemma write_outside_session_stays (faults : Faults)
    (f : Database -> Database) (d : Database) :
  faults 0%nat = None ->
  abortTransaction (snd (write faults false f (startTransaction d))) = f d.
Proof. intro H. unfold write. simpl. now rewrite H. Qed.

(** C4.  Whatever the store does to the three writes of a booking, the
    operation ends in one of two ways: it returns the booking and the
    database has gained exactly the client-to-coach ledger, the
    coach-to-client ledger and a scheduled booking that refers to both; or
    it throws and the database is the one it started from. *)
Theorem bookWorkout_atomic {js : Runtime}
    (Date_parse : string -> Date) (users : UserService) (faults : Faults)
    (now : Z) (w : World) (p : WorkoutService.BookWorkoutParams) :
  let r := WorkoutService.bookWorkout Date_parse users faults now w p in
  let d := database w in
  let d' := database (snd r) in
  (exists resp cf kf b,
      fst r = Ok resp
      /\ FeedbackModel d' = (FeedbackModel d ++ [cf; kf])%list
      /\ BookingModel d' = (BookingModel d ++ [b])%list
      /\ from cf = WorkoutService.p_clientId p
      /\ to cf = WorkoutService.p_coachId p
      /\ from kf = WorkoutService.p_coachId p
      /\ to kf = WorkoutService.p_clientId p
      /\ clientFeedback b = Some (feedback_id cf)
      /\ coachFeedback b = Some (feedback_id kf)
      /\ state b = SCHEDULED
      /\ WorkoutService.response b = resp
      /\ TimeSlotModel d' = TimeSlotModel d
      /\ WorkoutModel d' = WorkoutModel d
      /\ WorkoutOptionModel d' = WorkoutOptionModel d)
  \/ (exists e, fst r = Throw e /\ d' = d).
Proof.
  intros r d d'. subst r d d'.
  destruct (WorkoutService.bookWorkoutChecks Date_parse users now (database w) p)
    as [bd|e] eqn:Hc.
  - destruct (bookWorkout_outcome Date_parse users faults now w p bd Hc)
      as [(_ & _ & _ & Hr) | (e & k & _ & Hr)]; rewrite Hr.
    + left.
      exists (WorkoutService.response
                (WorkoutService.newBooking (S (S (nextObjectId w))) now bd p
                   (WorkoutService.newClientFeedback (nextObjectId w) p)
                   (WorkoutService.newCoachFeedback (S (nextObjectId w)) p))),
             (WorkoutService.newClientFeedback (nextObjectId w) p),
             (WorkoutService.newCoachFeedback (S (nextObjectId w)) p),
             (WorkoutService.newBooking (S (S (nextObjectId w))) now bd p
                (WorkoutService.newClientFeedback (nextObjectId w) p)
                (WorkoutService.newCoachFeedback (S (nextObjectId w)) p)).
      simpl. rewrite <- app_assoc. simpl. repeat split.
    + right. eexists. split; reflexivity.
  - rewrite (bookWorkout_rejected Date_parse users faults now w p e Hc).
    right. eexists. split; reflexivity.
Qed.

Lemma cancel_policy_witness :
  findById booking_id 102%nat (BookingModel (database Gym.world1))
  = Some Gym.booking1
  /\ getUserData Gym.users 20%nat <> None
  /\ (20%nat = clientId Gym.booking1 \/ 20%nat = coachId Gym.booking1)
  /\ exists resp w',
       WorkoutService.cancelBooking Gym.users noFaults Gym.now Gym.world1
         102%nat 20%nat = (Ok resp, w')
       /\ WorkoutService.r_state resp = CANCELLED.
Proof.
  assert (H1 : findById booking_id 102%nat (BookingModel (database Gym.world1))
               = Some Gym.booking1) by reflexivity.
  assert (H2 : getUserData Gym.users 20%nat <> None) by (simpl; discriminate).
  assert (H3 : 20%nat = clientId Gym.booking1 \/ 20%nat = coachId Gym.booking1)
    by (left; reflexivity).
  split; [exact H1|]. split; [exact H2|]. split; [exact H3|].
  destruct (cancel_policy Gym.users noFaults Gym.now Gym.world1
              102%nat 20%nat Gym.booking1 H1 H2 H3) as (_ & _ & _ & H).
  destruct H as (resp & w' & Hr & Hs & _).
  - reflexivity.
  - vm_compute. discriminate.
  - reflexivity.
  - exists resp, w'. split; assumption.
Defined.

(** *** The slot check of a booking *)

(** The check of a booking against the clock looks at the start of the
    slot, and only when the booking is for today. *)
Lemma isTimeSlotPassed_iff {js : Runtime} (now date : Z) (st : string) :
  WorkoutService.isTimeSlotPassed now date st = true
  <-> startOfDay date = startOfDay now
      /\ ltb (WorkoutService.setHoursOf now (hoursMinutes st)) (Some now) = true.
Proof.
  unfold WorkoutService.isTimeSlotPassed, gtb.
  destruct (startOfDay date =? startOfDay now) eqn:E.
  - apply Z.eqb_eq in E. tauto.
  - apply Z.eqb_neq in E. split; [discriminate | tauto].
Qed.

(** At 09:30 the slot 09:00-10:00 of today is refused although it ends at
    10:00. *)
Lemma slot_refused_before_its_end :
  ~ Spec.passesWhileEndAhead Gym.now Gym.now Gym.morning.
Proof.
  unfold Spec.passesWhileEndAhead. intros [_ H].
  assert (E : gtb (Spec.slotEnd Gym.now Gym.morning) (Some Gym.now) = true)
    by reflexivity.
  specialize (H E). vm_compute in H. discriminate H.
Qed.

(** C5, amended.  For a request whose date, coach, workout and slot are
    valid, the slot check refuses exactly when the booking date falls on
    today's local day and the start of the slot, placed on today, lies
    strictly before now; the booking then fails with status 400 and the
    message of that check, and with no other outcome does it carry that
    message. *)
Theorem slot_check_by_start_today {js : Runtime}
    (Date_parse : string -> Date) (users : UserService) (faults : Faults)
    (now : Z) (w : World) (p : WorkoutService.BookWorkoutParams)
    (bookingDate : Z) (slot : TimeSlot) :
  WorkoutService.parseAndValidateDate Date_parse now (WorkoutService.p_date p)
  = Ok bookingDate ->
  getCoachData users (WorkoutService.p_coachId p) <> None ->
  find (fun w => Nat.eqb (workout_id w) (WorkoutService.p_workoutId p)
                 && Nat.eqb (workout_coachId w) (WorkoutService.p_coachId p))
       (WorkoutModel (database w)) <> None ->
  findById slot_id (WorkoutService.p_timeSlotId p) (TimeSlotModel (database w))
  = Some slot ->
  (WorkoutService.isTimeSlotPassed now bookingDate (startTime slot) = true
   <-> startOfDay bookingDate = startOfDay now
       /\ ltb (Spec.slotStartToday now slot) (Some now) = true)
  /\ (fst (WorkoutService.bookWorkout Date_parse users faults now w p)
      = Throw (HttpError 400 "Cannot book a time slot that has already passed")
      <-> WorkoutService.isTimeSlotPassed now bookingDate (startTime slot)
          = true).
Proof.
  intros Hd Hc Hw Hs. split; [apply isTimeSlotPassed_iff|].
  assert (Hv : WorkoutService.bookWorkoutValidate Date_parse users now
                 (database w) p
               = if WorkoutService.isTimeSlotPassed now bookingDate
                      (startTime slot)
                 then Throw (HttpError 400
                        "Cannot book a time slot that has already passed")
                 else Ok bookingDate).
  { unfold WorkoutService.bookWorkoutValidate. rewrite Hd.
    destruct (getCoachData users (WorkoutService.p_coachId p));
      [|contradiction].
    destruct (find _ (WorkoutModel (database w))); [|contradiction].
    now rewrite Hs. }
  destruct (WorkoutService.isTimeSlotPassed now bookingDate (startTime slot)).
  - split; [reflexivity|]. intros _.
    rewrite (bookWorkout_rejected Date_parse users faults now w p
               (HttpError 400 "Cannot book a time slot that has already passed"));
      [reflexivity|].
    unfold WorkoutService.bookWorkoutChecks. now rewrite Hv.
  - split; [|discriminate]. intro H. exfalso.
    destruct (WorkoutService.bookWorkoutChecks Date_parse users now
                (database w) p) as [bd|e] eqn:Hk.
    + destruct (bookWorkout_outcome Date_parse users faults now w p bd Hk)
        as [(_ & _ & _ & Hr) | (e & k & _ & Hr)]; rewrite Hr in H;
        cbn [fst] in H.
      * discriminate H.
      * destruct (bookWorkoutCatch_thrown e) as (c & m & Hm & Hcases).
        rewrite Hm in H. inversion H; subst.
        destruct Hcases as [E | [E | E]]; discriminate E.
    + rewrite (bookWorkout_rejected Date_parse users faults now w p e Hk) in H.
      simpl in H. unfold WorkoutService.bookWorkoutChecks in Hk.
      rewrite Hv in Hk.
      destruct (negb _) in Hk; [inversion Hk; subst; discriminate H|].
      destruct (negb _) in Hk; [inversion Hk; subst; discriminate H|].
      discriminate Hk.
Qed.

Lemma slot_check_by_start_today_witness :
  WorkoutService.parseAndValidateDate Gym.noParse Gym.now
    (WorkoutService.p_date Gym.requestThisMorning) = Ok Gym.now
  /\ getCoachData Gym.users (WorkoutService.p_coachId Gym.requestThisMorning)
     <> None
  /\ find (fun w =>
             Nat.eqb (workout_id w)
               (WorkoutService.p_workoutId Gym.requestThisMorning)
             && Nat.eqb (workout_coachId w)
                  (WorkoutService.p_coachId Gym.requestThisMorning))
          (WorkoutModel (database Gym.world0)) <> None
  /\ findById slot_id (WorkoutService.p_timeSlotId Gym.requestThisMorning)
       (TimeSlotModel (database Gym.world0)) = Some Gym.morning
  /\ fst (WorkoutService.bookWorkout Gym.noParse Gym.users noFaults Gym.now
            Gym.world0 Gym.requestThisMorning)
     = Throw (HttpError 400 "Cannot book a time slot that has already passed").
Proof.
  assert (H1 : WorkoutService.parseAndValidateDate Gym.noParse Gym.now
                 (WorkoutService.p_date Gym.requestThisMorning) = Ok Gym.now)
    by reflexivity.
  assert (H2 : getCoachData Gym.users
                 (WorkoutService.p_coachId Gym.requestThisMorning) <> None)
    by (simpl; discriminate).
  assert (H3 : find (fun w =>
                 Nat.eqb (workout_id w)
                   (WorkoutService.p_workoutId Gym.requestThisMorning)
                 && Nat.eqb (workout_coachId w)
                      (WorkoutService.p_coachId Gym.requestThisMorning))
                 (WorkoutModel (database Gym.world0)) <> None)
    by (simpl; discriminate).
  assert (H4 : findById slot_id
                 (WorkoutService.p_timeSlotId Gym.requestThisMorning)
                 (TimeSlotModel (database Gym.world0)) = Some Gym.morning)
    by reflexivity.
  repeat (split; [assumption|]).
  apply (proj2 (slot_check_by_start_today Gym.noParse Gym.users noFaults
                  Gym.now Gym.world0 Gym.requestThisMorning Gym.now
                  Gym.morning H1 H2 H3 H4)).
  reflexivity.
Defined.

(** A time of day with a blank after the minutes is the same time of day:
    the runtime reads the field of the minutes as 0.  At 09:30 the slot
    check refuses a slot that starts at such a 09:00 today, and the end of
    a slot at such a 10:00 is ten hours after midnight. *)
Example time_of_day_with_blank :
  hoursMinutes "09:00 " = (Some 9, Some 0)
  /\ WorkoutService.isTimeSlotPassed Gym.now Gym.now "09:00 " = true
  /\ Spec.slotEnd Gym.tomorrow
       {| slot_id := 3%nat; startTime := "09:00 "; endTime := "10:00 " |}
     = Some (Gym.tomorrow + 10 * msPerHour).
Proof. repeat split; vm_compute; reflexivity. Qed.

(** *** Booking: double bookings *)

Section DoubleBooking.

Context {js : Runtime}.

Import WorkoutService Spec.

Variable Date_parse : string -> Date.
Variable users : UserService.

Lemma bookWorkoutValidate_Ok_inv (now : Z) (d : Database)
    (p : BookWorkoutParams) (t : Z) :
  bookWorkoutValidate Date_parse users now d p = Ok t ->
  parseAndValidateDate Date_parse now (p_date p) = Ok t
  /\ getCoachData users (p_coachId p) <> None
  /\ exists slot,
       findById slot_id (p_timeSlotId p) (TimeSlotModel d) = Some slot
       /\ isTimeSlotPassed now t (startTime slot) = false.
Proof.
  unfold bookWorkoutValidate.
  destruct (parseAndValidateDate Date_parse now (p_date p)) as [t0|];
    [|discriminate].
  destruct (getCoachData users (p_coachId p)); [|discriminate].
  destruct (find _ (WorkoutModel d)); [|discriminate].
  destruct (findById slot_id (p_timeSlotId p) (TimeSlotModel d)) as [slot|];
    [|discriminate].
  destruct (isTimeSlotPassed now t0 (startTime slot)) eqn:E; [discriminate|].
  intro H. inversion H; subst. split; [reflexivity|].
  split; [discriminate|]. exists slot. auto.
Qed.

Lemma length_eqb_0 {A} (l : list A) : Nat.eqb (List.length l) 0 = true <-> l = [].
Proof. destruct l; simpl; split; intro; try reflexivity; discriminate. Qed.

Lemma bookWorkoutChecks_Ok_inv (now : Z) (d : Database)
    (p : BookWorkoutParams) (t : Z) :
  bookWorkoutChecks Date_parse users now d p = Ok t ->
  bookWorkoutValidate Date_parse users now d p = Ok t
  /\ existingBooking d (p_coachId p) (p_timeSlotId p) t = []
  /\ existingClientBooking d (p_clientId p) (p_timeSlotId p) t = [].
Proof.
  unfold bookWorkoutChecks.
  destruct (bookWorkoutValidate Date_parse users now d p) as [t0|];
    [|discriminate].
  destruct (Nat.eqb (List.length (existingBooking d _ _ t0)) 0) eqn:E1;
    [|discriminate].
  destruct (Nat.eqb (List.length (existingClientBooking d _ _ t0)) 0) eqn:E2;
    [|discriminate].
  simpl. intro H. inversion H; subst.
  apply length_eqb_0 in E1. apply length_eqb_0 in E2. auto.
Qed.

(** The validation does not read the bookings or the ledgers. *)
Lemma bookWorkoutValidate_ext (now : Z) (d d' : Database)
    (p : BookWorkoutParams) :
  TimeSlotModel d' = TimeSlotModel d ->
  WorkoutModel d' = WorkoutModel d ->
  bookWorkoutValidate Date_parse users now d' p
  = bookWorkoutValidate Date_parse users now d p.
Proof.
  intros Ht Hw. unfold bookWorkoutValidate. now rewrite Ht, Hw.
Qed.

Lemma inDayWindow_same_day (t t' : Z) :
  startOfDay t' = startOfDay t -> t < endOfDay t -> inDayWindow t' t = true.
Proof.
  intros Hd Hl. unfold inDayWindow, endOfDay in *. rewrite Hd.
  pose proof (startOfDay_le t).
  apply andb_true_iff. split; [apply Z.leb_le | apply Z.ltb_lt]; lia.
Qed.

(** After a booking whose stored date is not the last millisecond of its
    day, a request for the same slot on the same day by the same coach or
    by the same client is refused with status 409, once it has passed the
    validation. *)
Lemma second_booking_conflicts
    (faults faults' : Faults) (now now' : Z) (w w1 : World)
    (p p' : BookWorkoutParams) (r : BookingResponse) (t' : Z) :
  bookWorkout Date_parse users faults now w p = (Ok r, w1) ->
  r_date r < endOfDay (r_date r) ->
  bookWorkoutValidate Date_parse users now' (database w1) p' = Ok t' ->
  startOfDay t' = startOfDay (r_date r) ->
  p_timeSlotId p' = p_timeSlotId p ->
  p_coachId p' = p_coachId p \/ p_clientId p' = p_clientId p ->
  exists m,
    bookWorkout Date_parse users faults' now' w1 p'
    = (Throw (HttpError 409 m), w1).
Proof.
  intros Hb Hl Hv Hd Hs Hwho.
  destruct (bookWorkout_Ok_inv Date_parse users faults now w w1 p r Hb)
    as (bd & _ & -> & ->).
  simpl in Hl, Hd.
  pose proof (inDayWindow_same_day bd t' Hd Hl) as Hwin.
  assert (Hc : exists m,
             bookWorkoutChecks Date_parse users now'
               (database (bookedWorld now bd w p)) p'
             = Throw (HttpError 409 m)).
  { unfold bookWorkoutChecks. rewrite Hv.
    destruct (Nat.eqb (List.length (existingBooking _ _ _ t')) 0) eqn:E1;
      simpl; [|eexists; reflexivity].
    destruct (Nat.eqb (List.length (existingClientBooking _ _ _ t')) 0) eqn:E2;
      simpl; [|eexists; reflexivity].
    exfalso. apply length_eqb_0 in E1. apply length_eqb_0 in E2.
    unfold existingBooking, existingClientBooking, bookedWorld in E1, E2.
    simpl in E1, E2. rewrite filter_app in E1, E2.
    apply app_eq_nil in E1. apply app_eq_nil in E2.
    destruct E1 as [_ E1]. destruct E2 as [_ E2].
    simpl in E1, E2. rewrite Hs, Hwin, !Nat.eqb_refl in E1, E2.
    destruct Hwho as [Hw | Hw]; rewrite Hw, Nat.eqb_refl in *.
    - discriminate E1.
    - discriminate E2. }
  destruct Hc as (m & Hc). exists m.
  now rewrite (bookWorkout_rejected Date_parse users faults' now' _ p' _ Hc).
Qed.

End DoubleBooking.

(** C1.  The double-booking guard misses a booking stored at the last
    millisecond of its day.  Client 20 books coach 10, morning slot, for
    tomorrow 23:59:59.999; client 21 then books the same coach, slot and
    date, and client 20 books the same slot and date with coach 11: both
    requests succeed, none is answered with status 409. *)
Theorem double_booking_at_last_millisecond :
  isOk (fst (WorkoutService.bookWorkout Gym.noParse Gym.users noFaults Gym.now
               Gym.world0 Gym.requestLate)) = true
  /\ WorkoutService.p_coachId Gym.requestLateToo
     = WorkoutService.p_coachId Gym.requestLate
  /\ WorkoutService.p_timeSlotId Gym.requestLateToo
     = WorkoutService.p_timeSlotId Gym.requestLate
  /\ WorkoutService.p_date Gym.requestLateToo
     = WorkoutService.p_date Gym.requestLate
  /\ WorkoutService.p_clientId Gym.requestLateToo
     <> WorkoutService.p_clientId Gym.requestLate
  /\ isOk (fst (WorkoutService.bookWorkout Gym.noParse Gym.users noFaults
                  Gym.now Gym.worldLate Gym.requestLateToo)) = true
  /\ statusOf (fst (WorkoutService.bookWorkout Gym.noParse Gym.users noFaults
                      Gym.now Gym.worldLate Gym.requestLateToo)) <> Some 409
  /\ WorkoutService.p_clientId Gym.requestLateOtherCoach
     = WorkoutService.p_clientId Gym.requestLate
  /\ WorkoutService.p_coachId Gym.requestLateOtherCoach
     <> WorkoutService.p_coachId Gym.requestLate
  /\ isOk (fst (WorkoutService.bookWorkout Gym.noParse Gym.users noFaults
                  Gym.now Gym.worldLate Gym.requestLateOtherCoach)) = true
  /\ statusOf (fst (WorkoutService.bookWorkout Gym.noParse Gym.users noFaults
                      Gym.now Gym.worldLate Gym.requestLateOtherCoach))
     <> Some 409.
Proof.
  repeat split; try reflexivity; try (simpl; discriminate);
    vm_compute; discriminate.
Qed.

(** *** Booking, cancellation and availability *)

Section RoundTrip.

Context {js : Runtime}.

Import WorkoutService Spec.

Variable Date_parse : string -> Date.
Variable users : UserService.

Lemma insertSlot_In (x y : TimeSlot) (l : list TimeSlot) :
  In y (insertSlot x l) <-> y = x \/ In y l.
Proof.
  induction l as [|z l IH]; simpl.
  - intuition.
  - destruct (String.ltb (startTime z) (startTime x)); simpl;
      rewrite ?IH; intuition.
Qed.

Lemma sortByStartTime_In (y : TimeSlot) (l : list TimeSlot) :
  In y (sortByStartTime l) <-> In y l.
Proof.
  unfold sortByStartTime. induction l as [|x l IH]; simpl; [tauto|].
  rewrite insertSlot_In, IH. intuition.
Qed.

Lemma sortByStartTime_nil (l : list TimeSlot) :
  sortByStartTime l = [] <-> l = [].
Proof.
  split; [|now intros ->].
  destruct l as [|x l]; [reflexivity|]. intro H. exfalso.
  assert (Hin : In x (sortByStartTime (x :: l)))
    by (apply sortByStartTime_In; now left).
  rewrite H in Hin. exact Hin.
Qed.

(** The free set of the composite search, slot by slot: a slot of the
    catalogue, not yet started when the day is today, that no booking of
    the day other than a cancelled one holds, whoever the coach. *)
Lemma freeSlots_In (now day : Z) (d : Database) (slot : ObjectId) :
  In slot (freeSlots now day d)
  <-> (exists ts, In ts (TimeSlotModel d) /\ slot_id ts = slot
         /\ (isToday now (startOfDay day) = true -> startsLater now ts = true))
      /\ (forall b, In b (BookingModel d) ->
            startOfDay day <= date b < startOfDay day + msPerDay ->
            state b <> CANCELLED -> timeSlotId b <> slot).
Proof.
  assert (Hvalid : forall ts,
             In ts (validTimeSlots now (startOfDay day) d)
             <-> In ts (TimeSlotModel d)
                 /\ (isToday now (startOfDay day) = true
                     -> startsLater now ts = true)).
  { intro ts. unfold validTimeSlots, availableTimeSlots.
    destruct (isToday now (startOfDay day)).
    - rewrite filter_In, sortByStartTime_In. intuition.
    - rewrite sortByStartTime_In. intuition discriminate. }
  assert (Hday : forall b,
             In b (dayBookings (startOfDay day) d)
             <-> In b (BookingModel d)
                 /\ startOfDay day <= date b < startOfDay day + msPerDay
                 /\ state b <> CANCELLED).
  { intro b. unfold dayBookings. rewrite filter_In, !andb_true_iff.
    rewrite Z.leb_le, Z.ltb_lt. unfold notCancelled.
    rewrite negb_true_iff, <- not_true_iff_false, state_eqb_eq.
    unfold msPerDay. intuition lia. }
  unfold freeSlots, availableAlternativeTimeSlots. rewrite in_map_iff. split.
  - intros (ts & Hid & Hin). apply filter_In in Hin. destruct Hin as [Hv Hn].
    apply Hvalid in Hv. destruct Hv as [Hts Hlater].
    apply negb_true_iff in Hn. split.
    + exists ts. auto.
    + intros b Hb Hd Hs Heq.
      assert (Hex : existsb (fun b0 => Nat.eqb (timeSlotId b0) (slot_id ts))
                      (dayBookings (startOfDay day) d) = true).
      { apply existsb_exists. exists b. split.
        - apply Hday. auto.
        - apply Nat.eqb_eq. congruence. }
      congruence.
  - intros [(ts & Hts & Hid & Hlater) Hnone]. exists ts. split; [exact Hid|].
    apply filter_In. split; [apply Hvalid; auto|].
    apply negb_true_iff. apply not_true_iff_false. intro Hex.
    apply existsb_exists in Hex. destruct Hex as (b & Hb & Heq).
    apply Hday in Hb. destruct Hb as (Hb & Hd & Hs).
    apply Nat.eqb_eq in Heq. apply (Hnone b Hb Hd Hs). congruence.
Qed.

(** Whether the per-coach availability finds a booking on a slot: a
    booking of this coach, stored with exactly the queried date, that is
    scheduled, completed or waiting for feedback. *)
Lemma bookingsOn_holds (d : Database) (coach slot : ObjectId) (t : Z) :
  existsb (fun b => Nat.eqb (timeSlotId b) slot
                    && CoachService.occupying (state b))
    (CoachService.bookingsOn d coach t) = true
  <-> exists b, In b (BookingModel d) /\ coachId b = coach /\ date b = t
                /\ timeSlotId b = slot
                /\ CoachService.occupying (state b) = true.
Proof.
  rewrite existsb_exists. unfold CoachService.bookingsOn. split.
  - intros (b & Hin & Hb). apply filter_In in Hin. destruct Hin as [Hin Hp].
    apply andb_true_iff in Hp. destruct Hp as [Hp _].
    apply andb_true_iff in Hp. destruct Hp as [Hc Hd].
    apply andb_true_iff in Hb. destruct Hb as [Hs Ho].
    apply Nat.eqb_eq in Hc, Hs. apply Z.eqb_eq in Hd. exists b. auto.
  - intros (b & Hin & Hc & Hd & Hs & Ho). exists b. split.
    + apply filter_In. split; [exact Hin|].
      rewrite Hc, Hd, Nat.eqb_refl, Z.eqb_refl, Ho. reflexivity.
    + rewrite Hs, Nat.eqb_refl, Ho. reflexivity.
Qed.

Lemma replaceById_fresh {A} (key : A -> ObjectId) (doc : A) (l : list A) :
  Forall (fun x => (key x < key doc)%nat) l -> replaceById key doc l = l.
Proof.
  unfold replaceById. induction 1 as [|x l Hx _ IH]; simpl; [reflexivity|].
  rewrite IH. destruct (Nat.eqb (key x) (key doc)) eqn:E; [|reflexivity].
  apply Nat.eqb_eq in E. lia.
Qed.

Lemma findById_fresh {A} (key : A -> ObjectId) (x : A) (l : list A) :
  Forall (fun y => (key y < key x)%nat) l ->
  findById key (key x) (l ++ [x]) = Some x.
Proof.
  unfold findById. induction 1 as [|y l Hy _ IH]; simpl.
  - now rewrite Nat.eqb_refl.
  - destruct (Nat.eqb (key y) (key x)) eqn:E; [|exact IH].
    apply Nat.eqb_eq in E. lia.
Qed.

Lemma cancelBookingChecks_Ok_inv (now : Z) (d : Database)
    (bookingId userId : ObjectId) (b : Booking) :
  cancelBookingChecks users now d bookingId userId = Ok b ->
  findById booking_id bookingId (BookingModel d) = Some b.
Proof.
  unfold cancelBookingChecks.
  destruct (findById booking_id bookingId (BookingModel d)) as [b0|];
    [|discriminate].
  destruct (getUserData users userId); [|discriminate].
  repeat match goal with
         | |- (if ?c then _ else _) = _ -> _ => destruct c; [discriminate|]
         end.
  intro H. inversion H. reflexivity.
Qed.

(** The bookings after a booking has been made and then cancelled: the
    earlier ones, followed by the new one in state cancelled. *)
Lemma bookings_after_cancel
    (faults : Faults) (now now' bookingDate : Z) (w w2 : World)
    (p : BookWorkoutParams) (actor : ObjectId) (r' : BookingResponse) :
  freshIds w ->
  cancelBooking users faults now' (bookedWorld now bookingDate w p)
    (S (S (nextObjectId w))) actor = (Ok r', w2) ->
  exists c,
    state c = CANCELLED
    /\ BookingModel (database w2) = (BookingModel (database w) ++ [c])%list
    /\ TimeSlotModel (database w2) = TimeSlotModel (database w)
    /\ WorkoutModel (database w2) = WorkoutModel (database w).
Proof.
  intros Hfresh Hc.
  set (nb := newBooking (S (S (nextObjectId w))) now bookingDate p
               (newClientFeedback (nextObjectId w) p)
               (newCoachFeedback (S (nextObjectId w)) p)) in *.
  assert (Hlt : Forall (fun y => (booking_id y < booking_id nb)%nat)
                  (BookingModel (database w))).
  { eapply Forall_impl; [|exact Hfresh]. simpl. intros; lia. }
  unfold cancelBooking in Hc.
  destruct (cancelBookingChecks users now' _ _ actor) as [b|] eqn:Hk;
    [|discriminate].
  destruct (faults 0%nat); [discriminate|].
  apply cancelBookingChecks_Ok_inv in Hk.
  change (BookingModel (database (bookedWorld now bookingDate w p)))
    with (BookingModel (database w) ++ [nb])%list in Hk.
  change (S (S (nextObjectId w))) with (booking_id nb) in Hk.
  rewrite (findById_fresh booking_id nb _ Hlt) in Hk.
  inversion Hk; subst b. inversion Hc; subst. clear Hc Hk.
  exists (cancelled now' nb). split; [reflexivity|]. simpl.
  split; [|split; reflexivity].
  fold nb. unfold replaceById. rewrite map_app.
  change (map _ (BookingModel (database w)))
    with (replaceById booking_id (cancelled now' nb) (BookingModel (database w))).
  rewrite (replaceById_fresh booking_id (cancelled now' nb) _ Hlt).
  simpl. now rewrite Nat.eqb_refl.
Qed.

Lemma filter_snoc_false {A} (f : A -> bool) (l : list A) (x : A) :
  f x = false -> filter f (l ++ [x]) = filter f l.
Proof.
  intro H. rewrite filter_app. simpl. rewrite H. apply app_nil_r.
Qed.

Lemma occupying_cancelled (c : Booking) :
  state c = CANCELLED -> CoachService.occupying (state c) = false.
Proof. now intros ->. Qed.

Lemma notCancelled_cancelled (c : Booking) :
  state c = CANCELLED -> notCancelled c = false.
Proof. unfold notCancelled. now intros ->. Qed.

(** A cancelled booking at the end of the collection is invisible to the
    double-booking checks, to the per-coach availability and to the
    composite search. *)
Lemma cancelled_invisible (d d2 : Database) (c : Booking) :
  state c = CANCELLED ->
  BookingModel d2 = (BookingModel d ++ [c])%list ->
  TimeSlotModel d2 = TimeSlotModel d ->
  (forall coach slot t, existingBooking d2 coach slot t
                        = existingBooking d coach slot t)
  /\ (forall client slot t, existingClientBooking d2 client slot t
                            = existingClientBooking d client slot t)
  /\ (forall coach t, CoachService.bookingsOn d2 coach t
                      = CoachService.bookingsOn d coach t)
  /\ (forall now day, availableAlternativeTimeSlots now day d2
                      = availableAlternativeTimeSlots now day d).
Proof.
  intros Hs Hb Ht.
  pose proof (notCancelled_cancelled c Hs) as Hn.
  pose proof (occupying_cancelled c Hs) as Ho.
  repeat split; intros.
  - unfold existingBooking. rewrite Hb. apply filter_snoc_false.
    rewrite Hn. apply andb_false_r.
  - unfold existingClientBooking. rewrite Hb. apply filter_snoc_false.
    rewrite Hn. apply andb_false_r.
  - unfold CoachService.bookingsOn. rewrite Hb. apply filter_snoc_false.
    rewrite Ho. apply andb_false_r.
  - unfold availableAlternativeTimeSlots, dayBookings, validTimeSlots,
      availableTimeSlots.
    rewrite Hb, Ht, filter_snoc_false; [reflexivity|].
    rewrite Hn. apply andb_false_r.
Qed.

(** Once a booking has been made and cancelled, every request meets the
    checks it would have met before the booking. *)
Lemma checks_after_cancel
    (faults faults' : Faults) (now now' : Z) (w w1 w2 : World)
    (p : BookWorkoutParams) (actor : ObjectId) (r r' : BookingResponse) :
  freshIds w ->
  bookWorkout Date_parse users faults now w p = (Ok r, w1) ->
  cancelBooking users faults' now' w1 (r_bookingId r) actor = (Ok r', w2) ->
  forall now'' p'',
    bookWorkoutChecks Date_parse users now'' (database w2) p''
    = bookWorkoutChecks Date_parse users now'' (database w) p''.
Proof.
  intros Hfresh Hb Hc now'' p''.
  destruct (bookWorkout_Ok_inv Date_parse users faults now w w1 p r Hb)
    as (bd & _ & -> & ->).
  destruct (bookings_after_cancel faults' now now' bd w w2 p actor r'
              Hfresh Hc) as (c & Hs & Hbk & Hts & Hwk).
  destruct (cancelled_invisible (database w) (database w2) c Hs Hbk Hts)
    as (He & Hec & _ & _).
  unfold bookWorkoutChecks.
  rewrite (bookWorkoutValidate_ext Date_parse users now'' (database w)
             (database w2) p'' Hts Hwk).
  destruct (bookWorkoutValidate Date_parse users now'' (database w) p'');
    [|reflexivity].
  now rewrite He, Hec.
Qed.

(** After the cancellation the same client can book the same coach, slot
    and date again: the request succeeds when it passes the validation and
    the store accepts the writes. *)
Lemma rebooking_after_cancel
    (faults faults' faults'' : Faults) (now now' now'' : Z) (w w1 w2 : World)
    (p p'' : BookWorkoutParams) (actor : ObjectId) (r r' : BookingResponse) :
  freshIds w ->
  bookWorkout Date_parse users faults now w p = (Ok r, w1) ->
  cancelBooking users faults' now' w1 (r_bookingId r) actor = (Ok r', w2) ->
  bookWorkoutValidate Date_parse users now'' (database w2) p'' = Ok (r_date r) ->
  p_coachId p'' = p_coachId p -> p_clientId p'' = p_clientId p ->
  p_timeSlotId p'' = p_timeSlotId p ->
  faults'' 0%nat = None -> faults'' 1%nat = None -> faults'' 2%nat = None ->
  isOk (fst (bookWorkout Date_parse users faults'' now'' w2 p'')) = true.
Proof.
  intros Hfresh Hb Hc Hv Hco Hcl Hsl F0 F1 F2.
  destruct (bookWorkout_Ok_inv Date_parse users faults now w w1 p r Hb)
    as (bd & Hk & -> & ->).
  simpl in Hv, Hc.
  destruct (bookings_after_cancel faults' now now' bd w w2 p actor r'
              Hfresh Hc) as (c & Hs & Hbk & Hts & Hwk).
  destruct (cancelled_invisible (database w) (database w2) c Hs Hbk Hts)
    as (He2 & Hec2 & _ & _).
  apply bookWorkoutChecks_Ok_inv in Hk. destruct Hk as (_ & He & Hec).
  assert (Hk2 : bookWorkoutChecks Date_parse users now'' (database w2) p''
                = Ok bd).
  { unfold bookWorkoutChecks.
    rewrite Hv, He2, Hec2, Hco, Hcl, Hsl, He, Hec. reflexivity. }
  destruct (bookWorkout_outcome Date_parse users faults'' now'' w2 p'' bd Hk2)
    as [(_ & _ & _ & Hres) | (e & k & [F | [F | F]] & _)].
  - now rewrite Hres.
  - congruence.
  - congruence.
  - congruence.
Qed.

End RoundTrip.

Lemma find_map {A B} (g : B -> bool) (f : A -> B) (l : list A) :
  find g (map f l) = option_map f (find (fun x => g (f x)) l).
Proof.
  induction l as [|x l IH]; simpl; [reflexivity|].
  destruct (g (f x)); [reflexivity | exact IH].
Qed.

Lemma occupying_notCancelled (b : Booking) :
  CoachService.occupying (state b) = true ->
  WorkoutService.notCancelled b = true.
Proof.
  unfold WorkoutService.notCancelled. destruct (state b); simpl; auto.
Qed.

(** What the per-coach availability says about a slot of the catalogue. *)
Lemma slotBooked_listed (users : UserService) (d : Database)
    (coach slot : ObjectId) (t : Z) (ts : TimeSlot) :
  getCoachData users coach <> None ->
  findById slot_id slot (TimeSlotModel d) = Some ts ->
  Spec.slotBooked
    (CoachService.getCoachAvailableTimeSlots users d coach (Some t)) slot
  = Some (existsb (fun b => Nat.eqb (timeSlotId b) slot
                            && CoachService.occupying (state b))
            (CoachService.bookingsOn d coach t)).
Proof.
  intros Hc Hs. unfold CoachService.getCoachAvailableTimeSlots.
  destruct (getCoachData users coach); [|contradiction].
  destruct (TimeSlotModel d) as [|x l] eqn:E; [discriminate Hs|].
  rewrite <- E in *. replace (Nat.eqb (List.length (TimeSlotModel d)) 0)
    with false by (rewrite E; reflexivity).
  unfold Spec.slotBooked. rewrite find_map. simpl.
  unfold findById in Hs. rewrite Hs. simpl.
  apply find_some in Hs. destruct Hs as [_ Hs]. apply Nat.eqb_eq in Hs.
  now rewrite Hs.
Qed.

(** C8, amended.  After a successful booking the per-coach availability for
    the booked coach and the stored date lists the slot as booked, and the
    free set of the composite search for that day does not contain it.
    After a successful cancellation of that booking the booking is still
    stored, in state cancelled, and both answers are what they were before
    the booking.  The per-coach availability then lists the slot as booked
    exactly when another booking of that coach and slot, stored with
    exactly that date and not cancelled, was there before; none was when
    the stored date is not the last millisecond of its day, and the slot is
    listed as free again.  The free set of the search for a day contains
    the slot exactly when it is a slot of the catalogue, not yet started
    when that day is today, and no booking of that day other than a
    cancelled one, of any coach, holds it. *)
Theorem availability_round_trip {js : Runtime}
    (Date_parse : string -> Date) (users : UserService) (faults : Faults)
    (now : Z) (w w1 : World) (p : WorkoutService.BookWorkoutParams)
    (r : WorkoutService.BookingResponse) :
  Spec.freshIds w ->
  WorkoutService.bookWorkout Date_parse users faults now w p = (Ok r, w1) ->
  let coach := WorkoutService.p_coachId p in
  let slot := WorkoutService.p_timeSlotId p in
  let t := WorkoutService.r_date r in
  Spec.slotBooked
    (CoachService.getCoachAvailableTimeSlots users (database w1) coach (Some t))
    slot = Some true
  /\ (forall now', ~ In slot (Spec.freeSlots now' t (database w1)))
  /\ (forall faults' now' actor r' w2,
        WorkoutService.cancelBooking users faults' now' w1
          (WorkoutService.r_bookingId r) actor = (Ok r', w2) ->
        CoachService.getCoachAvailableTimeSlots users (database w2) coach (Some t)
        = CoachService.getCoachAvailableTimeSlots users (database w) coach (Some t)
        /\ (forall now'' day,
              Spec.freeSlots now'' day (database w2)
              = Spec.freeSlots now'' day (database w))
        /\ (t < endOfDay t ->
            Spec.slotBooked
              (CoachService.getCoachAvailableTimeSlots users (database w2)
                 coach (Some t)) slot = Some false)
        /\ (exists c,
              state c = CANCELLED
              /\ BookingModel (database w2)
                 = (BookingModel (database w) ++ [c])%list)
        /\ (exists v,
              Spec.slotBooked
                (CoachService.getCoachAvailableTimeSlots users (database w2)
                   coach (Some t)) slot = Some v
              /\ (v = true
                  <-> exists b,
                        In b (BookingModel (database w))
                        /\ coachId b = coach /\ date b = t
                        /\ timeSlotId b = slot
                        /\ CoachService.occupying (state b) = true))
        /\ (forall now'' day,
              In slot (Spec.freeSlots now'' day (database w2))
              <-> (exists ts,
                     In ts (TimeSlotModel (database w)) /\ slot_id ts = slot
                     /\ (WorkoutService.isToday now'' (startOfDay day) = true
                         -> WorkoutService.startsLater now'' ts = true))
                  /\ (forall b,
                        In b (BookingModel (database w)) ->
                        startOfDay day <= date b < startOfDay day + msPerDay ->
                        state b <> CANCELLED -> timeSlotId b <> slot))).
Proof.
  intros Hfresh Hb coach slot t.
  destruct (bookWorkout_Ok_inv Date_parse users faults now w w1 p r Hb)
    as (bd & Hk & -> & ->).
  subst coach slot t. simpl WorkoutService.r_date.
  simpl WorkoutService.r_bookingId.
  apply bookWorkoutChecks_Ok_inv in Hk. destruct Hk as (Hv & He & _).
  apply bookWorkoutValidate_Ok_inv in Hv.
  destruct Hv as (_ & Hcoach & ts & Hts & _).
  set (nb := WorkoutService.newBooking (S (S (nextObjectId w))) now bd p
               (WorkoutService.newClientFeedback (nextObjectId w) p)
               (WorkoutService.newCoachFeedback (S (nextObjectId w)) p)).
  split; [|split].
  - rewrite (slotBooked_listed users (database (Spec.bookedWorld now bd w p))
               _ _ bd ts Hcoach Hts).
    f_equal. unfold CoachService.bookingsOn, Spec.bookedWorld. simpl.
    rewrite filter_app, existsb_app. simpl.
    rewrite !Nat.eqb_refl, Z.eqb_refl. apply orb_true_iff. right.
    simpl. rewrite Nat.eqb_refl. reflexivity.
  - intros now' Hin. unfold Spec.freeSlots in Hin.
    apply in_map_iff in Hin. destruct Hin as (x & Hx & Hin).
    unfold WorkoutService.availableAlternativeTimeSlots in Hin.
    apply filter_In in Hin. destruct Hin as [_ Hin].
    apply negb_true_iff in Hin.
    assert (Hex : existsb (fun b => Nat.eqb (timeSlotId b) (slot_id x))
                    (WorkoutService.dayBookings (startOfDay bd)
                       (database (Spec.bookedWorld now bd w p))) = true).
    { apply existsb_exists. exists nb. split.
      - unfold WorkoutService.dayBookings. apply filter_In. split.
        + simpl. apply in_or_app. right. left. reflexivity.
        + cbn beta. change (date nb) with bd.
          pose proof (startOfDay_le bd). pose proof (startOfDay_lt_next bd).
          unfold msPerDay in *.
          apply andb_true_iff. split; [apply andb_true_iff; split|].
          * apply Z.leb_le. lia.
          * apply Z.ltb_lt. lia.
          * reflexivity.
      - simpl. rewrite Hx. apply Nat.eqb_refl. }
    rewrite Hex in Hin. discriminate Hin.
  - intros faults' now' actor r' w2 Hc.
    destruct (bookings_after_cancel users faults' now now' bd w w2 p actor r'
                Hfresh Hc) as (c & Hs & Hbk & Hslots & _).
    destruct (cancelled_invisible (database w) (database w2) c Hs Hbk Hslots)
      as (_ & _ & Hon & Hfree).
    assert (Hsame :
      CoachService.getCoachAvailableTimeSlots users (database w2)
        (WorkoutService.p_coachId p) (Some bd)
      = CoachService.getCoachAvailableTimeSlots users (database w)
          (WorkoutService.p_coachId p) (Some bd)).
    { unfold CoachService.getCoachAvailableTimeSlots.
      now rewrite Hslots, Hon. }
    split; [exact Hsame|]. split; [|split; [|split; [|split]]].
    + intros now'' day. unfold Spec.freeSlots. now rewrite Hfree.
    + intro Hl. rewrite Hsame.
      rewrite (slotBooked_listed users _ _ _ bd ts Hcoach Hts). f_equal.
      destruct (existsb _ _) eqn:E; [|reflexivity]. exfalso.
      apply existsb_exists in E. destruct E as (b & Hin & Hb').
      apply andb_true_iff in Hb'. destruct Hb' as [Hslot Hocc].
      unfold CoachService.bookingsOn in Hin. apply filter_In in Hin.
      destruct Hin as [Hin Hpred].
      apply andb_true_iff in Hpred. destruct Hpred as [Hpred _].
      apply andb_true_iff in Hpred. destruct Hpred as [Hco Hdate].
      apply Z.eqb_eq in Hdate.
      assert (Hmem : In b (WorkoutService.existingBooking (database w)
                             (WorkoutService.p_coachId p)
                             (WorkoutService.p_timeSlotId p) bd)).
      { unfold WorkoutService.existingBooking. apply filter_In.
        split; [exact Hin|].
        rewrite Hco, Hslot, (occupying_notCancelled b Hocc), Hdate.
        rewrite (inDayWindow_same_day bd bd eq_refl Hl). reflexivity. }
      rewrite He in Hmem. exact Hmem.
    + exists c. split; [exact Hs | exact Hbk].
    + rewrite Hsame, (slotBooked_listed users _ _ _ bd ts Hcoach Hts).
      eexists. split; [reflexivity|]. apply bookingsOn_holds.
    + intros now'' day.
      assert (Heq : Spec.freeSlots now'' day (database w2)
                    = Spec.freeSlots now'' day (database w))
        by (unfold Spec.freeSlots; now rewrite Hfree).
      rewrite Heq. apply freeSlots_In.
Qed.

(** After a booking and its cancellation the slot is not always reported
    free.  At the last millisecond of a day a second booking of the same
    coach and slot goes through; once it is cancelled, the per-coach
    availability still lists the slot as booked, for the first booking, and
    the free set of the search still lacks it.  On an ordinary date, a
    booking of coach 11 on the morning slot keeps that slot out of the free
    set of the search after client 20 has booked coach 10 on it and
    cancelled, while the per-coach availability of coach 10 lists it as
    free. *)
Theorem slot_not_free_after_cancel :
  (exists r w1 r' w2,
     WorkoutService.bookWorkout Gym.noParse Gym.users noFaults Gym.now
       Gym.worldLate Gym.requestLateToo = (Ok r, w1)
     /\ WorkoutService.cancelBooking Gym.users noFaults Gym.now w1
          (WorkoutService.r_bookingId r) 21%nat = (Ok r', w2)
     /\ WorkoutService.r_date r = Gym.lastInstant
     /\ Spec.slotBooked
          (CoachService.getCoachAvailableTimeSlots Gym.users (database w2)
             10%nat (Some (WorkoutService.r_date r))) 1%nat
        = Some true
     /\ ~ In 1%nat (Spec.freeSlots Gym.now (WorkoutService.r_date r)
                      (database w2)))
  /\ (exists r w1 r' w2,
        WorkoutService.bookWorkout Gym.noParse Gym.users noFaults Gym.now
          Gym.worldOtherCoach Gym.request1 = (Ok r, w1)
        /\ WorkoutService.cancelBooking Gym.users noFaults Gym.now w1
             (WorkoutService.r_bookingId r) 20%nat = (Ok r', w2)
        /\ WorkoutService.r_date r = Gym.tomorrow
        /\ Spec.slotBooked
             (CoachService.getCoachAvailableTimeSlots Gym.users (database w2)
                10%nat (Some (WorkoutService.r_date r))) 1%nat
           = Some false
        /\ ~ In 1%nat (Spec.freeSlots Gym.now (WorkoutService.r_date r)
                         (database w2))).
Proof.
  split.
  - eexists. eexists. eexists. eexists.
    split; [vm_compute; reflexivity|].
    split; [vm_compute; reflexivity|].
    split; [vm_compute; reflexivity|].
    split; [vm_compute; reflexivity|].
    vm_compute. intro H.
    repeat (destruct H as [H | H]; [discriminate H|]). exact H.
  - eexists. eexists. eexists. eexists.
    split; [vm_compute; reflexivity|].
    split; [vm_compute; reflexivity|].
    split; [vm_compute; reflexivity|].
    split; [vm_compute; reflexivity|].
    vm_compute. intro H.
    repeat (destruct H as [H | H]; [discriminate H|]). exact H.
Qed.

(** *** Feedback submission *)

Section Feedback.

Context {js : Runtime}.

Import FeedbackService Spec.

Variable faults : Faults.
Variable now : Z.

Lemma addFeedbackChecks_Ok_inv (d : Database) (userId bookingId : ObjectId)
    (b : Booking) :
  addFeedbackChecks now d userId bookingId = Ok b ->
  findById booking_id bookingId (BookingModel d) = Some b
  /\ state b <> COMPLETED
  /\ exists slot,
       findById slot_id (timeSlotId b) (TimeSlotModel d) = Some slot
       /\ gtb (slotEnd (date b) slot) (Some now) = false.
Proof.
  unfold addFeedbackChecks.
  destruct (findById booking_id bookingId (BookingModel d)) as [b0|];
    [|discriminate].
  destruct (negb _ && negb _); [discriminate|].
  destruct (state_eqb (state b0) COMPLETED) eqn:Es; [discriminate|].
  destruct (findById slot_id (timeSlotId b0) (TimeSlotModel d))
    as [slot|] eqn:Esl; [|discriminate].
  destruct (gtb _ (Some now)) eqn:Eg; [discriminate|].
  intro H. inversion H; subst. split; [reflexivity|]. split.
  - intro Hc. apply state_eqb_eq in Hc. congruence.
  - exists slot. split; [exact Esl | exact Eg].
Qed.

Lemma write_Ok_inv (withSession : bool) (f : Database -> Database)
    (s s' : Session) :
  write faults withSession f s = (Ok tt, s') ->
  faults (writes s) = None
  /\ staged s' = f (staged s)
  /\ committed s' = (if withSession then committed s else f (committed s))
  /\ writes s' = S (writes s).
Proof.
  unfold write. destruct (faults (writes s)); [discriminate|].
  intro H. inversion H; subst. simpl. auto.
Qed.

Lemma upsertLedger_Ok_inv (entry : FeedbackEntry) (existing : option ObjectId)
    (fromId toId : ObjectId) (notFound : string) (n n' fid : ObjectId)
    (d : Database) (s' : Session) :
  upsertLedger faults entry existing fromId toId notFound n
    (startTransaction d) = (Ok fid, s', n') ->
  committed s' = d /\ writes s' = 1%nat /\ BookingModel (staged s') = BookingModel d
  /\ TimeSlotModel (staged s') = TimeSlotModel d
  /\ match existing with
     | Some old =>
         fid = old /\ n' = n
         /\ exists f,
              findById feedback_id old (FeedbackModel d) = Some f
              /\ FeedbackModel (staged s')
                 = replaceById feedback_id (pushEntry f entry) (FeedbackModel d)
     | None =>
         fid = n /\ n' = S n
         /\ FeedbackModel (staged s')
            = (FeedbackModel d
               ++ [ {| feedback_id := n; from := fromId; to := toId;
                       history := [entry] |} ])%list
     end.
Proof.
  unfold upsertLedger, saveFeedback. destruct existing as [old|].
  - simpl committed.
    destruct (findById feedback_id old (FeedbackModel d)) as [f|] eqn:Ef;
      [|discriminate].
    destruct (entryValid entry); [|discriminate].
    destruct (write faults true _ (startTransaction d)) as [[[]|e] s1] eqn:Ew;
      [|discriminate].
    intro H. inversion H; subst. apply write_Ok_inv in Ew.
    destruct Ew as (_ & Hst & Hco & Hwr). simpl in *.
    rewrite Hst. simpl. repeat split; auto. exists f. auto.
  - destruct (entryValid entry); [|discriminate].
    destruct (write faults true _ (startTransaction d)) as [[[]|e] s1] eqn:Ew;
      [|discriminate].
    intro H. inversion H; subst. apply write_Ok_inv in Ew.
    destruct Ew as (_ & Hst & Hco & Hwr). simpl in *.
    rewrite Hst. simpl. repeat split; auto.
Qed.

(** The booking that a successful submission stores. *)
Lemma addFeedbackTransaction_Ok_inv (entry e : FeedbackEntry)
    (userId : ObjectId) (b : Booking) (n n' : ObjectId) (d : Database)
    (s' : Session) :
  addFeedbackTransaction faults now entry userId b n (startTransaction d)
  = (Ok e, s', n') ->
  e = entry
  /\ TimeSlotModel (staged s') = TimeSlotModel d
  /\ exists fid b',
       state b' = COMPLETED /\ booking_id b' = booking_id b
       /\ ledgerOf userId b' = Some fid
       /\ BookingModel (staged s') = replaceById booking_id b' (BookingModel d)
       /\ match ledgerOf userId b with
          | Some old =>
              fid = old
              /\ exists f,
                   findById feedback_id old (FeedbackModel d) = Some f
                   /\ FeedbackModel (staged s')
                      = replaceById feedback_id (pushEntry f entry)
                          (FeedbackModel d)
          | None =>
              fid = n
              /\ FeedbackModel (staged s')
                 = (FeedbackModel d
                    ++ [ {| feedback_id := n; from := author userId b;
                            to := counterpart userId b;
                            history := [entry] |} ])%list
          end.
Proof.
  unfold addFeedbackTransaction, ledgerOf, author, counterpart, saveBooking.
  destruct (Nat.eqb userId (clientId b)) eqn:Ec.
  - apply Nat.eqb_eq in Ec.
    destruct (upsertLedger faults entry (clientFeedback b) _ _ _ n _)
      as [[[fid|err] s1] n1] eqn:Eu; [|discriminate].
    apply upsertLedger_Ok_inv in Eu.
    destruct Eu as (_ & _ & Hbk & Hts & Hl).
    destruct (write faults true _ s1) as [[[]|err] s2] eqn:Ew; [|discriminate].
    apply write_Ok_inv in Ew. destruct Ew as (_ & Hst & _ & _).
    intro H. inversion H; subst. split; [reflexivity|].
    rewrite Hst. simpl. split; [exact Hts|].
    exists fid, (completedBooking now b (Some fid) (coachFeedback b)).
    simpl. rewrite Nat.eqb_refl, Hbk. repeat split.
    destruct (clientFeedback b) as [old|].
    + destruct Hl as (-> & _ & f & Hf & Hfm). split; [reflexivity|].
      exists f. auto.
    + destruct Hl as (-> & _ & Hfm). auto.
  - destruct (upsertLedger faults entry (coachFeedback b) _ _ _ n _)
      as [[[fid|err] s1] n1] eqn:Eu; [|discriminate].
    apply upsertLedger_Ok_inv in Eu.
    destruct Eu as (_ & _ & Hbk & Hts & Hl).
    destruct (write faults true _ s1) as [[[]|err] s2] eqn:Ew; [|discriminate].
    apply write_Ok_inv in Ew. destruct Ew as (_ & Hst & _ & _).
    intro H. inversion H; subst. split; [reflexivity|].
    rewrite Hst. simpl. split; [exact Hts|].
    exists fid, (completedBooking now b (clientFeedback b) (Some fid)).
    simpl. rewrite Ec, Hbk. repeat split.
    destruct (coachFeedback b) as [old|].
    + destruct Hl as (-> & _ & f & Hf & Hfm). split; [reflexivity|].
      exists f. auto.
    + destruct Hl as (-> & _ & Hfm). auto.
Qed.

End Feedback.

Section FeedbackPolicy.

Context {js : Runtime}.

Import FeedbackService Spec.

Variable faults : Faults.
Variable now : Z.
Variable w : World.
Variables userId bookingId : ObjectId.
Variable message : string.
Variable rating : Z.
Variable b : Booking.
Variable slot : TimeSlot.

Hypothesis found :
  findById booking_id bookingId (BookingModel (database w)) = Some b.
Hypothesis party : userId = clientId b \/ userId = coachId b.
Hypothesis populated :
  findById slot_id (timeSlotId b) (TimeSlotModel (database w)) = Some slot.

Let entry : FeedbackEntry :=
  {| Model.message := message; Model.rating := Some rating; timestamp := now |}.

Lemma party_allowed :
  negb (Nat.eqb userId (clientId b)) && negb (Nat.eqb userId (coachId b))
  = false.
Proof.
  destruct party as [H | H]; rewrite <- H, Nat.eqb_refl; simpl;
    [reflexivity | apply andb_false_r].
Qed.

Lemma author_is_actor : author userId b = userId.
Proof.
  unfold author. destruct (Nat.eqb userId (clientId b)) eqn:E.
  - symmetry. now apply Nat.eqb_eq.
  - destruct party as [H | H]; [|congruence].
    rewrite H, Nat.eqb_refl in E. discriminate.
Qed.

Lemma addFeedback_refused_before_end :
  gtb (slotEnd (date b) slot) (Some now) = true ->
  exists m,
    addFeedback faults now w userId bookingId message rating
    = (Throw (HttpError 400 m), w).
Proof.
  intro Hg. unfold addFeedback, addFeedbackChecks.
  rewrite found, party_allowed.
  destruct (state_eqb (state b) COMPLETED); [eexists; reflexivity|].
  rewrite populated. unfold slotEnd in Hg. rewrite Hg.
  eexists; reflexivity.
Qed.

Lemma addFeedback_checks :
  addFeedbackChecks now (database w) userId bookingId
  = if state_eqb (state b) COMPLETED
    then Throw (HttpError 400
           "Feedback can only be given for completed bookings")
    else if gtb (slotEnd (date b) slot) (Some now)
    then Throw (HttpError 400
           "Feedback can only be given after the booking has ended")
    else Ok b.
Proof.
  unfold addFeedbackChecks. rewrite found, party_allowed.
  destruct (state_eqb (state b) COMPLETED); [reflexivity|].
  now rewrite populated.
Qed.

Lemma addFeedback_Ok_inv (e : FeedbackEntry) (w' : World) :
  addFeedback faults now w userId bookingId message rating = (Ok e, w') ->
  gtb (slotEnd (date b) slot) (Some now) = false
  /\ e = entry
  /\ exists fid b',
       findById booking_id bookingId (BookingModel (database w')) = Some b'
       /\ state b' = COMPLETED
       /\ ledgerOf userId b' = Some fid
       /\ match ledgerOf userId b with
          | Some old =>
              fid = old
              /\ exists f,
                   findById feedback_id old (FeedbackModel (database w))
                   = Some f
                   /\ findById feedback_id old (FeedbackModel (database w'))
                      = Some (pushEntry f entry)
                   /\ history (pushEntry f entry)
                      = (history f ++ [entry])%list
          | None =>
              FeedbackModel (database w')
              = (FeedbackModel (database w)
                 ++ [ {| feedback_id := fid; from := userId;
                         to := counterpart userId b;
                         history := [entry] |} ])%list
          end.
Proof.
  unfold addFeedback. rewrite addFeedback_checks.
  destruct (state_eqb (state b) COMPLETED); [discriminate|].
  destruct (gtb (slotEnd (date b) slot) (Some now)); [discriminate|].
  unfold withTransaction.
  destruct (addFeedbackTransaction faults now _ userId b (nextObjectId w) _)
    as [[[e0|err] s'] n'] eqn:Et; [|discriminate].
  intro H. inversion H; subst e0 w'. clear H.
  apply addFeedbackTransaction_Ok_inv in Et.
  destruct Et as (-> & _ & fid & b' & Hs & Hid & Hl & Hbk & Hfm).
  split; [reflexivity|]. split; [reflexivity|].
  exists fid, b'. simpl. unfold commitTransaction.
  pose proof (findById_key _ _ _ _ found) as Hk.
  split; [|split; [exact Hs|split; [exact Hl|]]].
  - rewrite Hbk. rewrite <- Hk, <- Hid.
    apply findById_replaceById with (old := b). now rewrite Hid, Hk.
  - destruct (ledgerOf userId b) as [old|].
    + destruct Hfm as (-> & f & Hf & Hfm). split; [reflexivity|].
      exists f. split; [exact Hf|]. split; [|reflexivity].
      rewrite Hfm.
      pose proof (findById_key _ _ _ _ Hf) as Hfk.
      replace old with (feedback_id (pushEntry f entry)) at 1 by exact Hfk.
      apply findById_replaceById with (old := f). simpl. now rewrite Hfk.
    + destruct Hfm as (-> & Hfm). rewrite Hfm, author_is_actor. reflexivity.
Qed.

Lemma addFeedback_succeeds :
  gtb (slotEnd (date b) slot) (Some now) = false ->
  state b <> COMPLETED ->
  entryValid entry = true ->
  (forall old, ledgerOf userId b = Some old ->
     findById feedback_id old (FeedbackModel (database w)) <> None) ->
  faults 0%nat = None -> faults 1%nat = None ->
  fst (addFeedback faults now w userId bookingId message rating) = Ok entry.
Proof.
  intros Hg Hs Hv Hl F0 F1. unfold addFeedback. rewrite addFeedback_checks, Hg.
  destruct (state_eqb (state b) COMPLETED) eqn:E;
    [apply state_eqb_eq in E; contradiction|].
  unfold withTransaction, addFeedbackTransaction, upsertLedger, saveFeedback,
    saveBooking, write, ledgerOf in *.
  fold entry. rewrite Hv.
  destruct (Nat.eqb userId (clientId b)).
  - destruct (clientFeedback b) as [old|] eqn:Ef.
    + simpl. specialize (Hl old eq_refl).
      destruct (findById feedback_id old (FeedbackModel (database w)));
        [|contradiction].
      simpl. rewrite F0. simpl. rewrite F1. reflexivity.
    + simpl. rewrite F0. simpl. rewrite F1. reflexivity.
  - destruct (coachFeedback b) as [old|] eqn:Ef.
    + simpl. specialize (Hl old eq_refl).
      destruct (findById feedback_id old (FeedbackModel (database w)));
        [|contradiction].
      simpl. rewrite F0. simpl. rewrite F1. reflexivity.
    + simpl. rewrite F0. simpl. rewrite F1. reflexivity.
Qed.

End FeedbackPolicy.

(** C2.  For a booking that exists, whose slot is in the catalogue, and an
    actor who is its client or its coach: while the end of the slot on the
    booking date lies after now, a submission is refused with status 400
    and nothing is written; a submission that succeeds was made once that
    end had passed, has put exactly its entry at the end of the ledger of
    the actor's direction (a new ledger holding that entry alone when the
    booking had none) and has left the stored booking in state completed,
    whatever its state was and whoever of the two submitted; and a
    submission does succeed once the end has passed when the booking is not
    yet completed, the entry satisfies the schema, the ledger the booking
    names exists and the store accepts the two writes. *)
Theorem addFeedback_policy {js : Runtime}
    (faults : Faults) (now : Z) (w : World) (userId bookingId : ObjectId)
    (message : string) (rating : Z) (b : Booking) (slot : TimeSlot) :
  findById booking_id bookingId (BookingModel (database w)) = Some b ->
  userId = clientId b \/ userId = coachId b ->
  findById slot_id (timeSlotId b) (TimeSlotModel (database w)) = Some slot ->
  let r := FeedbackService.addFeedback faults now w userId bookingId
             message rating in
  let entry :=
    {| Model.message := message; Model.rating := Some rating;
       timestamp := now |} in
  (gtb (Spec.slotEnd (date b) slot) (Some now) = true ->
     exists m, r = (Throw (HttpError 400 m), w))
  /\ (forall e w', r = (Ok e, w') ->
        gtb (Spec.slotEnd (date b) slot) (Some now) = false
        /\ e = entry
        /\ exists fid b',
             findById booking_id bookingId (BookingModel (database w'))
             = Some b'
             /\ state b' = COMPLETED
             /\ Spec.ledgerOf userId b' = Some fid
             /\ match Spec.ledgerOf userId b with
                | Some old =>
                    fid = old
                    /\ exists f,
                         findById feedback_id old (FeedbackModel (database w))
                         = Some f
                         /\ findById feedback_id old
                              (FeedbackModel (database w'))
                            = Some (FeedbackService.pushEntry f entry)
                         /\ history (FeedbackService.pushEntry f entry)
                            = (history f ++ [entry])%list
                | None =>
                    FeedbackModel (database w')
                    = (FeedbackModel (database w)
                       ++ [ {| feedback_id := fid; from := userId;
                               to := Spec.counterpart userId b;
                               history := [entry] |} ])%list
                end)
  /\ (gtb (Spec.slotEnd (date b) slot) (Some now) = false ->
      state b <> COMPLETED ->
      FeedbackService.entryValid entry = true ->
      (forall old, Spec.ledgerOf userId b = Some old ->
         findById feedback_id old (FeedbackModel (database w)) <> None) ->
      faults 0%nat = None -> faults 1%nat = None ->
      fst r = Ok entry).
Proof.
  intros found party populated r entry. subst r entry. split; [|split].
  - apply (addFeedback_refused_before_end faults now w userId bookingId
             message rating b slot found party populated).
  - intros e w'.
    apply (addFeedback_Ok_inv faults now w userId bookingId message rating
             b slot found party populated).
  - apply (addFeedback_succeeds faults now w userId bookingId message rating
             b slot found party populated).
Qed.

(** *** Reading feedback *)

(** The view reports the first element of the history. *)
Lemma format_latest (users : UserService) (fb : Feedback)
    (row : FeedbackService.FormattedFeedback) :
  FeedbackService.format users fb = Ok row ->
  FeedbackService.latestFeedback row = hd_error (history fb).
Proof.
  unfold FeedbackService.format.
  destruct (getUserData users (from fb)); [|discriminate].
  destruct (getUserData users (to fb)); [|discriminate].
  intro H. inversion H. simpl. destruct (history fb); reflexivity.
Qed.

(** Appending to a ledger that has entries does not change what the view
    reports as its latest feedback, while the entry received last is the
    appended one. *)
Lemma latest_unchanged_by_append (users : UserService) (fb : Feedback)
    (e : FeedbackEntry) (row row' : FeedbackService.FormattedFeedback) :
  history fb <> [] ->
  FeedbackService.format users fb = Ok row ->
  FeedbackService.format users (FeedbackService.pushEntry fb e) = Ok row' ->
  FeedbackService.latestFeedback row' = FeedbackService.latestFeedback row
  /\ Spec.mostRecent (FeedbackService.pushEntry fb e) = Some e.
Proof.
  intros Hne Hr Hr'.
  rewrite (format_latest users _ _ Hr), (format_latest users _ _ Hr').
  split.
  - simpl. destruct (history fb); [contradiction | reflexivity].
  - unfold Spec.mostRecent. simpl. rewrite map_app. simpl.
    apply last_last.
Qed.

(** Both readers take the first element of a history.  On a ledger that
    holds a rating of 2 and then a rating of 5, the view reports the rating
    of 2 as latest feedback and an average of 2.0, and the statistics count
    one rating of 2, no rating of 5, and a mean of 2.0.  Requests served
    one after the other do not produce such a ledger, see
    [run_disciplined]. *)
Lemma latest_feedback_is_oldest_entry :
  history Gym.ledgerTwice = [Gym.firstEntry; Gym.lastEntry]
  /\ Spec.mostRecent Gym.ledgerTwice = Some Gym.lastEntry
  /\ (exists page,
        FeedbackService.getFeedbackForUserCoach Gym.users Gym.gymWithFeedback
          10%nat 10 1 "rating" = Ok page
        /\ map FeedbackService.latestFeedback (FeedbackService.feedback page)
           = [Some Gym.firstEntry]
        /\ FeedbackService.averageRating page = 20)
  /\ (exists stats,
        FeedbackService.getCoachFeedbackStats Gym.gymWithFeedback 10%nat
        = Ok stats
        /\ FeedbackService.s_averageRating stats = Some 20
        /\ FeedbackService.totalReviews stats = 1
        /\ FeedbackService.star2 (FeedbackService.ratingDistribution stats) = 1
        /\ FeedbackService.star5 (FeedbackService.ratingDistribution stats) = 0).
Proof.
  split; [reflexivity|]. split; [reflexivity|]. split.
  - eexists. split; [vm_compute; reflexivity|]. split; reflexivity.
  - eexists. split; [vm_compute; reflexivity|]. repeat split.
Qed.

Section Statistics.

Context {js : Runtime}.

Import FeedbackService Spec.

Lemma histogramTotal_bump (r : option Z) (dist : RatingDistribution) :
  histogramTotal dist <= histogramTotal (bump r dist)
  /\ histogramTotal (bump r dist) <= histogramTotal dist + 1.
Proof.
  unfold bump, histogramTotal.
  destruct r as [[|q|q]|]; simpl; try lia.
  do 3 (destruct q as [q|q|]; simpl; try lia).
Qed.

(** The loop of the statistics counts the ledgers that have entries and
    adds at most one to the histogram for each. *)
Lemma statsLoop_counts (l : list Feedback) :
  forall (total : option Z) (count : Z) (dist : RatingDistribution),
  let '(total', count', dist') := fold_left statsStep l (total, count, dist) in
  count' = count + Z.of_nat (List.length (filter hasEntries l))
  /\ histogramTotal dist <= histogramTotal dist'
  /\ histogramTotal dist'
     <= histogramTotal dist + Z.of_nat (List.length (filter hasEntries l))
  /\ ((forall fb, In fb l -> history fb = []) ->
      total' = total /\ dist' = dist).
Proof.
  induction l as [|fb l IH]; intros total count dist.
  - simpl. repeat split; lia.
  - cbn [fold_left filter].
    destruct (history fb) as [|first rest] eqn:Eh.
    + assert (Hstep : statsStep (total, count, dist) fb = (total, count, dist))
        by (unfold statsStep; now rewrite Eh).
      assert (Hf : hasEntries fb = false)
        by (unfold hasEntries; now rewrite Eh).
      rewrite Hstep, Hf. specialize (IH total count dist).
      destruct (fold_left statsStep l (total, count, dist)) as [[t' c'] d'].
      destruct IH as (Hc & Hlo & Hhi & Hall).
      repeat split; try assumption; apply Hall; intros; apply H; now right.
    + assert (Hstep : statsStep (total, count, dist) fb
                      = (match total, rating first with
                         | Some t, Some r => Some (t + r)
                         | _, _ => None
                         end, count + 1, bump (rating first) dist))
        by (unfold statsStep; now rewrite Eh).
      assert (Hf : hasEntries fb = true)
        by (unfold hasEntries; now rewrite Eh).
      rewrite Hstep, Hf.
      specialize (IH (match total, rating first with
                      | Some t, Some r => Some (t + r)
                      | _, _ => None
                      end) (count + 1) (bump (rating first) dist)).
      destruct (fold_left statsStep l _) as [[t' c'] d'].
      destruct IH as (Hc & Hlo & Hhi & _).
      pose proof (histogramTotal_bump (rating first) dist) as [Hb1 Hb2].
      simpl List.length. rewrite Nat2Z.inj_succ.
      repeat split; try lia;
        exfalso; specialize (H fb (or_introl eq_refl)); congruence.
Qed.

Lemma stats_general (d : Database) (coach : ObjectId) :
  exists s,
    getCoachFeedbackStats d coach = Ok s
    /\ totalReviews s = Z.of_nat (List.length (ledgersTo d coach))
    /\ histogramTotal (ratingDistribution s)
       <= Z.of_nat (List.length (filter hasEntries (ledgersTo d coach)))
    /\ Z.of_nat (List.length (filter hasEntries (ledgersTo d coach)))
       <= totalReviews s
    /\ ((forall fb, In fb (ledgersTo d coach) -> history fb = []) ->
        s_averageRating s = Some 0
        /\ ratingDistribution s = emptyDistribution).
Proof.
  unfold getCoachFeedbackStats. fold (ledgersTo d coach).
  set (l := ledgersTo d coach).
  assert (Hlen : (List.length (filter hasEntries l) <= List.length l)%nat)
    by apply filter_length_le.
  destruct (Z.of_nat (List.length l) =? 0) eqn:E0.
  - apply Z.eqb_eq in E0. eexists. split; [reflexivity|]. simpl.
    rewrite E0. repeat split; try reflexivity; unfold histogramTotal; simpl; lia.
  - pose proof (statsLoop_counts l (Some 0) 0 emptyDistribution) as H.
    destruct (fold_left statsStep l (Some 0, 0, emptyDistribution))
      as [[t' c'] d'].
    destruct H as (Hc & _ & Hhi & Hall).
    eexists. split; [reflexivity|]. simpl.
    change (histogramTotal emptyDistribution) with 0 in Hhi.
    split; [reflexivity|]. split; [lia|]. split; [lia|].
    intro Hempty. destruct (Hall Hempty) as [_ ->]. split; [|reflexivity].
    assert (Hz : filter hasEntries l = []).
    { clear -Hempty. induction l as [|x l IH]; [reflexivity|]. simpl.
      unfold hasEntries at 1. rewrite (Hempty x (or_introl eq_refl)).
      apply IH. intros; apply Hempty; now right. }
    rewrite Hz in Hc. simpl in Hc. subst c'. reflexivity.
Qed.

End Statistics.

(** *** The civil calendar *)

Lemma yearOfEra_bounds (doe : Z) :
  0 <= doe <= 146096 ->
  let yoe := (doe - doe / 1460 + doe / 36524 - doe / 146096) / 365 in
  0 <= yoe <= 399 /\ 0 <= doe - (365 * yoe + yoe / 4 - yoe / 100) <= 365.
Proof.
  intros H yoe. subst yoe. Z.div_mod_to_equations; lia.
Qed.

(** The two conversions between a day number and a civil date undo each
    other, and the civil date is a real one. *)
Lemma civil_round_trip (z : Z) :
  let '(y, m, d) := civil_from_days z in
  days_from_civil y m d = z /\ 1 <= m <= 12 /\ 1 <= d <= 31.
Proof.
  unfold civil_from_days.
  set (z' := z + 719468).
  set (era := z' / 146097).
  set (doe := z' - era * 146097).
  assert (Hdoe : 0 <= doe <= 146096).
  { subst doe era. pose proof (Z.div_mod z' 146097).
    pose proof (Z.mod_pos_bound z' 146097). lia. }
  pose proof (yearOfEra_bounds doe Hdoe) as Hy. cbv zeta in Hy.
  set (yoe := (doe - doe / 1460 + doe / 36524 - doe / 146096) / 365) in *.
  set (doy := doe - (365 * yoe + yoe / 4 - yoe / 100)) in *.
  destruct Hy as [Hyoe Hdoy].
  set (mp := (5 * doy + 2) / 153).
  assert (Hmp : 0 <= mp <= 11) by (subst mp; Z.div_mod_to_equations; lia).
  assert (Hd : 1 <= doy - (153 * mp + 2) / 5 + 1 <= 31)
    by (subst mp; Z.div_mod_to_equations; lia).
  unfold days_from_civil.
  destruct (mp <? 10) eqn:E10.
  - apply Z.ltb_lt in E10.
    replace (mp + 3 <=? 2) with false by (symmetry; apply Z.leb_gt; lia).
    replace ((mp + 3 + 9) mod 12) with mp by (Z.div_mod_to_equations; lia).
    replace ((yoe + era * 400) / 400) with era
      by (Z.div_mod_to_equations; lia).
    split; [|lia].
    replace (yoe + era * 400 - era * 400) with yoe by lia.
    subst doy doe z'. lia.
  - apply Z.ltb_ge in E10.
    replace (mp - 9 <=? 2) with true by (symmetry; apply Z.leb_le; lia).
    replace ((mp - 9 + 9) mod 12) with mp by (Z.div_mod_to_equations; lia).
    replace (yoe + era * 400 + 1 - 1) with (yoe + era * 400) by lia.
    replace ((yoe + era * 400) / 400) with era
      by (Z.div_mod_to_equations; lia).
    split; [|lia].
    replace (yoe + era * 400 - era * 400) with yoe by lia.
    subst doy doe z'. lia.
Qed.

Lemma days_from_civil_day (y m d : Z) :
  days_from_civil y m d = days_from_civil y m 1 + d - 1.
Proof. unfold days_from_civil. lia. Qed.

(** The day built from the year, month and day of an instant is the day of
    that instant, shifted by the difference of the day numbers. *)
Lemma MakeDay_of_month (t d : Z) :
  MakeDay (getFullYear t) (getMonth t) d = Day t + (d - getDate t).
Proof.
  unfold MakeDay, getFullYear, getMonth, getDate.
  pose proof (civil_round_trip (Day t)) as H.
  destruct (civil_from_days (Day t)) as [[y m] d0]. simpl.
  destruct H as (H & Hm & _).
  replace ((m - 1) / 12) with 0 by (Z.div_mod_to_equations; lia).
  replace ((m - 1) mod 12 + 1) with m by (Z.div_mod_to_equations; lia).
  rewrite Z.add_0_r. rewrite (days_from_civil_day y m d0) in H. lia.
Qed.

Lemma year_after_epoch (t : Z) : 0 <= t -> 99 < getFullYear t.
Proof.
  intro H. unfold getFullYear, civil_from_days. simpl fst.
  assert (Hd : 0 <= Day t) by (unfold Day, msPerDay; Z.div_mod_to_equations; lia).
  set (z' := Day t + 719468).
  assert (He : 4 <= z' / 146097) by (subst z'; Z.div_mod_to_equations; lia).
  set (era := z' / 146097) in *.
  set (doe := z' - era * 146097).
  assert (Hdoe : 0 <= doe <= 146096).
  { subst doe era. pose proof (Z.div_mod z' 146097).
    pose proof (Z.mod_pos_bound z' 146097). lia. }
  pose proof (yearOfEra_bounds doe Hdoe) as Hy. cbv zeta in Hy.
  destruct Hy as [Hy _].
  match goal with |- 99 < (if ?c then _ else _) => destruct c end; lia.
Qed.

(** After 1970, [new Date(y, m, d, h, min)] built from today's year, month
    and day is [setHours(h, min, 0, 0)] on today. *)
Lemma newDate_today (now h m : Z) :
  0 <= now ->
  newDate (getFullYear now) (getMonth now) (getDate now) h m
  = setHours now h m 0 0.
Proof.
  intro H. unfold newDate, setHours.
  pose proof (year_after_epoch now H) as Hy.
  replace ((0 <=? getFullYear now) && (getFullYear now <=? 99)) with false
    by (symmetry; apply andb_false_iff; right; apply Z.leb_gt; lia).
  rewrite MakeDay_of_month. f_equal. lia.
Qed.

Lemma civil_from_days_injective (a b : Z) :
  civil_from_days a = civil_from_days b -> a = b.
Proof.
  intro H. pose proof (civil_round_trip a) as Ha.
  pose proof (civil_round_trip b) as Hb. rewrite H in Ha.
  destruct (civil_from_days b) as [[y m] d].
  destruct Ha as [Ha _]. destruct Hb as [Hb _]. congruence.
Qed.

(** The test of "today" by day, month and year holds exactly on the local
    day of now. *)
Lemma isToday_iff (now t : Z) :
  WorkoutService.isToday now t = true <-> Day t = Day now.
Proof.
  unfold WorkoutService.isToday, getDate, getMonth, getFullYear. split.
  - intro H. apply andb_true_iff in H. destruct H as [H Hy].
    apply andb_true_iff in H. destruct H as [Hd Hm].
    apply Z.eqb_eq in Hd, Hm, Hy. apply civil_from_days_injective.
    destruct (civil_from_days (Day t)) as [[y m] d].
    destruct (civil_from_days (Day now)) as [[y' m'] d'].
    simpl in *. f_equal; [f_equal|]; lia.
  - intros ->. now rewrite !Z.eqb_refl.
Qed.

Lemma startsLater_eq {js : Runtime} (now : Z) (slot : TimeSlot) :
  0 <= now ->
  WorkoutService.startsLater now slot
  = gtb (Spec.slotStartToday now slot) (Some now).
Proof.
  intro H. unfold WorkoutService.startsLater, Spec.slotStartToday,
    WorkoutService.newDateOf, WorkoutService.setHoursOf.
  destruct (hoursMinutes (startTime slot)) as [[h|] [m|]]; try reflexivity.
  now rewrite newDate_today.
Qed.

Lemma triple_eq (a b c a' b' c' : Z) :
  a = a' -> b = b' -> c = c' -> (a, b, c) = (a', b', c').
Proof. congruence. Qed.

(** A civil date with a month in 1..12 and a day in 1..28 is read back
    from its day number. *)
Lemma days_from_civil_inverse (y m d : Z) :
  1 <= m <= 12 -> 1 <= d <= 28 ->
  civil_from_days (days_from_civil y m d) = (y, m, d).
Proof.
  intros Hm Hd.
  unfold days_from_civil.
  set (y' := if m <=? 2 then y - 1 else y).
  set (era := y' / 400).
  set (yoe := y' - era * 400).
  assert (Hyoe : 0 <= yoe <= 399) by (subst yoe era; Z.div_mod_to_equations; lia).
  set (mp := (m + 9) mod 12).
  assert (Hmp : 0 <= mp <= 11 /\ (m <= 2 -> mp = m + 9) /\ (2 < m -> mp = m - 3))
    by (subst mp; Z.div_mod_to_equations; lia).
  set (doy := (153 * mp + 2) / 5 + d - 1).
  assert (Hdoy : 0 <= doy <= 364 /\ (mp = 11 -> doy <= 364))
    by (subst doy; Z.div_mod_to_equations; lia).
  set (doe := yoe * 365 + yoe / 4 - yoe / 100 + doy).
  assert (Hdoe : 0 <= doe <= 146096) by (subst doe; Z.div_mod_to_equations; lia).
  unfold civil_from_days.
  replace (era * 146097 + doe - 719468 + 719468) with (doe + era * 146097) by lia.
  replace ((doe + era * 146097) / 146097) with era by (Z.div_mod_to_equations; lia).
  replace (doe + era * 146097 - era * 146097) with doe by lia.
  assert (Hy : (doe - doe / 1460 + doe / 36524 - doe / 146096) / 365 = yoe).
  { subst doe. Z.div_mod_to_equations. lia. }
  rewrite Hy.
  replace (doe - (365 * yoe + yoe / 4 - yoe / 100)) with doy by (subst doe; lia).
  assert (Hmp' : (5 * doy + 2) / 153 = mp) by (subst doy; Z.div_mod_to_equations; lia).
  rewrite Hmp'.
  replace (doy - (153 * mp + 2) / 5 + 1) with d by (subst doy; lia).
  destruct Hmp as (Hr & Hlo & Hhi).
  destruct (Z.le_gt_cases m 2) as [H2 | H2].
  - rewrite (Hlo H2).
    replace (m + 9 <? 10) with false by (symmetry; apply Z.ltb_ge; lia).
    replace (m + 9 - 9 <=? 2) with true by (symmetry; apply Z.leb_le; lia).
    subst yoe y'. replace (m <=? 2) with true by (symmetry; apply Z.leb_le; lia).
    cbv zeta. apply triple_eq; lia.
  - rewrite (Hhi ltac:(lia)).
    replace (m - 3 <? 10) with true by (symmetry; apply Z.ltb_lt; lia).
    replace (m - 3 + 3 <=? 2) with false by (symmetry; apply Z.leb_gt; lia).
    subst yoe y'. replace (m <=? 2) with false by (symmetry; apply Z.leb_gt; lia).
    cbv zeta. apply triple_eq; lia.
Qed.

Lemma Day_multiple (k : Z) : Day (k * msPerDay) = k.
Proof. unfold Day, msPerDay. now rewrite Z.div_mul. Qed.

(** The year, month and day of the local midnight built from a month in
    1..12 and a day in 1..28 are the ones given. *)
Lemma MakeDay_read_back (y m d : Z) :
  1 <= m <= 12 -> 1 <= d <= 28 ->
  let t := MakeDay y (m - 1) d * msPerDay in
  getFullYear t = y /\ getMonth t = m - 1 /\ getDate t = d.
Proof.
  intros Hm Hd t. subst t.
  unfold getFullYear, getMonth, getDate. rewrite Day_multiple.
  unfold MakeDay.
  replace ((m - 1) / 12) with 0 by (Z.div_mod_to_equations; lia).
  replace ((m - 1) mod 12 + 1) with m by (Z.div_mod_to_equations; lia).
  rewrite Z.add_0_r.
  replace (days_from_civil y m 1 + d - 1) with (days_from_civil y m d)
    by (rewrite (days_from_civil_day y m d); lia).
  rewrite (days_from_civil_inverse y m d Hm Hd). simpl. repeat split.
Qed.

(** Far inside the range of a Date: years up to 9999 with any two-digit
    month and day. *)
Lemma MakeDay_range (y m d : Z) :
  0 <= y <= 9999 -> -1 <= m <= 98 -> 0 <= d <= 99 ->
  Z.abs (MakeDay y m d * msPerDay) <= maxTime.
Proof.
  intros Hy Hm Hd. unfold MakeDay, days_from_civil, msPerDay, maxTime.
  set (mm := m mod 12 + 1).
  assert (Hmm : 1 <= mm <= 12) by (subst mm; Z.div_mod_to_equations; lia).
  set (yy := y + m / 12).
  assert (Hyy : -1 <= yy <= 10007) by (subst yy; Z.div_mod_to_equations; lia).
  set (y' := if mm <=? 2 then yy - 1 else yy).
  assert (Hy' : -2 <= y' <= 10007) by (subst y'; destruct (mm <=? 2); lia).
  clearbody y' mm. clear - Hy' Hmm Hd.
  Z.div_mod_to_equations. lia.
Qed.

(** After 1970, [new Date(year, month, n)] built from today's year and
    month is the local midnight [n] minus today's day number of days from
    today's. *)
Lemma newDate_day_of_month (now n : Z) :
  0 <= now ->
  Z.abs (startOfDay now + (n - getDate now) * msPerDay) <= maxTime ->
  newDate (getFullYear now) (getMonth now) n 0 0
  = Some (startOfDay now + (n - getDate now) * msPerDay).
Proof.
  intros H Hr. unfold newDate. pose proof (year_after_epoch now H) as Hy.
  replace ((0 <=? getFullYear now) && (getFullYear now <=? 99)) with false
    by (symmetry; apply andb_false_iff; right; apply Z.leb_gt; lia).
  rewrite MakeDay_of_month.
  replace ((Day now + (n - getDate now)) * msPerDay
           + 0 * msPerHour + 0 * msPerMinute)
    with (startOfDay now + (n - getDate now) * msPerDay)
    by (unfold startOfDay; lia).
  unfold TimeClip. apply Z.leb_le in Hr. now rewrite Hr.
Qed.

(** A day number in 1..28 of today's month gives a day of today's month and
    year. *)
Lemma day_of_month_read_back (now n : Z) :
  1 <= n <= 28 ->
  let t := startOfDay now + (n - getDate now) * msPerDay in
  getFullYear t = getFullYear now
  /\ getMonth t = getMonth now
  /\ getDate t = n.
Proof.
  intros Hn t. subst t.
  replace (startOfDay now + (n - getDate now) * msPerDay)
    with ((Day now + (n - getDate now)) * msPerDay)
    by (unfold startOfDay; lia).
  unfold getFullYear, getMonth, getDate. rewrite Day_multiple.
  pose proof (civil_round_trip (Day now)) as H.
  destruct (civil_from_days (Day now)) as [[y m] d0].
  destruct H as (H & Hm & _). cbn [fst snd].
  replace (Day now + (n - d0)) with (days_from_civil y m n)
    by (rewrite (days_from_civil_day y m n);
        rewrite (days_from_civil_day y m d0) in H; lia).
  rewrite (days_from_civil_inverse y m n Hm Hn). simpl. repeat split.
Qed.

(** *** Strings of digits and hyphens *)

Lemma append_String (a : string) (c : ascii) (b : string) :
  ((a ++ String c "") ++ b)%string = (a ++ String c b)%string.
Proof. induction a as [|x a IH]; simpl; [reflexivity | now rewrite IH]. Qed.

Lemma append_empty (a : string) : (a ++ "")%string = a.
Proof. induction a as [|x a IH]; simpl; [reflexivity | now rewrite IH]. Qed.

Lemma digit_not_hyphen (c : ascii) :
  isDigit c = true -> Ascii.eqb c "-"%char = false.
Proof.
  destruct c as [[] [] [] [] [] [] [] []]; intro H;
    try reflexivity; discriminate H.
Qed.

Lemma splitAux_digits (cur a : string) :
  allDigits a = true -> splitAux "-"%char cur a = [(cur ++ a)%string].
Proof.
  revert cur. induction a as [|c a IH]; intros cur H; simpl.
  - now rewrite append_empty.
  - simpl in H. apply andb_true_iff in H. destruct H as [Hc Ha].
    rewrite (digit_not_hyphen c Hc), IH by exact Ha.
    now rewrite append_String.
Qed.

Lemma splitAux_digits_hyphen (cur a rest : string) :
  allDigits a = true ->
  splitAux "-"%char cur (a ++ String "-"%char rest)
  = (cur ++ a)%string :: splitAux "-"%char "" rest.
Proof.
  revert cur. induction a as [|c a IH]; intros cur H; simpl.
  - now rewrite append_empty.
  - simpl in H. apply andb_true_iff in H. destruct H as [Hc Ha].
    rewrite (digit_not_hyphen c Hc), IH by exact Ha.
    now rewrite append_String.
Qed.

Lemma split_iso (y m d : string) :
  allDigits y = true -> allDigits m = true -> allDigits d = true ->
  split "-"%char (y ++ "-" ++ m ++ "-" ++ d) = [y; m; d].
Proof.
  intros Hy Hm Hd. unfold split.
  change (y ++ "-" ++ m ++ "-" ++ d)%string
    with (y ++ String "-"%char (m ++ String "-"%char d))%string.
  rewrite splitAux_digits_hyphen by exact Hy.
  rewrite splitAux_digits_hyphen by exact Hm.
  rewrite splitAux_digits by exact Hd. reflexivity.
Qed.

(** A string of digits is no [YYYY-MM-DD] string. *)
Lemma isIsoDay_not_digits (s : string) :
  isIsoDay s = true -> isDigitString s = false.
Proof.
  intro H. destruct (isDigitString s) eqn:E; [|reflexivity].
  assert (Ha : allDigits s = true) by (destruct s; [discriminate | exact E]).
  unfold isIsoDay, split in H. rewrite (splitAux_digits "" s Ha) in H.
  discriminate H.
Qed.

Lemma digitsValue_bounds (s : string) :
  allDigits s = true ->
  forall acc, 0 <= acc ->
  acc * 10 ^ Z.of_nat (String.length s) <= digitsValue acc s
  /\ digitsValue acc s < (acc + 1) * 10 ^ Z.of_nat (String.length s).
Proof.
  induction s as [|c s IH]; intros H acc Hacc.
  - simpl. lia.
  - simpl in H. apply andb_true_iff in H. destruct H as [Hc Hs].
    cbn [digitsValue String.length]. rewrite Nat2Z.inj_succ, Z.pow_succ_r by lia.
    assert (Hd : 0 <= Z.of_nat (nat_of_ascii c) - 48 <= 9).
    { unfold isDigit in Hc. apply andb_true_iff in Hc. destruct Hc as [H1 H2].
      apply Nat.leb_le in H1. apply Nat.leb_le in H2. lia. }
    destruct (IH Hs (10 * acc + (Z.of_nat (nat_of_ascii c) - 48)) ltac:(lia))
      as [Hlo Hhi].
    assert (Hp : 0 < 10 ^ Z.of_nat (String.length s))
      by (apply Z.pow_pos_nonneg; lia).
    split; nia.
Qed.

Lemma parseInt_bounds (s : string) (n : nat) :
  allDigits s = true -> String.length s = n ->
  0 <= parseInt s < 10 ^ Z.of_nat n.
Proof.
  intros H <-. unfold parseInt.
  pose proof (digitsValue_bounds s H 0 ltac:(lia)). lia.
Qed.

Lemma Number_digits {js : Runtime} (s : string) :
  allDigits s = true -> (String.length s <= 15)%nat ->
  Number s = Some (parseInt s).
Proof.
  intros H Hl. unfold Number, parseInt. rewrite H.
  replace (String.length s <=? 15)%nat with true
    by (symmetry; now apply Nat.leb_le).
  reflexivity.
Qed.

(** The coach helper on a [YYYY-MM-DD] string. *)
Lemma coach_iso_day {js : Runtime} (Date_parse : string -> Date) (now : Z)
    (s y m d : string) :
  split "-"%char s = [y; m; d] ->
  String.length y = 4%nat -> allDigits y = true ->
  String.length m = 2%nat -> allDigits m = true ->
  String.length d = 2%nat -> allDigits d = true ->
  CoachService.parseAndValidateDate Date_parse now
    (WorkoutService.DateString s)
  = Ok (MakeDay (if parseInt y <=? 99 then 1900 + parseInt y else parseInt y)
          (parseInt m - 1) (parseInt d) * msPerDay).
Proof.
  intros Hsp Ly Hy Lm Hm Ld Hd.
  assert (Hiso : isIsoDay s = true).
  { unfold isIsoDay. rewrite Hsp, Ly, Hy, Lm, Hm, Ld, Hd. reflexivity. }
  unfold CoachService.parseAndValidateDate.
  rewrite (isIsoDay_not_digits s Hiso), Hiso.
  unfold CoachService.yearMonthDay. rewrite Hsp. cbn [map].
  rewrite (Number_digits y Hy), (Number_digits m Hm), (Number_digits d Hd)
    by lia.
  pose proof (parseInt_bounds y 4 Hy Ly) as By.
  pose proof (parseInt_bounds m 2 Hm Lm) as Bm.
  pose proof (parseInt_bounds d 2 Hd Ld) as Bd.
  change (10 ^ Z.of_nat 4) with 10000 in By.
  change (10 ^ Z.of_nat 2) with 100 in Bm, Bd.
  unfold newDate.
  replace (0 <=? parseInt y) with true by (symmetry; apply Z.leb_le; lia).
  cbn [andb].
  set (Y := if parseInt y <=? 99 then 1900 + parseInt y else parseInt y).
  assert (HY : 0 <= Y <= 9999)
    by (subst Y; destruct (parseInt y <=? 99) eqn:E;
        [apply Z.leb_le in E|]; lia).
  pose proof (MakeDay_range Y (parseInt m - 1) (parseInt d) HY
                ltac:(lia) ltac:(lia)) as Hr.
  replace (MakeDay Y (parseInt m - 1) (parseInt d) * msPerDay
           + 0 * msPerHour + 0 * msPerMinute)
    with (MakeDay Y (parseInt m - 1) (parseInt d) * msPerDay) by lia.
  unfold TimeClip. apply Z.leb_le in Hr. rewrite Hr. reflexivity.
Qed.

(** *** Dates *)

Lemma newDate_midnight (y m d t : Z) :
  newDate y m d 0 0 = Some t -> startOfDay t = t.
Proof.
  unfold newDate, TimeClip.
  destruct (Z.abs _ <=? maxTime); [|discriminate].
  intro H. injection H as Ht. rewrite <- Ht.
  set (k := MakeDay _ m d).
  match goal with
  | |- startOfDay ?x = _ =>
      replace x with (k * msPerDay) by (unfold msPerHour, msPerMinute; lia)
  end.
  apply startOfDay_multiple.
Qed.

(** At 09:30 the booking helper accepts today's date with its time of
    day, and the coach helper accepts a day of the year 2020. *)
Lemma dates_not_normalized_nor_refused :
  ~ Spec.normalizedOrRefused Gym.now
      (WorkoutService.parseAndValidateDate Gym.parse Gym.now
         (WorkoutService.DateString "2026-11-03T09:30"))
  /\ ~ Spec.normalizedOrRefused Gym.now
         (CoachService.parseAndValidateDate Gym.parse Gym.now
            (WorkoutService.DateString "2020-01-01")).
Proof.
  split.
  - vm_compute. intros [H _]. discriminate H.
  - vm_compute. intros [_ H]. apply H. reflexivity.
Qed.

(** C7, amended.  The booking helper refuses with status 400 an input that
    does not parse or whose local day is before today's, and otherwise
    returns the parsed instant unchanged: local midnight for a bare
    day-of-month number, read in the current month and year, and the
    instant with its time of day for a Date or for any other string, a
    YYYY-MM-DD string included, which goes to the built-in parser.  The
    coach helper refuses with status 400 only an input that does not parse;
    it reads a bare day-of-month number in the current month and year and a
    YYYY-MM-DD string as the local midnight of that year, month and day (a
    year below 100 counted from 1900), never refuses either for being
    past, and returns any other parsed value unchanged.  A day number
    outside the month carries over into the neighbouring months. *)
Theorem date_policy {js : Runtime} (Date_parse : string -> Date) (now : Z) :
  (forall d,
     WorkoutService.parseAndValidateDate Date_parse now
       (WorkoutService.DateObject d)
     = match d with
       | None => Throw (HttpError 400 "Invalid date format")
       | Some t =>
           if startOfDay t <? startOfDay now
           then Throw (HttpError 400 "Cannot book a workout for a past date")
           else Ok t
       end)
  /\ (forall s, isDigitString s = false ->
        WorkoutService.parseAndValidateDate Date_parse now
          (WorkoutService.DateString s)
        = WorkoutService.parseAndValidateDate Date_parse now
            (WorkoutService.DateObject (Date_parse s)))
  /\ (forall s, isDigitString s = true ->
        WorkoutService.parseAndValidateDate Date_parse now
          (WorkoutService.DateString s)
        = WorkoutService.parseAndValidateDate Date_parse now
            (WorkoutService.DateObject
               (newDate (getFullYear now) (getMonth now) (parseInt s) 0 0))
        /\ Spec.normalizedOrRefused now
             (WorkoutService.parseAndValidateDate Date_parse now
                (WorkoutService.DateString s)))
  /\ (forall d,
        CoachService.parseAndValidateDate Date_parse now
          (WorkoutService.DateObject d)
        = match d with
          | None => Throw (HttpError 400 "Invalid date format")
          | Some t => Ok t
          end)
  /\ (forall s, isDigitString s = false -> isIsoDay s = false ->
        CoachService.parseAndValidateDate Date_parse now
          (WorkoutService.DateString s)
        = CoachService.parseAndValidateDate Date_parse now
            (WorkoutService.DateObject (Date_parse s)))
  /\ (forall s, isDigitString s = true \/ isIsoDay s = true ->
        match CoachService.parseAndValidateDate Date_parse now
                (WorkoutService.DateString s) with
        | Ok t => t = startOfDay t
        | Throw e => e = HttpError 400 "Invalid date format"
        end)
  /\ (forall s,
        0 <= now ->
        isDigitString s = true ->
        let t := startOfDay now + (parseInt s - getDate now) * msPerDay in
        Z.abs t <= maxTime ->
        WorkoutService.parseAndValidateDate Date_parse now
          (WorkoutService.DateString s)
        = (if parseInt s <? getDate now
           then Throw (HttpError 400 "Cannot book a workout for a past date")
           else Ok t)
        /\ CoachService.parseAndValidateDate Date_parse now
             (WorkoutService.DateString s)
           = Ok t
        /\ (1 <= parseInt s <= 28 ->
            getFullYear t = getFullYear now
            /\ getMonth t = getMonth now
            /\ getDate t = parseInt s))
  /\ (forall y m d,
        String.length y = 4%nat -> allDigits y = true ->
        String.length m = 2%nat -> allDigits m = true ->
        String.length d = 2%nat -> allDigits d = true ->
        isIsoDay (y ++ "-" ++ m ++ "-" ++ d) = true)
  /\ (forall s, isIsoDay s = true ->
        exists y m d,
          split "-"%char s = [y; m; d]
          /\ isDigitString s = false
          /\ let year :=
               if parseInt y <=? 99 then 1900 + parseInt y else parseInt y in
             let t := MakeDay year (parseInt m - 1) (parseInt d) * msPerDay in
             CoachService.parseAndValidateDate Date_parse now
               (WorkoutService.DateString s)
             = Ok t
             /\ (1 <= parseInt m <= 12 -> 1 <= parseInt d <= 28 ->
                 getFullYear t = year
                 /\ getMonth t = parseInt m - 1
                 /\ getDate t = parseInt d)).
Proof.
  split; [|split; [|split; [|split; [|split; [|split; [|split; [|split]]]]]]].
  - intros [t|]; reflexivity.
  - intros s Hs. unfold WorkoutService.parseAndValidateDate. now rewrite Hs.
  - intros s Hs. split.
    + unfold WorkoutService.parseAndValidateDate. now rewrite Hs.
    + unfold Spec.normalizedOrRefused, WorkoutService.parseAndValidateDate.
      rewrite Hs.
      destruct (newDate (getFullYear now) (getMonth now) (parseInt s) 0 0)
        as [t|] eqn:E; [|eexists; reflexivity].
      apply newDate_midnight in E.
      destruct (startOfDay t <? startOfDay now) eqn:L; [eexists; reflexivity|].
      apply Z.ltb_ge in L. split; [now symmetry | now rewrite E in L].
  - intros [t|]; reflexivity.
  - intros s Hs Hi. unfold CoachService.parseAndValidateDate.
    now rewrite Hs, Hi.
  - intros s Hs. unfold CoachService.parseAndValidateDate.
    destruct (isDigitString s).
    + destruct (newDate _ _ (parseInt s) 0 0) as [t|] eqn:E; [|reflexivity].
      symmetry. now apply newDate_midnight in E.
    + destruct Hs as [Hs | Hs]; [discriminate|]. rewrite Hs.
      destruct (CoachService.yearMonthDay s) as [[[y m] d]|]; [|reflexivity].
      destruct (newDate y (m - 1) d 0 0) as [t|] eqn:E; [|reflexivity].
      symmetry. now apply newDate_midnight in E.
  - intros s H0 Hs t Hr. subst t.
    set (k := parseInt s - getDate now) in *.
    pose proof (newDate_day_of_month now (parseInt s) H0 Hr) as Hn.
    fold k in Hn.
    split; [|split].
    + unfold WorkoutService.parseAndValidateDate. rewrite Hs, Hn.
      replace (startOfDay now + k * msPerDay) with ((Day now + k) * msPerDay)
        by (unfold startOfDay; lia).
      rewrite startOfDay_multiple. unfold startOfDay.
      destruct (parseInt s <? getDate now) eqn:E.
      * apply Z.ltb_lt in E.
        replace ((Day now + k) * msPerDay <? Day now * msPerDay) with true;
          [reflexivity|].
        symmetry. apply Z.ltb_lt. unfold msPerDay. lia.
      * apply Z.ltb_ge in E.
        replace ((Day now + k) * msPerDay <? Day now * msPerDay) with false;
          [reflexivity|].
        symmetry. apply Z.ltb_ge. unfold msPerDay. lia.
    + unfold CoachService.parseAndValidateDate. now rewrite Hs, Hn.
    + intro Hd. exact (day_of_month_read_back now (parseInt s) Hd).
  - intros y m d Ly Hy Lm Hm Ld Hd. unfold isIsoDay.
    rewrite (split_iso y m d Hy Hm Hd), Ly, Hy, Lm, Hm, Ld, Hd. reflexivity.
  - intros s Hiso.
    assert (Hsp : exists y m d,
               split "-"%char s = [y; m; d]
               /\ String.length y = 4%nat /\ allDigits y = true
               /\ String.length m = 2%nat /\ allDigits m = true
               /\ String.length d = 2%nat /\ allDigits d = true).
    { unfold isIsoDay in Hiso.
      destruct (split "-"%char s) as [|y [|m [|d [|x l]]]]; try discriminate.
      exists y, m, d.
      apply andb_true_iff in Hiso. destruct Hiso as [Hiso H3].
      apply andb_true_iff in Hiso. destruct Hiso as [H1 H2].
      apply andb_true_iff in H1, H2, H3.
      destruct H1 as [L1 D1], H2 as [L2 D2], H3 as [L3 D3].
      apply Nat.eqb_eq in L1, L2, L3. repeat split; assumption. }
    destruct Hsp as (y & m & d & Hsp & Ly & Hy & Lm & Hm & Ld & Hd).
    exists y, m, d. split; [exact Hsp|].
    split; [exact (isIsoDay_not_digits s Hiso)|].
    cbv zeta. split.
    + exact (coach_iso_day Date_parse now s y m d Hsp Ly Hy Lm Hm Ld Hd).
    + intros Bm Bd. exact (MakeDay_read_back _ _ _ Bm Bd).
Qed.

Lemma date_policy_witness :
  isDigitString "15" = true
  /\ isIsoDay "2020-01-01" = true
  /\ 0 <= Gym.now
  /\ WorkoutService.parseAndValidateDate Gym.parse Gym.now
       (WorkoutService.DateString "15")
     = Ok (Gym.midnight 2026 11 15)
  /\ WorkoutService.parseAndValidateDate Gym.parse Gym.now
       (WorkoutService.DateString "2026-11-03T09:30")
     = Ok Gym.now
  /\ CoachService.parseAndValidateDate Gym.parse Gym.now
       (WorkoutService.DateString "2")
     = Ok (Gym.midnight 2026 11 2)
  /\ CoachService.parseAndValidateDate Gym.parse Gym.now
       (WorkoutService.DateString "2020-01-01")
     = Ok (Gym.midnight 2020 1 1)
  /\ match CoachService.parseAndValidateDate Gym.parse Gym.now
             (WorkoutService.DateString "2020-01-01") with
     | Ok t => t = startOfDay t
     | Throw e => e = HttpError 400 "Invalid date format"
     end.
Proof.
  destruct (date_policy Gym.parse Gym.now)
    as (Hobj & Hstr & Hday & _ & _ & Hmid & Hnum & _ & Hiso).
  assert (H1 : isDigitString "15" = true) by reflexivity.
  assert (H2 : isIsoDay "2020-01-01" = true) by reflexivity.
  assert (H0 : 0 <= Gym.now) by (vm_compute; discriminate).
  split; [exact H1|]. split; [exact H2|]. split; [exact H0|].
  split; [|split; [|split; [|split]]].
  - rewrite (proj1 (Hday "15" H1)), Hobj. reflexivity.
  - rewrite (Hstr "2026-11-03T09:30" eq_refl), Hobj. reflexivity.
  - assert (Hr : Z.abs (startOfDay Gym.now
                        + (parseInt "2" - getDate Gym.now) * msPerDay)
                 <= maxTime) by (vm_compute; discriminate).
    rewrite (proj1 (proj2 (Hnum "2" H0 eq_refl Hr))). reflexivity.
  - destruct (Hiso "2020-01-01" H2) as (y & m & d & Hsp & _ & Hok & _).
    rewrite Hok. vm_compute in Hsp. injection Hsp as <- <- <-. reflexivity.
  - exact (Hmid "2020-01-01" (or_intror H2)).
Defined.

(** *** Errors of the availability resolver *)

Section ResolverErrors.

Context {js : Runtime}.

Import WorkoutService.

Lemma mapResult_length {A B} (f : A -> Result B) (l : list A) (ys : list B) :
  mapResult f l = Ok ys -> List.length ys = List.length l.
Proof.
  revert ys. induction l as [|x l IH]; simpl; intros ys H.
  - now inversion H.
  - destruct (f x); [|discriminate].
    destruct (mapResult f l) as [zs|]; [|discriminate].
    inversion H. simpl. f_equal. now apply IH.
Qed.

Lemma filter_nil_of_all_false {A} (f : A -> bool) (l : list A) :
  (forall x, In x l -> f x = false) -> filter f l = [].
Proof.
  induction l as [|x l IH]; simpl; intro H; [reflexivity|].
  rewrite (H x (or_introl eq_refl)). apply IH. intros; apply H; now right.
Qed.

Variable Date_parse : string -> Date.
Variable users : UserService.
Variable now : Z.
Variable d : Database.
Variable f : FilterOptions.
Variable searchDate : Z.

Hypothesis dated : searchDateOf Date_parse now (f_date f) = Ok searchDate.

Lemma search_empty_catalogue :
  TimeSlotModel d = [] ->
  searchWorkoutUsingFilters Date_parse users now d f
  = Throw (HttpError 404 "No time slots available").
Proof.
  intro H. unfold searchWorkoutUsingFilters, availableTimeSlots.
  now rewrite dated, H.
Qed.

Lemma search_all_started :
  TimeSlotModel d <> [] ->
  isToday now (startOfDay searchDate) = true ->
  (forall slot, In slot (TimeSlotModel d) -> startsLater now slot = false) ->
  searchWorkoutUsingFilters Date_parse users now d f
  = Throw (HttpError 404 "No available time slots for today").
Proof.
  intros Hne Htoday Hall. unfold searchWorkoutUsingFilters. rewrite dated.
  destruct (Nat.eqb (List.length (availableTimeSlots d)) 0) eqn:E.
  - apply length_eqb_0 in E. unfold availableTimeSlots in E.
    apply (proj1 (sortByStartTime_nil _)) in E. contradiction.
  - unfold validTimeSlots. rewrite Htoday.
    rewrite filter_nil_of_all_false; [reflexivity|].
    intros x Hx. apply Hall. unfold availableTimeSlots in Hx.
    exact (proj1 (sortByStartTime_In _ _) Hx).
Qed.

Lemma search_slot_not_valid (slot : ObjectId) :
  validTimeSlots now (startOfDay searchDate) d <> [] ->
  f_timeSlotId f = Some slot ->
  ~ In slot (map slot_id (validTimeSlots now (startOfDay searchDate) d)) ->
  searchWorkoutUsingFilters Date_parse users now d f
  = Throw (HttpError 404 "Selected time slot is not available").
Proof.
  intros Hne Hreq Hnot. unfold searchWorkoutUsingFilters. rewrite dated.
  destruct (Nat.eqb (List.length (availableTimeSlots d)) 0) eqn:E.
  - exfalso. apply Hne. apply length_eqb_0 in E.
    unfold validTimeSlots. rewrite E. now destruct (isToday _ _).
  - destruct (Nat.eqb (List.length (validTimeSlots now _ d)) 0) eqn:E'.
    + apply length_eqb_0 in E'. contradiction.
    + rewrite Hreq.
      destruct (find _ (validTimeSlots now (startOfDay searchDate) d))
        as [x|] eqn:Ef; [|reflexivity].
      exfalso. apply find_some in Ef. destruct Ef as [Hin Hid].
      apply Nat.eqb_eq in Hid. apply Hnot. rewrite <- Hid.
      now apply in_map.
Qed.

End ResolverErrors.

Lemma search_never_empty {js : Runtime} (Date_parse : string -> Date) (users : UserService)
    (now : Z) (d : Database) (f : WorkoutService.FilterOptions) :
  WorkoutService.searchWorkoutUsingFilters Date_parse users now d f <> Ok [].
Proof.
  unfold WorkoutService.searchWorkoutUsingFilters.
  destruct (WorkoutService.searchDateOf Date_parse now _); [|discriminate].
  repeat match goal with
         | |- (if ?c then _ else _) <> _ =>
             destruct c eqn:?; [discriminate|]
         end.
  intro H. apply mapResult_length in H.
  match goal with
  | E : Nat.eqb (List.length (map _ _)) 0 = false |- _ =>
      rewrite <- H in E; discriminate E
  end.
Qed.

Lemma coach_slots_never_empty (users : UserService) (d : Database)
    (coach : ObjectId) (date : Date) :
  CoachService.getCoachAvailableTimeSlots users d coach date <> Ok [].
Proof.
  unfold CoachService.getCoachAvailableTimeSlots.
  destruct date; [|discriminate].
  destruct (getCoachData users coach); [|discriminate].
  destruct (TimeSlotModel d); simpl; discriminate.
Qed.

(** C9.  Once the date of the query is accepted, the composite search
    answers an empty catalogue with "No time slots available", a catalogue
    all of whose slots have started, on a query for today, with "No
    available time slots for today", and a requested slot that is not among
    the valid ones with "Selected time slot is not available": each with
    status 404, the three messages differing from one another.  The
    per-coach availability answers an empty catalogue with status 404 as
    well.  Neither operation ever returns an empty list. *)
Theorem resolver_errors_distinct {js : Runtime}
    (Date_parse : string -> Date) (users : UserService) (now : Z)
    (d : Database) (f : WorkoutService.FilterOptions) (searchDate : Z) :
  WorkoutService.searchDateOf Date_parse now (WorkoutService.f_date f)
  = Ok searchDate ->
  let r := WorkoutService.searchWorkoutUsingFilters Date_parse users now d f in
  let day := startOfDay searchDate in
  (TimeSlotModel d = [] ->
     r = Throw (HttpError 404 "No time slots available"))
  /\ (TimeSlotModel d <> [] ->
      WorkoutService.isToday now day = true ->
      (forall slot, In slot (TimeSlotModel d) ->
         WorkoutService.startsLater now slot = false) ->
      r = Throw (HttpError 404 "No available time slots for today"))
  /\ (forall slot,
        WorkoutService.validTimeSlots now day d <> [] ->
        WorkoutService.f_timeSlotId f = Some slot ->
        ~ In slot (map slot_id (WorkoutService.validTimeSlots now day d)) ->
        r = Throw (HttpError 404 "Selected time slot is not available"))
  /\ "No time slots available" <> "No available time slots for today"
  /\ "No time slots available" <> "Selected time slot is not available"
  /\ "No available time slots for today"
     <> "Selected time slot is not available"
  /\ r <> Ok []
  /\ (forall coach t,
        getCoachData users coach <> None -> TimeSlotModel d = [] ->
        CoachService.getCoachAvailableTimeSlots users d coach (Some t)
        = Throw (HttpError 404 "No time slots available"))
  /\ (forall coach date,
        CoachService.getCoachAvailableTimeSlots users d coach date <> Ok []).
Proof.
  intros dated r day. subst r day.
  split; [apply (search_empty_catalogue _ users _ _ _ _ dated)|].
  split; [apply (search_all_started _ users _ _ _ _ dated)|].
  split; [apply (search_slot_not_valid _ users _ _ _ _ dated)|].
  split; [discriminate|]. split; [discriminate|]. split; [discriminate|].
  split; [apply search_never_empty|]. split.
  - intros coach t Hc He. unfold CoachService.getCoachAvailableTimeSlots.
    destruct (getCoachData users coach); [|contradiction]. now rewrite He.
  - intros. apply coach_slots_never_empty.
Qed.

(** *** The properties on the small gym *)

Lemma addFeedback_policy_witness :
  findById booking_id 102%nat (BookingModel (database Gym.world1))
  = Some Gym.booking1
  /\ (20%nat = clientId Gym.booking1 \/ 20%nat = coachId Gym.booking1)
  /\ findById slot_id (timeSlotId Gym.booking1)
       (TimeSlotModel (database Gym.world1)) = Some Gym.morning
  /\ (exists m,
        FeedbackService.addFeedback noFaults Gym.now Gym.world1
          20%nat 102%nat "good" 5
        = (Throw (HttpError 400 m), Gym.world1))
  /\ fst (FeedbackService.addFeedback noFaults Gym.afterSession Gym.world1
            20%nat 102%nat "good" 5)
     = Ok {| Model.message := "good"; Model.rating := Some 5;
             timestamp := Gym.afterSession |}.
Proof.
  assert (H1 : findById booking_id 102%nat (BookingModel (database Gym.world1))
               = Some Gym.booking1) by reflexivity.
  assert (H2 : 20%nat = clientId Gym.booking1 \/ 20%nat = coachId Gym.booking1)
    by (left; reflexivity).
  assert (H3 : findById slot_id (timeSlotId Gym.booking1)
                 (TimeSlotModel (database Gym.world1)) = Some Gym.morning)
    by reflexivity.
  split; [exact H1|]. split; [exact H2|]. split; [exact H3|]. split.
  - apply (proj1 (addFeedback_policy noFaults Gym.now Gym.world1
                    20%nat 102%nat "good" 5 Gym.booking1 Gym.morning
                    H1 H2 H3)).
    reflexivity.
  - apply (proj2 (proj2 (addFeedback_policy noFaults Gym.afterSession
                           Gym.world1 20%nat 102%nat "good" 5 Gym.booking1
                           Gym.morning H1 H2 H3))).
    + reflexivity.
    + simpl. discriminate.
    + reflexivity.
    + intros old Hold. vm_compute in Hold. inversion Hold; subst old.
      vm_compute. discriminate.
    + reflexivity.
    + reflexivity.
Defined.

Lemma availability_round_trip_witness :
  Spec.freshIds Gym.world0
  /\ WorkoutService.bookWorkout Gym.noParse Gym.users noFaults Gym.now
       Gym.world0 Gym.request1
     = (Ok (WorkoutService.response Gym.booking1), Gym.world1)
  /\ Spec.slotBooked
       (CoachService.getCoachAvailableTimeSlots Gym.users
          (database Gym.world1) 10%nat (Some Gym.tomorrow)) 1%nat
     = Some true
  /\ ~ In 1%nat (Spec.freeSlots Gym.now Gym.tomorrow (database Gym.world1))
  /\ Spec.slotBooked
       (CoachService.getCoachAvailableTimeSlots Gym.users
          (database Gym.world2) 10%nat (Some Gym.tomorrow)) 1%nat
     = Some false
  /\ In 1%nat (Spec.freeSlots Gym.now Gym.tomorrow (database Gym.world2)).
Proof.
  assert (H1 : Spec.freshIds Gym.world0) by (unfold Spec.freshIds; simpl; constructor).
  assert (H2 : WorkoutService.bookWorkout Gym.noParse Gym.users noFaults
                 Gym.now Gym.world0 Gym.request1
               = (Ok (WorkoutService.response Gym.booking1), Gym.world1))
    by reflexivity.
  split; [exact H1|]. split; [exact H2|].
  destruct (availability_round_trip Gym.noParse Gym.users noFaults Gym.now
              Gym.world0 Gym.world1 Gym.request1 _ H1 H2)
    as (Hbooked & Hfree & Hcancel).
  split; [exact Hbooked|]. split; [exact (Hfree Gym.now)|].
  destruct (Hcancel noFaults Gym.now 20%nat
              (WorkoutService.response
                 (WorkoutService.cancelled Gym.now Gym.booking1))
              Gym.world2 eq_refl)
    as (_ & _ & Hagain & _ & _ & Hin).
  split.
  - apply Hagain. vm_compute. reflexivity.
  - apply (Hin Gym.now Gym.tomorrow). split.
    + exists Gym.morning. split; [now left|]. split; [reflexivity|].
      intro H. vm_compute in H. discriminate H.
    + intros b [].
Defined.

Lemma resolver_errors_distinct_witness :
  WorkoutService.searchDateOf Gym.noParse Gym.now
    (WorkoutService.f_date Gym.anySlot) = Ok Gym.now
  /\ WorkoutService.searchWorkoutUsingFilters Gym.noParse Gym.users Gym.now
       Gym.noSlots Gym.anySlot
     = Throw (HttpError 404 "No time slots available")
  /\ WorkoutService.searchWorkoutUsingFilters Gym.noParse Gym.users
       Gym.evening8 Gym.emptyGym Gym.anySlot
     = Throw (HttpError 404 "No available time slots for today")
  /\ WorkoutService.searchWorkoutUsingFilters Gym.noParse Gym.users Gym.now
       Gym.emptyGym Gym.morningSlot
     = Throw (HttpError 404 "Selected time slot is not available").
Proof.
  assert (H1 : WorkoutService.searchDateOf Gym.noParse Gym.now
                 (WorkoutService.f_date Gym.anySlot) = Ok Gym.now)
    by reflexivity.
  split; [exact H1|]. split; [|split].
  - apply (proj1 (resolver_errors_distinct Gym.noParse Gym.users Gym.now
                    Gym.noSlots Gym.anySlot Gym.now H1)).
    reflexivity.
  - apply (proj1 (proj2 (resolver_errors_distinct Gym.noParse Gym.users
                           Gym.evening8 Gym.emptyGym Gym.anySlot
                           Gym.evening8 eq_refl))).
    + simpl. discriminate.
    + reflexivity.
    + intros slot [<- | [<- | []]]; reflexivity.
  - apply (proj1 (proj2 (proj2 (resolver_errors_distinct Gym.noParse
                                  Gym.users Gym.now Gym.emptyGym
                                  Gym.morningSlot Gym.now eq_refl)))
             1%nat).
    + vm_compute. discriminate.
    + reflexivity.
    + vm_compute. intros [H | []]. discriminate H.
Defined.

(** ** Further properties *)

(** *** The clock in the search and in the booking *)

(** The clock of the search against the clock check of a booking. *)
Lemma startsLater_before_booking_clock {js : Runtime} (now date : Z) (slot : TimeSlot) :
  0 <= now ->
  (WorkoutService.startsLater now slot = true ->
     WorkoutService.isTimeSlotPassed now date (startTime slot) = false)
  /\ (Spec.slotStartToday now slot = Some now ->
        WorkoutService.startsLater now slot = false
        /\ WorkoutService.isTimeSlotPassed now date (startTime slot) = false).
Proof.
  intro H. rewrite (startsLater_eq now slot H).
  unfold WorkoutService.isTimeSlotPassed, Spec.slotStartToday, gtb, ltb.
  split.
  - intro Hl. destruct (startOfDay date =? startOfDay now); [|reflexivity].
    destruct (WorkoutService.setHoursOf now (hoursMinutes (startTime slot)))
      as [t|]; [|reflexivity].
    apply Z.ltb_lt in Hl. apply Z.ltb_ge. lia.
  - intros ->. split; [apply Z.ltb_irrefl|].
    destruct (startOfDay date =? startOfDay now); [|reflexivity].
    apply Z.ltb_irrefl.
Qed.

(** X1.  With the clock after 1970: a slot that the composite search keeps
    for today (its start lies strictly after now) is never refused by the
    clock check of a booking, whatever the booking date; and at the very
    instant a slot starts the search drops it while the booking check still
    lets it through. *)
Theorem search_and_booking_clock {js : Runtime} (now date : Z) (slot : TimeSlot) :
  0 <= now ->
  (WorkoutService.startsLater now slot = true ->
     WorkoutService.isTimeSlotPassed now date (startTime slot) = false)
  /\ (Spec.slotStartToday now slot = Some now ->
        WorkoutService.startsLater now slot = false
        /\ WorkoutService.isTimeSlotPassed now date (startTime slot) = false).
Proof. exact (startsLater_before_booking_clock now date slot). Qed.

Lemma search_and_booking_clock_witness :
  0 <= Gym.today + 9 * msPerHour
  /\ Spec.slotStartToday (Gym.today + 9 * msPerHour) Gym.morning
     = Some (Gym.today + 9 * msPerHour)
  /\ WorkoutService.startsLater (Gym.today + 9 * msPerHour) Gym.morning = false
  /\ WorkoutService.isTimeSlotPassed (Gym.today + 9 * msPerHour)
       (Gym.today + 9 * msPerHour) (startTime Gym.morning) = false.
Proof.
  assert (H : 0 <= Gym.today + 9 * msPerHour) by (vm_compute; discriminate).
  split; [exact H|]. split; [reflexivity|].
  exact (proj2 (search_and_booking_clock (Gym.today + 9 * msPerHour)
                  (Gym.today + 9 * msPerHour) Gym.morning H) eq_refl).
Defined.

(** *** A bare day of the month *)

(** X2.  With the clock after 1970, a bare day-of-month number given to the
    booking helper is read relative to today: a number below today's day of
    the month is refused as a past date (it is not moved to the next
    month), today's number gives today's local midnight, and a larger
    number gives the local midnight that many days ahead, running over
    into the following months. *)
Theorem day_of_month_relative
    (Date_parse : string -> Date) (now : Z) (s : string) :
  0 <= now ->
  isDigitString s = true ->
  Z.abs (startOfDay now + (parseInt s - getDate now) * msPerDay) <= maxTime ->
  WorkoutService.parseAndValidateDate Date_parse now
    (WorkoutService.DateString s)
  = if parseInt s <? getDate now
    then Throw (HttpError 400 "Cannot book a workout for a past date")
    else Ok (startOfDay now + (parseInt s - getDate now) * msPerDay).
Proof.
  intros H Hs Hr. unfold WorkoutService.parseAndValidateDate. rewrite Hs.
  set (k := parseInt s - getDate now) in *.
  assert (Hn : newDate (getFullYear now) (getMonth now) (parseInt s) 0 0
               = Some (startOfDay now + k * msPerDay)).
  { unfold newDate. pose proof (year_after_epoch now H) as Hy.
    replace ((0 <=? getFullYear now) && (getFullYear now <=? 99)) with false
      by (symmetry; apply andb_false_iff; right; apply Z.leb_gt; lia).
    rewrite MakeDay_of_month. fold k.
    replace ((Day now + k) * msPerDay + 0 * msPerHour + 0 * msPerMinute)
      with (startOfDay now + k * msPerDay) by (unfold startOfDay; lia).
    unfold TimeClip. apply Z.leb_le in Hr. now rewrite Hr. }
  rewrite Hn.
  replace (startOfDay now + k * msPerDay) with ((Day now + k) * msPerDay)
    by (unfold startOfDay; lia).
  rewrite startOfDay_multiple. unfold startOfDay.
  destruct (parseInt s <? getDate now) eqn:E.
  - apply Z.ltb_lt in E.
    replace ((Day now + k) * msPerDay <? Day now * msPerDay) with true;
      [reflexivity|].
    symmetry. apply Z.ltb_lt. unfold msPerDay. lia.
  - apply Z.ltb_ge in E.
    replace ((Day now + k) * msPerDay <? Day now * msPerDay) with false;
      [reflexivity|].
    symmetry. apply Z.ltb_ge. unfold msPerDay. lia.
Qed.

Lemma day_of_month_relative_witness :
  0 <= Gym.now
  /\ isDigitString "2" = true
  /\ WorkoutService.parseAndValidateDate Gym.noParse Gym.now
       (WorkoutService.DateString "2")
     = Throw (HttpError 400 "Cannot book a workout for a past date")
  /\ WorkoutService.parseAndValidateDate Gym.noParse Gym.now
       (WorkoutService.DateString "31")
     = Ok (Gym.midnight 2026 12 1).
Proof.
  assert (H : 0 <= Gym.now) by (vm_compute; discriminate).
  split; [exact H|]. split; [reflexivity|]. split.
  - rewrite (day_of_month_relative Gym.noParse Gym.now "2" H eq_refl);
      [reflexivity | vm_compute; discriminate].
  - rewrite (day_of_month_relative Gym.noParse Gym.now "31" H eq_refl);
      [reflexivity | vm_compute; discriminate].
Defined.

(** *** The rows of the composite search *)

Section SearchRows.

Context {js : Runtime}.

Import WorkoutService Spec.

Variable Date_parse : string -> Date.
Variable users : UserService.
Variable now : Z.
Variable d : Database.
Variable f : FilterOptions.

Lemma mapResult_In {A B} (g : A -> Result B) (l : list A) (ys : list B) (y : B) :
  mapResult g l = Ok ys -> In y ys -> exists x, In x l /\ g x = Ok y.
Proof.
  revert ys. induction l as [|x l IH]; simpl; intros ys H Hin.
  - inversion H; subst. destruct Hin.
  - destruct (g x) as [y0|] eqn:E; [|discriminate].
    destruct (mapResult g l) as [zs|]; [|discriminate].
    inversion H; subst. destruct Hin as [<- | Hin].
    + exists x. auto.
    + destruct (IH zs eq_refl Hin) as (x' & Hx & Hg). exists x'. auto.
Qed.

Lemma searchDateOf_not_past (date : option DateInput) (t : Z) :
  searchDateOf Date_parse now date = Ok t -> startOfDay now <= startOfDay t.
Proof.
  unfold searchDateOf.
  assert (Hgen : forall sd : Date,
             match sd with
             | None => Throw (HttpError 400 "Invalid date format")
             | Some t0 =>
                 if startOfDay t0 <? startOfDay now
                 then Throw (HttpError 400 "Date cannot be in the past")
                 else Ok t0
             end = Ok t -> startOfDay now <= startOfDay t).
  { intros [t0|]; [|discriminate].
    destruct (startOfDay t0 <? startOfDay now) eqn:E; [discriminate|].
    intro H. inversion H; subst. now apply Z.ltb_ge in E. }
  destruct date as [[dt|s]|].
  - apply Hgen.
  - destruct s as [|c s']; [intro H; inversion H; lia|]. apply Hgen.
  - intro H; inversion H; lia.
Qed.

(** What a successful search went through. *)
Lemma search_Ok_inv (rows : list CoachWorkoutAvailability) :
  searchWorkoutUsingFilters Date_parse users now d f = Ok rows ->
  exists searchDate,
    searchDateOf Date_parse now (f_date f) = Ok searchDate
    /\ availableAlternativeTimeSlots now (startOfDay searchDate) d <> []
    /\ mapResult
         (availabilityInfo f (startOfDay searchDate)
            (availableAlternativeTimeSlots now (startOfDay searchDate) d))
         (map (enrich users d) (matchingWorkouts f d))
       = Ok rows.
Proof.
  unfold searchWorkoutUsingFilters.
  destruct (searchDateOf Date_parse now (f_date f)) as [sd|]; [|discriminate].
  destruct (Nat.eqb (List.length (availableTimeSlots d)) 0); [discriminate|].
  destruct (Nat.eqb (List.length (validTimeSlots now (startOfDay sd) d)) 0);
    [discriminate|].
  match goal with
  | |- (if ?c then _ else _) = _ -> _ => destruct c; [discriminate|]
  end.
  destruct (Nat.eqb (List.length (map _ _)) 0); [discriminate|].
  destruct (Nat.eqb (List.length
              (availableAlternativeTimeSlots now (startOfDay sd) d)) 0)
    eqn:E; [discriminate|].
  intro H. exists sd. split; [reflexivity|]. split; [|exact H].
  intro Hnil. rewrite Hnil in E. discriminate E.
Qed.

Lemma availabilityInfo_Ok_inv (day : Z) (available : list TimeSlot)
    (w : Workout) (row : CoachWorkoutAvailability) :
  availabilityInfo f day available (enrich users d w) = Ok row ->
  exists coach,
    getCoachData users (workout_coachId w) = Some coach
    /\ a_coachId row = user_id coach
    /\ a_workoutId row = workout_id w
    /\ a_date row = day
    /\ a_timeSlotId row
       = option_map slot_id
           (match match f_timeSlotId f with
                  | Some id =>
                      find (fun slot => Nat.eqb (slot_id slot) id) available
                  | None => None
                  end with
            | Some slot => Some slot
            | None => hd_error available
            end)
    /\ a_alternativeTimeSlots row
       = filter (fun slot =>
                   match a_timeSlotId row with
                   | Some sel => negb (Nat.eqb (slot_id slot) sel)
                   | None => true
                   end) available.
Proof.
  unfold availabilityInfo, enrich.
  destruct (getCoachData users (workout_coachId w)) as [coach|];
    [|discriminate].
  destruct (findById option_id (workoutType w) (WorkoutOptionModel d));
    [|discriminate].
  intro H. inversion H; subst; clear H. simpl.
  exists coach. repeat split.
  apply filter_ext. intro slot.
  destruct (match f_timeSlotId f with Some _ => _ | None => _ end);
    [reflexivity|].
  destruct (hd_error available); reflexivity.
Qed.

End SearchRows.

Section SearchOffers.

Context {js : Runtime}.

Import WorkoutService Spec.

Variable Date_parse : string -> Date.
Variable users : UserService.
Variable now : Z.
Variable d : Database.
Variable f : FilterOptions.

(** What a row carries, in terms of the free slots of the day. *)
Lemma row_of_free_slots (day : Z) (w : Workout) (row : CoachWorkoutAvailability) :
  let free := availableAlternativeTimeSlots now day d in
  free <> [] ->
  availabilityInfo f day free (enrich users d w) = Ok row ->
  a_date row = day
  /\ (exists sel, In sel free /\ a_timeSlotId row = Some (slot_id sel))
  /\ (forall s, offered row s <-> In s (map slot_id free))
  /\ (forall s, In s (map slot_id (a_alternativeTimeSlots row)) ->
        a_timeSlotId row <> Some s)
  /\ (forall id, f_timeSlotId f = Some id -> In id (map slot_id free) ->
        a_timeSlotId row = Some id)
  /\ (forall id, f_timeSlotId f = Some id -> ~ In id (map slot_id free) ->
        a_timeSlotId row = option_map slot_id (hd_error free)).
Proof.
  intros free Hne Hrow.
  destruct (availabilityInfo_Ok_inv users d f day free w row Hrow)
    as (coach & _ & _ & _ & Hday & Hsel & Halt).
  assert (Hselected : exists sel, In sel free
                                  /\ a_timeSlotId row = Some (slot_id sel)).
  { rewrite Hsel.
    destruct (match f_timeSlotId f with Some _ => _ | None => _ end)
      as [x|] eqn:E.
    - exists x. split; [|reflexivity].
      destruct (f_timeSlotId f); [|discriminate].
      now apply find_some in E.
    - destruct free as [|x l]; [contradiction|].
      exists x. split; [now left | reflexivity]. }
  split; [exact Hday|]. split; [exact Hselected|].
  destruct Hselected as (sel & Hin & Hs).
  split; [|split; [|split]].
  - intro s. unfold offered. rewrite Halt, Hs. split.
    + intros [H | H].
      * inversion H; subst. now apply in_map.
      * apply in_map_iff in H. destruct H as (x & <- & Hx).
        apply filter_In in Hx. apply in_map. tauto.
    + intro H. destruct (Nat.eq_dec s (slot_id sel)) as [-> | Hneq];
        [now left|]. right.
      apply in_map_iff in H. destruct H as (x & <- & Hx).
      apply in_map. apply filter_In. split; [exact Hx|].
      apply negb_true_iff. now apply Nat.eqb_neq.
  - intros s H Heq. rewrite Halt, Heq in H.
    apply in_map_iff in H. destruct H as (x & <- & Hx).
    apply filter_In in Hx. destruct Hx as [_ Hx].
    rewrite Nat.eqb_refl in Hx. discriminate Hx.
  - intros id Hreq Hfree. rewrite Hsel, Hreq.
    destruct (find _ free) as [x|] eqn:E.
    + apply find_some in E. destruct E as [_ E]. apply Nat.eqb_eq in E.
      simpl. now rewrite E.
    + exfalso. apply in_map_iff in Hfree. destruct Hfree as (x & Hx & Hin').
      pose proof (find_none _ _ E x Hin') as Hn. cbv beta in Hn.
      rewrite Hx, Nat.eqb_refl in Hn. discriminate Hn.
  - intros id Hreq Hnot. rewrite Hsel, Hreq.
    destruct (find _ free) as [x|] eqn:E; [|reflexivity].
    exfalso. apply find_some in E. destruct E as [Hin' E].
    apply Nat.eqb_eq in E. apply Hnot. rewrite <- E. now apply in_map.
Qed.

End SearchOffers.

(** What the rows of a successful search hold. *)
Lemma searchWorkoutUsingFilters_rows {js : Runtime}
    (Date_parse : string -> Date) (users : UserService) (now : Z)
    (d : Database) (f : WorkoutService.FilterOptions)
    (rows : list WorkoutService.CoachWorkoutAvailability) :
  WorkoutService.searchWorkoutUsingFilters Date_parse users now d f = Ok rows ->
  exists searchDate,
    WorkoutService.searchDateOf Date_parse now (WorkoutService.f_date f)
    = Ok searchDate
    /\ List.length rows = List.length (Spec.matchingWorkouts f d)
    /\ forall row, In row rows ->
         let free :=
           WorkoutService.availableAlternativeTimeSlots now
             (startOfDay searchDate) d in
         WorkoutService.a_date row = startOfDay searchDate
         /\ (exists sel, In sel free
                         /\ WorkoutService.a_timeSlotId row
                            = Some (slot_id sel))
         /\ (forall s, Spec.offered row s <-> In s (map slot_id free))
         /\ (forall s,
               In s (map slot_id (WorkoutService.a_alternativeTimeSlots row)) ->
               WorkoutService.a_timeSlotId row <> Some s)
         /\ (forall id, WorkoutService.f_timeSlotId f = Some id ->
               In id (map slot_id free) ->
               WorkoutService.a_timeSlotId row = Some id)
         /\ (forall id, WorkoutService.f_timeSlotId f = Some id ->
               ~ In id (map slot_id free) ->
               WorkoutService.a_timeSlotId row
               = option_map slot_id (hd_error free)).
Proof.
  intro H.
  destruct (search_Ok_inv Date_parse users now d f rows H)
    as (sd & Hsd & Hne & Hmap).
  exists sd. split; [exact Hsd|]. split.
  - rewrite (mapResult_length _ _ _ Hmap). apply length_map.
  - intros row Hin free.
    destruct (mapResult_In _ _ _ row Hmap Hin) as (ew & Hew & Hrow).
    apply in_map_iff in Hew. destruct Hew as (w & <- & _).
    exact (row_of_free_slots users now d f (startOfDay sd) w row Hne Hrow).
Qed.

(** X3.  A successful composite search returns one row for each workout
    mapping that the filter selects, each dated at the local midnight of
    the search date.  Every row offers exactly the free slots of the day:
    one as its selected slot, the others as alternatives.  A requested slot
    that is free is the selected slot of every row; a requested slot that
    is valid but taken is replaced, without an error, by the first free
    slot. *)
Theorem search_rows {js : Runtime}
    (Date_parse : string -> Date) (users : UserService) (now : Z)
    (d : Database) (f : WorkoutService.FilterOptions)
    (rows : list WorkoutService.CoachWorkoutAvailability) :
  WorkoutService.searchWorkoutUsingFilters Date_parse users now d f = Ok rows ->
  exists searchDate,
    WorkoutService.searchDateOf Date_parse now (WorkoutService.f_date f)
    = Ok searchDate
    /\ List.length rows = List.length (Spec.matchingWorkouts f d)
    /\ forall row, In row rows ->
         let free :=
           WorkoutService.availableAlternativeTimeSlots now
             (startOfDay searchDate) d in
         WorkoutService.a_date row = startOfDay searchDate
         /\ (exists sel, In sel free
                         /\ WorkoutService.a_timeSlotId row
                            = Some (slot_id sel))
         /\ (forall s, Spec.offered row s <-> In s (map slot_id free))
         /\ (forall s,
               In s (map slot_id (WorkoutService.a_alternativeTimeSlots row)) ->
               WorkoutService.a_timeSlotId row <> Some s)
         /\ (forall id, WorkoutService.f_timeSlotId f = Some id ->
               In id (map slot_id free) ->
               WorkoutService.a_timeSlotId row = Some id)
         /\ (forall id, WorkoutService.f_timeSlotId f = Some id ->
               ~ In id (map slot_id free) ->
               WorkoutService.a_timeSlotId row
               = option_map slot_id (hd_error free)).
Proof. exact (searchWorkoutUsingFilters_rows Date_parse users now d f rows). Qed.

Section Bookable.

Context {js : Runtime}.

Import WorkoutService Spec.

Lemma free_slot_facts (now day : Z) (d : Database) (x : TimeSlot) :
  In x (availableAlternativeTimeSlots now day d) ->
  In x (TimeSlotModel d)
  /\ (isToday now day = true -> startsLater now x = true)
  /\ (forall b, In b (BookingModel d) -> notCancelled b = true ->
        day <= date b -> date b < day + msPerDay ->
        timeSlotId b <> slot_id x).
Proof.
  unfold availableAlternativeTimeSlots. intro H. apply filter_In in H.
  destruct H as [Hvalid Hfree]. split; [|split].
  - unfold validTimeSlots, availableTimeSlots in Hvalid.
    destruct (isToday now day).
    + apply filter_In in Hvalid. destruct Hvalid as [Hvalid _].
      exact (proj1 (sortByStartTime_In _ _) Hvalid).
    + exact (proj1 (sortByStartTime_In _ _) Hvalid).
  - intro Ht. unfold validTimeSlots in Hvalid. rewrite Ht in Hvalid.
    apply filter_In in Hvalid. tauto.
  - intros b Hb Hn Hlo Hhi Heq. apply negb_true_iff in Hfree.
    assert (Hex : existsb (fun b0 => Nat.eqb (timeSlotId b0) (slot_id x))
                    (dayBookings day d) = true).
    { apply existsb_exists. exists b. split.
      - unfold dayBookings. apply filter_In. split; [exact Hb|].
        rewrite Hn.
        replace (day <=? date b) with true by (symmetry; now apply Z.leb_le).
        replace (date b <? day + 24 * 60 * 60 * 1000) with true;
          [reflexivity|].
        symmetry. apply Z.ltb_lt. unfold msPerDay in Hhi. lia.
      - now apply Nat.eqb_eq. }
    rewrite Hex in Hfree. discriminate Hfree.
Qed.

Lemma findById_unique {A} (key : A -> ObjectId) (l : list A) (x : A) :
  NoDup (map key l) -> In x l -> findById key (key x) l = Some x.
Proof.
  unfold findById. induction l as [|y l IH]; simpl; intros Hnd Hin;
    [destruct Hin|].
  inversion Hnd as [|? ? Hnotin Hnd']; subst.
  destruct (Nat.eqb (key y) (key x)) eqn:E.
  - apply Nat.eqb_eq in E. destruct Hin as [-> | Hin]; [reflexivity|].
    exfalso. apply Hnotin. rewrite E. now apply in_map.
  - destruct Hin as [-> | Hin]; [rewrite Nat.eqb_refl in E; discriminate|].
    now apply IH.
Qed.

Lemma filter_nil_iff {A} (g : A -> bool) (l : list A) :
  filter g l = [] <-> forall x, In x l -> g x = false.
Proof.
  split.
  - intros H x Hx. destruct (g x) eqn:E; [|reflexivity].
    assert (Hin : In x (filter g l)) by (apply filter_In; auto).
    rewrite H in Hin. destruct Hin.
  - apply filter_nil_of_all_false.
Qed.

End Bookable.

(** X4.  A booked slot is offered to nobody: when the search succeeds, a
    slot that carries a booking that is not cancelled on the day of the
    search, with whichever coach and client, is neither the selected slot
    nor an alternative of any row, for any coach. *)
Theorem booked_slot_offered_to_nobody {js : Runtime}
    (Date_parse : string -> Date) (users : UserService) (now : Z)
    (d : Database) (f : WorkoutService.FilterOptions)
    (rows : list WorkoutService.CoachWorkoutAvailability)
    (searchDate : Z) (b : Booking) (row : WorkoutService.CoachWorkoutAvailability) :
  WorkoutService.searchWorkoutUsingFilters Date_parse users now d f = Ok rows ->
  WorkoutService.searchDateOf Date_parse now (WorkoutService.f_date f)
  = Ok searchDate ->
  In b (BookingModel d) ->
  state b <> CANCELLED ->
  startOfDay (date b) = startOfDay searchDate ->
  In row rows ->
  ~ Spec.offered row (timeSlotId b).
Proof.
  intros Hs Hsd Hb Hst Hday Hrow Hoff.
  destruct (searchWorkoutUsingFilters_rows Date_parse users now d f rows Hs)
    as (sd & Hsd' & _ & Hrows).
  rewrite Hsd in Hsd'. inversion Hsd'; subst sd.
  destruct (Hrows row Hrow) as (_ & _ & Hiff & _).
  apply Hiff in Hoff. apply in_map_iff in Hoff.
  destruct Hoff as (x & Hx & Hin).
  destruct (free_slot_facts now _ d x Hin) as (_ & _ & Hno).
  apply (Hno b Hb); [| | |now symmetry].
  - unfold WorkoutService.notCancelled. apply negb_true_iff.
    destruct (state b); try reflexivity. contradiction.
  - rewrite <- Hday. apply startOfDay_le.
  - rewrite <- Hday. apply startOfDay_lt_next.
Qed.

(** X5.  A slot that the search offers can be booked.  With the clock
    after 1970, the directory answering with the profile asked for, and
    slot identities distinct: for any row of a successful search and any
    slot that the row offers, selected or alternative, a booking by any
    client of that row's workout and coach, for that slot and the row's
    date, succeeds when made at the same instant with the store accepting
    the writes. *)
Theorem offered_slot_is_bookable {js : Runtime}
    (Date_parse : string -> Date) (users : UserService) (faults : Faults)
    (now : Z) (w : World) (f : WorkoutService.FilterOptions)
    (rows : list WorkoutService.CoachWorkoutAvailability)
    (row : WorkoutService.CoachWorkoutAvailability)
    (client slot : ObjectId) :
  0 <= now ->
  Spec.directoryFaithful users ->
  NoDup (map slot_id (TimeSlotModel (database w))) ->
  WorkoutService.searchWorkoutUsingFilters Date_parse users now (database w) f
  = Ok rows ->
  In row rows ->
  Spec.offered row slot ->
  faults 0%nat = None -> faults 1%nat = None -> faults 2%nat = None ->
  isOk (fst (WorkoutService.bookWorkout Date_parse users faults now w
               (Spec.requestFor client row slot))) = true.
Proof.
  intros Hnow Hdir Hnd Hs Hrow Hoff F0 F1 F2.
  destruct (search_Ok_inv Date_parse users now (database w) f rows Hs)
    as (sd & Hsd & Hne & Hmap).
  destruct (mapResult_In _ _ _ row Hmap Hrow) as (ew & Hew & Hinfo).
  apply in_map_iff in Hew. destruct Hew as (wk & <- & Hwk).
  destruct (availabilityInfo_Ok_inv users (database w) f _ _ wk row Hinfo)
    as (coach & Hcoach & Hcid & Hwid & Hdate & _ & _).
  destruct (row_of_free_slots users now (database w) f (startOfDay sd) wk row
              Hne Hinfo) as (_ & _ & Hiff & _).
  apply Hiff in Hoff. apply in_map_iff in Hoff.
  destruct Hoff as (x & Hx & Hin).
  destruct (free_slot_facts now _ (database w) x Hin) as (Hcat & Htoday & Hno).
  pose proof (Hdir _ _ Hcoach) as Hfaith.
  pose proof (searchDateOf_not_past Date_parse now _ _ Hsd) as Hpast.
  set (day := startOfDay sd) in *.
  assert (Hchecks :
    WorkoutService.bookWorkoutChecks Date_parse users now (database w)
      (Spec.requestFor client row slot) = Ok day).
  { unfold WorkoutService.bookWorkoutChecks,
      WorkoutService.bookWorkoutValidate, Spec.requestFor. simpl.
    rewrite Hdate. fold day.
    assert (Hpd : WorkoutService.parseAndValidateDate Date_parse now
                    (WorkoutService.DateObject (Some day)) = Ok day).
    { unfold WorkoutService.parseAndValidateDate.
      replace (startOfDay day <? startOfDay now) with false; [reflexivity|].
      symmetry. apply Z.ltb_ge. unfold day. rewrite startOfDay_idem.
      exact Hpast. }
    rewrite Hpd, Hcid, Hfaith, Hcoach, Hwid.
    destruct (find _ (WorkoutModel (database w))) as [w0|] eqn:Ef.
    2:{ exfalso. unfold Spec.matchingWorkouts in Hwk.
        apply filter_In in Hwk. destruct Hwk as [Hwk _].
        pose proof (find_none _ _ Ef wk Hwk) as Hn. cbv beta in Hn.
        rewrite !Nat.eqb_refl in Hn. discriminate Hn. }
    rewrite <- Hx.
    rewrite (findById_unique slot_id _ x Hnd Hcat).
    assert (Hclock : WorkoutService.isTimeSlotPassed now day (startTime x)
                     = false).
    { destruct (WorkoutService.isToday now day) eqn:Et.
      - exact (proj1 (startsLater_before_booking_clock now day x Hnow)
                 (Htoday eq_refl)).
      - unfold WorkoutService.isTimeSlotPassed.
        destruct (startOfDay day =? startOfDay now) eqn:E; [|reflexivity].
        apply Z.eqb_eq in E.
        assert (Hd : Day day = Day now).
        { unfold startOfDay, msPerDay in E. lia. }
        apply isToday_iff in Hd. congruence. }
    rewrite Hclock.
    assert (Hfree : forall b, In b (BookingModel (database w)) ->
              Nat.eqb (timeSlotId b) (slot_id x)
              && WorkoutService.inDayWindow day (date b)
              && WorkoutService.notCancelled b = false).
    { intros b Hb.
      destruct (Nat.eqb (timeSlotId b) (slot_id x)) eqn:E1; [|reflexivity].
      destruct (WorkoutService.inDayWindow day (date b)) eqn:E2;
        [|reflexivity].
      destruct (WorkoutService.notCancelled b) eqn:E3; [|reflexivity].
      exfalso. apply Nat.eqb_eq in E1.
      unfold WorkoutService.inDayWindow, endOfDay in E2.
      apply andb_true_iff in E2. destruct E2 as [Hlo Hhi].
      apply Z.leb_le in Hlo. apply Z.ltb_lt in Hhi.
      unfold day in Hlo, Hhi. rewrite startOfDay_idem in Hlo, Hhi.
      apply (Hno b Hb E3); [exact Hlo | fold day; lia | exact E1]. }
    replace (WorkoutService.existingBooking (database w) (workout_coachId wk)
               (slot_id x) day) with (@nil Booking).
    2:{ symmetry. apply filter_nil_iff. intros b Hb.
        specialize (Hfree b Hb).
        destruct (Nat.eqb (coachId b) (workout_coachId wk)); [|reflexivity].
        exact Hfree. }
    replace (WorkoutService.existingClientBooking (database w) client
               (slot_id x) day) with (@nil Booking).
    2:{ symmetry. apply filter_nil_iff. intros b Hb.
        specialize (Hfree b Hb).
        destruct (Nat.eqb (clientId b) client); [|reflexivity].
        exact Hfree. }
    reflexivity. }
  destruct (bookWorkout_outcome Date_parse users faults now w _ day Hchecks)
    as [(_ & _ & _ & Hres) | (e & k & [F | [F | F]] & _)].
  - now rewrite Hres.
  - congruence.
  - congruence.
  - congruence.
Qed.

Lemma search_rows_witness :
  exists rows,
    WorkoutService.searchWorkoutUsingFilters Gym.noParse Gym.users Gym.now
      (database Gym.world1) Gym.morningSlotTomorrow = Ok rows
    /\ List.length rows = 2%nat
    /\ forall row, In row rows ->
         WorkoutService.a_timeSlotId row = Some 2%nat
         /\ WorkoutService.a_date row = Gym.tomorrow.
Proof.
  eexists. split; [vm_compute; reflexivity|].
  match goal with
  | |- List.length ?rows = _ /\ _ =>
      destruct (search_rows Gym.noParse Gym.users Gym.now
                  (database Gym.world1) Gym.morningSlotTomorrow rows eq_refl)
        as (sd & Hsd & Hlen & Hrows)
  end.
  vm_compute in Hsd. inversion Hsd; subst sd. split; [exact Hlen|].
  intros row Hin. destruct (Hrows row Hin) as (Hd & _ & _ & _ & _ & Hrep).
  split.
  - rewrite (Hrep 1%nat eq_refl); [reflexivity|].
    vm_compute. intros [H | []]. discriminate H.
  - rewrite Hd. reflexivity.
Defined.

Lemma booked_slot_offered_to_nobody_witness :
  WorkoutService.searchWorkoutUsingFilters Gym.noParse Gym.users Gym.now
    (database Gym.world1) Gym.anySlotTomorrow
  = Ok [ WorkoutService.mkCoachWorkoutAvailability 10%nat "Ann" "Doe" "coach"
           "" "" "" 0 30%nat 40%nat "Yoga" (Some 2%nat) (Some "18:00-19:00")
           Gym.tomorrow [];
         Gym.rowOfBob ]
  /\ In Gym.booking1 (BookingModel (database Gym.world1))
  /\ state Gym.booking1 <> CANCELLED
  /\ ~ Spec.offered Gym.rowOfBob (timeSlotId Gym.booking1).
Proof.
  assert (H1 : WorkoutService.searchWorkoutUsingFilters Gym.noParse Gym.users
                 Gym.now (database Gym.world1) Gym.anySlotTomorrow
               = Ok [ WorkoutService.mkCoachWorkoutAvailability 10%nat "Ann"
                        "Doe" "coach" "" "" "" 0 30%nat 40%nat "Yoga"
                        (Some 2%nat) (Some "18:00-19:00") Gym.tomorrow [];
                      Gym.rowOfBob ]) by (vm_compute; reflexivity).
  assert (H2 : In Gym.booking1 (BookingModel (database Gym.world1)))
    by (left; reflexivity).
  assert (H3 : state Gym.booking1 <> CANCELLED) by (simpl; discriminate).
  split; [exact H1|]. split; [exact H2|]. split; [exact H3|].
  apply (booked_slot_offered_to_nobody Gym.noParse Gym.users Gym.now
           (database Gym.world1) Gym.anySlotTomorrow _ Gym.tomorrow
           Gym.booking1 Gym.rowOfBob H1 eq_refl H2 H3 eq_refl).
  right. left. reflexivity.
Defined.

Lemma offered_slot_is_bookable_witness :
  0 <= Gym.now
  /\ Spec.directoryFaithful Gym.users
  /\ NoDup (map slot_id (TimeSlotModel (database Gym.world1)))
  /\ Spec.offered Gym.rowOfBob 2%nat
  /\ isOk (fst (WorkoutService.bookWorkout Gym.noParse Gym.users noFaults
                  Gym.now Gym.world1
                  (Spec.requestFor 21%nat Gym.rowOfBob 2%nat))) = true.
Proof.
  assert (H0 : 0 <= Gym.now) by (vm_compute; discriminate).
  assert (H1 : Spec.directoryFaithful Gym.users).
  { intros n p. unfold Gym.users. simpl.
    do 10 (destruct n as [|n]; [discriminate|]).
    destruct n as [|n]; [intro H; inversion H; reflexivity|].
    destruct n as [|n]; [intro H; inversion H; reflexivity|].
    discriminate. }
  assert (H2 : NoDup (map slot_id (TimeSlotModel (database Gym.world1)))).
  { simpl. repeat constructor; simpl; intuition discriminate. }
  assert (H3 : Spec.offered Gym.rowOfBob 2%nat) by (left; reflexivity).
  split; [exact H0|]. split; [exact H1|]. split; [exact H2|].
  split; [exact H3|].
  refine (offered_slot_is_bookable Gym.noParse Gym.users noFaults Gym.now
            Gym.world1 Gym.anySlotTomorrow _ Gym.rowOfBob 21%nat 2%nat
            H0 H1 H2 _ _ H3 eq_refl eq_refl eq_refl).
  - vm_compute. reflexivity.
  - right. left. reflexivity.
Defined.

(** *** Feedback: failures *)

Section FeedbackFailures.

Context {js : Runtime}.

Import FeedbackService.

Variable faults : Faults.
Variable now : Z.

Lemma write_committed (f : Database -> Database) (s : Session) :
  committed (snd (write faults true f s)) = committed s.
Proof. unfold write. now destruct (faults (writes s)). Qed.

Lemma upsertLedger_committed (entry : FeedbackEntry)
    (existing : option ObjectId) (fromId toId : ObjectId) (notFound : string)
    (n : ObjectId) (s : Session) :
  committed (snd (fst (upsertLedger faults entry existing fromId toId
                         notFound n s))) = committed s.
Proof.
  unfold upsertLedger, saveFeedback. destruct existing as [old|].
  - destruct (findById feedback_id old (FeedbackModel (committed s)));
      [|reflexivity].
    destruct (entryValid entry); [|reflexivity].
    pose proof (write_committed
                  (fun d => setFeedbacks d
                     (replaceById feedback_id (pushEntry f entry)
                        (FeedbackModel d))) s) as H.
    destruct (write faults true _ s) as [[[]|e] s']; exact H.
  - destruct (entryValid entry); [|reflexivity].
    pose proof (write_committed
                  (WorkoutService.insertFeedback
                     {| feedback_id := n; from := fromId; to := toId;
                        history := [entry] |}) s) as H.
    destruct (write faults true _ s) as [[[]|e] s']; exact H.
Qed.

Lemma addFeedbackTransaction_committed (entry : FeedbackEntry)
    (userId : ObjectId) (b : Booking) (n : ObjectId) (s : Session) :
  committed (snd (fst (addFeedbackTransaction faults now entry userId b n s)))
  = committed s.
Proof.
  unfold addFeedbackTransaction, saveBooking.
  destruct (Nat.eqb userId (clientId b)).
  - pose proof (upsertLedger_committed entry (clientFeedback b) (clientId b)
                  (coachId b) "Client feedback document not found" n s) as H.
    destruct (upsertLedger _ _ _ _ _ _ n s) as [[[fid|e] s1] n1];
      simpl in *; [|exact H].
    pose proof (write_committed
                  (fun d => setBookings d
                     (replaceById booking_id
                        (completedBooking now b (Some fid) (coachFeedback b))
                        (BookingModel d))) s1) as Hw.
    destruct (write faults true _ s1) as [[[]|e] s2]; simpl in *; congruence.
  - pose proof (upsertLedger_committed entry (coachFeedback b) (coachId b)
                  (clientId b) "Coach feedback document not found" n s) as H.
    destruct (upsertLedger _ _ _ _ _ _ n s) as [[[fid|e] s1] n1];
      simpl in *; [|exact H].
    pose proof (write_committed
                  (fun d => setBookings d
                     (replaceById booking_id
                        (completedBooking now b (clientFeedback b) (Some fid))
                        (BookingModel d))) s1) as Hw.
    destruct (write faults true _ s1) as [[[]|e] s2]; simpl in *; congruence.
Qed.

Lemma addFeedbackCatch_status (e : Exn) :
  exists c m, addFeedbackCatch e = HttpError c m
              /\ (match e with HttpError c' _ => c = c' | Thrown _ => c = 400 end).
Proof. destruct e as [c m|err]; simpl; eauto. Qed.

End FeedbackFailures.


Section FeedbackThrows.

Context {js : Runtime}.

Import FeedbackService.

Variable faults : Faults.
Variable now : Z.

Lemma upsertLedger_throw (entry : FeedbackEntry) (existing : option ObjectId)
    (fromId toId : ObjectId) (notFound : string) (n n' : ObjectId)
    (s s' : Session) (err : Exn) :
  upsertLedger faults entry existing fromId toId notFound n s
  = (Throw err, s', n') ->
  err = HttpError 404 notFound \/ (exists e, err = Thrown e).
Proof.
  unfold upsertLedger, saveFeedback, write.
  destruct existing as [old|].
  - destruct (findById feedback_id old (FeedbackModel (committed s))).
    + destruct (entryValid entry).
      * destruct (faults (writes s)); intro H; inversion H; subst; eauto.
      * intro H; inversion H; subst; eauto.
    + intro H; inversion H; subst; eauto.
  - destruct (entryValid entry).
    + destruct (faults (writes s)); intro H; inversion H; subst; eauto.
    + intro H; inversion H; subst; eauto.
Qed.

Lemma addFeedbackTransaction_throw (entry : FeedbackEntry) (userId : ObjectId)
    (b : Booking) (n n' : ObjectId) (s s' : Session) (err : Exn) :
  addFeedbackTransaction faults now entry userId b n s = (Throw err, s', n') ->
  (exists m, err = HttpError 404 m) \/ (exists e, err = Thrown e).
Proof.
  unfold addFeedbackTransaction, saveBooking.
  destruct (Nat.eqb userId (clientId b)).
  - destruct (upsertLedger _ _ _ _ _ _ n s) as [[[fid|e] s1] n1] eqn:Eu.
    + unfold write.
      destruct (faults (writes s1)); intro H; inversion H; subst; eauto.
    + intro H; inversion H; subst. apply upsertLedger_throw in Eu.
      destruct Eu; eauto.
  - destruct (upsertLedger _ _ _ _ _ _ n s) as [[[fid|e] s1] n1] eqn:Eu.
    + unfold write.
      destruct (faults (writes s1)); intro H; inversion H; subst; eauto.
    + intro H; inversion H; subst. apply upsertLedger_throw in Eu.
      destruct Eu; eauto.
Qed.

Lemma addFeedbackChecks_throw (d : Database) (userId bookingId : ObjectId)
    (err : Exn) :
  addFeedbackChecks now d userId bookingId = Throw err ->
  (exists c m, err = HttpError c m /\ (c = 400 \/ c = 403 \/ c = 404))
  \/ (exists e, err = Thrown e).
Proof.
  unfold addFeedbackChecks.
  destruct (findById booking_id bookingId (BookingModel d)) as [b|];
    [|intro H; inversion H; eauto 8].
  destruct (negb _ && negb _); [intro H; inversion H; eauto 8|].
  destruct (state_eqb _ _); [intro H; inversion H; eauto 8|].
  destruct (findById slot_id _ _); [|intro H; inversion H; eauto 8].
  destruct (gtb _ _); intro H; inversion H; eauto 8.
Qed.

End FeedbackThrows.

(** The message under which [addFeedback] reports an error that is not an
    [HttpError]: [error.message || "Failed to add feedback. ..."]. *)
Lemma addFeedbackCatch_thrown (err : JsError) :
  FeedbackService.addFeedbackCatch (Thrown err)
  = HttpError 400
      (if String.eqb (Errors.message err) ""
       then "Failed to add feedback. Please try again later."
       else Errors.message err).
Proof. reflexivity. Qed.

(** Once the checks have passed, with an entry the schema accepts and the
    ledger the booking names in place, the first write that the store
    refuses, be it the write of the ledger or the save of the booking,
    ends the submission with status 400 and the message of the store. *)
Lemma addFeedback_store_failure {js : Runtime}
    (faults : Faults) (now : Z) (w : World) (userId bookingId : ObjectId)
    (message : string) (rating : Z) (b : Booking) (k : nat) (err : JsError) :
  FeedbackService.addFeedbackChecks now (database w) userId bookingId = Ok b ->
  FeedbackService.entryValid
    {| Model.message := message; Model.rating := Some rating;
       timestamp := now |} = true ->
  match Spec.ledgerOf userId b with
  | Some fid => findById feedback_id fid (FeedbackModel (database w)) <> None
  | None => True
  end ->
  (k <= 1)%nat -> (forall j, (j < k)%nat -> faults j = None) ->
  faults k = Some err ->
  FeedbackService.addFeedback faults now w userId bookingId message rating
  = (Throw (FeedbackService.addFeedbackCatch (Thrown err)),
     {| database := database w;
        nextObjectId :=
          match Spec.ledgerOf userId b with
          | Some _ => nextObjectId w
          | None => S (nextObjectId w)
          end |}).
Proof.
  intros Hc Hv Hl Hk Hbefore Hfault.
  unfold FeedbackService.addFeedback. rewrite Hc.
  unfold withTransaction, FeedbackService.addFeedbackTransaction,
    FeedbackService.upsertLedger, FeedbackService.saveFeedback,
    FeedbackService.saveBooking, write, startTransaction.
  unfold Spec.ledgerOf in *. rewrite Hv.
  cbn [committed staged writes].
  assert (Hcases : k = 0%nat \/ (k = 1%nat /\ faults 0%nat = None)).
  { destruct k as [|[|k]]; [now left | right | lia].
    split; [reflexivity | apply Hbefore; lia]. }
  destruct (Nat.eqb userId (clientId b)).
  - destruct (clientFeedback b) as [fid|].
    + destruct (findById feedback_id fid (FeedbackModel (database w)));
        [|contradiction].
      destruct Hcases as [-> | [-> H0]].
      * rewrite Hfault. reflexivity.
      * rewrite H0. cbn [writes]. rewrite Hfault. reflexivity.
    + destruct Hcases as [-> | [-> H0]].
      * rewrite Hfault. reflexivity.
      * rewrite H0. cbn [writes]. rewrite Hfault. reflexivity.
  - destruct (coachFeedback b) as [fid|].
    + destruct (findById feedback_id fid (FeedbackModel (database w)));
        [|contradiction].
      destruct Hcases as [-> | [-> H0]].
      * rewrite Hfault. reflexivity.
      * rewrite H0. cbn [writes]. rewrite Hfault. reflexivity.
    + destruct Hcases as [-> | [-> H0]].
      * rewrite Hfault. reflexivity.
      * rewrite H0. cbn [writes]. rewrite Hfault. reflexivity.
Qed.

(** X6.  A feedback submission that fails writes nothing: whatever the
    reason (unknown booking, an actor who is no party, a completed booking,
    a slot that has not ended, an entry the schema refuses, a missing
    ledger, a write the store refuses), the error is an [HttpError] with
    status 400, 403 or 404 and the database is the one the operation
    started from.  A failure of the store is reported with status 400:
    once the checks have passed, with an entry the schema accepts and the
    ledger the booking names in place, the first refusal of a write by the
    store, of the ledger or of the booking, ends the submission with
    status 400 and the message of the store's error, or a fixed message
    when that one is empty. *)
Theorem addFeedback_fails_clean {js : Runtime}
    (faults : Faults) (now : Z) (w : World) (userId bookingId : ObjectId)
    (message : string) (rating : Z) :
  let r := FeedbackService.addFeedback faults now w userId bookingId
             message rating in
  (isOk (fst r) = true
   \/ ((exists c m, fst r = Throw (HttpError c m)
                    /\ (c = 400 \/ c = 403 \/ c = 404))
       /\ database (snd r) = database w))
  /\ (forall b k err,
        FeedbackService.addFeedbackChecks now (database w) userId bookingId
        = Ok b ->
        FeedbackService.entryValid
          {| Model.message := message; Model.rating := Some rating;
             timestamp := now |} = true ->
        match Spec.ledgerOf userId b with
        | Some fid =>
            findById feedback_id fid (FeedbackModel (database w)) <> None
        | None => True
        end ->
        (k <= 1)%nat -> (forall j, (j < k)%nat -> faults j = None) ->
        faults k = Some err ->
        fst r
        = Throw (HttpError 400
                   (if String.eqb (Errors.message err) ""
                    then "Failed to add feedback. Please try again later."
                    else Errors.message err))
        /\ database (snd r) = database w).
Proof.
  intro r. subst r. split.
  - unfold FeedbackService.addFeedback.
    destruct (FeedbackService.addFeedbackChecks now (database w) userId
                bookingId) as [b|e] eqn:Hc.
    + unfold withTransaction.
      pose proof (addFeedbackTransaction_committed faults now
                    {| Model.message := message; Model.rating := Some rating;
                       timestamp := now |} userId b (nextObjectId w)
                    (startTransaction (database w))) as Hcomm.
      destruct (FeedbackService.addFeedbackTransaction faults now _ userId b
                  (nextObjectId w) _) as [[[e0|err] s'] n'] eqn:Et.
      * left. reflexivity.
      * right. simpl in *. split; [|exact Hcomm].
        apply addFeedbackTransaction_throw in Et.
        destruct Et as [(m & ->) | (e & ->)]; simpl; eauto 8.
    + right. simpl. split; [|reflexivity].
      apply addFeedbackChecks_throw in Hc.
      destruct Hc as [(c & m & -> & Hcode) | (e' & ->)]; simpl; eauto 8.
  - intros b k err Hc Hv Hl Hk Hbefore Hfault.
    rewrite (addFeedback_store_failure faults now w userId bookingId message
               rating b k err Hc Hv Hl Hk Hbefore Hfault).
    split; reflexivity.
Qed.

(** The store refuses the save of the booking, the second write. *)
Lemma addFeedback_fails_clean_witness :
  let faults : Faults :=
    fun k => if Nat.eqb k 1
             then Some {| name := "MongoServerError"; code := Some 112;
                          Errors.message := "WriteConflict" |}
             else None in
  let r := FeedbackService.addFeedback faults Gym.afterSession Gym.world1
             20%nat 102%nat "great" 5 in
  fst r = Throw (HttpError 400 "WriteConflict")
  /\ database (snd r) = database Gym.world1.
Proof.
  cbv zeta.
  exact (proj2 (addFeedback_fails_clean
                  (fun k => if Nat.eqb k 1
                            then Some {| name := "MongoServerError";
                                         code := Some 112;
                                         Errors.message := "WriteConflict" |}
                            else None)
                  Gym.afterSession Gym.world1 20%nat 102%nat "great" 5)
           Gym.booking1 1%nat _ eq_refl eq_refl
           ltac:(discriminate) (le_n 1)
           ltac:(intros [|j] Hj; [reflexivity | lia]) eq_refl).
Defined.

(** *** Feedback: what a success leaves *)

Section FeedbackSuccess.

Context {js : Runtime}.

Import FeedbackService.

Variable faults : Faults.
Variable now : Z.

Lemma addFeedbackChecks_party (d : Database) (userId bookingId : ObjectId)
    (b : Booking) :
  addFeedbackChecks now d userId bookingId = Ok b ->
  userId = clientId b \/ userId = coachId b.
Proof.
  unfold addFeedbackChecks.
  destruct (findById booking_id bookingId (BookingModel d)) as [b0|];
    [|discriminate].
  destruct (Nat.eqb userId (clientId b0)) eqn:E1.
  - cbn [negb andb]. apply Nat.eqb_eq in E1.
    destruct (state_eqb _ _); [discriminate|].
    destruct (findById slot_id _ _); [|discriminate].
    destruct (gtb _ _); [discriminate|].
    intro H. inversion H; subst. now left.
  - destruct (Nat.eqb userId (coachId b0)) eqn:E2; [|discriminate].
    cbn [negb andb]. apply Nat.eqb_eq in E2.
    destruct (state_eqb _ _); [discriminate|].
    destruct (findById slot_id _ _); [|discriminate].
    destruct (gtb _ _); [discriminate|].
    intro H. inversion H; subst. now right.
Qed.

Lemma upsertLedger_staged (entry : FeedbackEntry) (existing : option ObjectId)
    (fromId toId : ObjectId) (notFound : string) (n n' fid : ObjectId)
    (s s' : Session) :
  upsertLedger faults entry existing fromId toId notFound n s
  = (Ok fid, s', n') ->
  BookingModel (staged s') = BookingModel (staged s)
  /\ TimeSlotModel (staged s') = TimeSlotModel (staged s)
  /\ WorkoutModel (staged s') = WorkoutModel (staged s)
  /\ WorkoutOptionModel (staged s') = WorkoutOptionModel (staged s)
  /\ (n <= n')%nat.
Proof.
  unfold upsertLedger, saveFeedback, write. destruct existing as [old|].
  - destruct (findById feedback_id old (FeedbackModel (committed s)));
      [|discriminate].
    destruct (entryValid entry); [|discriminate].
    destruct (faults (writes s)); [discriminate|].
    intro H. inversion H; subst. simpl. repeat split; lia.
  - destruct (entryValid entry); [|discriminate].
    destruct (faults (writes s)); [discriminate|].
    intro H. inversion H; subst. simpl. repeat split; lia.
Qed.

(** The world after a successful submission: the booking is stored as
    completed, with its parties, slot and date untouched, and nothing but
    the bookings and the ledgers has changed. *)
Lemma addFeedback_Ok_world (w w' : World) (userId bookingId : ObjectId)
    (message : string) (rating : Z) (e : FeedbackEntry) :
  addFeedback faults now w userId bookingId message rating = (Ok e, w') ->
  exists b cf kf,
    findById booking_id bookingId (BookingModel (database w)) = Some b
    /\ (userId = clientId b \/ userId = coachId b)
    /\ state b <> COMPLETED
    /\ BookingModel (database w')
       = replaceById booking_id (completedBooking now b cf kf)
           (BookingModel (database w))
    /\ findById booking_id bookingId (BookingModel (database w'))
       = Some (completedBooking now b cf kf)
    /\ TimeSlotModel (database w') = TimeSlotModel (database w)
    /\ WorkoutModel (database w') = WorkoutModel (database w)
    /\ WorkoutOptionModel (database w') = WorkoutOptionModel (database w)
    /\ (nextObjectId w <= nextObjectId w')%nat.
Proof.
  unfold addFeedback.
  destruct (addFeedbackChecks now (database w) userId bookingId)
    as [b|] eqn:Hc; [|discriminate].
  pose proof (addFeedbackChecks_party _ _ _ _ Hc) as Hparty.
  apply addFeedbackChecks_Ok_inv in Hc. destruct Hc as (Hfound & Hst & _).
  unfold withTransaction, addFeedbackTransaction, saveBooking.
  set (entry := {| Model.message := message; Model.rating := Some rating;
                   timestamp := now |}).
  destruct (Nat.eqb userId (clientId b)).
  - destruct (upsertLedger _ _ _ _ _ _ _ _) as [[[fid|err] s1] n1] eqn:Eu.
    2:{ intro H; discriminate H. }
    apply upsertLedger_staged in Eu. destruct Eu as (Hb & Ht & Hw & Ho & Hn).
    unfold write. destruct (faults (writes s1)); [intro H; discriminate H|].
    intro H. inversion H; subst. clear H.
    exists b, (Some fid), (coachFeedback b). simpl in *.
    unfold commitTransaction. simpl. rewrite Hb, Ht, Hw, Ho.
    repeat split; auto.
    pose proof (findById_key _ _ _ _ Hfound) as Hk.
    replace bookingId
      with (booking_id (completedBooking now b (Some fid) (coachFeedback b)))
      at 1 by exact Hk.
    apply findById_replaceById with (old := b). simpl. now rewrite Hk.
  - destruct (upsertLedger _ _ _ _ _ _ _ _) as [[[fid|err] s1] n1] eqn:Eu.
    2:{ intro H; discriminate H. }
    apply upsertLedger_staged in Eu. destruct Eu as (Hb & Ht & Hw & Ho & Hn).
    unfold write. destruct (faults (writes s1)); [intro H; discriminate H|].
    intro H. inversion H; subst. clear H.
    exists b, (clientFeedback b), (Some fid). simpl in *.
    unfold commitTransaction. simpl. rewrite Hb, Ht, Hw, Ho.
    repeat split; auto.
    pose proof (findById_key _ _ _ _ Hfound) as Hk.
    replace bookingId
      with (booking_id (completedBooking now b (clientFeedback b) (Some fid)))
      at 1 by exact Hk.
    apply findById_replaceById with (old := b). simpl. now rewrite Hk.
Qed.

End FeedbackSuccess.

(** X7.  Completed is final.  After a successful feedback submission the
    stored booking is completed, and from then on every further submission
    on that booking is refused, by whomever and whenever it is made (a
    ledger therefore never receives a second entry through a later
    request), and so is every cancellation; a party of the booking gets
    status 400 for either. *)
Theorem completed_is_final {js : Runtime}
    (faults : Faults) (now : Z) (w w' : World) (userId bookingId : ObjectId)
    (message : string) (rating : Z) (e : FeedbackEntry) :
  FeedbackService.addFeedback faults now w userId bookingId message rating
  = (Ok e, w') ->
  exists b',
    findById booking_id bookingId (BookingModel (database w')) = Some b'
    /\ state b' = COMPLETED
    /\ (userId = clientId b' \/ userId = coachId b')
    /\ (forall faults' now' actor message' rating',
          isOk (fst (FeedbackService.addFeedback faults' now' w' actor
                       bookingId message' rating')) = false)
    /\ (forall faults' now' actor message' rating',
          actor = clientId b' \/ actor = coachId b' ->
          FeedbackService.addFeedback faults' now' w' actor bookingId
            message' rating'
          = (Throw (HttpError 400
               "Feedback can only be given for completed bookings"), w'))
    /\ (forall users faults' now' actor,
          isOk (fst (WorkoutService.cancelBooking users faults' now' w'
                       bookingId actor)) = false)
    /\ (forall users faults' now' actor,
          actor = clientId b' \/ actor = coachId b' ->
          getUserData users actor <> None ->
          WorkoutService.cancelBooking users faults' now' w' bookingId actor
          = (Throw (HttpError 400 "Cannot cancel a completed booking"), w')).
Proof.
  intro H.
  destruct (addFeedback_Ok_world faults now w w' userId bookingId message
              rating e H) as (b & cf & kf & _ & Hparty & _ & _ & Hfound & _).
  exists (FeedbackService.completedBooking now b cf kf).
  split; [exact Hfound|]. split; [reflexivity|]. split; [exact Hparty|].
  split; [|split; [|split]].
  - intros. unfold FeedbackService.addFeedback,
      FeedbackService.addFeedbackChecks. rewrite Hfound.
    destruct (negb _ && negb _); reflexivity.
  - intros faults' now' actor message' rating' Hp.
    unfold FeedbackService.addFeedback, FeedbackService.addFeedbackChecks.
    rewrite Hfound.
    rewrite (party_allowed actor (FeedbackService.completedBooking now b cf kf)
               Hp).
    reflexivity.
  - intros. unfold WorkoutService.cancelBooking,
      WorkoutService.cancelBookingChecks. rewrite Hfound.
    destruct (getUserData users actor); [|reflexivity].
    destruct (negb _); reflexivity.
  - intros users faults' now' actor Hp Hknown.
    unfold WorkoutService.cancelBooking, WorkoutService.cancelBookingChecks.
    rewrite Hfound.
    destruct (getUserData users actor); [|contradiction].
    rewrite (party_authorized actor (FeedbackService.completedBooking now b cf kf)
               Hp).
    reflexivity.
Qed.

Lemma completed_is_final_witness :
  FeedbackService.addFeedback noFaults Gym.afterSession Gym.world1
    20%nat 102%nat "good" 5
  = (Ok {| Model.message := "good"; Model.rating := Some 5;
           timestamp := Gym.afterSession |},
     snd (FeedbackService.addFeedback noFaults Gym.afterSession Gym.world1
            20%nat 102%nat "good" 5))
  /\ isOk (fst (FeedbackService.addFeedback noFaults
                  (Gym.afterSession + msPerHour)
                  (snd (FeedbackService.addFeedback noFaults Gym.afterSession
                          Gym.world1 20%nat 102%nat "good" 5))
                  10%nat 102%nat "well done" 4)) = false.
Proof.
  assert (H : FeedbackService.addFeedback noFaults Gym.afterSession Gym.world1
                20%nat 102%nat "good" 5
              = (Ok {| Model.message := "good"; Model.rating := Some 5;
                       timestamp := Gym.afterSession |},
                 snd (FeedbackService.addFeedback noFaults Gym.afterSession
                        Gym.world1 20%nat 102%nat "good" 5)))
    by reflexivity.
  split; [exact H|].
  destruct (completed_is_final noFaults Gym.afterSession Gym.world1 _
              20%nat 102%nat "good" 5 _ H) as (b' & _ & _ & _ & Hno & _).
  apply Hno.
Defined.

(** X8.  Feedback revives a cancelled booking.  The submission does not
    look at cancellation: when it succeeds on a cancelled booking, the
    booking is stored as completed, the per-coach availability for its
    coach and date lists its slot as booked again, and the composite
    search no longer has the slot in the free set of that day. *)
Theorem feedback_revives_cancelled_booking {js : Runtime}
    (users : UserService) (faults : Faults) (now : Z) (w w' : World)
    (userId bookingId : ObjectId) (message : string) (rating : Z)
    (e : FeedbackEntry) (b : Booking) :
  findById booking_id bookingId (BookingModel (database w)) = Some b ->
  state b = CANCELLED ->
  getCoachData users (coachId b) <> None ->
  FeedbackService.addFeedback faults now w userId bookingId message rating
  = (Ok e, w') ->
  (exists b',
     findById booking_id bookingId (BookingModel (database w')) = Some b'
     /\ state b' = COMPLETED)
  /\ Spec.slotBooked
       (CoachService.getCoachAvailableTimeSlots users (database w')
          (coachId b) (Some (date b))) (timeSlotId b) = Some true
  /\ (forall now',
        ~ In (timeSlotId b) (Spec.freeSlots now' (date b) (database w'))).
Proof.
  intros Hb Hst Hcoach H.
  pose proof H as H0. unfold FeedbackService.addFeedback in H0.
  destruct (FeedbackService.addFeedbackChecks now (database w) userId bookingId)
    as [b0|] eqn:Hc; [|discriminate]. clear H0.
  apply addFeedbackChecks_Ok_inv in Hc.
  destruct Hc as (Hb0 & _ & slot & Hslot & _).
  rewrite Hb in Hb0. inversion Hb0; subst b0. clear Hb0.
  destruct (addFeedback_Ok_world faults now w w' userId bookingId message
              rating e H)
    as (b1 & cf & kf & Hb1 & _ & _ & _ & Hfound & Hts & _).
  rewrite Hb in Hb1. inversion Hb1; subst b1. clear Hb1.
  set (b' := FeedbackService.completedBooking now b cf kf) in *.
  assert (Hin : In b' (BookingModel (database w'))).
  { unfold findById in Hfound. now apply find_some in Hfound. }
  split; [exists b'; split; [exact Hfound | reflexivity]|]. split.
  - rewrite <- Hts in Hslot.
    rewrite (slotBooked_listed users (database w') _ _ (date b) slot
               Hcoach Hslot).
    f_equal. apply existsb_exists. exists b'. split.
    + unfold CoachService.bookingsOn. apply filter_In. split; [exact Hin|].
      simpl. now rewrite Nat.eqb_refl, Z.eqb_refl.
    + simpl. now rewrite Nat.eqb_refl.
  - intros now' Hfree. unfold Spec.freeSlots in Hfree.
    apply in_map_iff in Hfree. destruct Hfree as (x & Hx & Hxin).
    destruct (free_slot_facts now' _ (database w') x Hxin) as (_ & _ & Hno).
    apply (Hno b' Hin); [reflexivity | | | now symmetry].
    + apply startOfDay_le.
    + apply (startOfDay_lt_next (date b)).
Qed.

Lemma feedback_revives_cancelled_booking_witness :
  findById booking_id 102%nat (BookingModel (database Gym.world2))
  = Some (WorkoutService.cancelled Gym.now Gym.booking1)
  /\ state (WorkoutService.cancelled Gym.now Gym.booking1) = CANCELLED
  /\ getCoachData Gym.users 10%nat <> None
  /\ Spec.slotBooked
       (CoachService.getCoachAvailableTimeSlots Gym.users
          (database Gym.world2) 10%nat (Some Gym.tomorrow)) 1%nat
     = Some false
  /\ Spec.slotBooked
       (CoachService.getCoachAvailableTimeSlots Gym.users
          (database
             (snd (FeedbackService.addFeedback noFaults Gym.afterSession
                     Gym.world2 10%nat 102%nat "no show" 1)))
          10%nat (Some Gym.tomorrow)) 1%nat
     = Some true.
Proof.
  assert (H1 : findById booking_id 102%nat (BookingModel (database Gym.world2))
               = Some (WorkoutService.cancelled Gym.now Gym.booking1))
    by reflexivity.
  assert (H2 : state (WorkoutService.cancelled Gym.now Gym.booking1)
               = CANCELLED) by reflexivity.
  assert (H3 : getCoachData Gym.users 10%nat <> None) by (simpl; discriminate).
  split; [exact H1|]. split; [exact H2|]. split; [exact H3|].
  split; [reflexivity|].
  refine (proj1 (proj2 (feedback_revives_cancelled_booking Gym.users noFaults
                          Gym.afterSession Gym.world2 _ 10%nat 102%nat
                          "no show" 1 _ _ H1 H2 H3 _))).
  reflexivity.
Defined.

(** *** Cancellation: failures and repetition *)

Section CancelMore.

Context {js : Runtime}.

Import WorkoutService.

Variable users : UserService.
Variable faults : Faults.
Variable now : Z.
Variable w : World.
Variables bookingId userId : ObjectId.

Lemma cancelBooking_Ok_inv (r : BookingResponse) (w' : World) :
  cancelBooking users faults now w bookingId userId = (Ok r, w') ->
  exists b,
    findById booking_id bookingId (BookingModel (database w)) = Some b
    /\ state b = SCHEDULED
    /\ (userId = clientId b \/ userId = coachId b)
    /\ 12 <= hoursDiff now (date b)
    /\ r = response (cancelled now b)
    /\ w' = {| database :=
                 setBookings (database w)
                   (replaceById booking_id (cancelled now b)
                      (BookingModel (database w)));
               nextObjectId := nextObjectId w |}.
Proof.
  unfold cancelBooking, cancelBookingChecks.
  destruct (findById booking_id bookingId (BookingModel (database w)))
    as [b|]; [|discriminate].
  destruct (getUserData users userId); [|discriminate].
  destruct (Nat.eqb (clientId b) userId) eqn:E1;
    destruct (Nat.eqb (coachId b) userId) eqn:E2; cbn [orb negb];
    try discriminate;
    (destruct (state b) eqn:Es; cbn [state_eqb]; try discriminate;
     destruct (hoursDiff now (date b) <? 12) eqn:Eh; [discriminate|];
     destruct (faults 0%nat); [discriminate|];
     intro H; inversion H; subst; exists b;
     apply Z.ltb_ge in Eh;
     repeat split; auto;
     try (left; symmetry; now apply Nat.eqb_eq);
     try (right; symmetry; now apply Nat.eqb_eq)).
Qed.

Lemma cancelBooking_Throw_inv (e : Exn) (w' : World) :
  cancelBooking users faults now w bookingId userId = (Throw e, w') ->
  w' = w
  /\ exists c m, e = HttpError c m
                 /\ (c = 400 \/ c = 403 \/ c = 404 \/ c = 500).
Proof.
  unfold cancelBooking, cancelBookingChecks.
  destruct (findById booking_id bookingId (BookingModel (database w)))
    as [b|]; [|intro H; inversion H; eauto 9].
  destruct (getUserData users userId); [|intro H; inversion H; eauto 9].
  destruct (negb _); [intro H; inversion H; eauto 9|].
  destruct (state_eqb (state b) CANCELLED); [intro H; inversion H; eauto 9|].
  destruct (state_eqb (state b) COMPLETED); [intro H; inversion H; eauto 9|].
  destruct (state_eqb (state b) WAITING_FOR_FEEDBACK);
    [intro H; inversion H; eauto 9|].
  destruct (hoursDiff now (date b) <? 12); [intro H; inversion H; eauto 9|].
  destruct (faults 0%nat); intro H; inversion H; eauto 9.
Qed.

End CancelMore.

(** X9.  A cancellation that fails changes nothing, not even the identity
    counter, and its error is an [HttpError] with status 400, 403, 404 or
    500.  An unknown booking gives 404; an actor whom the directory knows
    but who is neither the client nor the coach of the booking gives 403,
    in whatever state the booking is and however far away its date. *)
Theorem cancel_fails_clean
    (users : UserService) (faults : Faults) (now : Z) (w : World)
    (bookingId userId : ObjectId) :
  let r := WorkoutService.cancelBooking users faults now w bookingId userId in
  (forall e, fst r = Throw e ->
     snd r = w
     /\ exists c m, e = HttpError c m
                    /\ (c = 400 \/ c = 403 \/ c = 404 \/ c = 500))
  /\ (findById booking_id bookingId (BookingModel (database w)) = None ->
      r = (Throw (HttpError 404 "Booking not found"), w))
  /\ (forall b,
        findById booking_id bookingId (BookingModel (database w)) = Some b ->
        getUserData users userId <> None ->
        userId <> clientId b -> userId <> coachId b ->
        r = (Throw (HttpError 403 "Not authorized to cancel this booking"), w)).
Proof.
  intro r. subst r. split; [|split].
  - intros e H.
    destruct (WorkoutService.cancelBooking users faults now w bookingId userId)
      as [res w'] eqn:E.
    simpl in H. subst res. simpl.
    exact (cancelBooking_Throw_inv users faults now w bookingId userId e w' E).
  - intro H. unfold WorkoutService.cancelBooking,
      WorkoutService.cancelBookingChecks. now rewrite H.
  - intros b Hb Hk Hc1 Hc2. unfold WorkoutService.cancelBooking,
      WorkoutService.cancelBookingChecks. rewrite Hb.
    destruct (getUserData users userId); [|contradiction].
    replace (Nat.eqb (clientId b) userId) with false
      by (symmetry; apply Nat.eqb_neq; congruence).
    replace (Nat.eqb (coachId b) userId) with false
      by (symmetry; apply Nat.eqb_neq; congruence).
    reflexivity.
Qed.

Lemma cancel_fails_clean_witness :
  findById booking_id 102%nat (BookingModel (database Gym.world1))
  = Some Gym.booking1
  /\ getUserData Gym.users 21%nat <> None
  /\ 21%nat <> clientId Gym.booking1 /\ 21%nat <> coachId Gym.booking1
  /\ WorkoutService.cancelBooking Gym.users noFaults Gym.now Gym.world1
       102%nat 21%nat
     = (Throw (HttpError 403 "Not authorized to cancel this booking"),
        Gym.world1)
  /\ WorkoutService.cancelBooking Gym.users noFaults Gym.now Gym.world1
       7%nat 20%nat
     = (Throw (HttpError 404 "Booking not found"), Gym.world1).
Proof.
  assert (H1 : findById booking_id 102%nat (BookingModel (database Gym.world1))
               = Some Gym.booking1) by reflexivity.
  assert (H2 : getUserData Gym.users 21%nat <> None) by (simpl; discriminate).
  assert (H3 : 21%nat <> clientId Gym.booking1) by (simpl; discriminate).
  assert (H4 : 21%nat <> coachId Gym.booking1) by (simpl; discriminate).
  repeat (split; [assumption|]). split.
  - exact (proj2 (proj2 (cancel_fails_clean Gym.users noFaults Gym.now
                           Gym.world1 102%nat 21%nat))
             Gym.booking1 H1 H2 H3 H4).
  - exact (proj1 (proj2 (cancel_fails_clean Gym.users noFaults Gym.now
                           Gym.world1 7%nat 20%nat)) eq_refl).
Defined.

(** X10.  Cancelling is not idempotent and keeps the ledgers.  After a
    successful cancellation the stored booking is cancelled; a second
    cancellation is refused, with status 400 "Booking is already cancelled"
    for a party of the booking; the ledgers are untouched, so that the
    statistics of every coach, their [totalReviews] included, are the same
    as before the cancellation. *)
Theorem cancel_is_not_idempotent
    (users : UserService) (faults : Faults) (now : Z) (w w' : World)
    (bookingId userId : ObjectId) (r : WorkoutService.BookingResponse) :
  WorkoutService.cancelBooking users faults now w bookingId userId
  = (Ok r, w') ->
  (forall users' faults' now' actor,
     isOk (fst (WorkoutService.cancelBooking users' faults' now' w'
                  bookingId actor)) = false)
  /\ (forall faults' now',
        WorkoutService.cancelBooking users faults' now' w' bookingId userId
        = (Throw (HttpError 400 "Booking is already cancelled"), w'))
  /\ FeedbackModel (database w') = FeedbackModel (database w)
  /\ (forall coach,
        FeedbackService.getCoachFeedbackStats (database w') coach
        = FeedbackService.getCoachFeedbackStats (database w) coach).
Proof.
  intro H.
  assert (Hknown : getUserData users userId <> None).
  { unfold WorkoutService.cancelBooking, WorkoutService.cancelBookingChecks
      in H.
    destruct (findById booking_id bookingId (BookingModel (database w)));
      [|discriminate].
    destruct (getUserData users userId); [discriminate | discriminate H]. }
  destruct (cancelBooking_Ok_inv users faults now w bookingId userId r w' H)
    as (b & Hb & Hs & Hp & Hh & -> & ->).
  assert (Hfound :
    findById booking_id bookingId
      (BookingModel
         (setBookings (database w)
            (replaceById booking_id (WorkoutService.cancelled now b)
               (BookingModel (database w)))))
    = Some (WorkoutService.cancelled now b)).
  { simpl. pose proof (findById_key _ _ _ _ Hb) as Hk.
    replace bookingId with (booking_id (WorkoutService.cancelled now b))
      at 1 by exact Hk.
    apply findById_replaceById with (old := b). simpl. now rewrite Hk. }
  split; [|split; [|split]].
  - intros. unfold WorkoutService.cancelBooking,
      WorkoutService.cancelBookingChecks.
    cbn [database]. rewrite Hfound.
    destruct (getUserData users' actor); [|reflexivity].
    destruct (negb _); reflexivity.
  - intros. unfold WorkoutService.cancelBooking,
      WorkoutService.cancelBookingChecks.
    cbn [database]. rewrite Hfound.
    destruct (getUserData users userId); [|contradiction].
    rewrite (party_authorized userId (WorkoutService.cancelled now b) Hp).
    reflexivity.
  - reflexivity.
  - intro coach. reflexivity.
Qed.

Lemma cancel_is_not_idempotent_witness :
  WorkoutService.cancelBooking Gym.users noFaults Gym.now Gym.world1
    102%nat 20%nat
  = (Ok (WorkoutService.response
           (WorkoutService.cancelled Gym.now Gym.booking1)), Gym.world2)
  /\ WorkoutService.cancelBooking Gym.users noFaults Gym.now Gym.world2
       102%nat 20%nat
     = (Throw (HttpError 400 "Booking is already cancelled"), Gym.world2)
  /\ FeedbackService.getCoachFeedbackStats (database Gym.world2) 10%nat
     = FeedbackService.getCoachFeedbackStats (database Gym.world1) 10%nat.
Proof.
  assert (H : WorkoutService.cancelBooking Gym.users noFaults Gym.now
                Gym.world1 102%nat 20%nat
              = (Ok (WorkoutService.response
                       (WorkoutService.cancelled Gym.now Gym.booking1)),
                 Gym.world2)) by reflexivity.
  split; [exact H|].
  destruct (cancel_is_not_idempotent Gym.users noFaults Gym.now Gym.world1
              Gym.world2 102%nat 20%nat _ H) as (_ & Hagain & _ & Hstats).
  split; [apply Hagain | apply Hstats].
Defined.

(** *** Sorting, largest key first *)


Lemma insertDescending_perm {A} (key : A -> Z) (x : A) (l : list A) :
  Permutation (FeedbackService.insertDescending key x l) (x :: l).
Proof.
  induction l as [|y l IH]; simpl; [reflexivity|].
  destruct (key x <? key y); [|reflexivity].
  rewrite IH. apply perm_swap.
Qed.

Lemma sortDescending_perm {A} (key : A -> Z) (l : list A) :
  Permutation (FeedbackService.sortDescending key l) l.
Proof.
  unfold FeedbackService.sortDescending.
  induction l as [|x l IH]; simpl; [reflexivity|].
  rewrite insertDescending_perm. now constructor.
Qed.

Lemma insertDescending_sorted {A} (key : A -> Z) (x : A) (l : list A) :
  StronglySorted (fun a b => key b <= key a) l ->
  StronglySorted (fun a b => key b <= key a)
    (FeedbackService.insertDescending key x l).
Proof.
  induction 1 as [|y l Hs IH Hall]; simpl.
  - constructor; constructor.
  - destruct (key x <? key y) eqn:E.
    + apply Z.ltb_lt in E. constructor; [exact IH|].
      rewrite (Forall_forall (fun b => key b <= key y)).
      intros z Hz.
      apply (Permutation_in _ (insertDescending_perm key x l)) in Hz.
      destruct Hz as [<- | Hz]; [lia|].
      rewrite Forall_forall in Hall. now apply Hall.
    + apply Z.ltb_ge in E. constructor; [now constructor|].
      constructor; [exact E|].
      eapply Forall_impl; [|exact Hall]. simpl. intros; lia.
Qed.

Lemma sortDescending_sorted {A} (key : A -> Z) (l : list A) :
  StronglySorted (fun a b => key b <= key a)
    (FeedbackService.sortDescending key l).
Proof.
  unfold FeedbackService.sortDescending.
  induction l as [|x l IH]; simpl; [constructor|].
  now apply insertDescending_sorted.
Qed.

Lemma StronglySorted_map {A B} (R : B -> B -> Prop) (g : A -> B) (l : list A) :
  StronglySorted (fun a b => R (g a) (g b)) l -> StronglySorted R (map g l).
Proof.
  induction 1 as [|x l Hs IH Hall]; simpl; constructor; auto.
  rewrite Forall_forall in *. intros y Hy.
  apply in_map_iff in Hy. destruct Hy as (z & <- & Hz). now apply Hall.
Qed.

(** *** Listings of bookings *)

Lemma same_day_iff (t x : Z) :
  startOfDay x = startOfDay t <-> startOfDay t <= x <= endOfDay t.
Proof.
  unfold endOfDay, startOfDay, Day, msPerDay. split.
  - intro H. pose proof (Z.div_mod x 86400000).
    pose proof (Z.mod_pos_bound x 86400000). lia.
  - intros [H1 H2]. f_equal.
    assert (Hx : x / 86400000 = t / 86400000); [|now rewrite Hx].
    symmetry.
    apply Z.div_unique with (r := x - t / 86400000 * 86400000); lia.
Qed.

(** What the rows of the listing of a day are. *)
Lemma getBookingsForUser_rows (d : Database) (userId : ObjectId) (t : Z) :
  let rows := WorkoutListings.getBookingsForUser d userId t in
  Permutation
    (map WorkoutListings.bd_bookingId rows)
    (map booking_id
       (filter (fun b => WorkoutListings.ofUser userId b
                         && (startOfDay (date b) =? startOfDay t))
          (BookingModel d)))
  /\ StronglySorted
       (fun a b => WorkoutListings.bd_date b <= WorkoutListings.bd_date a)
       rows
  /\ (forall b, In b (BookingModel d) ->
        clientId b = userId \/ coachId b = userId ->
        startOfDay (date b) = startOfDay t ->
        exists row,
          In row rows
          /\ WorkoutListings.bd_bookingId row = booking_id b
          /\ WorkoutListings.bd_state row = state b
          /\ WorkoutListings.bd_date row = date b).
Proof.
  intro rows. subst rows. unfold WorkoutListings.getBookingsForUser.
  assert (Hfilter :
    filter (fun b => WorkoutListings.ofUser userId b
                     && (startOfDay t <=? date b)
                     && (date b <=? endOfDay t)) (BookingModel d)
    = filter (fun b => WorkoutListings.ofUser userId b
                       && (startOfDay (date b) =? startOfDay t))
        (BookingModel d)).
  { apply filter_ext. intro b.
    destruct (WorkoutListings.ofUser userId b); [|reflexivity]. simpl.
    destruct (startOfDay (date b) =? startOfDay t) eqn:E.
    - apply Z.eqb_eq in E. apply same_day_iff in E.
      apply andb_true_iff. split; apply Z.leb_le; lia.
    - apply Z.eqb_neq in E. apply andb_false_iff.
      destruct (startOfDay t <=? date b) eqn:E1; [|now left].
      destruct (date b <=? endOfDay t) eqn:E2; [|now right].
      exfalso. apply E. apply same_day_iff.
      apply Z.leb_le in E1. apply Z.leb_le in E2. lia. }
  rewrite Hfilter. split; [|split].
  - rewrite map_map. simpl.
    apply Permutation_map with (f := booking_id).
    apply sortDescending_perm.
  - apply StronglySorted_map with
      (R := fun a b => WorkoutListings.bd_date b <= WorkoutListings.bd_date a).
    simpl. apply sortDescending_sorted.
  - intros b Hb Hu Hday. exists (WorkoutListings.bookingData d b).
    split; [|repeat split].
    apply in_map.
    apply (Permutation_in _
             (Permutation_sym (sortDescending_perm date _))).
    apply filter_In. split; [exact Hb|].
    apply andb_true_iff. split.
    + unfold WorkoutListings.ofUser. apply orb_true_iff.
      destruct Hu as [<- | <-]; [left | right]; apply Nat.eqb_refl.
    + now apply Z.eqb_eq.
Qed.

(** X11.  The listing of a day has one row for each booking whose client
    or coach is the user and whose date falls on the local day asked for,
    the last millisecond of the day included, in whatever state the booking
    is, cancelled ones too; the rows come latest date first. *)
Theorem day_listing (d : Database) (userId : ObjectId) (t : Z) :
  let rows := WorkoutListings.getBookingsForUser d userId t in
  Permutation
    (map WorkoutListings.bd_bookingId rows)
    (map booking_id
       (filter (fun b => WorkoutListings.ofUser userId b
                         && (startOfDay (date b) =? startOfDay t))
          (BookingModel d)))
  /\ StronglySorted
       (fun a b => WorkoutListings.bd_date b <= WorkoutListings.bd_date a)
       rows
  /\ (forall b, In b (BookingModel d) ->
        clientId b = userId \/ coachId b = userId ->
        startOfDay (date b) = startOfDay t ->
        exists row,
          In row rows
          /\ WorkoutListings.bd_bookingId row = booking_id b
          /\ WorkoutListings.bd_state row = state b
          /\ WorkoutListings.bd_date row = date b).
Proof. exact (getBookingsForUser_rows d userId t). Qed.

Lemma day_listing_witness :
  In (WorkoutService.cancelled Gym.now Gym.booking1)
    (BookingModel (database Gym.world2))
  /\ (clientId (WorkoutService.cancelled Gym.now Gym.booking1) = 20%nat
      \/ coachId (WorkoutService.cancelled Gym.now Gym.booking1) = 20%nat)
  /\ exists row,
       In row (WorkoutListings.getBookingsForUser (database Gym.world2)
                 20%nat (Gym.tomorrow + 9 * msPerHour))
       /\ WorkoutListings.bd_bookingId row = 102%nat
       /\ WorkoutListings.bd_state row = CANCELLED.
Proof.
  assert (H1 : In (WorkoutService.cancelled Gym.now Gym.booking1)
                 (BookingModel (database Gym.world2))) by (left; reflexivity).
  assert (H2 : clientId (WorkoutService.cancelled Gym.now Gym.booking1)
               = 20%nat
               \/ coachId (WorkoutService.cancelled Gym.now Gym.booking1)
                  = 20%nat) by (left; reflexivity).
  split; [exact H1|]. split; [exact H2|].
  destruct (proj2 (proj2 (day_listing (database Gym.world2) 20%nat
                            (Gym.tomorrow + 9 * msPerHour)))
              _ H1 H2 eq_refl) as (row & Hin & Hid & Hst & _).
  exists row. auto.
Defined.

(** X12.  A booking is listed at once: after a successful booking the day
    listing of its client and that of its coach, for the stored date, both
    contain it as scheduled.  This holds for a date at the last millisecond
    of its day as well, which the double-booking check does not see. *)
Theorem booking_is_listed {js : Runtime}
    (Date_parse : string -> Date) (users : UserService) (faults : Faults)
    (now : Z) (w w1 : World) (p : WorkoutService.BookWorkoutParams)
    (r : WorkoutService.BookingResponse) :
  WorkoutService.bookWorkout Date_parse users faults now w p = (Ok r, w1) ->
  forall user,
    user = WorkoutService.p_clientId p \/ user = WorkoutService.p_coachId p ->
    exists row,
      In row (WorkoutListings.getBookingsForUser (database w1) user
                (WorkoutService.r_date r))
      /\ WorkoutListings.bd_bookingId row = WorkoutService.r_bookingId r
      /\ WorkoutListings.bd_state row = SCHEDULED
      /\ WorkoutListings.bd_date row = WorkoutService.r_date r.
Proof.
  intros H user Hu.
  destruct (bookWorkout_Ok_inv Date_parse users faults now w w1 p r H)
    as (bd & _ & -> & ->).
  set (nb := WorkoutService.newBooking (S (S (nextObjectId w))) now bd p
               (WorkoutService.newClientFeedback (nextObjectId w) p)
               (WorkoutService.newCoachFeedback (S (nextObjectId w)) p)).
  destruct (proj2 (proj2 (getBookingsForUser_rows
                            (database (Spec.bookedWorld now bd w p))
                            user bd)) nb) as (row & Hin & Hid & Hst & Hd).
  - simpl. apply in_or_app. right. now left.
  - simpl. destruct Hu as [-> | ->]; auto.
  - reflexivity.
  - exists row. simpl. auto.
Qed.

Lemma booking_is_listed_witness :
  WorkoutService.bookWorkout Gym.noParse Gym.users noFaults Gym.now
    Gym.world0 Gym.requestLate
  = (Ok (WorkoutService.response
           (WorkoutService.newBooking 102%nat Gym.now Gym.lastInstant
              Gym.requestLate
              (WorkoutService.newClientFeedback 100%nat Gym.requestLate)
              (WorkoutService.newCoachFeedback 101%nat Gym.requestLate))),
     Gym.worldLate)
  /\ exists row,
       In row (WorkoutListings.getBookingsForUser (database Gym.worldLate)
                 10%nat Gym.lastInstant)
       /\ WorkoutListings.bd_bookingId row = 102%nat.
Proof.
  assert (H : WorkoutService.bookWorkout Gym.noParse Gym.users noFaults
                Gym.now Gym.world0 Gym.requestLate
              = (Ok (WorkoutService.response
                       (WorkoutService.newBooking 102%nat Gym.now
                          Gym.lastInstant Gym.requestLate
                          (WorkoutService.newClientFeedback 100%nat
                             Gym.requestLate)
                          (WorkoutService.newCoachFeedback 101%nat
                             Gym.requestLate))),
                 Gym.worldLate)) by reflexivity.
  split; [exact H|].
  destruct (booking_is_listed Gym.noParse Gym.users noFaults Gym.now
              Gym.world0 Gym.worldLate Gym.requestLate _ H 10%nat
              (or_intror eq_refl)) as (row & Hin & Hid & _).
  exists row. split; [exact Hin | exact Hid].
Defined.

Section AllBookings.

Context {js : Runtime}.

Import WorkoutService WorkoutListings.

Lemma mapResult_all_Ok {A B} (g : A -> Result B) (h : A -> B) (l : list A) :
  (forall x, In x l -> g x = Ok (h x)) -> mapResult g l = Ok (map h l).
Proof.
  induction l as [|x l IH]; simpl; intro H; [reflexivity|].
  rewrite (H x (or_introl eq_refl)), IH; [reflexivity|].
  intros; apply H; now right.
Qed.

Lemma mapResult_some_Throw {A B} (g : A -> Result B) (l : list A) (x : A) :
  In x l -> isOk (g x) = false -> isOk (mapResult g l) = false.
Proof.
  induction l as [|y l IH]; simpl; intros Hin Hx; [destruct Hin|].
  destruct (g y) eqn:E; [|reflexivity].
  destruct Hin as [-> | Hin]; [rewrite E in Hx; discriminate|].
  specialize (IH Hin Hx). destruct (mapResult g l); [discriminate | reflexivity].
Qed.

(** Whether the slot, the workout and the workout type of a booking are
    all in the database. *)
Lemma bookingRow_Ok_iff (d : Database) (b : Booking) :
  isOk (bookingRow d b) = true
  <-> populatedSlot d b <> None
      /\ exists wk, populatedWorkout d b = Some wk
                    /\ populatedType d wk <> None.
Proof.
  unfold bookingRow.
  destruct (populatedWorkout d b) as [wk|].
  - destruct (populatedType d wk) eqn:Et.
    + destruct (populatedSlot d b); simpl; split.
      * intros _. split; [discriminate|]. exists wk. rewrite Et.
        split; [reflexivity | discriminate].
      * reflexivity.
      * discriminate.
      * intros [H _]. contradiction.
    + simpl. split; [discriminate|].
      intros (_ & wk' & Hw & Ht). inversion Hw; subst. now rewrite Et in Ht.
  - simpl. split; [discriminate|]. intros (_ & wk' & Hw & _). discriminate.
Qed.

End AllBookings.

(** X13.  The listing of all bookings of a user is all or nothing.  It
    succeeds exactly when every booking of the user has its slot, its
    workout and the type of that workout in the database, and then has one
    row for each such booking, latest date first; a single booking with a
    reference that does not resolve makes the whole listing fail with
    status 500, whereas the listing of a day still shows that booking. *)
Theorem all_bookings_listing (d : Database) (userId : ObjectId) :
  let mine := filter (WorkoutListings.ofUser userId) (BookingModel d) in
  let r := WorkoutListings.getAllBookingsForUser d userId in
  ((forall b, In b mine -> isOk (WorkoutListings.bookingRow d b) = true) ->
     exists rows,
       r = Ok rows
       /\ Permutation (map WorkoutListings.br_bookingId rows)
            (map booking_id mine)
       /\ StronglySorted
            (fun a b => WorkoutListings.br_date b <= WorkoutListings.br_date a)
            rows)
  /\ (forall b, In b mine -> isOk (WorkoutListings.bookingRow d b) = false ->
        r = Throw (HttpError 500 "Failed to fetch bookings for user")
        /\ exists row,
             In row (WorkoutListings.getBookingsForUser d userId (date b))
             /\ WorkoutListings.bd_bookingId row = booking_id b).
Proof.
  intros mine r. subst r. unfold WorkoutListings.getAllBookingsForUser.
  fold mine. split.
  - intro Hall.
    assert (Hrows : forall b, In b (WorkoutListings.latestFirst mine) ->
              exists row, WorkoutListings.bookingRow d b = Ok row).
    { intros b Hb.
      apply (Permutation_in _ (sortDescending_perm date mine)) in Hb.
      specialize (Hall b Hb).
      destruct (WorkoutListings.bookingRow d b) as [row|];
        [eauto | discriminate]. }
    destruct (WorkoutService.mapResult (WorkoutListings.bookingRow d)
                (WorkoutListings.latestFirst mine)) as [rows|e] eqn:E.
    + exists rows. split; [reflexivity|].
      assert (Hshape : forall l rows0,
                WorkoutService.mapResult (WorkoutListings.bookingRow d) l
                = Ok rows0 ->
                map WorkoutListings.br_bookingId rows0 = map booking_id l
                /\ map WorkoutListings.br_date rows0 = map date l).
      { induction l as [|x l IH]; simpl; intros rows0 H0.
        - inversion H0. auto.
        - destruct (WorkoutListings.bookingRow d x) as [row|] eqn:Er;
            [|discriminate].
          destruct (WorkoutService.mapResult _ l) as [rs|]; [|discriminate].
          inversion H0; subst. destruct (IH rs eq_refl) as [H1 H2]. simpl.
          unfold WorkoutListings.bookingRow in Er.
          destruct (WorkoutListings.populatedWorkout d x) as [wk|];
            [|discriminate].
          destruct (WorkoutListings.populatedType d wk); [|discriminate].
          destruct (WorkoutListings.populatedSlot d x); [|discriminate].
          inversion Er; subst. simpl. now rewrite H1, H2. }
      destruct (Hshape _ _ E) as [Hids Hdates]. split.
      * rewrite Hids. apply Permutation_map. apply sortDescending_perm.
      * pose proof (sortDescending_sorted date mine) as Hs.
        apply (StronglySorted_map (fun a b => b <= a) date) in Hs.
        unfold WorkoutListings.latestFirst in Hdates. rewrite <- Hdates in Hs.
        clear -Hs. induction rows as [|x rows IH]; [constructor|].
        simpl in Hs. inversion Hs; subst. constructor; [now apply IH|].
        rewrite Forall_forall in *. intros y Hy. apply H2.
        now apply in_map.
    + exfalso.
      assert (Hok : isOk (WorkoutService.mapResult
                            (WorkoutListings.bookingRow d)
                            (WorkoutListings.latestFirst mine)) = true).
      { clear E. induction (WorkoutListings.latestFirst mine) as [|x l IH];
          [reflexivity|]. simpl.
        destruct (Hrows x (or_introl eq_refl)) as (row & ->).
        assert (Hl : isOk (WorkoutService.mapResult
                             (WorkoutListings.bookingRow d) l) = true)
          by (apply IH; intros; apply Hrows; now right).
        destruct (WorkoutService.mapResult _ l); [reflexivity | discriminate]. }
      rewrite E in Hok. discriminate.
  - intros b Hb Hbad. split.
    + assert (Hin : In b (WorkoutListings.latestFirst mine))
        by (apply (Permutation_in _
                     (Permutation_sym (sortDescending_perm date mine)));
            exact Hb).
      pose proof (mapResult_some_Throw (WorkoutListings.bookingRow d) _ b
                    Hin Hbad) as Hf.
      destruct (WorkoutService.mapResult _ _); [discriminate | reflexivity].
    + unfold mine in Hb. apply filter_In in Hb. destruct Hb as [Hb Hu].
      destruct (proj2 (proj2 (getBookingsForUser_rows d userId (date b))) b Hb)
        as (row & Hin & Hid & _).
      * unfold WorkoutListings.ofUser in Hu. apply orb_true_iff in Hu.
        destruct Hu as [Hu | Hu]; apply Nat.eqb_eq in Hu; auto.
      * reflexivity.
      * exists row. auto.
Qed.

Lemma all_bookings_listing_witness :
  In Gym.booking1
    (filter (WorkoutListings.ofUser 20%nat) (BookingModel Gym.orphaned))
  /\ isOk (WorkoutListings.bookingRow Gym.orphaned Gym.booking1) = false
  /\ WorkoutListings.getAllBookingsForUser Gym.orphaned 20%nat
     = Throw (HttpError 500 "Failed to fetch bookings for user")
  /\ (exists rows,
        WorkoutListings.getAllBookingsForUser (database Gym.world1) 20%nat
        = Ok rows
        /\ Permutation (map WorkoutListings.br_bookingId rows) [102%nat]).
Proof.
  assert (H1 : In Gym.booking1
                 (filter (WorkoutListings.ofUser 20%nat)
                    (BookingModel Gym.orphaned))) by (left; reflexivity).
  assert (H2 : isOk (WorkoutListings.bookingRow Gym.orphaned Gym.booking1)
               = false) by reflexivity.
  split; [exact H1|]. split; [exact H2|]. split.
  - exact (proj1 (proj2 (all_bookings_listing Gym.orphaned 20%nat)
                    Gym.booking1 H1 H2)).
  - destruct (proj1 (all_bookings_listing (database Gym.world1) 20%nat))
      as (rows & Hr & Hp & _).
    + intros b [<- | []]. reflexivity.
    + exists rows. split; [exact Hr | exact Hp].
Defined.

(** *** A coach the directory does not return *)

(** X14.  The list of the coaches of a workout type leaves out, without an
    error, the coaches that the directory does not return: it holds exactly
    the profiles the directory gives for the coaches of the mappings of
    that type.  The composite search is not as lenient: it succeeds only
    when the directory returns the coach of every mapping that the filter
    selects, and the type of every such mapping is in the database, so one
    unknown coach makes the search fail for all the others. *)
Theorem unknown_coach_listed_or_fatal {js : Runtime}
    (Date_parse : string -> Date) (users : UserService) (now : Z)
    (d : Database) :
  (forall workoutId p,
     In p (WorkoutListings.getCoachesByWorkout users d workoutId)
     <-> exists wk,
           In wk (WorkoutModel d) /\ workoutType wk = workoutId
           /\ getCoachData users (workout_coachId wk) = Some p)
  /\ (forall f rows,
        WorkoutService.searchWorkoutUsingFilters Date_parse users now d f
        = Ok rows ->
        forall wk, In wk (Spec.matchingWorkouts f d) ->
          getCoachData users (workout_coachId wk) <> None
          /\ findById option_id (workoutType wk) (WorkoutOptionModel d) <> None)
  /\ (forall f wk,
        In wk (Spec.matchingWorkouts f d) ->
        getCoachData users (workout_coachId wk) = None ->
        isOk (WorkoutService.searchWorkoutUsingFilters Date_parse users now d f)
        = false).
Proof.
  assert (Hneeds : forall f rows,
    WorkoutService.searchWorkoutUsingFilters Date_parse users now d f
    = Ok rows ->
    forall wk, In wk (Spec.matchingWorkouts f d) ->
      getCoachData users (workout_coachId wk) <> None
      /\ findById option_id (workoutType wk) (WorkoutOptionModel d) <> None).
  { intros f rows H wk Hwk.
    destruct (search_Ok_inv Date_parse users now d f rows H)
      as (sd & _ & _ & Hmap).
    destruct (WorkoutService.availabilityInfo f (startOfDay sd)
                (WorkoutService.availableAlternativeTimeSlots now
                   (startOfDay sd) d)
                (WorkoutService.enrich users d wk)) as [row|e] eqn:E.
    - unfold WorkoutService.availabilityInfo, WorkoutService.enrich in E.
      destruct (getCoachData users (workout_coachId wk)); [|discriminate].
      destruct (findById option_id (workoutType wk) (WorkoutOptionModel d));
        [|discriminate].
      split; discriminate.
    - exfalso.
      assert (Hbad : isOk (WorkoutService.mapResult
                (WorkoutService.availabilityInfo f (startOfDay sd)
                   (WorkoutService.availableAlternativeTimeSlots now
                      (startOfDay sd) d))
                (map (WorkoutService.enrich users d)
                   (Spec.matchingWorkouts f d))) = false).
      { apply mapResult_some_Throw with (x := WorkoutService.enrich users d wk).
        - now apply in_map.
        - now rewrite E. }
      rewrite Hmap in Hbad. discriminate. }
  split; [|split; [exact Hneeds|]].
  - intros workoutId p. unfold WorkoutListings.getCoachesByWorkout.
    rewrite in_flat_map. split.
    + intros (wk & Hwk & Hp). apply filter_In in Hwk.
      destruct Hwk as [Hwk Ht]. apply Nat.eqb_eq in Ht.
      exists wk. split; [exact Hwk|]. split; [exact Ht|].
      destruct (getCoachData users (workout_coachId wk)) as [q|];
        [|destruct Hp].
      destruct Hp as [<- | []]. reflexivity.
    + intros (wk & Hwk & Ht & Hp). exists wk. split.
      * apply filter_In. split; [exact Hwk | now apply Nat.eqb_eq].
      * rewrite Hp. now left.
  - intros f wk Hwk Hnone.
    destruct (WorkoutService.searchWorkoutUsingFilters Date_parse users now d f)
      as [rows|] eqn:E; [|reflexivity].
    exfalso. destruct (Hneeds f rows E wk Hwk) as [Hc _]. contradiction.
Qed.

Lemma unknown_coach_listed_or_fatal_witness :
  In (mkWorkout 32%nat 40%nat 12%nat)
    (Spec.matchingWorkouts Gym.anySlotTomorrow Gym.withStranger)
  /\ getCoachData Gym.users 12%nat = None
  /\ isOk (WorkoutService.searchWorkoutUsingFilters Gym.noParse Gym.users
             Gym.now Gym.withStranger Gym.anySlotTomorrow) = false
  /\ List.length (WorkoutListings.getCoachesByWorkout Gym.users
                    Gym.withStranger 40%nat) = 2%nat.
Proof.
  assert (H1 : In (mkWorkout 32%nat 40%nat 12%nat)
                 (Spec.matchingWorkouts Gym.anySlotTomorrow Gym.withStranger))
    by (simpl; auto).
  assert (H2 : getCoachData Gym.users 12%nat = None) by reflexivity.
  split; [exact H1|]. split; [exact H2|]. split; [|reflexivity].
  exact (proj2 (proj2 (unknown_coach_listed_or_fatal Gym.noParse Gym.users
                         Gym.now Gym.withStranger))
           Gym.anySlotTomorrow _ H1 H2).
Defined.

(** *** What the per-coach availability reports *)

(** X15.  For a coach the directory knows and a catalogue that is not
    empty, the per-coach availability lists every slot of the catalogue, in
    the order of the catalogue, and marks a slot as booked exactly when a
    booking of that coach for that slot that is not cancelled is stored
    with the very instant asked for: a booking of the same day stored with
    another time of day does not mark its slot. *)
Theorem coach_slots_report
    (users : UserService) (d : Database) (coach : ObjectId) (t : Z) :
  getCoachData users coach <> None ->
  TimeSlotModel d <> [] ->
  exists l,
    CoachService.getCoachAvailableTimeSlots users d coach (Some t) = Ok l
    /\ map CoachService.id l = map slot_id (TimeSlotModel d)
    /\ map CoachService.s_startTime l = map startTime (TimeSlotModel d)
    /\ (forall s, In s l ->
          CoachService.isBooked s = true
          <-> exists b,
                In b (BookingModel d) /\ coachId b = coach
                /\ timeSlotId b = CoachService.id s
                /\ date b = t /\ state b <> CANCELLED).
Proof.
  intros Hc Hne. unfold CoachService.getCoachAvailableTimeSlots.
  destruct (getCoachData users coach); [|contradiction].
  destruct (TimeSlotModel d) as [|x0 l0] eqn:El; [contradiction|].
  rewrite <- El. replace (Nat.eqb (List.length (TimeSlotModel d)) 0) with false
    by (rewrite El; reflexivity).
  eexists. split; [reflexivity|]. split; [|split].
  - rewrite map_map. reflexivity.
  - rewrite map_map. reflexivity.
  - intros s Hs. apply in_map_iff in Hs. destruct Hs as (slot & <- & _).
    simpl. rewrite existsb_exists. split.
    + intros (b & Hb & Hp). unfold CoachService.bookingsOn in Hb.
      apply filter_In in Hb. destruct Hb as [Hb Hq].
      apply andb_true_iff in Hq. destruct Hq as [Hq Hocc].
      apply andb_true_iff in Hq. destruct Hq as [Hco Hd].
      apply andb_true_iff in Hp. destruct Hp as [Hsl _].
      exists b. apply Nat.eqb_eq in Hco, Hsl. apply Z.eqb_eq in Hd.
      repeat split; auto. intro Hst. rewrite Hst in Hocc. discriminate.
    + intros (b & Hb & Hco & Hsl & Hd & Hst). exists b.
      assert (Hocc : CoachService.occupying (state b) = true)
        by (destruct (state b); try reflexivity; contradiction).
      split.
      * unfold CoachService.bookingsOn. apply filter_In. split; [exact Hb|].
        rewrite Hco, Hd, Nat.eqb_refl, Z.eqb_refl, Hocc. reflexivity.
      * rewrite Hsl, Nat.eqb_refl, Hocc. reflexivity.
Qed.

Lemma coach_slots_report_witness :
  getCoachData Gym.users 10%nat <> None
  /\ TimeSlotModel (database Gym.world1) <> []
  /\ CoachService.getCoachAvailableTimeSlots Gym.users (database Gym.world1)
       10%nat (Some (Gym.tomorrow + 9 * msPerHour))
     = Ok [ CoachService.mkSlotStatus 1%nat "09:00" "10:00" false;
            CoachService.mkSlotStatus 2%nat "18:00" "19:00" false ].
Proof.
  assert (H1 : getCoachData Gym.users 10%nat <> None) by (simpl; discriminate).
  assert (H2 : TimeSlotModel (database Gym.world1) <> [])
    by (simpl; discriminate).
  split; [exact H1|]. split; [exact H2|].
  destruct (coach_slots_report Gym.users (database Gym.world1) 10%nat
              (Gym.tomorrow + 9 * msPerHour) H1 H2) as (l & Hl & _).
  rewrite Hl. vm_compute in Hl. inversion Hl. reflexivity.
Defined.

(** *** The feedback view *)

Section FeedbackView.

Context {js : Runtime}.

Import FeedbackService Spec.

Variable users : UserService.
Variable d : Database.
Variable userId : ObjectId.

Lemma matching_ledgers :
  matching d userId = filter hasEntries (ledgersTo d userId).
Proof.
  unfold matching, ledgersTo.
  induction (FeedbackModel d) as [|fb l IH]; simpl; [reflexivity|].
  destruct (Nat.eqb (to fb) userId); simpl; [|exact IH].
  unfold hasEntries. destruct (history fb); simpl; [exact IH|].
  now rewrite IH.
Qed.

Lemma skipn_subset {A} (n : nat) (l : list A) (x : A) :
  In x (skipn n l) -> In x l.
Proof.
  revert l. induction n as [|n IH]; intros [|a l]; simpl; auto.
Qed.

Lemma firstn_subset {A} (n : nat) (l : list A) (x : A) :
  In x (firstn n l) -> In x l.
Proof.
  revert l. induction n as [|n IH]; intros [|a l]; simpl; auto.
  - intros [].
  - intros [H | H]; auto.
Qed.

Lemma paginate_subset {A} (perPage page : Z) (l page' : list A) (x : A) :
  paginate perPage page l = Ok page' -> In x page' -> In x l.
Proof.
  unfold paginate. destruct ((page - 1) * perPage <? 0); [discriminate|].
  intro H. inversion H; subst. clear H. intro Hin.
  destruct (perPage =? 0).
  - eapply skipn_subset; eauto.
  - apply firstn_subset in Hin. eapply skipn_subset; eauto.
Qed.

Lemma paginate_length {A} (perPage page : Z) (l page' : list A) :
  paginate perPage page l = Ok page' -> 0 < perPage ->
  Z.of_nat (List.length page') <= perPage.
Proof.
  unfold paginate. destruct ((page - 1) * perPage <? 0); [discriminate|].
  intros H Hp. inversion H; subst. clear H.
  replace (perPage =? 0) with false by (symmetry; apply Z.eqb_neq; lia).
  pose proof (firstn_le_length (Z.to_nat (Z.abs perPage))
                (skipn (Z.to_nat ((page - 1) * perPage)) l)). lia.
Qed.

Lemma format_row (fb : Feedback) (row : FormattedFeedback) :
  format users fb = Ok row ->
  feedbackId row = feedback_id fb
  /\ latestFeedback row = hd_error (history fb)
  /\ historyCount row = List.length (history fb)
  /\ fullHistory row = history fb.
Proof.
  unfold format.
  destruct (getUserData users (from fb)); [|discriminate].
  destruct (getUserData users (to fb)); [|discriminate].
  intro H. inversion H. simpl.
  destruct (history fb); repeat split.
Qed.

Lemma view_Ok_inv (perPage page : Z) (sortBy : string) (v : PagedFeedback) :
  getFeedbackForUserCoach users d userId perPage page sortBy = Ok v ->
  exists ledgers rows,
    paginate perPage page (matching d userId) = Ok ledgers
    /\ WorkoutService.mapResult (format users) ledgers = Ok rows
    /\ feedback v
       = (if String.eqb sortBy "rating"
          then sortDescending ratingOrZero rows
          else sortDescending timestampOrZero rows)
    /\ total v = Z.of_nat (List.length (matching d userId))
    /\ currentPage v = page /\ p_perPage v = perPage
    /\ averageRating v
       = (if Nat.eqb (List.length (feedback v)) 0 then 0
          else toFixed1 (totalRatings (feedback v))
                 (Z.of_nat (List.length (feedback v)))).
Proof.
  unfold getFeedbackForUserCoach.
  destruct (paginate perPage page (matching d userId)) as [ledgers|[c m|e]];
    [|discriminate|discriminate].
  destruct (WorkoutService.mapResult (format users) ledgers)
    as [rows|[c m|e]] eqn:Hrows; [|discriminate|discriminate].
  cbv zeta. intro H. inversion H; subst. clear H.
  cbn [feedback total currentPage p_perPage averageRating].
  exists ledgers, rows. repeat split. exact Hrows.
Qed.

End FeedbackView.

(** X16.  A page of the feedback view, when it is served, shows only
    ledgers addressed to the user that have at least one entry, each with
    its first entry as latest feedback and the length of its history; the
    page has at most [perPage] rows for a positive [perPage]; [total] is
    the number of all such ledgers whatever the page; and the rows come in
    descending order of rating when [sortBy] is "rating" and in descending
    order of time for any other value. *)
Theorem view_of_ledgers
    (users : UserService) (d : Database) (userId : ObjectId)
    (perPage page : Z) (sortBy : string) (v : FeedbackService.PagedFeedback) :
  FeedbackService.getFeedbackForUserCoach users d userId perPage page sortBy
  = Ok v ->
  FeedbackService.total v
  = Z.of_nat (List.length
                (filter Spec.hasEntries (Spec.ledgersTo d userId)))
  /\ (forall row, In row (FeedbackService.feedback v) ->
        exists fb e rest,
          In fb (FeedbackModel d) /\ to fb = userId
          /\ history fb = e :: rest
          /\ FeedbackService.feedbackId row = feedback_id fb
          /\ FeedbackService.latestFeedback row = Some e
          /\ FeedbackService.historyCount row = S (List.length rest))
  /\ (0 < perPage ->
      Z.of_nat (List.length (FeedbackService.feedback v)) <= perPage)
  /\ (sortBy = "rating" ->
      StronglySorted
        (fun a b => FeedbackService.ratingOrZero b
                    <= FeedbackService.ratingOrZero a)
        (FeedbackService.feedback v))
  /\ (sortBy <> "rating" ->
      StronglySorted
        (fun a b => FeedbackService.timestampOrZero b
                    <= FeedbackService.timestampOrZero a)
        (FeedbackService.feedback v)).
Proof.
  intro H.
  destruct (view_Ok_inv users d userId perPage page sortBy v H)
    as (ledgers & rows & Hpage & Hmap & Hfb & Htotal & _ & _ & _).
  assert (Hperm : Permutation (FeedbackService.feedback v) rows).
  { rewrite Hfb. destruct (String.eqb sortBy "rating");
      apply sortDescending_perm. }
  split; [|split; [|split; [|split]]].
  - rewrite Htotal. now rewrite matching_ledgers.
  - intros row Hin. apply (Permutation_in _ Hperm) in Hin.
    destruct (mapResult_In _ _ _ row Hmap Hin) as (fb & Hfbin & Hrow).
    pose proof (paginate_subset _ _ _ _ fb Hpage Hfbin) as Hm.
    unfold FeedbackService.matching in Hm. apply filter_In in Hm.
    destruct Hm as [Hm Hq]. apply andb_true_iff in Hq.
    destruct Hq as [Hto Hlen]. apply Nat.eqb_eq in Hto.
    destruct (format_row users fb row Hrow) as (Hid & Hlatest & Hcount & _).
    destruct (history fb) as [|e rest] eqn:Eh; [discriminate Hlen|].
    exists fb, e, rest. repeat split; auto.
  - intro Hp. rewrite (Permutation_length Hperm).
    rewrite (mapResult_length _ _ _ Hmap).
    exact (paginate_length _ _ _ _ Hpage Hp).
  - intros ->. rewrite Hfb. simpl. apply sortDescending_sorted.
  - intro Hs. rewrite Hfb.
    replace (String.eqb sortBy "rating") with false
      by (symmetry; now apply String.eqb_neq).
    apply sortDescending_sorted.
Qed.

(** X17.  The ledgers that a booking creates in advance do not show in the
    view: for a user all of whose ledgers are empty, every page that can be
    asked for (the skip not negative) comes back without rows, with a total
    of 0 and an average of 0, while the statistics of the same user count
    each of those ledgers as a review. *)
Theorem view_ignores_empty_ledgers
    (users : UserService) (d : Database) (userId : ObjectId)
    (perPage page : Z) (sortBy : string) :
  (forall fb, In fb (Spec.ledgersTo d userId) -> history fb = []) ->
  0 <= (page - 1) * perPage ->
  (exists v,
     FeedbackService.getFeedbackForUserCoach users d userId perPage page sortBy
     = Ok v
     /\ FeedbackService.feedback v = []
     /\ FeedbackService.total v = 0
     /\ FeedbackService.averageRating v = 0)
  /\ (exists s,
        FeedbackService.getCoachFeedbackStats d userId = Ok s
        /\ FeedbackService.totalReviews s
           = Z.of_nat (List.length (Spec.ledgersTo d userId))).
Proof.
  intros Hempty Hskip. split.
  - assert (Hm : FeedbackService.matching d userId = []).
    { rewrite matching_ledgers. apply filter_nil_of_all_false.
      intros fb Hfb. unfold Spec.hasEntries. now rewrite (Hempty fb Hfb). }
    unfold FeedbackService.getFeedbackForUserCoach. rewrite Hm.
    unfold FeedbackService.paginate.
    replace ((page - 1) * perPage <? 0) with false
      by (symmetry; apply Z.ltb_ge; lia).
    rewrite skipn_nil.
    replace (if perPage =? 0 then @nil Feedback
             else firstn (Z.to_nat (Z.abs perPage)) [])
      with (@nil Feedback) by (destruct (perPage =? 0);
                               [reflexivity | now rewrite firstn_nil]).
    simpl. eexists. split; [reflexivity|].
    simpl. destruct (String.eqb sortBy "rating"); simpl; repeat split.
  - destruct (stats_general d userId) as (s & Hs & Ht & _).
    exists s. split; [exact Hs | exact Ht].
Qed.

Lemma view_of_ledgers_witness :
  exists v,
    FeedbackService.getFeedbackForUserCoach Gym.users Gym.gymWithFeedback
      10%nat 10 1 "createdAt" = Ok v
    /\ FeedbackService.total v = 1
    /\ map FeedbackService.historyCount (FeedbackService.feedback v)
       = [2%nat].
Proof.
  eexists. split; [vm_compute; reflexivity|].
  match goal with
  | |- FeedbackService.total ?v = _ /\ _ =>
      destruct (view_of_ledgers Gym.users Gym.gymWithFeedback 10%nat 10 1
                  "createdAt" v eq_refl) as (Ht & _)
  end.
  split; [rewrite Ht; reflexivity | reflexivity].
Defined.

Lemma view_ignores_empty_ledgers_witness :
  (forall fb, In fb (Spec.ledgersTo (database Gym.world1) 10%nat) ->
     history fb = [])
  /\ 0 <= (1 - 1) * 10
  /\ (exists v,
        FeedbackService.getFeedbackForUserCoach Gym.users
          (database Gym.world1) 10%nat 10 1 "rating" = Ok v
        /\ FeedbackService.feedback v = []
        /\ FeedbackService.total v = 0)
  /\ (exists s,
        FeedbackService.getCoachFeedbackStats (database Gym.world1) 10%nat
        = Ok s
        /\ FeedbackService.totalReviews s = 1).
Proof.
  assert (H1 : forall fb,
             In fb (Spec.ledgersTo (database Gym.world1) 10%nat) ->
             history fb = []).
  { simpl. intros fb [<- | []]. reflexivity. }
  assert (H2 : 0 <= (1 - 1) * 10) by (vm_compute; discriminate).
  split; [exact H1|]. split; [exact H2|].
  destruct (view_ignores_empty_ledgers Gym.users (database Gym.world1) 10%nat
              10 1 "rating" H1 H2)
    as ((v & Hv & Hf & Ht & _) & (s & Hs & Hr)).
  split.
  - exists v. auto.
  - exists s. split; [exact Hs|]. rewrite Hr. reflexivity.
Defined.

(** *** The statistics as counts *)

Section StatisticsCounts.

Context {js : Runtime}.

Import FeedbackService Spec.

Lemma firstEntries_length (l : list Feedback) :
  List.length (firstEntries l) = List.length (filter hasEntries l).
Proof.
  induction l as [|fb l IH]; [reflexivity|].
  simpl. unfold hasEntries at 1.
  destruct (history fb); simpl; now rewrite IH.
Qed.

Lemma firstEntries_In (l : list Feedback) (e : FeedbackEntry) :
  In e (firstEntries l) <->
  exists fb rest, In fb l /\ history fb = e :: rest.
Proof.
  unfold firstEntries. rewrite in_flat_map. split.
  - intros (fb & Hfb & He). destruct (history fb) as [|e' rest] eqn:Eh.
    + destruct He.
    + destruct He as [<- | []]. now exists fb, rest.
  - intros (fb & rest & Hfb & Eh). exists fb. split; [exact Hfb|].
    rewrite Eh. now left.
Qed.

Lemma rated_bump (k : Z) (e : FeedbackEntry) (es : list FeedbackEntry) :
  rated k (e :: es)
  = (match rating e with
     | Some r => if r =? k then 1 else 0
     | None => 0
     end) + rated k es.
Proof.
  unfold rated. simpl.
  destruct (rating e) as [r|]; [destruct (r =? k)|]; simpl List.length; lia.
Qed.

Lemma bump_stars (r : option Z) (dist : RatingDistribution) :
  let one k := match r with
               | Some q => if q =? k then 1 else 0
               | None => 0
               end in
  star5 (bump r dist) = star5 dist + one 5
  /\ star4 (bump r dist) = star4 dist + one 4
  /\ star3 (bump r dist) = star3 dist + one 3
  /\ star2 (bump r dist) = star2 dist + one 2
  /\ star1 (bump r dist) = star1 dist + one 1.
Proof.
  unfold bump. destruct r as [[|q|q]|]; simpl; try (repeat split; lia).
  do 3 (destruct q as [q|q|]; simpl; try (repeat split; lia)).
Qed.

(** The loop of the statistics, read as a sum and five counts over the
    first entries. *)
Lemma statsLoop_value (l : list Feedback) :
  forall (total : option Z) (count : Z) (dist : RatingDistribution),
  let '(total', count', dist') := fold_left statsStep l (total, count, dist) in
  total' = match total, ratingSum (firstEntries l) with
           | Some t, Some s => Some (t + s)
           | _, _ => None
           end
  /\ count' = count + Z.of_nat (List.length (firstEntries l))
  /\ star5 dist' = star5 dist + rated 5 (firstEntries l)
  /\ star4 dist' = star4 dist + rated 4 (firstEntries l)
  /\ star3 dist' = star3 dist + rated 3 (firstEntries l)
  /\ star2 dist' = star2 dist + rated 2 (firstEntries l)
  /\ star1 dist' = star1 dist + rated 1 (firstEntries l).
Proof.
  induction l as [|fb l IH]; intros total count dist.
  - cbn [fold_left firstEntries flat_map ratingSum List.length].
    unfold rated. simpl. destruct total; repeat split; try lia.
    f_equal. lia.
  - cbn [fold_left].
    destruct (history fb) as [|first rest] eqn:Eh.
    + assert (Hstep : statsStep (total, count, dist) fb = (total, count, dist))
        by (unfold statsStep; now rewrite Eh).
      assert (Hf : firstEntries (fb :: l) = firstEntries l)
        by (unfold firstEntries; simpl; now rewrite Eh).
      rewrite Hstep, Hf. apply IH.
    + assert (Hstep : statsStep (total, count, dist) fb
                      = (match total, rating first with
                         | Some t, Some r => Some (t + r)
                         | _, _ => None
                         end, count + 1, bump (rating first) dist))
        by (unfold statsStep; now rewrite Eh).
      assert (Hf : firstEntries (fb :: l) = first :: firstEntries l)
        by (unfold firstEntries; simpl; now rewrite Eh).
      rewrite Hstep, Hf.
      specialize (IH (match total, rating first with
                      | Some t, Some r => Some (t + r)
                      | _, _ => None
                      end) (count + 1) (bump (rating first) dist)).
      destruct (fold_left statsStep l _) as [[t' c'] d'].
      destruct IH as (Ht & Hc & H5 & H4 & H3 & H2 & H1).
      pose proof (bump_stars (rating first) dist) as (B5 & B4 & B3 & B2 & B1).
      cbv zeta in B5, B4, B3, B2, B1.
      rewrite !rated_bump. cbn [ratingSum List.length].
      rewrite Nat2Z.inj_succ.
      split; [|repeat split; lia].
      rewrite Ht. destruct total as [t|]; [|reflexivity].
      destruct (rating first) as [r|]; [|reflexivity].
      destruct (ratingSum (firstEntries l)) as [s|]; [|reflexivity].
      f_equal. lia.
Qed.

Lemma stats_value (d : Database) (coach : ObjectId) :
  exists s,
    getCoachFeedbackStats d coach = Ok s
    /\ s_averageRating s
       = (match firstEntries (ledgersTo d coach) with
          | [] => Some 0
          | es => match ratingSum es with
                  | Some t => Some (toFixed1 t (Z.of_nat (List.length es)))
                  | None => None
                  end
          end)
    /\ star5 (ratingDistribution s) = rated 5 (firstEntries (ledgersTo d coach))
    /\ star4 (ratingDistribution s) = rated 4 (firstEntries (ledgersTo d coach))
    /\ star3 (ratingDistribution s) = rated 3 (firstEntries (ledgersTo d coach))
    /\ star2 (ratingDistribution s) = rated 2 (firstEntries (ledgersTo d coach))
    /\ star1 (ratingDistribution s) = rated 1 (firstEntries (ledgersTo d coach)).
Proof.
  unfold getCoachFeedbackStats. fold (ledgersTo d coach).
  set (l := ledgersTo d coach).
  destruct (Z.of_nat (List.length l) =? 0) eqn:E0.
  - apply Z.eqb_eq in E0.
    assert (Hl : l = []) by (destruct l; [reflexivity | simpl in E0; lia]).
    rewrite Hl. eexists. split; [reflexivity|]. simpl. repeat split.
  - pose proof (statsLoop_value l (Some 0) 0 emptyDistribution) as H.
    destruct (fold_left statsStep l (Some 0, 0, emptyDistribution))
      as [[t' c'] d'].
    destruct H as (Ht & Hc & H5 & H4 & H3 & H2 & H1).
    eexists. split; [reflexivity|].
    cbn [s_averageRating ratingDistribution].
    simpl in H5, H4, H3, H2, H1.
    split; [|repeat split; assumption].
    rewrite Hc, Ht.
    destruct (firstEntries l) as [|e es] eqn:Ees.
    + reflexivity.
    + replace (0 <? 0 + Z.of_nat (List.length (e :: es))) with true
        by (symmetry; apply Z.ltb_lt; simpl List.length; lia).
      destruct (ratingSum (e :: es)) as [t|]; [|reflexivity].
      reflexivity.
Qed.

Lemma ratingSum_bounds (es : list FeedbackEntry) :
  (forall e, In e es -> exists r, rating e = Some r /\ 1 <= r <= 5) ->
  exists t, ratingSum es = Some t
            /\ Z.of_nat (List.length es) <= t <= 5 * Z.of_nat (List.length es).
Proof.
  induction es as [|e es IH]; intro H.
  - exists 0. split; [reflexivity | simpl; lia].
  - destruct (H e (or_introl eq_refl)) as (r & Hr & Hb).
    destruct IH as (t & Ht & Hbt); [intros; apply H; now right|].
    exists (r + t). cbn [ratingSum List.length]. rewrite Hr, Ht.
    split; [reflexivity|]. rewrite Nat2Z.inj_succ. lia.
Qed.

Lemma rated_partition (es : list FeedbackEntry) :
  (forall e, In e es -> exists r, rating e = Some r /\ 1 <= r <= 5) ->
  rated 5 es + rated 4 es + rated 3 es + rated 2 es + rated 1 es
  = Z.of_nat (List.length es).
Proof.
  induction es as [|e es IH]; intro H; [reflexivity|].
  rewrite !rated_bump. simpl List.length. rewrite Nat2Z.inj_succ.
  destruct (H e (or_introl eq_refl)) as (r & -> & Hb).
  specialize (IH (fun e' He' => H e' (or_intror He'))).
  assert (Hr : r = 1 \/ r = 2 \/ r = 3 \/ r = 4 \/ r = 5) by lia.
  destruct Hr as [-> | [-> | [-> | [-> | ->]]]];
    cbn [Z.eqb Pos.eqb]; lia.
Qed.

Lemma ratingSum_None_iff (es : list FeedbackEntry) :
  ratingSum es = None <-> exists e, In e es /\ rating e = None.
Proof.
  induction es as [|e es IH]; simpl.
  - split; [discriminate | intros (e & [] & _)].
  - destruct (rating e) as [r|] eqn:Er.
    + destruct (ratingSum es) as [t|].
      * split; [discriminate|]. intros (e' & [<- | He'] & Hn); [congruence|].
        assert (Hc : Some t = None) by (apply IH; now exists e').
        discriminate Hc.
      * split; [|reflexivity]. intros _.
        destruct (proj1 IH eq_refl) as (e' & He' & Hn). exists e'. auto.
    + split; [|reflexivity]. intros _. exists e. auto.
Qed.

Lemma roundHalfEven_lower (num den k : Z) :
  0 < den -> k * den <= num -> k <= roundHalfEven num den.
Proof.
  intros Hd Hk. unfold roundHalfEven.
  assert (k <= num / den) by (apply Z.div_le_lower_bound; lia).
  destruct ((den <? 2 * (num mod den))
            || ((2 * (num mod den) =? den) && Z.odd (num / den))); lia.
Qed.

Lemma roundHalfEven_upper (num den k : Z) :
  0 < den -> num <= k * den -> roundHalfEven num den <= k.
Proof.
  intros Hd Hk. unfold roundHalfEven.
  pose proof (Z.div_mod num den ltac:(lia)) as Hdm.
  pose proof (Z.mod_pos_bound num den Hd) as Hr.
  assert (Hq : num / den <= k).
  { apply Z.div_le_upper_bound; lia. }
  destruct (Z.eq_dec (num / den) k) as [E | E].
  - assert (Hz : num mod den = 0) by nia.
    rewrite Hz.
    replace (den <? 2 * 0) with false by (symmetry; apply Z.ltb_ge; lia).
    replace (2 * 0 =? den) with false by (symmetry; apply Z.eqb_neq; lia).
    simpl. lia.
  - destruct ((den <? 2 * (num mod den))
              || ((2 * (num mod den) =? den) && Z.odd (num / den))); lia.
Qed.

(** The mean of ratings from 1 to 5 is, to a tenth, from 1.0 to 5.0. *)
Lemma toFixed1_bounds (t n : Z) :
  0 < n -> n <= t <= 5 * n -> 10 <= toFixed1 t n <= 50.
Proof.
  intros Hn Ht. unfold toFixed1.
  replace (t =? 0) with false by (symmetry; apply Z.eqb_neq; lia).
  replace (0 <? t) with true by (symmetry; apply Z.ltb_lt; lia).
  unfold divide.
  set (d := Z.log2 t - Z.log2 n).
  assert (Hd : d <= 3).
  { assert (Z.log2 t <= Z.log2 (n * 2 ^ 3))
      by (apply Z.log2_le_mono; change (2 ^ 3) with 8; lia).
    rewrite Z.log2_mul_pow2 in H by lia. unfold d. lia. }
  set (b := if (if 0 <=? d then n * 2 ^ d <=? t else n <=? t * 2 ^ (- d))
            then d else d - 1).
  assert (Hb : b <= 3) by (unfold b; destruct (if 0 <=? d then _ else _); lia).
  replace (0 <=? b - 52) with false by (symmetry; apply Z.leb_gt; lia).
  unfold tenths.
  replace (0 <=? b - 52) with false by (symmetry; apply Z.leb_gt; lia).
  set (D := 2 ^ (- (b - 52))).
  assert (HD : 0 < D) by (apply Z.pow_pos_nonneg; lia).
  set (m := roundHalfEven (t * D) n).
  assert (Hlo : D <= m) by (apply roundHalfEven_lower; nia).
  assert (Hhi : m <= 5 * D) by (apply roundHalfEven_upper; nia).
  split.
  - apply Z.div_le_lower_bound; lia.
  - assert ((2 * (10 * m) + D) / (2 * D) < 51); [|lia].
    apply Z.div_lt_upper_bound; lia.
Qed.

End StatisticsCounts.

(** C10.  The statistics of a coach count every ledger addressed to the
    coach in [totalReviews], the ledgers without entries included, while
    the mean and the histogram are computed from the ledgers that have an
    entry and from them alone: the mean is the sum of the first ratings of
    those ledgers over their number, as [toFixed(1)] rounds it, and each
    bucket of the histogram is the number of those ledgers whose first
    rating is that of the bucket.  So the histogram adds up to at most the
    number of ledgers with entries, which is at most [totalReviews]; with
    every ledger empty the mean is 0 and the histogram is all zero.  The
    database that a successful booking for that coach leaves has such a
    ledger, so that [totalReviews] is positive there and, while no
    feedback has been submitted, exceeds the sum of the histogram. *)
Theorem stats_count_every_ledger {js : Runtime}
    (d : Database) (coach : ObjectId) :
  let ledgers := Spec.ledgersTo d coach in
  let entries := Spec.firstEntries ledgers in
  exists s,
    FeedbackService.getCoachFeedbackStats d coach = Ok s
    /\ FeedbackService.totalReviews s = Z.of_nat (List.length ledgers)
    /\ (forall e, In e entries <->
          exists fb rest, In fb ledgers /\ history fb = e :: rest)
    /\ List.length entries = List.length (filter Spec.hasEntries ledgers)
    /\ FeedbackService.s_averageRating s
       = match entries with
         | [] => Some 0
         | _ :: _ =>
             match Spec.ratingSum entries with
             | Some t =>
                 Some (FeedbackService.toFixed1 t
                         (Z.of_nat (List.length entries)))
             | None => None
             end
         end
    /\ FeedbackService.star5 (FeedbackService.ratingDistribution s)
       = Spec.rated 5 entries
    /\ FeedbackService.star4 (FeedbackService.ratingDistribution s)
       = Spec.rated 4 entries
    /\ FeedbackService.star3 (FeedbackService.ratingDistribution s)
       = Spec.rated 3 entries
    /\ FeedbackService.star2 (FeedbackService.ratingDistribution s)
       = Spec.rated 2 entries
    /\ FeedbackService.star1 (FeedbackService.ratingDistribution s)
       = Spec.rated 1 entries
    /\ Spec.histogramTotal (FeedbackService.ratingDistribution s)
       <= Z.of_nat (List.length (filter Spec.hasEntries ledgers))
    /\ Z.of_nat (List.length (filter Spec.hasEntries ledgers))
       <= FeedbackService.totalReviews s
    /\ ((forall fb, In fb ledgers -> history fb = []) ->
        FeedbackService.s_averageRating s = Some 0
        /\ FeedbackService.ratingDistribution s
           = FeedbackService.emptyDistribution)
    /\ (forall Date_parse users faults now w p r w1,
          WorkoutService.bookWorkout Date_parse users faults now w p
          = (Ok r, w1) ->
          d = database w1 -> coach = WorkoutService.p_coachId p ->
          0 < FeedbackService.totalReviews s
          /\ ((forall fb, In fb ledgers -> history fb = []) ->
              Spec.histogramTotal (FeedbackService.ratingDistribution s)
              < FeedbackService.totalReviews s)).
Proof.
  cbv zeta.
  destruct (stats_general d coach) as (s & Hs & Ht & Hh & Hle & Hempty).
  destruct (stats_value d coach)
    as (s' & Hs' & Havg & H5 & H4 & H3 & H2 & H1).
  rewrite Hs in Hs'. inversion Hs'; subst s'. clear Hs'.
  exists s. split; [exact Hs|]. split; [exact Ht|].
  split; [intro e; apply firstEntries_In|].
  split; [apply firstEntries_length|].
  split.
  { rewrite Havg.
    destruct (Spec.firstEntries (Spec.ledgersTo d coach)); reflexivity. }
  do 5 (split; [assumption|]).
  split; [exact Hh|]. split; [exact Hle|]. split; [exact Hempty|].
  intros Date_parse users faults now w p r w1 Hb Hd Hc.
  assert (Hpos : 0 < FeedbackService.totalReviews s).
  { rewrite Ht.
    destruct (bookWorkout_Ok_inv Date_parse users faults now w w1 p r Hb)
      as (bd & _ & _ & ->).
    subst d coach. unfold Spec.ledgersTo, Spec.bookedWorld. simpl.
    rewrite <- app_assoc, filter_app, length_app. simpl.
    rewrite Nat.eqb_refl. simpl.
    destruct (Nat.eqb _ _); simpl; lia. }
  split; [exact Hpos|]. intro He.
  destruct (Hempty He) as [_ ->]. exact Hpos.
Qed.

(** Coach 10 after one booking, and after two bookings of which the
    first has received a rating of 5 from its client. *)
Lemma stats_count_every_ledger_witness :
  WorkoutService.bookWorkout Gym.noParse Gym.users noFaults Gym.now
    Gym.world0 Gym.request1
  = (Ok (WorkoutService.response Gym.booking1), Gym.world1)
  /\ (forall fb, In fb (Spec.ledgersTo (database Gym.world1) 10%nat) ->
        history fb = [])
  /\ (exists s,
        FeedbackService.getCoachFeedbackStats (database Gym.world1) 10%nat
        = Ok s
        /\ FeedbackService.totalReviews s = 1
        /\ FeedbackService.s_averageRating s = Some 0
        /\ FeedbackService.ratingDistribution s
           = FeedbackService.emptyDistribution
        /\ Spec.histogramTotal (FeedbackService.ratingDistribution s)
           < FeedbackService.totalReviews s)
  /\ (let d :=
        database
          (Spec.run Gym.noParse Gym.users Gym.world0
             [Spec.BookWorkout noFaults Gym.now Gym.request1;
              Spec.BookWorkout noFaults Gym.now
                (Gym.request 21%nat 30%nat 10%nat 2%nat Gym.tomorrow);
              Spec.AddFeedback noFaults Gym.afterSession 20%nat 102%nat
                "great" 5]) in
      exists s,
        FeedbackService.getCoachFeedbackStats d 10%nat = Ok s
        /\ FeedbackService.totalReviews s = 2
        /\ FeedbackService.s_averageRating s = Some 50
        /\ FeedbackService.star5 (FeedbackService.ratingDistribution s) = 1).
Proof.
  assert (Hb : WorkoutService.bookWorkout Gym.noParse Gym.users noFaults
                 Gym.now Gym.world0 Gym.request1
               = (Ok (WorkoutService.response Gym.booking1), Gym.world1))
    by reflexivity.
  assert (He : forall fb,
             In fb (Spec.ledgersTo (database Gym.world1) 10%nat) ->
             history fb = []).
  { simpl. intros fb [<- | []]. reflexivity. }
  split; [exact Hb|]. split; [exact He|]. split.
  - destruct (stats_count_every_ledger (database Gym.world1) 10%nat)
      as (s & Hs & Ht & _ & _ & _ & _ & _ & _ & _ & _ & _ & _ & Hempty
          & Hbook).
    exists s. split; [exact Hs|]. split; [rewrite Ht; reflexivity|].
    destruct (Hempty He) as [Ha Hd].
    split; [exact Ha|]. split; [exact Hd|].
    exact (proj2 (Hbook Gym.noParse Gym.users noFaults Gym.now Gym.world0
                    Gym.request1 _ Gym.world1 Hb eq_refl eq_refl) He).
  - cbv zeta.
    match goal with
    | |- exists s, FeedbackService.getCoachFeedbackStats ?d ?c = _ /\ _ =>
        destruct (stats_count_every_ledger d c)
          as (s & Hs & Ht & _ & _ & Ha & H5 & _)
    end.
    exists s. split; [exact Hs|]. split; [rewrite Ht; reflexivity|].
    split; [rewrite Ha; reflexivity | rewrite H5; reflexivity].
Defined.

(** X18.  Where every first entry of a ledger addressed to the coach holds
    a rating from 1 to 5, as the schema of an entry requires of a rating,
    and one ledger at least has an entry, every ledger with an entry is
    counted in one bucket of the histogram, the bucket of its first
    rating, so that the five buckets add up to the number of ledgers with
    entries; and the mean, the sum of those first ratings over their
    number as [toFixed(1)] rounds it, is a value from 1.0 to 5.0. *)
Theorem stats_of_rated_ledgers
    (d : Database) (coach : ObjectId) :
  (forall fb e rest,
     In fb (Spec.ledgersTo d coach) -> history fb = e :: rest ->
     exists r, rating e = Some r /\ 1 <= r <= 5) ->
  filter Spec.hasEntries (Spec.ledgersTo d coach) <> [] ->
  let entries := Spec.firstEntries (Spec.ledgersTo d coach) in
  let n := Z.of_nat (List.length
                       (filter Spec.hasEntries (Spec.ledgersTo d coach))) in
  exists s t,
    FeedbackService.getCoachFeedbackStats d coach = Ok s
    /\ Spec.ratingSum entries = Some t
    /\ n <= t <= 5 * n
    /\ FeedbackService.s_averageRating s
       = Some (FeedbackService.toFixed1 t n)
    /\ 10 <= FeedbackService.toFixed1 t n <= 50
    /\ FeedbackService.star5 (FeedbackService.ratingDistribution s)
       = Spec.rated 5 entries
    /\ FeedbackService.star4 (FeedbackService.ratingDistribution s)
       = Spec.rated 4 entries
    /\ FeedbackService.star3 (FeedbackService.ratingDistribution s)
       = Spec.rated 3 entries
    /\ FeedbackService.star2 (FeedbackService.ratingDistribution s)
       = Spec.rated 2 entries
    /\ FeedbackService.star1 (FeedbackService.ratingDistribution s)
       = Spec.rated 1 entries
    /\ Spec.histogramTotal (FeedbackService.ratingDistribution s) = n.
Proof.
  intros Hvalid Hne. cbv zeta.
  set (l := Spec.ledgersTo d coach) in *.
  assert (Hes : forall e, In e (Spec.firstEntries l) ->
                          exists r, rating e = Some r /\ 1 <= r <= 5).
  { intros e He. apply firstEntries_In in He.
    destruct He as (fb & rest & Hfb & Eh). exact (Hvalid fb e rest Hfb Eh). }
  destruct (ratingSum_bounds _ Hes) as (t & Ht & Hbt).
  pose proof (rated_partition _ Hes) as Hpart.
  pose proof (firstEntries_length l) as Hlen.
  destruct (stats_value d coach) as (s & Hs & Havg & H5 & H4 & H3 & H2 & H1).
  fold l in Havg, H5, H4, H3, H2, H1.
  assert (Hpos : 0 < Z.of_nat (List.length (Spec.firstEntries l))).
  { rewrite Hlen. destruct (filter Spec.hasEntries l); [congruence|].
    simpl List.length. lia. }
  assert (Havg' : FeedbackService.s_averageRating s
                  = Some (FeedbackService.toFixed1 t
                            (Z.of_nat (List.length (Spec.firstEntries l))))).
  { rewrite Havg. destruct (Spec.firstEntries l) as [|e es] eqn:Ees.
    - simpl in Hpos. lia.
    - cbv beta iota zeta. now rewrite Ht. }
  rewrite Hlen in Havg', Hbt, Hpos, Hpart.
  exists s, t. split; [exact Hs|]. split; [exact Ht|].
  split; [exact Hbt|]. split; [exact Havg'|].
  split; [apply toFixed1_bounds; [exact Hpos | exact Hbt]|].
  do 5 (split; [assumption|]).
  unfold Spec.histogramTotal. rewrite H5, H4, H3, H2, H1. exact Hpart.
Qed.

Lemma stats_of_rated_ledgers_witness :
  let d :=
    database
      (Spec.run Gym.noParse Gym.users Gym.world0
         [Spec.BookWorkout noFaults Gym.now Gym.request1;
          Spec.AddFeedback noFaults Gym.afterSession 20%nat 102%nat
            "slow start" 2]) in
  (forall fb e rest,
     In fb (Spec.ledgersTo d 10%nat) -> history fb = e :: rest ->
     exists r, rating e = Some r /\ 1 <= r <= 5)
  /\ filter Spec.hasEntries (Spec.ledgersTo d 10%nat) <> []
  /\ exists s,
       FeedbackService.getCoachFeedbackStats d 10%nat = Ok s
       /\ FeedbackService.s_averageRating s = Some 20
       /\ FeedbackService.star2 (FeedbackService.ratingDistribution s) = 1
       /\ Spec.histogramTotal (FeedbackService.ratingDistribution s) = 1.
Proof.
  cbv zeta.
  set (d := database
              (Spec.run Gym.noParse Gym.users Gym.world0
                 [Spec.BookWorkout noFaults Gym.now Gym.request1;
                  Spec.AddFeedback noFaults Gym.afterSession 20%nat 102%nat
                    "slow start" 2])).
  assert (H1 : forall fb e rest,
             In fb (Spec.ledgersTo d 10%nat) -> history fb = e :: rest ->
             exists r, rating e = Some r /\ 1 <= r <= 5).
  { intros fb e rest Hin Eh. vm_compute in Hin. destruct Hin as [<- | []].
    inversion Eh; subst. eexists. split; [reflexivity | lia]. }
  assert (H2 : filter Spec.hasEntries (Spec.ledgersTo d 10%nat) <> [])
    by (vm_compute; discriminate).
  split; [exact H1|]. split; [exact H2|].
  destruct (stats_of_rated_ledgers d 10%nat H1 H2)
    as (s & t & Hs & Ht & _ & Ha & _ & _ & _ & _ & H2' & _ & Hh).
  exists s. split; [exact Hs|].
  assert (Et : t = 2) by (vm_compute in Ht; congruence). subst t.
  split; [rewrite Ha; reflexivity|].
  split; [rewrite H2'; reflexivity | rewrite Hh; reflexivity].
Defined.

(** X19.  The mean of the statistics is undefined (the NaN that the
    arithmetic of the loop produces) exactly when a ledger addressed to
    the coach has a first entry without a rating, which the schema of an
    entry admits. *)
Theorem stats_mean_undefined_iff (d : Database) (coach : ObjectId) :
  exists s,
    FeedbackService.getCoachFeedbackStats d coach = Ok s
    /\ (FeedbackService.s_averageRating s = None <->
        exists fb e rest,
          In fb (Spec.ledgersTo d coach) /\ history fb = e :: rest
          /\ rating e = None).
Proof.
  destruct (stats_value d coach) as (s & Hs & Havg & _).
  exists s. split; [exact Hs|]. rewrite Havg.
  set (l := Spec.ledgersTo d coach).
  assert (Hiff : Spec.ratingSum (Spec.firstEntries l) = None <->
                 exists fb e rest,
                   In fb l /\ history fb = e :: rest /\ rating e = None).
  { rewrite ratingSum_None_iff. split.
    - intros (e & He & Hn). apply firstEntries_In in He.
      destruct He as (fb & rest & Hfb & Eh). now exists fb, e, rest.
    - intros (fb & e & rest & Hfb & Eh & Hn). exists e. split; [|exact Hn].
      apply firstEntries_In. now exists fb, rest. }
  destruct (Spec.firstEntries l) as [|e es] eqn:Ees.
  - split; [discriminate|]. intro H. apply Hiff in H. discriminate H.
  - cbv beta iota zeta. rewrite <- Hiff.
    destruct (Spec.ratingSum (e :: es)); split;
      intro H; try discriminate H; reflexivity.
Qed.

(** *** Ledgers and bookings over a run of requests *)

Section Discipline.

Context {js : Runtime}.

Import WorkoutService FeedbackService Spec.

Lemma In_replaceById {A} (key : A -> ObjectId) (doc x : A) (l : list A) :
  In x (replaceById key doc l) ->
  (x = doc /\ exists y, In y l /\ key y = key doc)
  \/ (In x l /\ key x <> key doc).
Proof.
  unfold replaceById. rewrite in_map_iff. intros (y & Hy & Hin).
  destruct (Nat.eqb (key y) (key doc)) eqn:E.
  - left. split; [now symmetry|]. exists y. split; [exact Hin|].
    now apply Nat.eqb_eq.
  - right. subst y. split; [exact Hin|]. now apply Nat.eqb_neq.
Qed.

Lemma findById_In {A} (key : A -> ObjectId) (i : ObjectId) (l : list A) (x : A) :
  findById key i l = Some x -> In x l.
Proof. unfold findById. intro H. now apply find_some in H. Qed.

Lemma disciplined_mono (F : list Feedback) (B : list Booking) (n n' : ObjectId) :
  (n <= n')%nat -> disciplined F B n -> disciplined F B n'.
Proof.
  intros Hn (I1 & I4 & I5 & I6 & I7). repeat split; auto.
  - intros fb Hfb. specialize (I1 fb Hfb). lia.
  - intros b i Hb Hi. specialize (I6 b i Hb Hi). lia.
Qed.

(** A booking saved again, with the ledgers it had or fresh ones. *)
Lemma disciplined_resave (F : list Feedback) (B : list Booking)
    (n n' : ObjectId) (b b' : Booking) :
  disciplined F B n -> (n <= n')%nat -> In b B ->
  booking_id b' = booking_id b ->
  (forall i, In i (refs b') -> In i (refs b) \/ (n <= i < n')%nat) ->
  (state b' <> COMPLETED ->
   state b <> COMPLETED /\ forall i, In i (refs b') -> In i (refs b)) ->
  disciplined F (replaceById booking_id b' B) n'.
Proof.
  intros (I1 & I4 & I5 & I6 & I7) Hn Hb Hid Hrefs Hst.
  split; [|split; [|split; [|split]]].
  - intros fb Hfb. specialize (I1 fb Hfb). lia.
  - exact I4.
  - intros b2 fb Hb2 Hs Hfb Hr.
    apply In_replaceById in Hb2. destruct Hb2 as [[-> _] | [Hb2 _]].
    + destruct (Hst Hs) as [Hsb Hsub]. exact (I5 b fb Hb Hsb Hfb (Hsub _ Hr)).
    + exact (I5 b2 fb Hb2 Hs Hfb Hr).
  - intros b2 i Hb2 Hi.
    apply In_replaceById in Hb2. destruct Hb2 as [[-> _] | [Hb2 _]].
    + destruct (Hrefs i Hi) as [Hold | Hnew]; [|lia].
      specialize (I6 b i Hb Hold). lia.
    + specialize (I6 b2 i Hb2 Hi). lia.
  - intros b1 b2 i Hb1 Hb2 Hi1 Hi2.
    apply In_replaceById in Hb1. apply In_replaceById in Hb2.
    destruct Hb1 as [[-> _] | [Hb1 Hne1]]; destruct Hb2 as [[-> _] | [Hb2 Hne2]].
    + reflexivity.
    + destruct (Hrefs i Hi1) as [Hold | Hnew].
      * rewrite Hid. exact (I7 b b2 i Hb Hb2 Hold Hi2).
      * specialize (I6 b2 i Hb2 Hi2). lia.
    + destruct (Hrefs i Hi2) as [Hold | Hnew].
      * rewrite Hid. exact (I7 b1 b i Hb1 Hb Hi1 Hold).
      * specialize (I6 b1 i Hb1 Hi1). lia.
    + exact (I7 b1 b2 i Hb1 Hb2 Hi1 Hi2).
Qed.

(** A ledger added to the collection. *)
Lemma disciplined_ledger (F : list Feedback) (B : list Booking) (n : ObjectId)
    (L : Feedback) :
  disciplined F B n -> (feedback_id L < n)%nat ->
  (List.length (history L) <= 1)%nat ->
  (forall b, In b B -> In (feedback_id L) (refs b) ->
     state b = COMPLETED \/ history L = []) ->
  disciplined (F ++ [L]) B n.
Proof.
  intros (I1 & I4 & I5 & I6 & I7) Hid Hlen Hown.
  split; [|split; [|split; [|split]]]; auto.
  - intros fb Hfb. apply in_app_iff in Hfb.
    destruct Hfb as [Hfb | [<- | []]]; auto.
  - intros fb Hfb. apply in_app_iff in Hfb.
    destruct Hfb as [Hfb | [<- | []]]; auto.
  - intros b fb Hb Hs Hfb Hr. apply in_app_iff in Hfb.
    destruct Hfb as [Hfb | [<- | []]]; [eauto|].
    destruct (Hown b Hb Hr) as [Hc | He]; [contradiction | exact He].
Qed.

(** An entry pushed on a ledger that was empty. *)
Lemma disciplined_push (F : list Feedback) (B : list Booking) (n : ObjectId)
    (doc : Feedback) (e : FeedbackEntry) :
  disciplined F B n -> In doc F -> history doc = [] ->
  (forall b, In b B -> In (feedback_id doc) (refs b) -> state b = COMPLETED) ->
  disciplined (replaceById feedback_id (pushEntry doc e) F) B n.
Proof.
  intros (I1 & I4 & I5 & I6 & I7) Hdoc Hempty Hown.
  split; [|split; [|split; [|split]]]; auto.
  - intros fb Hfb. apply In_replaceById in Hfb.
    destruct Hfb as [[-> _] | [Hfb _]]; [exact (I1 doc Hdoc) | auto].
  - intros fb Hfb. apply In_replaceById in Hfb.
    destruct Hfb as [[-> _] | [Hfb _]]; [|auto].
    simpl. rewrite Hempty. simpl. lia.
  - intros b fb Hb Hs Hfb Hr. apply In_replaceById in Hfb.
    destruct Hfb as [[-> _] | [Hfb _]]; [|eauto].
    simpl in Hr. specialize (Hown b Hb Hr). contradiction.
Qed.

(** A booking added to the collection, on ledgers nobody refers to. *)
Lemma disciplined_booking (F : list Feedback) (B : list Booking) (n : ObjectId)
    (nb : Booking) :
  disciplined F B n ->
  (forall i, In i (refs nb) ->
     (i < n)%nat /\ (forall b, In b B -> ~ In i (refs b))
     /\ (forall fb, In fb F -> feedback_id fb = i -> history fb = [])) ->
  disciplined F (B ++ [nb]) n.
Proof.
  intros (I1 & I4 & I5 & I6 & I7) Hnew.
  split; [|split; [|split; [|split]]]; auto.
  - intros b fb Hb Hs Hfb Hr. apply in_app_iff in Hb.
    destruct Hb as [Hb | [<- | []]]; [eauto|].
    destruct (Hnew _ Hr) as (_ & _ & He). now apply He.
  - intros b i Hb Hi. apply in_app_iff in Hb.
    destruct Hb as [Hb | [<- | []]]; [eauto|].
    now destruct (Hnew _ Hi).
  - intros b1 b2 i Hb1 Hb2 Hi1 Hi2.
    apply in_app_iff in Hb1. apply in_app_iff in Hb2.
    destruct Hb1 as [Hb1 | [<- | []]]; destruct Hb2 as [Hb2 | [<- | []]].
    + eauto.
    + destruct (Hnew _ Hi2) as (_ & Hno & _). destruct (Hno b1 Hb1 Hi1).
    + destruct (Hnew _ Hi1) as (_ & Hno & _). destruct (Hno b2 Hb2 Hi2).
    + reflexivity.
Qed.


Lemma bookWorkout_effect (Date_parse : string -> Date) (users : UserService)
    (faults : Faults) (now : Z) (w : World) (p : BookWorkoutParams) :
  let w' := snd (bookWorkout Date_parse users faults now w p) in
  (exists bookingDate, w' = bookedWorld now bookingDate w p)
  \/ (database w' = database w /\ (nextObjectId w <= nextObjectId w')%nat).
Proof.
  cbv zeta. unfold bookWorkout.
  destruct (bookWorkoutChecks Date_parse users now (database w) p) as [bd|e];
    [|right; split; [reflexivity | simpl; lia]].
  unfold withTransaction, bookWorkoutTransaction, write, startTransaction.
  simpl.
  destruct (faults 0%nat); [right; simpl; split; [reflexivity | lia]|].
  simpl. destruct (faults 1%nat); [right; simpl; split; [reflexivity | lia]|].
  simpl. destruct (faults 2%nat); [right; simpl; split; [reflexivity | lia]|].
  left. exists bd. reflexivity.
Qed.

Lemma bookedWorld_disciplined (now bookingDate : Z) (w : World)
    (p : BookWorkoutParams) :
  ledgerDiscipline w -> ledgerDiscipline (bookedWorld now bookingDate w p).
Proof.
  unfold ledgerDiscipline, bookedWorld. simpl.
  set (n := nextObjectId w). set (F := FeedbackModel (database w)).
  set (B := BookingModel (database w)).
  intro H. pose proof H as (I1 & I4 & I5 & I6 & I7).
  rewrite <- app_assoc.
  apply disciplined_booking.
  - change (F ++ [newClientFeedback n p] ++ [newCoachFeedback (S n) p])%list
      with (F ++ ([newClientFeedback n p] ++ [newCoachFeedback (S n) p]))%list.
    rewrite app_assoc.
    apply disciplined_ledger; [|simpl; lia|simpl; lia|now right].
    apply disciplined_ledger; [|simpl; lia|simpl; lia|now right].
    apply disciplined_mono with (n := n); [lia | exact H].
  - intros i Hi.
    assert (Hn : i = n \/ i = S n).
    { unfold refs in Hi. simpl in Hi. destruct Hi as [<- | [<- | []]]; auto. }
    split; [lia|]. split.
    + intros b Hb Hr. specialize (I6 b i Hb Hr). lia.
    + intros fb Hfb Hid. rewrite !in_app_iff in Hfb.
      destruct Hfb as [Hfb | [[<- | []] | [<- | []]]]; try reflexivity.
      specialize (I1 fb Hfb). lia.
Qed.

Lemma cancelBooking_disciplined (users : UserService) (faults : Faults)
    (now : Z) (w : World) (bookingId userId : ObjectId) :
  ledgerDiscipline w ->
  ledgerDiscipline (snd (cancelBooking users faults now w bookingId userId)).
Proof.
  intro H.
  destruct (cancelBooking users faults now w bookingId userId) as [[r|e] w']
    eqn:Ec.
  - apply cancelBooking_Ok_inv in Ec.
    destruct Ec as (b & Hfound & Hsched & _ & _ & _ & ->).
    unfold ledgerDiscipline. simpl.
    apply disciplined_resave with (n := nextObjectId w) (b := b);
      [exact H | lia | exact (findById_In _ _ _ _ Hfound) | reflexivity | |].
    + intros i Hi. now left.
    + intro Hs. split; [|auto].
      intro Hc. rewrite Hsched in Hc. discriminate Hc.
  - apply cancelBooking_Throw_inv in Ec. destruct Ec as [-> _]. exact H.
Qed.


Lemma upsertLedger_counter (faults : Faults) (entry : FeedbackEntry)
    (existing : option ObjectId) (fromId toId : ObjectId) (notFound : string)
    (n : ObjectId) (s : Session) :
  (n <= snd (upsertLedger faults entry existing fromId toId notFound n s))%nat.
Proof.
  unfold upsertLedger. destruct existing as [old|].
  - destruct (findById feedback_id old (FeedbackModel (committed s)));
      [|simpl; lia].
    destruct (saveFeedback faults entry _ s) as [[u|e] s']; simpl; lia.
  - destruct (saveFeedback faults entry _ s) as [[u|e] s']; simpl; lia.
Qed.

Lemma addFeedbackTransaction_counter (faults : Faults) (now : Z)
    (entry : FeedbackEntry) (userId : ObjectId) (b : Booking) (n : ObjectId)
    (s : Session) :
  (n <= snd (addFeedbackTransaction faults now entry userId b n s))%nat.
Proof.
  unfold addFeedbackTransaction.
  destruct (Nat.eqb userId (clientId b)).
  - pose proof (upsertLedger_counter faults entry (clientFeedback b)
                  (clientId b) (coachId b)
                  "Client feedback document not found" n s) as H.
    destruct (upsertLedger _ _ _ _ _ _ n s) as [[[fid|e] s1] n1];
      simpl in *; [|exact H].
    destruct (saveBooking faults _ s1) as [[u|e] s2]; simpl; exact H.
  - pose proof (upsertLedger_counter faults entry (coachFeedback b)
                  (coachId b) (clientId b)
                  "Coach feedback document not found" n s) as H.
    destruct (upsertLedger _ _ _ _ _ _ n s) as [[[fid|e] s1] n1];
      simpl in *; [|exact H].
    destruct (saveBooking faults _ s1) as [[u|e] s2]; simpl; exact H.
Qed.

(** A submission that throws leaves the database alone; the counter may
    have advanced. *)
Lemma addFeedback_Throw_world (faults : Faults) (now : Z) (w w' : World)
    (userId bookingId : ObjectId) (message : string) (rating : Z) (e : Exn) :
  addFeedback faults now w userId bookingId message rating = (Throw e, w') ->
  database w' = database w /\ (nextObjectId w <= nextObjectId w')%nat.
Proof.
  unfold addFeedback.
  destruct (addFeedbackChecks now (database w) userId bookingId) as [b|e0];
    [|intro H; inversion H; subst; split; [reflexivity | lia]].
  unfold withTransaction.
  set (entry := {| Model.message := message; Model.rating := Some rating;
                   timestamp := now |}).
  pose proof (addFeedbackTransaction_committed faults now entry userId b
                (nextObjectId w) (startTransaction (database w))) as Hcomm.
  pose proof (addFeedbackTransaction_counter faults now entry userId b
                (nextObjectId w) (startTransaction (database w))) as Hcnt.
  destruct (addFeedbackTransaction faults now entry userId b (nextObjectId w)
              (startTransaction (database w))) as [[[e1|err] s'] n'];
    [discriminate|].
  intro H. inversion H; subst. simpl in *. split; [exact Hcomm | exact Hcnt].
Qed.

Lemma upsertLedger_Ok_effect (faults : Faults) (entry : FeedbackEntry)
    (existing : option ObjectId) (fromId toId : ObjectId) (notFound : string)
    (n n' fid : ObjectId) (d : Database) (s' : Session) :
  upsertLedger faults entry existing fromId toId notFound n
    (startTransaction d) = (Ok fid, s', n') ->
  BookingModel (staged s') = BookingModel d
  /\ ((existing = None /\ fid = n /\ n' = S n
       /\ FeedbackModel (staged s')
          = (FeedbackModel d
             ++ [{| feedback_id := n; from := fromId; to := toId;
                    history := [entry] |}])%list)
      \/ (existing = Some fid /\ n' = n
          /\ exists doc,
               findById feedback_id fid (FeedbackModel d) = Some doc
               /\ FeedbackModel (staged s')
                  = replaceById feedback_id (pushEntry doc entry)
                      (FeedbackModel d))).
Proof.
  unfold upsertLedger, saveFeedback, write, startTransaction.
  destruct existing as [old|]; cbn [committed staged writes].
  - destruct (findById feedback_id old (FeedbackModel d)) as [doc|] eqn:Ef;
      [|discriminate].
    destruct (entryValid entry); [|discriminate].
    destruct (faults 0%nat); [discriminate|].
    intro H. inversion H; subst. simpl. split; [reflexivity|].
    right. split; [reflexivity|]. split; [reflexivity|].
    exists doc. split; [exact Ef | reflexivity].
  - destruct (entryValid entry); [|discriminate].
    destruct (faults 0%nat); [discriminate|].
    intro H. inversion H; subst. simpl. split; [reflexivity|].
    left. repeat split.
Qed.

(** What a successful submission writes: the entry goes to the ledger the
    booking names for the author, or to a new ledger when it names none,
    and the booking is saved as completed. *)
Lemma addFeedback_Ok_effect (faults : Faults) (now : Z) (w w' : World)
    (userId bookingId : ObjectId) (message : string) (rating : Z)
    (e : FeedbackEntry) :
  addFeedback faults now w userId bookingId message rating = (Ok e, w') ->
  exists b b' fid,
    findById booking_id bookingId (BookingModel (database w)) = Some b
    /\ state b <> COMPLETED
    /\ booking_id b' = booking_id b /\ state b' = COMPLETED
    /\ (forall i, In i (refs b') -> In i (refs b) \/ i = fid)
    /\ BookingModel (database w')
       = replaceById booking_id b' (BookingModel (database w))
    /\ ((fid = nextObjectId w /\ nextObjectId w' = S (nextObjectId w)
         /\ exists L,
              feedback_id L = fid /\ history L = [e]
              /\ FeedbackModel (database w')
                 = (FeedbackModel (database w) ++ [L])%list)
        \/ (In fid (refs b) /\ nextObjectId w' = nextObjectId w
            /\ exists doc,
                 findById feedback_id fid (FeedbackModel (database w))
                 = Some doc
                 /\ FeedbackModel (database w')
                    = replaceById feedback_id (pushEntry doc e)
                        (FeedbackModel (database w)))).
Proof.
  unfold addFeedback.
  destruct (addFeedbackChecks now (database w) userId bookingId)
    as [b|] eqn:Hc; [|discriminate].
  apply addFeedbackChecks_Ok_inv in Hc. destruct Hc as (Hfound & Hst & _).
  unfold withTransaction, addFeedbackTransaction, saveBooking.
  set (entry := {| Model.message := message; Model.rating := Some rating;
                   timestamp := now |}).
  destruct (Nat.eqb userId (clientId b)).
  - destruct (upsertLedger _ _ _ _ _ _ _ _) as [[[fid|err] s1] n1] eqn:Eu.
    2:{ intro H; discriminate H. }
    apply upsertLedger_Ok_effect in Eu. destruct Eu as (Hb & Hcases).
    unfold write. destruct (faults (writes s1)); [intro H; discriminate H|].
    intro H. inversion H; subst e w'. clear H.
    exists b, (completedBooking now b (Some fid) (coachFeedback b)), fid.
    cbn [database nextObjectId commitTransaction staged setBookings
         BookingModel FeedbackModel].
    rewrite Hb.
    split; [exact Hfound|]. split; [exact Hst|].
    split; [reflexivity|]. split; [reflexivity|]. split.
    { intros i Hi. unfold refs in *. simpl in Hi.
      destruct Hi as [<- | Hi]; [now right|]. left.
      apply in_or_app. now right. }
    split; [reflexivity|].
    destruct Hcases as [(Hex & -> & -> & HF) | (Hex & -> & doc & Hdoc & HF)].
    + left. split; [reflexivity|]. split; [reflexivity|].
      eexists. split; [|split; [|exact HF]]; reflexivity.
    + right. split; [unfold refs; rewrite Hex; now left|].
      split; [reflexivity|]. exists doc. split; [exact Hdoc | exact HF].
  - destruct (upsertLedger _ _ _ _ _ _ _ _) as [[[fid|err] s1] n1] eqn:Eu.
    2:{ intro H; discriminate H. }
    apply upsertLedger_Ok_effect in Eu. destruct Eu as (Hb & Hcases).
    unfold write. destruct (faults (writes s1)); [intro H; discriminate H|].
    intro H. inversion H; subst e w'. clear H.
    exists b, (completedBooking now b (clientFeedback b) (Some fid)), fid.
    cbn [database nextObjectId commitTransaction staged setBookings
         BookingModel FeedbackModel].
    rewrite Hb.
    split; [exact Hfound|]. split; [exact Hst|].
    split; [reflexivity|]. split; [reflexivity|]. split.
    { intros i Hi. unfold refs in *. simpl in Hi.
      apply in_app_or in Hi. destruct Hi as [Hi | [<- | []]]; [|now right].
      left. apply in_or_app. now left. }
    split; [reflexivity|].
    destruct Hcases as [(Hex & -> & -> & HF) | (Hex & -> & doc & Hdoc & HF)].
    + left. split; [reflexivity|]. split; [reflexivity|].
      eexists. split; [|split; [|exact HF]]; reflexivity.
    + right. split; [unfold refs; rewrite Hex; apply in_or_app; right; now left|].
      split; [reflexivity|]. exists doc. split; [exact Hdoc | exact HF].
Qed.

Lemma addFeedback_disciplined (faults : Faults) (now : Z) (w : World)
    (userId bookingId : ObjectId) (message : string) (rating : Z) :
  ledgerDiscipline w ->
  ledgerDiscipline
    (snd (addFeedback faults now w userId bookingId message rating)).
Proof.
  intro H.
  destruct (addFeedback faults now w userId bookingId message rating)
    as [[e|err] w'] eqn:Ea.
  - apply addFeedback_Ok_effect in Ea.
    destruct Ea as (b & b' & fid & Hfound & Hst & Hid & Hst' & Hrefs & HB
                    & Hcases).
    pose proof (findById_In _ _ _ _ Hfound) as Hb.
    pose proof H as (I1 & I4 & I5 & I6 & I7).
    unfold ledgerDiscipline. cbn [snd]. rewrite HB.
    destruct Hcases as [(Hfid & Hn & L & HL & HLh & HF)
                       | (Hfid & Hn & doc & Hdoc & HF)]; rewrite HF, Hn.
    + assert (H1 : disciplined (FeedbackModel (database w))
                     (replaceById booking_id b' (BookingModel (database w)))
                     (S (nextObjectId w))).
      { apply disciplined_resave with (n := nextObjectId w) (b := b);
          [exact H | lia | exact Hb | exact Hid | | ].
        - intros i Hi. destruct (Hrefs i Hi) as [Ho | ->]; [now left|].
          right. lia.
        - intro Hs. contradiction. }
      apply disciplined_ledger; [exact H1 | lia | rewrite HLh; simpl; lia |].
      intros b2 Hb2 Hr. left.
      apply In_replaceById in Hb2. destruct Hb2 as [[-> _] | [Hb2 _]];
        [exact Hst'|].
      rewrite HL, Hfid in Hr. specialize (I6 b2 _ Hb2 Hr). lia.
    + pose proof (findById_In _ _ _ _ Hdoc) as Hdin.
      pose proof (findById_key _ _ _ _ Hdoc) as Hdk.
      assert (H1 : disciplined (FeedbackModel (database w))
                     (replaceById booking_id b' (BookingModel (database w)))
                     (nextObjectId w)).
      { apply disciplined_resave with (n := nextObjectId w) (b := b);
          [exact H | lia | exact Hb | exact Hid | | ].
        - intros i Hi. destruct (Hrefs i Hi) as [Ho | ->]; now left.
        - intro Hs. contradiction. }
      apply disciplined_push; [exact H1 | exact Hdin | |].
      * apply (I5 b doc Hb Hst Hdin). now rewrite Hdk.
      * intros b2 Hb2 Hr.
        apply In_replaceById in Hb2. destruct Hb2 as [[-> _] | [Hb2 Hne]];
          [exact Hst'|].
        exfalso. apply Hne. rewrite Hid. rewrite Hdk in Hr.
        exact (I7 b2 b fid Hb2 Hb Hr Hfid).
  - apply addFeedback_Throw_world in Ea. destruct Ea as [Hd Hn].
    unfold ledgerDiscipline. cbn [snd]. rewrite Hd.
    exact (disciplined_mono _ _ _ _ Hn H).
Qed.

(** Every request keeps the discipline. *)
Lemma serve_disciplined (Date_parse : string -> Date) (users : UserService)
    (w : World) (rq : Request) :
  ledgerDiscipline w -> ledgerDiscipline (serve Date_parse users w rq).
Proof.
  intro H0.
  destruct rq as [faults now p | faults now bookingId userId
                 | faults now userId bookingId message rating];
    cbn [serve].
  - destruct (bookWorkout_effect Date_parse users faults now w p)
      as [(bd & ->) | (Hd & Hn)].
    + now apply bookedWorld_disciplined.
    + unfold ledgerDiscipline. rewrite Hd.
      exact (disciplined_mono _ _ _ _ Hn H0).
  - now apply cancelBooking_disciplined.
  - now apply addFeedback_disciplined.
Qed.

Lemma run_disciplined (Date_parse : string -> Date) (users : UserService)
    (rqs : list Request) :
  forall w, ledgerDiscipline w -> ledgerDiscipline (run Date_parse users w rqs).
Proof.
  unfold run. induction rqs as [|rq rqs IH]; intros w H0; [exact H0|].
  cbn [fold_left]. apply IH. now apply serve_disciplined.
Qed.

End Discipline.

(** X20.  Served one after the other, the requests to book, to cancel and
    to give feedback never leave more than one entry on a ledger: from a
    database without bookings whose ledgers hold at most one entry and have
    identities below the counter, whatever the requests, the clock and the
    failures of the store, every ledger ends with at most one entry, so
    that its first entry is also its most recent one. *)
Theorem ledgers_hold_one_entry {js : Runtime}
    (Date_parse : string -> Date) (users : UserService)
    (w : World) (rqs : list Spec.Request) :
  BookingModel (database w) = [] ->
  (forall fb, In fb (FeedbackModel (database w)) ->
     (feedback_id fb < nextObjectId w)%nat
     /\ (List.length (history fb) <= 1)%nat) ->
  forall fb,
    In fb (FeedbackModel (database (Spec.run Date_parse users w rqs))) ->
    (List.length (history fb) <= 1)%nat
    /\ nth_error (history fb) 0 = Spec.mostRecent fb.
Proof.
  intros HB HF.
  assert (H0 : Spec.ledgerDiscipline w).
  { unfold Spec.ledgerDiscipline, Spec.disciplined. rewrite HB.
    split; [|split; [|split; [|split]]].
    - intros fb Hfb. now destruct (HF fb Hfb).
    - intros fb Hfb. now destruct (HF fb Hfb).
    - intros b fb [].
    - intros b i [].
    - intros b1 b2 i []. }
  clear HB HF.
  pose proof (run_disciplined Date_parse users rqs w H0) as Hrun.
  intros fb Hfb. destruct Hrun as (_ & I4 & _).
  specialize (I4 fb Hfb). split; [exact I4|].
  unfold Spec.mostRecent.
  destruct (history fb) as [|e [|e' rest]]; simpl in *; try reflexivity; lia.
Qed.

Lemma ledgers_hold_one_entry_witness :
  BookingModel (database Gym.world0) = []
  /\ (forall fb, In fb (FeedbackModel (database Gym.world0)) ->
        (feedback_id fb < nextObjectId Gym.world0)%nat
        /\ (List.length (history fb) <= 1)%nat)
  /\ let w :=
       Spec.run Gym.noParse Gym.users Gym.world0
         [Spec.BookWorkout noFaults Gym.now Gym.request1;
          Spec.AddFeedback noFaults Gym.afterSession 20%nat 102%nat "great" 5;
          Spec.AddFeedback noFaults Gym.afterSession 10%nat 102%nat "fine" 4]
     in
     map (fun fb => List.length (history fb)) (FeedbackModel (database w))
     = [1%nat; 0%nat]
     /\ forall fb, In fb (FeedbackModel (database w)) ->
          (List.length (history fb) <= 1)%nat
          /\ nth_error (history fb) 0 = Spec.mostRecent fb.
Proof.
  assert (H1 : BookingModel (database Gym.world0) = []) by reflexivity.
  assert (H2 : forall fb, In fb (FeedbackModel (database Gym.world0)) ->
                 (feedback_id fb < nextObjectId Gym.world0)%nat
                 /\ (List.length (history fb) <= 1)%nat)
    by (simpl; intros fb []).
  split; [exact H1|]. split; [exact H2|].
  cbv zeta. split; [vm_compute; reflexivity|].
  exact (ledgers_hold_one_entry Gym.noParse Gym.users Gym.world0 _ H1 H2).
Defined.

(** *** The entries that requests store *)

Section StoredEntries.

Context {js : Runtime}.

Import WorkoutService FeedbackService Spec.

Lemma upsertLedger_Ok_valid (faults : Faults) (entry : FeedbackEntry)
    (existing : option ObjectId) (fromId toId : ObjectId) (notFound : string)
    (n n' fid : ObjectId) (s s' : Session) :
  upsertLedger faults entry existing fromId toId notFound n s
  = (Ok fid, s', n') ->
  entryValid entry = true.
Proof.
  unfold upsertLedger, saveFeedback. destruct existing as [old|].
  - destruct (findById feedback_id old (FeedbackModel (committed s)));
      [|discriminate].
    destruct (entryValid entry); [reflexivity | discriminate].
  - destruct (entryValid entry); [reflexivity | discriminate].
Qed.

(** The entry that a successful submission returns is the one made of the
    message and the rating given, and it passed the schema. *)
Lemma addFeedback_Ok_entry (faults : Faults) (now : Z) (w w' : World)
    (userId bookingId : ObjectId) (message : string) (rating : Z)
    (e : FeedbackEntry) :
  addFeedback faults now w userId bookingId message rating = (Ok e, w') ->
  e = {| Model.message := message; Model.rating := Some rating;
         timestamp := now |}
  /\ entryValid e = true.
Proof.
  unfold addFeedback.
  destruct (addFeedbackChecks now (database w) userId bookingId) as [b|];
    [|discriminate].
  unfold withTransaction, addFeedbackTransaction.
  set (entry := {| Model.message := message; Model.rating := Some rating;
                   timestamp := now |}).
  destruct (Nat.eqb userId (clientId b)).
  - destruct (upsertLedger _ _ _ _ _ _ _ _) as [[[fid|err] s1] n1] eqn:Eu;
      [|intro H; discriminate H].
    apply upsertLedger_Ok_valid in Eu.
    destruct (saveBooking faults _ s1) as [[u|err] s2];
      [|intro H; discriminate H].
    intro H. inversion H; subst e. split; [reflexivity | exact Eu].
  - destruct (upsertLedger _ _ _ _ _ _ _ _) as [[[fid|err] s1] n1] eqn:Eu;
      [|intro H; discriminate H].
    apply upsertLedger_Ok_valid in Eu.
    destruct (saveBooking faults _ s1) as [[u|err] s2];
      [|intro H; discriminate H].
    intro H. inversion H; subst e. split; [reflexivity | exact Eu].
Qed.

(** The entries of the ledgers after one request: those that were there,
    and the entry of a successful submission. *)
Lemma serve_entries (Date_parse : string -> Date) (users : UserService)
    (w : World) (rq : Request) (fb : Feedback) (e : FeedbackEntry) :
  In fb (FeedbackModel (database (serve Date_parse users w rq))) ->
  In e (history fb) ->
  (exists fb0, In fb0 (FeedbackModel (database w)) /\ In e (history fb0))
  \/ (entryValid e = true /\ rating e <> None).
Proof.
  destruct rq as [faults now p | faults now bookingId userId
                 | faults now userId bookingId message rating];
    cbn [serve].
  - destruct (bookWorkout_effect Date_parse users faults now w p)
      as [(bd & ->) | (Hd & _)].
    + unfold bookedWorld. simpl. rewrite !in_app_iff.
      intros [[Hfb | [<- | []]] | [<- | []]] He; try destruct He.
      left. now exists fb.
    + rewrite Hd. intros Hfb He. left. now exists fb.
  - destruct (cancelBooking users faults now w bookingId userId)
      as [[r|err] w'] eqn:Ec.
    + apply cancelBooking_Ok_inv in Ec.
      destruct Ec as (b & _ & _ & _ & _ & _ & ->). simpl.
      intros Hfb He. left. now exists fb.
    + apply cancelBooking_Throw_inv in Ec. destruct Ec as [-> _]. simpl.
      intros Hfb He. left. now exists fb.
  - destruct (addFeedback faults now w userId bookingId message rating)
      as [[e0|err] w'] eqn:Ea.
    + destruct (addFeedback_Ok_entry _ _ _ _ _ _ _ _ _ Ea) as [He0 Hv].
      assert (Hr : Model.rating e0 <> None) by (rewrite He0; discriminate).
      apply addFeedback_Ok_effect in Ea.
      destruct Ea as (b & b' & fid & _ & _ & _ & _ & _ & _ & Hcases).
      cbn [snd].
      destruct Hcases as [(_ & _ & L & _ & HLh & HF)
                         | (_ & _ & doc & Hdoc & HF)]; rewrite HF.
      * rewrite in_app_iff. intros [Hfb | [<- | []]] He.
        -- left. now exists fb.
        -- rewrite HLh in He. destruct He as [<- | []]. right. auto.
      * intros Hfb He. apply In_replaceById in Hfb.
        destruct Hfb as [[-> _] | [Hfb _]].
        -- simpl in He. apply in_app_iff in He.
           destruct He as [He | [<- | []]]; [|right; auto].
           left. exists doc. split; [|exact He].
           exact (findById_In _ _ _ _ Hdoc).
        -- left. now exists fb.
    + apply addFeedback_Throw_world in Ea. destruct Ea as [Hd _].
      cbn [snd]. rewrite Hd. intros Hfb He. left. now exists fb.
Qed.

Lemma run_entries (Date_parse : string -> Date) (users : UserService)
    (rqs : list Request) :
  forall (w : World) (fb : Feedback) (e : FeedbackEntry),
  In fb (FeedbackModel (database (run Date_parse users w rqs))) ->
  In e (history fb) ->
  (exists fb0, In fb0 (FeedbackModel (database w)) /\ In e (history fb0))
  \/ (entryValid e = true /\ rating e <> None).
Proof.
  unfold run. induction rqs as [|rq rqs IH]; intros w fb e Hfb He.
  - left. now exists fb.
  - cbn [fold_left] in Hfb.
    destruct (IH _ fb e Hfb He) as [(fb1 & Hfb1 & He1) | Hv]; [|now right].
    exact (serve_entries Date_parse users w rq fb1 e Hfb1 He1).
Qed.

Lemma entryValid_rating (e : FeedbackEntry) :
  entryValid e = true -> rating e <> None ->
  Model.message e <> "" /\ exists r, rating e = Some r /\ 1 <= r <= 5.
Proof.
  unfold entryValid. intros Hv Hr. apply andb_true_iff in Hv.
  destruct Hv as [Hm Hrange]. split.
  - intro Hc. rewrite Hc in Hm. discriminate Hm.
  - destruct (rating e) as [r|]; [|congruence].
    exists r. split; [reflexivity|].
    apply andb_true_iff in Hrange. destruct Hrange as [H1 H5].
    apply Z.leb_le in H1. apply Z.leb_le in H5. lia.
Qed.

End StoredEntries.

(** X21.  Served one after the other, the requests to book, to cancel and
    to give feedback store only entries with a message and a rating from
    1 to 5: starting without ledgers, whatever the requests, every entry of
    every ledger has a non-empty message and a rating in that range, so
    that the statistics of any user are then a number and a histogram that
    counts every ledger with an entry. *)
Theorem stored_entries_are_rated {js : Runtime}
    (Date_parse : string -> Date) (users : UserService)
    (w : World) (rqs : list Spec.Request) :
  FeedbackModel (database w) = [] ->
  let d := database (Spec.run Date_parse users w rqs) in
  (forall fb e, In fb (FeedbackModel d) -> In e (history fb) ->
     Model.message e <> "" /\ exists r, rating e = Some r /\ 1 <= r <= 5)
  /\ (forall coach, exists s a,
        FeedbackService.getCoachFeedbackStats d coach = Ok s
        /\ FeedbackService.s_averageRating s = Some a
        /\ Spec.histogramTotal (FeedbackService.ratingDistribution s)
           = Z.of_nat (List.length
                         (filter Spec.hasEntries (Spec.ledgersTo d coach)))).
Proof.
  intros HF d.
  assert (Hentries : forall fb e, In fb (FeedbackModel d) -> In e (history fb) ->
            Model.message e <> ""
            /\ exists r, rating e = Some r /\ 1 <= r <= 5).
  { intros fb e Hfb He.
    destruct (run_entries Date_parse users rqs w fb e Hfb He)
      as [(fb0 & Hfb0 & _) | [Hv Hr]].
    - rewrite HF in Hfb0. destruct Hfb0.
    - exact (entryValid_rating e Hv Hr). }
  split; [exact Hentries|]. intro coach.
  assert (Hvalid : forall fb e rest,
            In fb (Spec.ledgersTo d coach) -> history fb = e :: rest ->
            exists r, rating e = Some r /\ 1 <= r <= 5).
  { intros fb e rest Hfb Eh. unfold Spec.ledgersTo in Hfb.
    apply filter_In in Hfb. destruct Hfb as [Hfb _].
    apply (Hentries fb e Hfb). rewrite Eh. now left. }
  assert (Hes : forall e, In e (Spec.firstEntries (Spec.ledgersTo d coach)) ->
                          exists r, rating e = Some r /\ 1 <= r <= 5).
  { intros e He. apply firstEntries_In in He.
    destruct He as (fb & rest & Hfb & Eh). exact (Hvalid fb e rest Hfb Eh). }
  destruct (stats_value d coach) as (s & Hs & Havg & H5 & H4 & H3 & H2 & H1).
  destruct (ratingSum_bounds _ Hes) as (t & Ht & _).
  pose proof (rated_partition _ Hes) as Hpart.
  rewrite firstEntries_length in Hpart.
  assert (Ha : exists a, FeedbackService.s_averageRating s = Some a).
  { rewrite Havg.
    destruct (Spec.firstEntries (Spec.ledgersTo d coach)) as [|e es];
      [now exists 0|].
    cbv beta iota zeta. rewrite Ht. eauto. }
  destruct Ha as (a & Ha). exists s, a.
  split; [exact Hs|]. split; [exact Ha|].
  unfold Spec.histogramTotal. rewrite H5, H4, H3, H2, H1. exact Hpart.
Qed.

Lemma stored_entries_are_rated_witness :
  FeedbackModel (database Gym.world0) = []
  /\ let d :=
       database
         (Spec.run Gym.noParse Gym.users Gym.world0
            [Spec.BookWorkout noFaults Gym.now Gym.request1;
             Spec.AddFeedback noFaults Gym.afterSession 20%nat 102%nat
               "great" 5;
             Spec.AddFeedback noFaults Gym.afterSession 20%nat 102%nat
               "" 9]) in
     map history (FeedbackModel d)
     = [[{| message := "great"; rating := Some 5;
            timestamp := Gym.afterSession |}]; []]
     /\ forall fb e, In fb (FeedbackModel d) -> In e (history fb) ->
          Model.message e <> ""
          /\ exists r, rating e = Some r /\ 1 <= r <= 5.
Proof.
  assert (H1 : FeedbackModel (database Gym.world0) = []) by reflexivity.
  split; [exact H1|]. cbv zeta. split; [vm_compute; reflexivity|].
  exact (proj1 (stored_entries_are_rated Gym.noParse Gym.users Gym.world0
                  _ H1)).
Defined.

(** *** The most recent entry *)

Section MostRecent.

Context {js : Runtime}.

Import FeedbackService Spec.






End MostRecent.



(** *** Mappings of a coach to workout types *)

Section Mappings.

Context {bson : Bson}.

Import WorkoutListings Spec.

Lemma toString_injective (a b : ObjectId) : toString a = toString b -> a = b.
Proof.
  intro H. pose proof (newObjectId_toString a) as Ha.
  rewrite H, newObjectId_toString in Ha. now injection Ha.
Qed.

Lemma objectIds_map (l : list string) :
  forall ids, objectIds l = Some ids -> map newObjectId l = map Some ids.
Proof.
  induction l as [|s l IH]; simpl; intros ids H.
  - injection H as <-. reflexivity.
  - destruct (newObjectId s) as [x|]; [|discriminate].
    destruct (objectIds l) as [xs|]; [|discriminate].
    injection H as <-. simpl. now rewrite (IH xs eq_refl).
Qed.

Lemma objectIds_In (l : list string) (s : string) :
  forall ids, objectIds l = Some ids -> In s l ->
  exists x, newObjectId s = Some x /\ In x ids.
Proof.
  induction l as [|s0 l IH]; simpl; intros ids H Hin; [destruct Hin|].
  destruct (newObjectId s0) as [x|] eqn:E; [|discriminate].
  destruct (objectIds l) as [xs|]; [|discriminate].
  injection H as <-. destruct Hin as [<- | Hin].
  - exists x. split; [exact E | now left].
  - destruct (IH xs eq_refl Hin) as (y & Hy & Hiny).
    exists y. split; [exact Hy | now right].
Qed.

Lemma objectIds_None (l : list string) :
  objectIds l = None <-> exists s, In s l /\ newObjectId s = None.
Proof.
  induction l as [|s0 l IH]; simpl.
  - split; [discriminate | intros (s & [] & _)].
  - destruct (newObjectId s0) as [x|] eqn:E.
    + destruct (objectIds l) as [xs|]; simpl.
      * split; [discriminate|]. intros (s & [<- | Hin] & Hs); [congruence|].
        assert (Hc : Some xs = None) by (apply IH; eauto). discriminate Hc.
      * split; [|reflexivity]. intros _.
        destruct (proj1 IH eq_refl) as (s & Hin & Hs). eauto.
    + split; [|reflexivity]. intros _. eauto.
Qed.

Lemma objectIds_filter (f : string -> bool) (l : list string) :
  forall ids, objectIds l = Some ids ->
  exists ids', objectIds (filter f l) = Some ids'.
Proof.
  induction l as [|s l IH]; simpl; intros ids H; [eauto|].
  destruct (newObjectId s) as [x|] eqn:E; [|discriminate].
  destruct (objectIds l) as [xs|]; [|discriminate].
  destruct (IH xs eq_refl) as (ids' & Hids').
  destruct (f s); [|eauto]. simpl. rewrite E, Hids'. simpl. eauto.
Qed.

Lemma objectIds_length (l : list string) :
  forall ids, objectIds l = Some ids -> List.length ids = List.length l.
Proof.
  intros ids H. apply objectIds_map in H.
  rewrite <- (length_map Some ids), <- H. apply length_map.
Qed.

(** A string is among those of the mappings found exactly when the coach
    has a mapping written that way. *)
Lemma existing_ids_mapped (W : list Workout) (coach : ObjectId)
    (workoutIds : list string) (ids : list ObjectId) (id : string) :
  objectIds workoutIds = Some ids ->
  In id workoutIds ->
  existsb (String.eqb id)
    (map (fun m => toString (workoutType m))
       (filter (fun m => Nat.eqb (workout_coachId m) coach
                         && existsb (Nat.eqb (workoutType m)) ids) W))
  = existsb (fun m => Nat.eqb (workout_coachId m) coach
                      && String.eqb (toString (workoutType m)) id) W.
Proof.
  intros Hids Hin. induction W as [|m W IH]; [reflexivity|].
  cbn [filter existsb].
  destruct (Nat.eqb (workout_coachId m) coach); cbn [andb]; [|exact IH].
  destruct (String.eqb (toString (workoutType m)) id) eqn:E.
  - apply String.eqb_eq in E.
    assert (Hex : existsb (Nat.eqb (workoutType m)) ids = true).
    { destruct (objectIds_In workoutIds id ids Hids Hin) as (x & Hx & Hinx).
      rewrite <- E, newObjectId_toString in Hx. injection Hx as <-.
      apply existsb_exists. exists (workoutType m).
      split; [exact Hinx | apply Nat.eqb_refl]. }
    rewrite Hex. cbn [map existsb]. rewrite E, String.eqb_refl. reflexivity.
  - destruct (existsb (Nat.eqb (workoutType m)) ids); [|exact IH].
    cbn [map existsb]. rewrite String.eqb_sym, E. exact IH.
Qed.

Lemma newWorkoutIds_unmapped (d : Database) (coach : ObjectId)
    (workoutIds : list string) (ids : list ObjectId) :
  objectIds workoutIds = Some ids ->
  filter (fun id =>
            negb (existsb (String.eqb id)
                    (map (fun m => toString (workoutType m))
                       (filter (fun m => Nat.eqb (workout_coachId m) coach
                                         && existsb (Nat.eqb (workoutType m))
                                              ids)
                          (WorkoutModel d))))) workoutIds
  = filter (fun id => negb (mappedAs d coach id)) workoutIds.
Proof.
  intro Hids. apply filter_ext_in. intros id Hin. unfold mappedAs.
  now rewrite (existing_ids_mapped _ _ workoutIds ids).
Qed.

Lemma newMappings_types (coach : ObjectId) (ids : list ObjectId) :
  forall n, map workoutType (newMappings coach ids n) = ids.
Proof.
  induction ids as [|id ids IH]; intro n; [reflexivity|].
  simpl. now rewrite IH.
Qed.

Lemma newMappings_coach (coach : ObjectId) (ids : list ObjectId) :
  forall n m, In m (newMappings coach ids n) -> workout_coachId m = coach.
Proof.
  induction ids as [|id ids IH]; intros n m; [intros []|].
  simpl. intros [<- | Hin]; [reflexivity | eauto].
Qed.

(** The options after the coach has joined those of a list of workout
    types, one after the other. *)
Definition joined (coach : ObjectId) (ids : list ObjectId) (d : Database)
  : Database :=
  fold_left (fun d0 id => addCoach id coach d0) ids d.

Lemma withCoach_twice (coach : ObjectId) (o : WorkoutOption) :
  withCoach coach (withCoach coach o) = withCoach coach o.
Proof.
  unfold withCoach, addToSet. simpl.
  destruct (existsb (Nat.eqb coach) (coachesId o)) eqn:E; simpl.
  - now rewrite E.
  - rewrite existsb_app. simpl. rewrite Nat.eqb_refl, orb_true_r. reflexivity.
Qed.

Lemma joined_collections (coach : ObjectId) (ids : list ObjectId) :
  forall d,
    WorkoutOptionModel (joined coach ids d)
    = map (fun o => if existsb (Nat.eqb (option_id o)) ids
                    then withCoach coach o else o)
        (WorkoutOptionModel d)
    /\ WorkoutModel (joined coach ids d) = WorkoutModel d
    /\ TimeSlotModel (joined coach ids d) = TimeSlotModel d
    /\ BookingModel (joined coach ids d) = BookingModel d
    /\ FeedbackModel (joined coach ids d) = FeedbackModel d.
Proof.
  unfold joined. induction ids as [|id ids IH]; intro d.
  - simpl. split; [|repeat split]. symmetry. apply map_id.
  - cbn [fold_left]. destruct (IH (addCoach id coach d)) as (Ho & Hrest).
    split; [|exact Hrest]. rewrite Ho. unfold addCoach at 1.
    cbn [WorkoutOptionModel setWorkoutOptions]. rewrite map_map.
    apply map_ext. intro o. cbn [existsb].
    destruct (Nat.eqb (option_id o) id) eqn:E; cbn [orb].
    + cbn [withCoach option_id].
      destruct (existsb (Nat.eqb (option_id o)) ids);
        [apply withCoach_twice | reflexivity].
    + reflexivity.
Qed.

Lemma updateOptions_session (faults : Faults) (coachId : string)
    (coach : ObjectId) (workoutIds : list string) :
  newObjectId coachId = Some coach ->
  forall ids s,
    objectIds workoutIds = Some ids ->
    committed (snd (updateOptions faults coachId workoutIds s)) = committed s
    /\ (isOk (fst (updateOptions faults coachId workoutIds s)) = true ->
        staged (snd (updateOptions faults coachId workoutIds s))
        = joined coach ids (staged s)).
Proof.
  intro Hc. induction workoutIds as [|id l IH]; intros ids s Hids.
  - simpl in Hids. injection Hids as <-. split; reflexivity.
  - simpl in Hids. cbn [updateOptions].
    destruct (newObjectId id) as [x|]; [|discriminate].
    destruct (objectIds l) as [xs|] eqn:El; [|discriminate].
    injection Hids as <-. rewrite Hc. unfold write at 1 2 3.
    destruct (faults (writes s)); [split; [reflexivity | discriminate]|].
    destruct (IH xs {| committed := committed s;
                       staged := addCoach x coach (staged s);
                       writes := S (writes s) |} eq_refl) as [H1 H2].
    split; [exact H1 | exact H2].
Qed.

Lemma mapped_after (d : Database) (coach t : ObjectId) (data : list Workout) :
  mapped (setWorkouts d (WorkoutModel d ++ data)) coach t
  = mapped d coach t
    || existsb (fun m => Nat.eqb (workout_coachId m) coach
                         && Nat.eqb (workoutType m) t) data.
Proof. unfold mapped. simpl. apply existsb_app. Qed.

Lemma mapped_joined (d : Database) (coach c t : ObjectId)
    (ids : list ObjectId) :
  mapped (joined c ids d) coach t = mapped d coach t.
Proof.
  unfold mapped.
  destruct (joined_collections c ids d) as (_ & -> & _). reflexivity.
Qed.

Lemma mappedAs_mapped (d : Database) (coach t : ObjectId) :
  mappedAs d coach (toString t) = mapped d coach t.
Proof.
  unfold mappedAs, mapped. induction (WorkoutModel d) as [|m W IH];
    [reflexivity|].
  cbn [existsb]. rewrite IH. f_equal. f_equal.
  destruct (Nat.eqb (workoutType m) t) eqn:E.
  - apply Nat.eqb_eq in E. rewrite E. apply String.eqb_refl.
  - apply String.eqb_neq. intro H. apply toString_injective in H.
    apply Nat.eqb_neq in E. contradiction.
Qed.

(** A string under which the coach has a mapping is the way an identity
    is written, and the coach is mapped to that identity. *)
Lemma mappedAs_inv (d : Database) (coach : ObjectId) (id : string) :
  mappedAs d coach id = true ->
  exists t, newObjectId id = Some t /\ toString t = id
            /\ mapped d coach t = true.
Proof.
  intro H. pose proof H as H0. unfold mappedAs in H.
  apply existsb_exists in H. destruct H as (m & Hin & Hm).
  apply andb_true_iff in Hm. destruct Hm as [Hc Hs].
  apply String.eqb_eq in Hs. exists (workoutType m).
  split; [rewrite <- Hs; apply newObjectId_toString|].
  split; [exact Hs|]. rewrite <- mappedAs_mapped, Hs. exact H0.
Qed.

(** The outcome of [createMappings], by cases. *)
Lemma createMappings_outcome (faults : Faults) (w : World) (coachId : string)
    (workoutIds : list string) :
  match newObjectId coachId, objectIds workoutIds with
  | Some coach, Some ids =>
      let new := filter (fun id => negb (mappedAs (database w) coach id))
                   workoutIds in
      exists newIds,
        objectIds new = Some newIds
        /\ let data := newMappings coach newIds (nextObjectId w) in
           (new = []
            /\ createMappings faults w coachId workoutIds
               = (Ok [], {| database := database w;
                            nextObjectId := nextObjectId w |}))
           \/ (new <> []
               /\ ((createMappings faults w coachId workoutIds
                    = (Ok data,
                       {| database :=
                            joined coach newIds
                              (setWorkouts (database w)
                                 (WorkoutModel (database w) ++ data));
                          nextObjectId
                          := (nextObjectId w + List.length newIds)%nat |}))
                   \/ (exists e,
                         createMappings faults w coachId workoutIds
                         = (Throw e,
                            {| database := database w;
                               nextObjectId
                               := (nextObjectId w
                                   + List.length newIds)%nat |}))))
  | _, _ =>
      createMappings faults w coachId workoutIds
      = (Throw (Thrown BSONError),
         {| database := database w; nextObjectId := nextObjectId w |})
  end.
Proof.
  unfold createMappings, withTransaction, createMappingsTransaction.
  destruct (newObjectId coachId) as [coach|] eqn:Ec; [|reflexivity].
  destruct (objectIds workoutIds) as [ids|] eqn:Ei; [|reflexivity].
  cbn [startTransaction staged].
  rewrite (newWorkoutIds_unmapped (database w) coach workoutIds ids Ei).
  cbv zeta.
  destruct (objectIds_filter
              (fun id => negb (mappedAs (database w) coach id))
              workoutIds ids Ei) as (newIds & Hnew).
  exists newIds. split; [exact Hnew|].
  destruct (filter (fun id => negb (mappedAs (database w) coach id))
              workoutIds) as [|t new'] eqn:Enew.
  - left. split; reflexivity.
  - right. split; [discriminate|].
    change (Nat.eqb (List.length (t :: new')) 0) with false. cbv iota.
    rewrite Hnew.
    unfold write at 1 2. cbn [startTransaction writes staged committed].
    destruct (faults 0%nat) as [e|].
    + right. exists (Thrown e). reflexivity.
    + set (s1 := {| committed := database w;
                    staged := setWorkouts (database w)
                                (WorkoutModel (database w)
                                 ++ newMappings coach newIds (nextObjectId w));
                    writes := 1 |}).
      destruct (updateOptions_session faults coachId coach (t :: new') Ec
                  newIds s1 Hnew) as [Hc Hs].
      destruct (updateOptions faults coachId (t :: new') s1) as [[u|e] s2];
        simpl in Hc, Hs.
      * left. unfold commitTransaction. now rewrite (Hs eq_refl).
      * right. exists e. unfold abortTransaction. now rewrite Hc.
Qed.

(** After a success every workout type of the request is mapped to the
    coach. *)
Lemma createMappings_Ok_mapped (faults : Faults) (w w' : World)
    (coachId : string) (workoutIds : list string) (saved : list Workout)
    (coach : ObjectId) :
  createMappings faults w coachId workoutIds = (Ok saved, w') ->
  newObjectId coachId = Some coach ->
  forall id t, In id workoutIds -> newObjectId id = Some t ->
               mapped (database w') coach t = true.
Proof.
  intros Hr Hc id t Hin Ht.
  pose proof (createMappings_outcome faults w coachId workoutIds) as H.
  rewrite Hc in H.
  destruct (objectIds workoutIds) as [ids|] eqn:Ei;
    [|rewrite H in Hr; discriminate Hr].
  cbv zeta in H. destruct H as (newIds & Hnew & H).
  set (new := filter (fun id => negb (mappedAs (database w) coach id))
                workoutIds) in *.
  assert (Hold : mappedAs (database w) coach id = true ->
                 mapped (database w) coach t = true).
  { intro Hm. destruct (mappedAs_inv _ _ _ Hm) as (t' & Ht' & _ & Hm').
    congruence. }
  assert (Hfresh : mappedAs (database w) coach id = false -> In t newIds).
  { intro Hm.
    assert (Hn : In id new)
      by (apply filter_In; split; [exact Hin | now rewrite Hm]).
    destruct (objectIds_In new id newIds Hnew Hn) as (x & Hx & Hinx).
    congruence. }
  destruct H as [[Hnil H] | [Hne [H | (e & H)]]]; rewrite H in Hr;
    inversion Hr; subst; cbn [database].
  - destruct (mappedAs (database w) coach id) eqn:E; [now apply Hold|].
    assert (Hn : In id new)
      by (apply filter_In; split; [exact Hin | now rewrite E]).
    rewrite Hnil in Hn. destruct Hn.
  - rewrite mapped_joined, mapped_after.
    destruct (mappedAs (database w) coach id) eqn:E;
      [now rewrite (Hold eq_refl)|].
    apply orb_true_iff. right. apply existsb_exists.
    specialize (Hfresh eq_refl).
    rewrite <- (newMappings_types coach newIds (nextObjectId w)) in Hfresh.
    apply in_map_iff in Hfresh. destruct Hfresh as (m & Hm & Hinm).
    exists m. split; [exact Hinm|].
    rewrite (newMappings_coach _ _ _ _ Hinm), Hm, !Nat.eqb_refl.
    reflexivity.
Qed.

(** Once every workout type of a request is mapped to the coach, the
    strings of the request that count as new are those that are not the
    way an identity is written. *)
Lemma new_when_all_mapped (d : Database) (coach : ObjectId)
    (workoutIds : list string) :
  (forall id t, In id workoutIds -> newObjectId id = Some t ->
                mapped d coach t = true) ->
  filter (fun id => negb (mappedAs d coach id)) workoutIds
  = filter (fun id => negb (canonical id)) workoutIds.
Proof.
  intro Hall. apply filter_ext_in. intros id Hin. f_equal.
  unfold canonical.
  destruct (mappedAs d coach id) eqn:E.
  - destruct (mappedAs_inv _ _ _ E) as (t & Ht & Hs & _).
    rewrite Ht. symmetry. now apply String.eqb_eq.
  - destruct (newObjectId id) as [t|] eqn:Ht; [|reflexivity].
    destruct (String.eqb (toString t) id) eqn:Es; [|reflexivity].
    apply String.eqb_eq in Es.
    rewrite <- Es, mappedAs_mapped, (Hall id t Hin Ht) in E. discriminate E.
Qed.

End Mappings.

(** X23.  Creating the mappings of a coach is all or nothing.  A coach or
    a workout type given by a string that is no identity makes it throw,
    and when it throws the database is the one it started from.  When it
    succeeds the workout mappings have gained, at their end, one mapping
    of the coach for each string of the request under which the coach had
    no mapping, in the order of the request (a string given twice gets
    two); each workout option among those new types has gained the coach
    in its set of coaches, unless it had it; nothing else has changed, and
    every workout type of the request is then mapped to the coach.  A
    second call with the same request adds nothing and returns no mapping
    when every string of the request is the way an identity is written,
    24 hexadecimal digits in lower case; a string that reads as an
    identity but is written otherwise is compared as a string, found with
    no mapping, and mapped again on every call. *)
Theorem createMappings_maps {bson : Bson}
    (faults : Faults) (w : World) (coachId : string)
    (workoutIds : list string) :
  let r := WorkoutListings.createMappings faults w coachId workoutIds in
  let d := database w in
  let d' := database (snd r) in
  ((newObjectId coachId = None
    \/ exists id, In id workoutIds /\ newObjectId id = None) ->
   fst r = Throw (Thrown WorkoutListings.BSONError))
  /\ (forall e, fst r = Throw e -> d' = d)
  /\ (forall saved, fst r = Ok saved ->
      exists coach,
        newObjectId coachId = Some coach
        /\ map (fun m => Some (workoutType m)) saved
           = map newObjectId
               (filter (fun id => negb (Spec.mappedAs d coach id)) workoutIds)
        /\ (forall m, In m saved -> workout_coachId m = coach)
        /\ WorkoutModel d' = (WorkoutModel d ++ saved)%list
        /\ WorkoutOptionModel d'
           = map (fun o => if existsb (Nat.eqb (option_id o))
                                (map workoutType saved)
                           then WorkoutListings.withCoach coach o else o)
               (WorkoutOptionModel d)
        /\ TimeSlotModel d' = TimeSlotModel d
        /\ BookingModel d' = BookingModel d
        /\ FeedbackModel d' = FeedbackModel d
        /\ (forall id t, In id workoutIds -> newObjectId id = Some t ->
                         Spec.mapped d' coach t = true)
        /\ (forall faults',
              (forall id, In id workoutIds -> Spec.canonical id = true) ->
              WorkoutListings.createMappings faults' (snd r) coachId workoutIds
              = (Ok [], snd r))
        /\ (forall faults' saved',
              fst (WorkoutListings.createMappings faults' (snd r) coachId
                     workoutIds) = Ok saved' ->
              map (fun m => Some (workoutType m)) saved'
              = map newObjectId
                  (filter (fun id => negb (Spec.canonical id)) workoutIds))).
Proof.
  cbv zeta.
  pose proof (createMappings_outcome faults w coachId workoutIds) as H.
  split; [|split].
  - intros [Hc | Hid].
    + rewrite Hc in H. now rewrite H.
    + apply objectIds_None in Hid. rewrite Hid in H.
      destruct (newObjectId coachId); now rewrite H.
  - intros e He.
    destruct (newObjectId coachId) as [coach|];
      [|rewrite H; reflexivity].
    destruct (WorkoutListings.objectIds workoutIds) as [ids|];
      [|rewrite H; reflexivity].
    cbv zeta in H. destruct H as (newIds & _ & H).
    destruct H as [[_ H] | [_ [H | (e' & H)]]]; rewrite H in He |- *;
      [discriminate He | discriminate He | reflexivity].
  - intros saved Hs.
    destruct (newObjectId coachId) as [coach|] eqn:Ec;
      [|rewrite H in Hs; discriminate Hs].
    destruct (WorkoutListings.objectIds workoutIds) as [ids|] eqn:Ei;
      [|rewrite H in Hs; discriminate Hs].
    exists coach. split; [reflexivity|].
    assert (Hmapped : forall id t, In id workoutIds ->
              newObjectId id = Some t ->
              Spec.mapped
                (database
                   (snd (WorkoutListings.createMappings faults w coachId
                           workoutIds))) coach t = true).
    { intros id t. 
      apply (createMappings_Ok_mapped faults w _ coachId workoutIds saved
               coach); [|exact Ec].
      rewrite <- Hs. apply surjective_pairing. }
    assert (Hagain :
      forall faults',
        match WorkoutListings.createMappings faults'
                (snd (WorkoutListings.createMappings faults w coachId
                        workoutIds)) coachId workoutIds with
        | (Ok saved', w2) =>
            map (fun m => Some (workoutType m)) saved'
            = map newObjectId
                (filter (fun id => negb (Spec.canonical id)) workoutIds)
            /\ ((forall id, In id workoutIds -> Spec.canonical id = true) ->
                saved' = []
                /\ w2 = snd (WorkoutListings.createMappings faults w coachId
                               workoutIds))
        | (Throw _, _) =>
            ~ (forall id, In id workoutIds -> Spec.canonical id = true)
        end).
    { intro faults'.
      set (w1 := snd (WorkoutListings.createMappings faults w coachId
                        workoutIds)) in *.
      pose proof (createMappings_outcome faults' w1 coachId workoutIds) as H2.
      rewrite Ec, Ei in H2. cbv zeta in H2.
      rewrite (new_when_all_mapped (database w1) coach workoutIds Hmapped)
        in H2.
      destruct H2 as (newIds2 & Hnew2 & H2).
      pose proof (objectIds_map _ _ Hnew2) as Hmap2.
      destruct H2 as [[Hnil H2] | [Hne [H2 | (e & H2)]]]; rewrite H2.
      - split.
        + now rewrite Hnil.
        + intros _. split; [reflexivity | now destruct w1].
      - split.
        + rewrite Hmap2, <- map_map, newMappings_types. reflexivity.
        + intro Hall. exfalso. apply Hne.
          apply filter_nil_of_all_false. intros id Hin.
          now rewrite (Hall id Hin).
      - intro Hall. apply Hne.
        apply filter_nil_of_all_false. intros id Hin.
        now rewrite (Hall id Hin). }
    cbv zeta in H.
    destruct H as (newIds & Hnew & H).
    pose proof (objectIds_map _ _ Hnew) as Hmap.
    assert (Hrest :
      (forall faults',
         (forall id, In id workoutIds -> Spec.canonical id = true) ->
         WorkoutListings.createMappings faults'
           (snd (WorkoutListings.createMappings faults w coachId workoutIds))
           coachId workoutIds
         = (Ok [], snd (WorkoutListings.createMappings faults w coachId
                          workoutIds)))
      /\ (forall faults' saved',
            fst (WorkoutListings.createMappings faults'
                   (snd (WorkoutListings.createMappings faults w coachId
                           workoutIds)) coachId workoutIds) = Ok saved' ->
            map (fun m => Some (workoutType m)) saved'
            = map newObjectId
                (filter (fun id => negb (Spec.canonical id)) workoutIds))).
    { split.
      - intros faults' Hall. specialize (Hagain faults').
        destruct (WorkoutListings.createMappings faults' _ coachId workoutIds)
          as [[saved'|e] w2].
        + destruct Hagain as [_ Hag]. destruct (Hag Hall) as [-> ->].
          reflexivity.
        + contradiction.
      - intros faults' saved' Hs'. specialize (Hagain faults').
        destruct (WorkoutListings.createMappings faults' _ coachId workoutIds)
          as [[saved2|e] w2]; simpl in Hs'; [|discriminate Hs'].
        injection Hs' as ->. exact (proj1 Hagain). }
    clear Hagain.
    destruct H as [[Hnil H] | [Hne [H | (e & H)]]]; rewrite H in Hs, Hmapped,
      Hrest |- *; cbn [fst snd database] in *;
      [| |discriminate Hs]; injection Hs as <-.
    + rewrite Hnil. cbn [map existsb].
      split; [reflexivity|]. split; [intros m []|].
      split; [now rewrite app_nil_r|].
      split; [symmetry; apply map_id|].
      repeat (split; [reflexivity|]).
      split; [exact Hmapped | exact Hrest].
    + destruct (joined_collections coach newIds
                  (WorkoutListings.setWorkouts (database w)
                     (WorkoutModel (database w)
                      ++ WorkoutListings.newMappings coach newIds
                           (nextObjectId w))))
        as (Ho & Hw & Ht & Hb & Hf).
      split; [rewrite Hmap, <- map_map, newMappings_types; reflexivity|].
      split; [apply newMappings_coach|].
      split; [exact Hw|].
      split; [rewrite Ho, newMappings_types; reflexivity|].
      split; [exact Ht|]. split; [exact Hb|]. split; [exact Hf|].
      split; [exact Hmapped | exact Hrest].
Qed.

Lemma createMappings_maps_witness :
  let coach := "00000000000000000000000c" in
  let ids := ["000000000000000000000028"; "00000000000000000000002A"] in
  let r := WorkoutListings.createMappings noFaults Gym.world0 coach ids in
  fst r
  = Ok [ {| workout_id := 100%nat; workoutType := 40%nat;
            workout_coachId := 12%nat |};
         {| workout_id := 101%nat; workoutType := 42%nat;
            workout_coachId := 12%nat |} ]
  /\ WorkoutOptionModel (database (snd r))
     = [ {| option_id := 40%nat; option_name := "Yoga";
            coachesId := [10%nat; 11%nat; 12%nat] |} ]
  /\ fst (WorkoutListings.createMappings noFaults (snd r) coach ids)
     = Ok [ {| workout_id := 102%nat; workoutType := 42%nat;
               workout_coachId := 12%nat |} ]
  /\ fst (WorkoutListings.createMappings noFaults Gym.world0 "coach" ids)
     = Throw (Thrown WorkoutListings.BSONError)
  /\ (let r1 := WorkoutListings.createMappings noFaults Gym.world0 coach
                  ["000000000000000000000028"] in
      WorkoutListings.createMappings noFaults (snd r1) coach
        ["000000000000000000000028"]
      = (Ok [], snd r1)).
Proof.
  cbv zeta.
  split; [vm_compute; reflexivity|].
  split; [vm_compute; reflexivity|].
  split; [vm_compute; reflexivity|].
  split.
  - apply (proj1 (createMappings_maps noFaults Gym.world0 "coach"
                    ["000000000000000000000028";
                     "00000000000000000000002A"])).
    left. vm_compute. reflexivity.
  - pose proof (proj2 (proj2 (createMappings_maps noFaults Gym.world0
                                "00000000000000000000000c"
                                ["000000000000000000000028"]))) as H.
    destruct (H [ {| workout_id := 100%nat; workoutType := 40%nat;
                     workout_coachId := 12%nat |} ]
                ltac:(vm_compute; reflexivity))
      as (c & _ & _ & _ & _ & _ & _ & _ & _ & _ & Hrepeat & _).
    apply Hrepeat. intros id [<- | []]. vm_compute. reflexivity.
Defined.

(** X24.  A coach who has been mapped to a workout type is found through
    it: after [createMappings] succeeds, the coaches of each workout type
    of the request include the profile that the directory returns for the
    coach, and the search over the database left has a workout of that
    coach for that type to report on. *)
Theorem mapped_coach_is_listed {bson : Bson}
    (users : UserService) (faults : Faults)
    (w w' : World) (coachId : string) (workoutIds : list string)
    (saved : list Workout) (coach : ObjectId) (id : string) (t : ObjectId)
    (p : Profile) :
  WorkoutListings.createMappings faults w coachId workoutIds = (Ok saved, w') ->
  newObjectId coachId = Some coach ->
  In id workoutIds ->
  newObjectId id = Some t ->
  getCoachData users coach = Some p ->
  In p (WorkoutListings.getCoachesByWorkout users (database w') t)
  /\ exists m,
       In m (Spec.matchingWorkouts
               {| WorkoutService.f_workoutId := Some t;
                  WorkoutService.f_coachId := Some coach;
                  WorkoutService.f_timeSlotId := None;
                  WorkoutService.f_date := None |} (database w')).
Proof.
  intros Hr Hc Hin Ht Hp.
  pose proof (createMappings_Ok_mapped faults w w' coachId workoutIds saved
                coach Hr Hc id t Hin Ht) as Hm.
  unfold Spec.mapped in Hm. apply existsb_exists in Hm.
  destruct Hm as (m & Hinm & Hq). apply andb_true_iff in Hq.
  destruct Hq as [Hco Hty]. split.
  - unfold WorkoutListings.getCoachesByWorkout. apply in_flat_map.
    exists m. split.
    + apply filter_In. split; [exact Hinm | exact Hty].
    + apply Nat.eqb_eq in Hco. rewrite Hco, Hp. now left.
  - exists m. unfold Spec.matchingWorkouts. apply filter_In.
    split; [exact Hinm|]. simpl. now rewrite Hco, Hty.
Qed.

Lemma mapped_coach_is_listed_witness :
  exists saved w',
    WorkoutListings.createMappings noFaults Gym.world0
      "00000000000000000000000b" ["000000000000000000000029"]
    = (Ok saved, w')
    /\ newObjectId "00000000000000000000000b" = Some 11%nat
    /\ In "000000000000000000000029" ["000000000000000000000029"]
    /\ newObjectId "000000000000000000000029" = Some 41%nat
    /\ getCoachData Gym.users 11%nat = Some (Gym.person 11%nat "Bob" "coach")
    /\ In (Gym.person 11%nat "Bob" "coach")
         (WorkoutListings.getCoachesByWorkout Gym.users (database w') 41%nat).
Proof.
  eexists. eexists.
  assert (H1 : WorkoutListings.createMappings noFaults Gym.world0
                 "00000000000000000000000b" ["000000000000000000000029"]
               = (Ok (WorkoutListings.newMappings 11%nat [41%nat] 100%nat),
                  {| database :=
                       WorkoutListings.setWorkouts Gym.emptyGym
                         (WorkoutModel Gym.emptyGym
                          ++ WorkoutListings.newMappings 11%nat [41%nat]
                               100%nat);
                     nextObjectId := 101%nat |}))
    by (vm_compute; reflexivity).
  assert (H0 : newObjectId "00000000000000000000000b" = Some 11%nat)
    by (vm_compute; reflexivity).
  assert (H2 : In "000000000000000000000029" ["000000000000000000000029"])
    by (now left).
  assert (H4 : newObjectId "000000000000000000000029" = Some 41%nat)
    by (vm_compute; reflexivity).
  assert (H3 : getCoachData Gym.users 11%nat
               = Some (Gym.person 11%nat "Bob" "coach")) by reflexivity.
  split; [exact H1|]. split; [exact H0|]. split; [exact H2|].
  split; [exact H4|]. split; [exact H3|].
  exact (proj1 (mapped_coach_is_listed Gym.users noFaults
                  Gym.world0 _ _ _ _ 11%nat _ 41%nat _ H1 H0 H2 H4 H3)).
Defined.

(** *** Workout options *)

(** X25.  Creating a workout option keeps the names of the options
    distinct.  It succeeds exactly when no option has the name, the name is
    not empty and the store accepts the save; it then adds one option, with
    that name, at the end of the options and changes nothing else, and a
    second creation with the same name is refused with the plain error
    that the option already exists.  When it throws, the database is the
    one it started from, and what it throws is never an [HttpError]. *)
Theorem createWorkoutOption_unique
    (faults : Faults) (w : World) (name : string) :
  let r := WorkoutListings.createWorkoutOption faults w name in
  let d := database w in
  let d' := database (snd r) in
  (NoDup (map option_name (WorkoutOptionModel d)) ->
   NoDup (map option_name (WorkoutOptionModel d')))
  /\ (isOk (fst r) = true <->
      ~ In name (map option_name (WorkoutOptionModel d))
      /\ name <> "" /\ faults 0%nat = None)
  /\ (forall o, fst r = Ok o ->
        option_name o = name
        /\ d' = WorkoutListings.setWorkoutOptions d
                  (WorkoutOptionModel d ++ [o])%list
        /\ forall faults',
             WorkoutListings.createWorkoutOption faults' (snd r) name
             = (Throw (Thrown WorkoutListings.alreadyExists), snd r))
  /\ (forall e, fst r = Throw e ->
        d' = d /\ exists err, e = Thrown err).
Proof.
  cbv zeta. unfold WorkoutListings.createWorkoutOption.
  assert (Hfind : forall l,
            find (fun o => String.eqb (option_name o) name) l = None <->
            ~ In name (map option_name l)).
  { induction l as [|o l IH]; simpl; [tauto|].
    destruct (String.eqb (option_name o) name) eqn:E.
    - apply String.eqb_eq in E. split; [discriminate | tauto].
    - apply String.eqb_neq in E. rewrite IH. tauto. }
  destruct (find (fun o => String.eqb (option_name o) name)
              (WorkoutOptionModel (database w))) as [o0|] eqn:Ef.
  - cbn [fst snd]. split; [auto|]. split; [|split].
    + split; [discriminate|]. intros (Hn & _). apply Hfind in Hn. congruence.
    + discriminate.
    + intros e H. inversion H. split; [reflexivity | eauto].
  - pose proof (proj1 (Hfind _) Ef) as Hnew.
    destruct (String.eqb name "") eqn:En.
    + apply String.eqb_eq in En. cbn [fst snd database].
      split; [auto|]. split; [|split].
      * split; [discriminate | tauto].
      * discriminate.
      * intros e H. inversion H. split; [reflexivity | eauto].
    + apply String.eqb_neq in En.
      destruct (faults 0%nat) as [err|] eqn:Ew; cbn [fst snd database].
      * split; [auto|]. split; [|split].
        -- split; [discriminate|]. intros (_ & _ & Hc). discriminate Hc.
        -- discriminate.
        -- intros e H. inversion H. split; [reflexivity | eauto].
      * split; [|split; [|split]].
        -- intro Hnd. simpl. rewrite map_app. simpl.
           apply (Permutation_NoDup (Permutation_cons_append _ name)).
           now constructor.
        -- split; [intros _; auto | reflexivity].
        -- intros o H. inversion H; subst o. clear H.
           split; [reflexivity|]. split; [reflexivity|].
           intro faults'. simpl.
           assert (Hlast : forall l,
                     find (fun o => String.eqb (option_name o) name) l = None ->
                     find (fun o => String.eqb (option_name o) name)
                       (l ++ [{| option_id := nextObjectId w;
                                 option_name := name; coachesId := [] |}])
                     = Some {| option_id := nextObjectId w;
                               option_name := name; coachesId := [] |}).
           { induction l as [|o l IH]; simpl.
             - now rewrite String.eqb_refl.
             - destruct (String.eqb (option_name o) name);
                 [discriminate | exact IH]. }
           now rewrite (Hlast _ Ef).
        -- discriminate.
Qed.

Lemma createWorkoutOption_unique_witness :
  NoDup (map option_name (WorkoutOptionModel (database Gym.world0)))
  /\ let r := WorkoutListings.createWorkoutOption noFaults Gym.world0
                "Pilates" in
     fst r = Ok {| option_id := 100%nat; option_name := "Pilates";
                   coachesId := [] |}
     /\ NoDup (map option_name (WorkoutOptionModel (database (snd r))))
     /\ fst (WorkoutListings.createWorkoutOption noFaults Gym.world0 "Yoga")
        = Throw (Thrown WorkoutListings.alreadyExists).
Proof.
  assert (H1 : NoDup (map option_name
                        (WorkoutOptionModel (database Gym.world0)))).
  { simpl. constructor; [intros [] | constructor]. }
  split; [exact H1|]. cbv zeta. split; [reflexivity|].
  split; [|reflexivity].
  exact (proj1 (createWorkoutOption_unique noFaults Gym.world0 "Pilates") H1).
Defined.

(** *** The bookings of a day, as the coach service serves them *)

(** X22.  The day listing of the coach service refuses an invalid date
    with status 400 whatever the role, and any role other than coach and
    client with status 403; for those two roles it returns the same rows,
    the role selecting nothing: each row is a booking that has the user as
    its client or as its coach. *)
Theorem day_bookings_by_role {js : Runtime}
    (Date_parse : string -> Date) (now : Z) (d : Database)
    (userId : ObjectId) (date : Date) (role : string) :
  let serve := WorkoutListings.getUserBookingsForDay Date_parse now d userId in
  (date = None ->
   serve date role = Throw (HttpError 400 "Invalid date format"))
  /\ (forall t, date = Some t -> role <> "coach" -> role <> "client" ->
        serve date role = Throw (HttpError 403 "Unauthorized access"))
  /\ serve date "coach" = serve date "client"
  /\ (forall rows row,
        serve date role = Ok rows -> In row rows ->
        (role = "coach" \/ role = "client")
        /\ (WorkoutListings.bd_clientId row = userId
            \/ WorkoutListings.bd_coachId row = userId)
        /\ exists t, date = Some t
                     /\ startOfDay (WorkoutListings.bd_date row)
                        = startOfDay t).
Proof.
  cbv zeta. unfold WorkoutListings.getUserBookingsForDay,
              CoachService.parseAndValidateDate.
  split; [|split; [|split]].
  - intros ->. reflexivity.
  - intros t -> Hc Hk.
    apply String.eqb_neq in Hc. apply String.eqb_neq in Hk.
    now rewrite Hc, Hk.
  - destruct date; reflexivity.
  - intros rows row Hr Hin. destruct date as [t|]; [|discriminate Hr].
    assert (Hrole : role = "coach" \/ role = "client").
    { destruct (String.eqb role "coach") eqn:Ec;
        [left; now apply String.eqb_eq|].
      destruct (String.eqb role "client") eqn:Ek;
        [right; now apply String.eqb_eq | discriminate Hr]. }
    assert (Hrows : rows = WorkoutListings.getBookingsForUser d userId t).
    { destruct (String.eqb role "coach");
        [|destruct (String.eqb role "client"); [|discriminate Hr]];
        now inversion Hr. }
    split; [exact Hrole|]. subst rows.
    unfold WorkoutListings.getBookingsForUser in Hin.
    apply in_map_iff in Hin. destruct Hin as (b & <- & Hb).
    apply (Permutation_in _ (sortDescending_perm Model.date _)) in Hb.
    apply filter_In in Hb. destruct Hb as [_ Hq].
    apply andb_true_iff in Hq. destruct Hq as [Hq Hhi].
    apply andb_true_iff in Hq. destruct Hq as [Hu Hlo].
    apply Z.leb_le in Hlo. apply Z.leb_le in Hhi.
    split.
    + unfold WorkoutListings.ofUser in Hu. apply orb_true_iff in Hu.
      destruct Hu as [Hu | Hu]; apply Nat.eqb_eq in Hu; [left | right];
        exact Hu.
    + exists t. split; [reflexivity|]. simpl.
      apply same_day_iff. lia.
Qed.

Lemma day_bookings_by_role_witness :
  (Some Gym.tomorrow = Some Gym.tomorrow /\ "admin" <> "coach"
   /\ "admin" <> "client")
  /\ WorkoutListings.getUserBookingsForDay Gym.noParse Gym.now
       (database Gym.world1) 20%nat (Some Gym.tomorrow) "admin"
     = Throw (HttpError 403 "Unauthorized access")
  /\ map WorkoutListings.bd_bookingId
       (match WorkoutListings.getUserBookingsForDay Gym.noParse Gym.now
                (database Gym.world1) 20%nat (Some Gym.tomorrow) "coach" with
        | Ok rows => rows
        | Throw _ => []
        end) = [102%nat].
Proof.
  assert (H1 : Some Gym.tomorrow = Some Gym.tomorrow) by reflexivity.
  assert (H2 : "admin" <> "coach") by discriminate.
  assert (H3 : "admin" <> "client") by discriminate.
  split; [repeat split; assumption|]. split; [|reflexivity].
  exact (proj1 (proj2 (day_bookings_by_role Gym.noParse Gym.now
                         (database Gym.world1) 20%nat (Some Gym.tomorrow)
                         "admin"))
           Gym.tomorrow H1 H2 H3).
Defined.
